(** * The native/managed bridge of [ext/jni/src/c/sqlite3-jni.c]

    A shallow embedding of the caches and the callback dispatch layer of
    the SQLite JNI binding, and the properties of its specification.

    Modelling conventions.
    - The C heap is a pair of arenas, one of [S3JniEnv] rows and one of
      [S3JniDb] records; a pointer to a row is [Some i] (index into the
      arena) and [NULL] is [None].  The binding never frees a row: it
      recycles them through its free-lists.
    - Opaque native pointers ([JNIEnv*], [sqlite3*]) and [jmethodID]s are
      numbers, [0] being [NULL].
    - A [jobject] is a reference, not an object: [JGlobal r o] is the
      global reference number [r] to the managed object [o].
    - Functions that touch the world are written in a state monad whose
      computations can also stop: [FatalError] (the JNI call of that name
      does not return), a dereference of [NULL], or a list traversal that
      runs out of fuel.
    - What the managed runtime and the native engine answer is given by an
      environment [Env]; managed callbacks are modelled by their result
      only (a value, or a pending exception).
    - The build modelled here has [SQLITE_ENABLE_PREUPDATE_HOOK] and has
      neither [SQLITE_ENABLE_FTS5], [SQLITE_ENABLE_SQLLOG] nor
      [SQLITE_DEBUG].  The mutex objects, their [locker] fields and the
      class-descriptor cache [S3JniGlobal.nph] are not part of the state:
      the first two are restored by every operation and the last is a
      write-once memo of lookups that the model performs directly. *)

From Stdlib Require Import ZArith NArith String List Lia Bool.
From stdpp Require Import base list option gmap.

Local Open Scope string_scope.

(** ** Result codes and encodings of the native engine *)

(** Modelled from the spec: the result codes and text encodings of the
    native engine's public interface ([sqlite3.h] is not part of the
    bridge's source). *)
Definition SQLITE_ERROR : Z := 1.
Definition SQLITE_NOMEM : Z := 7.
Definition SQLITE_MISUSE : Z := 21.
Definition SQLITE_FORMAT : Z := 24.
Definition SQLITE_UTF8 : Z := 1.
Definition SQLITE_UTF16LE : Z := 2.
Definition SQLITE_UTF16BE : Z := 3.
Definition SQLITE_UTF16 : Z := 4.

(** ** Pointers and references *)

Abbreviation addr := nat.
Abbreviation ptr := (option nat).
Abbreviation JNIEnv := N.
Abbreviation sqlite3 := N.
Abbreviation jmethodID := N.
Abbreviation objid := nat.

Inductive jobject :=
| JNull
| JLocal (o : objid)
| JGlobal (r : nat) (o : objid).

Definition obj_of (j : jobject) : option objid :=
  match j with
  | JNull => None
  | JLocal o => Some o
  | JGlobal _ o => Some o
  end.

Definition is_null (j : jobject) : bool :=
  match j with JNull => true | _ => false end.

Global Instance jobject_eq_dec : EqDecision jobject.
Proof. solve_decision. Defined.

(** [IsSameObject(env, a, b)] of the JNI interface. *)
Definition IsSameObject (a b : jobject) : bool :=
  bool_decide (obj_of a = obj_of b).

(** ** The structs of the binding *)

(** [struct S3JniHook]: state for a hook callback. *)
Module S3JniHook.
Record t := mk {
    jObj : jobject;          (* global ref to the Java instance *)
    midCallback : jmethodID  (* callback method *)
  }.
  (** [memset(s, 0, sizeof( *s))] *)
Definition zero : t := mk JNull 0%N.
Definition set_jObj (v : jobject) (s : t) : t := mk v (midCallback s).
Definition set_midCallback (v : jmethodID) (s : t) : t := mk (jObj s) v.
End S3JniHook.

Inductive hook_slot :=
| SlotBusyHandler | SlotCollation | SlotCollationNeeded | SlotCommit
| SlotProgress | SlotRollback | SlotTrace | SlotUpdate | SlotAuth
| SlotPreUpdate.

Global Instance hook_slot_eq_dec : EqDecision hook_slot.
Proof. solve_decision. Defined.

(** The anonymous [hooks] struct of [S3JniDb]. *)
Module Hooks.
Record t := mk {
    busyHandler : S3JniHook.t;
    collation : S3JniHook.t;
    collationNeeded : S3JniHook.t;
    commit : S3JniHook.t;
    progress : S3JniHook.t;
    rollback : S3JniHook.t;
    trace : S3JniHook.t;
    update : S3JniHook.t;
    auth : S3JniHook.t;
    preUpdate : S3JniHook.t
  }.
Definition zero : t :=
    mk S3JniHook.zero S3JniHook.zero S3JniHook.zero S3JniHook.zero
       S3JniHook.zero S3JniHook.zero S3JniHook.zero S3JniHook.zero
       S3JniHook.zero S3JniHook.zero.
  (** [ps->hooks.MEMBER] *)
Definition get (k : hook_slot) (h : t) : S3JniHook.t :=
    match k with
    | SlotBusyHandler => busyHandler h
    | SlotCollation => collation h
    | SlotCollationNeeded => collationNeeded h
    | SlotCommit => commit h
    | SlotProgress => progress h
    | SlotRollback => rollback h
    | SlotTrace => trace h
    | SlotUpdate => update h
    | SlotAuth => auth h
    | SlotPreUpdate => preUpdate h
    end.
  (** [ps->hooks.MEMBER = v] *)
Definition set (k : hook_slot) (v : S3JniHook.t) (h : t) : t :=
    let '(mk a b c d e f g i j l) := h in
    match k with
    | SlotBusyHandler => mk v b c d e f g i j l
    | SlotCollation => mk a v c d e f g i j l
    | SlotCollationNeeded => mk a b v d e f g i j l
    | SlotCommit => mk a b c v e f g i j l
    | SlotProgress => mk a b c d v f g i j l
    | SlotRollback => mk a b c d e v g i j l
    | SlotTrace => mk a b c d e f v i j l
    | SlotUpdate => mk a b c d e f g v j l
    | SlotAuth => mk a b c d e f g i v l
    | SlotPreUpdate => mk a b c d e f g i j v
    end.
End Hooks.

(** [struct S3JniDb]: per-([sqlite3*]) state. *)
Module S3JniDb.
Record t := mk {
    pDb : sqlite3;               (* the associated db handle *)
    jDb : jobject;               (* global ref of the wrapper object *)
    zMainDbName : option string; (* SQLITE_DBCONFIG_MAINDBNAME string *)
    hooks : Hooks.t;
    pNext : ptr;
    pPrev : ptr
  }.
  (** [memset(s, 0, sizeof(S3JniDb))] *)
Definition zero : t := mk 0%N JNull None Hooks.zero None None.
Definition set_pDb (v : sqlite3) (s : t) : t :=
    mk v (jDb s) (zMainDbName s) (hooks s) (pNext s) (pPrev s).
Definition set_jDb (v : jobject) (s : t) : t :=
    mk (pDb s) v (zMainDbName s) (hooks s) (pNext s) (pPrev s).
Definition set_zMainDbName (v : option string) (s : t) : t :=
    mk (pDb s) (jDb s) v (hooks s) (pNext s) (pPrev s).
Definition set_hooks (v : Hooks.t) (s : t) : t :=
    mk (pDb s) (jDb s) (zMainDbName s) v (pNext s) (pPrev s).
Definition set_pNext (v : ptr) (s : t) : t :=
    mk (pDb s) (jDb s) (zMainDbName s) (hooks s) v (pPrev s).
Definition set_pPrev (v : ptr) (s : t) : t :=
    mk (pDb s) (jDb s) (zMainDbName s) (hooks s) (pNext s) v.
Definition hook (k : hook_slot) (s : t) : S3JniHook.t :=
    Hooks.get k (hooks s).
Definition set_hook (k : hook_slot) (v : S3JniHook.t) (s : t) : t :=
    set_hooks (Hooks.set k v (hooks s)) s.
(** [ps->hooks.MEMBER.jObj = v] and [ps->hooks.MEMBER.midCallback = v] *)
Definition set_hook_jObj (k : hook_slot) (v : jobject) (s : t) : t :=
    set_hook k (S3JniHook.set_jObj v (hook k s)) s.
Definition set_hook_midCallback (k : hook_slot) (v : jmethodID) (s : t) : t :=
    set_hook k (S3JniHook.set_midCallback v (hook k s)) s.
End S3JniDb.

(** [struct S3JniEnv]: cache row for per-[JNIEnv] (per-thread) data. *)
Module S3JniEnv.
Record t := mk {
    env : JNIEnv;       (* env in which this cache entry was created *)
    pdbOpening : ptr;   (* the S3JniDb of the db being opened, if any *)
    pPrev : ptr;
    pNext : ptr
  }.
Definition zero : t := mk 0%N None None None.
Definition set_env (v : JNIEnv) (s : t) : t :=
    mk v (pdbOpening s) (pPrev s) (pNext s).
Definition set_pdbOpening (v : ptr) (s : t) : t :=
    mk (env s) v (pPrev s) (pNext s).
Definition set_pPrev (v : ptr) (s : t) : t :=
    mk (env s) (pdbOpening s) v (pNext s).
Definition set_pNext (v : ptr) (s : t) : t :=
    mk (env s) (pdbOpening s) (pPrev s) v.
End S3JniEnv.

(** [struct S3JniAutoExtension]: state for proxying
    [sqlite3_auto_extension()]. *)
Module S3JniAutoExtension.
Record t := mk {
    jObj : jobject;      (* Java object *)
    midFunc : jmethodID  (* xEntryPoint() callback *)
  }.
Definition zero : t := mk JNull 0%N.
Definition set_jObj (v : jobject) (s : t) : t := mk v (midFunc s).
Definition set_midFunc (v : jmethodID) (s : t) : t := mk (jObj s) v.
End S3JniAutoExtension.

(** [enum UDFType] *)
Inductive UDFType :=
| UDF_SCALAR | UDF_AGGREGATE | UDF_WINDOW | UDF_UNKNOWN_TYPE.

(** [struct S3JniUdf]: state for binding Java-side UDFs. *)
Module S3JniUdf.
Record t := mk {
    jObj : jobject;
    zFuncName : option string;
    type : option UDFType;   (* [None] is the zeroed enum *)
    jmidxFunc : jmethodID;
    jmidxStep : jmethodID;
    jmidxFinal : jmethodID;
    jmidxValue : jmethodID;
    jmidxInverse : jmethodID
  }.
Definition zero : t := mk JNull None None 0%N 0%N 0%N 0%N 0%N.
End S3JniUdf.

(** The internal metrics of [S3JniGlobal.metrics] that the modelled
    functions maintain; [volatile unsigned] counters. *)
Module Metrics.
Record t := mk {
    envCacheHits : N;
    envCacheMisses : N;
    envCacheAllocs : N;
    nMutexEnv : N;
    nMutexPerDb : N;
    nMutexAutoExt : N;
    nDestroy : N;
    nPdbAlloc : N;
    nPdbRecycled : N
  }.
Definition zero : t := mk 0 0 0 0 0 0 0 0 0.
End Metrics.

Inductive metric :=
| M_envCacheHits | M_envCacheMisses | M_envCacheAllocs | M_nMutexEnv
| M_nMutexPerDb | M_nMutexAutoExt | M_nDestroy | M_nPdbAlloc
| M_nPdbRecycled.

(** [++( *p)] on an [unsigned int]. *)
Definition incr_unsigned (n : N) : N := ((n + 1) mod 2 ^ 32)%N.
(** [(unsigned)x] of an [int] of 32 bits. *)
Definition unsigned_of_int (x : Z) : Z := (x mod 2 ^ 32)%Z.

Definition s3jni_incr (k : metric) (m : Metrics.t) : Metrics.t :=
  let '(Metrics.mk a b c d e f g h i) := m in
  match k with
  | M_envCacheHits => Metrics.mk (incr_unsigned a) b c d e f g h i
  | M_envCacheMisses => Metrics.mk a (incr_unsigned b) c d e f g h i
  | M_envCacheAllocs => Metrics.mk a b (incr_unsigned c) d e f g h i
  | M_nMutexEnv => Metrics.mk a b c (incr_unsigned d) e f g h i
  | M_nMutexPerDb => Metrics.mk a b c d (incr_unsigned e) f g h i
  | M_nMutexAutoExt => Metrics.mk a b c d e (incr_unsigned f) g h i
  | M_nDestroy => Metrics.mk a b c d e f (incr_unsigned g) h i
  | M_nPdbAlloc => Metrics.mk a b c d e f g (incr_unsigned h) i
  | M_nPdbRecycled => Metrics.mk a b c d e f g h (incr_unsigned i)
  end.

(** [struct S3JniGlobalType]: the global state.  [autoExt.pExt] is the
    array itself, of [autoExt.nAlloc] entries; [once] is the static local
    of [sqlite3_auto_extension()]'s binding. *)
Module S3JniGlobalType.
Record t := mk {
    envCache_aHead : ptr;   (* linked list of in-use S3JniEnv *)
    envCache_aFree : ptr;   (* linked list of free S3JniEnv *)
    perDb_aUsed : ptr;      (* linked list of in-use S3JniDb *)
    perDb_aFree : ptr;      (* linked list of free S3JniDb *)
    metrics : Metrics.t;
    autoExt_pExt : list S3JniAutoExtension.t;
    autoExt_nAlloc : nat;
    autoExt_nExt : nat;
    once : bool
  }.
Definition zero : t :=
    mk None None None None Metrics.zero [] 0 0 false.
Definition set_envCache_aHead v (g : t) : t :=
    mk v (envCache_aFree g) (perDb_aUsed g) (perDb_aFree g) (metrics g)
       (autoExt_pExt g) (autoExt_nAlloc g) (autoExt_nExt g) (once g).
Definition set_envCache_aFree v (g : t) : t :=
    mk (envCache_aHead g) v (perDb_aUsed g) (perDb_aFree g) (metrics g)
       (autoExt_pExt g) (autoExt_nAlloc g) (autoExt_nExt g) (once g).
Definition set_perDb_aUsed v (g : t) : t :=
    mk (envCache_aHead g) (envCache_aFree g) v (perDb_aFree g) (metrics g)
       (autoExt_pExt g) (autoExt_nAlloc g) (autoExt_nExt g) (once g).
Definition set_perDb_aFree v (g : t) : t :=
    mk (envCache_aHead g) (envCache_aFree g) (perDb_aUsed g) v (metrics g)
       (autoExt_pExt g) (autoExt_nAlloc g) (autoExt_nExt g) (once g).
Definition set_metrics v (g : t) : t :=
    mk (envCache_aHead g) (envCache_aFree g) (perDb_aUsed g) (perDb_aFree g)
       v (autoExt_pExt g) (autoExt_nAlloc g) (autoExt_nExt g) (once g).
Definition set_autoExt_pExt v (g : t) : t :=
    mk (envCache_aHead g) (envCache_aFree g) (perDb_aUsed g) (perDb_aFree g)
       (metrics g) v (autoExt_nAlloc g) (autoExt_nExt g) (once g).
Definition set_autoExt_nAlloc v (g : t) : t :=
    mk (envCache_aHead g) (envCache_aFree g) (perDb_aUsed g) (perDb_aFree g)
       (metrics g) (autoExt_pExt g) v (autoExt_nExt g) (once g).
Definition set_autoExt_nExt v (g : t) : t :=
    mk (envCache_aHead g) (envCache_aFree g) (perDb_aUsed g) (perDb_aFree g)
       (metrics g) (autoExt_pExt g) (autoExt_nAlloc g) v (once g).
Definition set_once v (g : t) : t :=
    mk (envCache_aHead g) (envCache_aFree g) (perDb_aUsed g) (perDb_aFree g)
       (metrics g) (autoExt_pExt g) (autoExt_nAlloc g) (autoExt_nExt g) v.
End S3JniGlobalType.

(** ** The managed runtime, the native engine and the world *)

Inductive call_result :=
| Returned (v : Z)
| Threw.

(** How the native engine goes about one open: it fails before it has a
    connection, or it creates the connection [h], may run the registered
    auto-extension hook on it, and may or may not hand [h] back. *)
Inductive open_plan_t :=
| OpenNoHandle
| OpenHandle (h : sqlite3) (runsAutoExt keeps : bool).

(** What the surroundings of the bridge answer.  A call into managed
    code or into the native engine is identified by the number of
    interactions that precede it, a fallible allocation by its rank among
    the allocation requests. *)
Record Env := mkEnv {
  jmethod : objid -> string -> string -> jmethodID;
    (* GetMethodID on the class of an object; 0 when there is none *)
  jcall : nat -> call_result;
  jthrown : nat -> Z;
    (* what [CallIntMethod] hands back when the callee threw: the JNI
       leaves that value open *)
  jctor : jmethodID;
    (* GetMethodID of the no-argument constructor of the wrapper class;
       0 when there is none *)
  jthrowable_toString : nat -> option string;
    (* the text of the exception that is pending, if it can be had *)
  native_rc : nat -> Z;
  open_plan : nat -> open_plan_t;
  alloc_ok : nat -> bool
}.

Inductive jvalue :=
| VInt (z : Z)
| VObject (j : jobject)
| VBytes (b : list N).

(** The calls into the native engine that the modelled functions make.
    An argument [Some ps] stands for the binding's proxy function with the
    record [ps] as its state, [None] for a pair of null pointers. *)
Module Native.
Inductive call :=
| sqlite3_busy_handler (db : sqlite3) (pArg : ptr)
| sqlite3_busy_timeout (db : sqlite3) (ms : Z)
| sqlite3_commit_hook (db : sqlite3) (pArg : ptr)
| sqlite3_rollback_hook (db : sqlite3) (pArg : ptr)
| sqlite3_update_hook (db : sqlite3) (pArg : ptr)
| sqlite3_preupdate_hook (db : sqlite3) (pArg : ptr)
| sqlite3_trace_v2 (db : sqlite3) (mask : Z) (pArg : ptr)
| sqlite3_progress_handler (db : sqlite3) (n : Z) (pArg : ptr)
| sqlite3_set_authorizer (db : sqlite3) (pArg : ptr)
| sqlite3_collation_needed (db : sqlite3)
| sqlite3_collation_needed16 (db : sqlite3) (ps : addr)
| sqlite3_create_function_v2 (db : sqlite3) (zFuncName : string)
    (nArg eTextRep : Z) (s : S3JniUdf.t) (xFunc xStep xFinal : bool)
| sqlite3_create_window_function (db : sqlite3) (zFuncName : string)
    (nArg eTextRep : Z) (s : S3JniUdf.t)
| sqlite3_auto_extension
| sqlite3_close (db : sqlite3)
| sqlite3_close_v2 (db : sqlite3)
| sqlite3_open (zName : option string)
| sqlite3_open_v2 (zName : option string) (flags : Z) (zVfs : option string)
| sqlite3Error (db : sqlite3) (err_code : Z) (zMsg : option string).
End Native.

(** The interactions of the bridge with its surroundings, in order.  A
    call into managed code records the receiver, the method, the
    arguments and the native pointers that the wrapper objects hold when
    the call is made. *)
Inductive event :=
| EvCall (o : objid) (mid : jmethodID) (args : list jvalue)
    (heap : gmap objid N)
| EvNative (c : Native.call).

Module JavaVM.
Record t := mk {
  globalRefs : list nat;            (* the live global references *)
  nextGlobalRef : nat;
  nextObj : objid;
  nativePointer : gmap objid N;     (* NativePointerHolder.nativePointer *)
  value : gmap objid (option objid); (* OutputPointer.sqlite3.value *)
  exceptionPending : bool
}.
Definition zero : t := mk [] 0 0 ∅ ∅ false.
Definition set_globalRefs v (j : t) : t :=
  mk v (nextGlobalRef j) (nextObj j) (nativePointer j) (value j)
     (exceptionPending j).
Definition set_nextGlobalRef v (j : t) : t :=
  mk (globalRefs j) v (nextObj j) (nativePointer j) (value j)
     (exceptionPending j).
Definition set_nextObj v (j : t) : t :=
  mk (globalRefs j) (nextGlobalRef j) v (nativePointer j) (value j)
     (exceptionPending j).
Definition set_nativePointer v (j : t) : t :=
  mk (globalRefs j) (nextGlobalRef j) (nextObj j) v (value j)
     (exceptionPending j).
Definition set_value v (j : t) : t :=
  mk (globalRefs j) (nextGlobalRef j) (nextObj j) (nativePointer j) v
     (exceptionPending j).
Definition set_exceptionPending v (j : t) : t :=
  mk (globalRefs j) (nextGlobalRef j) (nextObj j) (nativePointer j)
     (value j) v.
End JavaVM.

Record World := mkWorld {
  SJG : S3JniGlobalType.t;      (* S3JniGlobal *)
  memEnv : list S3JniEnv.t;     (* the S3JniEnv rows ever allocated *)
  memDb : list S3JniDb.t;       (* the S3JniDb records ever allocated *)
  jvm : JavaVM.t;
  events : list event;
  nAlloc : nat                  (* allocation requests made so far *)
}.

Definition set_SJG v (w : World) : World :=
  mkWorld v (memEnv w) (memDb w) (jvm w) (events w) (nAlloc w).
Definition set_memEnv v (w : World) : World :=
  mkWorld (SJG w) v (memDb w) (jvm w) (events w) (nAlloc w).
Definition set_memDb v (w : World) : World :=
  mkWorld (SJG w) (memEnv w) v (jvm w) (events w) (nAlloc w).
Definition set_jvm v (w : World) : World :=
  mkWorld (SJG w) (memEnv w) (memDb w) v (events w) (nAlloc w).
Definition set_events v (w : World) : World :=
  mkWorld (SJG w) (memEnv w) (memDb w) (jvm w) v (nAlloc w).
Definition set_nAlloc v (w : World) : World :=
  mkWorld (SJG w) (memEnv w) (memDb w) (jvm w) (events w) v.

(** The state before [Java_org_sqlite_jni_SQLite3Jni_init] has been left:
    [memset(&S3JniGlobal, 0, sizeof(S3JniGlobal))]. *)
Definition World0 : World :=
  mkWorld S3JniGlobalType.zero [] [] JavaVM.zero [] 0.

(** ** The monad of the bridge's functions *)

Inductive abort :=
| FatalError (msg : string)   (* the JNI FatalError: does not return *)
| BadPointer                  (* dereference of NULL or of a wild pointer *)
| OutOfFuel.                  (* a traversal of a list that has no end *)

Inductive outcome (A : Type) :=
| Ok (a : A) (w : World)
| Abort (why : abort).
Arguments Ok {A} a w.
Arguments Abort {A} why.

Definition M (A : Type) := World -> outcome A.

Definition ret {A} (a : A) : M A := fun w => Ok a w.
Definition bind {A B} (m : M A) (k : A -> M B) : M B :=
  fun w => match m w with
           | Ok a w' => k a w'
           | Abort why => Abort why
           end.
Definition fail {A} (why : abort) : M A := fun _ => Abort why.
Definition get : M World := fun w => Ok w w.
Definition modify (f : World -> World) : M unit := fun w => Ok tt (f w).

Notation "'let*' x ':=' m 'in' k" := (bind m (fun x => k))
  (at level 10, x name, m at level 100, k at level 200, only parsing).
Notation "'let*' ' p ':=' m 'in' k" :=
  (bind m (fun x => match x with p => k end))
  (at level 10, p pattern, m at level 100, k at level 200, only parsing).
Notation "m >> k" := (bind m (fun _ => k))
  (at level 100, k at level 200, right associativity, only parsing).

Definition when (b : bool) (m : M unit) : M unit :=
  if b then m else ret tt.

(** Reading and writing the two arenas. *)
Definition load_db (a : addr) : M S3JniDb.t :=
  fun w => match memDb w !! a with
           | Some r => Ok r w
           | None => Abort BadPointer
           end.
Definition store_db (a : addr) (f : S3JniDb.t -> S3JniDb.t) : M unit :=
  fun w => match memDb w !! a with
           | Some _ => Ok tt (set_memDb (alter f a (memDb w)) w)
           | None => Abort BadPointer
           end.
Definition load_env (a : addr) : M S3JniEnv.t :=
  fun w => match memEnv w !! a with
           | Some r => Ok r w
           | None => Abort BadPointer
           end.
Definition store_env (a : addr) (f : S3JniEnv.t -> S3JniEnv.t) : M unit :=
  fun w => match memEnv w !! a with
           | Some _ => Ok tt (set_memEnv (alter f a (memEnv w)) w)
           | None => Abort BadPointer
           end.
(** [p->field] for a pointer [p] that may be [NULL]. *)
Definition deref {A} (p : ptr) (k : addr -> M A) : M A :=
  match p with
  | Some a => k a
  | None => fail BadPointer
  end.

Definition modify_SJG (f : S3JniGlobalType.t -> S3JniGlobalType.t) : M unit :=
  modify (fun w => set_SJG (f (SJG w)) w).
Definition modify_jvm (f : JavaVM.t -> JavaVM.t) : M unit :=
  modify (fun w => set_jvm (f (jvm w)) w).
Definition metrics_incr (k : metric) : M unit :=
  modify_SJG (fun g =>
    S3JniGlobalType.set_metrics (s3jni_incr k (S3JniGlobalType.metrics g)) g).
Definition emit (e : event) : M unit :=
  modify (fun w => set_events (events w ++ [e]) w).

Definition getSJG : M S3JniGlobalType.t := fun w => Ok (SJG w) w.
Definition lift {A} (r : abort + A) : M A :=
  match r with
  | inl why => fail why
  | inr a => ret a
  end.

Section Bridge.
Variable E : Env.

(** ** The JNI primitives the bridge uses *)

(** A request to an allocator that can fail. *)
Definition try_alloc : M bool :=
  fun w => Ok (alloc_ok E (nAlloc w)) (set_nAlloc (S (nAlloc w)) w).

(** [REF_G(VAR)], that is [new_global_ref()]: [NewGlobalRef] of a
    reference that is not null. *)
Definition REF_G (v : jobject) : M jobject :=
  match obj_of v with
  | None => ret JNull
  | Some o => fun w =>
      let j := jvm w in
      let r := JavaVM.nextGlobalRef j in
      Ok (JGlobal r o)
         (set_jvm (JavaVM.set_nextGlobalRef (S r)
                     (JavaVM.set_globalRefs (r :: JavaVM.globalRefs j) j)) w)
  end.

(** [UNREF_G(VAR)], that is [delete_global_ref()]. *)
Definition UNREF_G (v : jobject) : M unit :=
  match v with
  | JGlobal r _ =>
      modify_jvm (fun j =>
        JavaVM.set_globalRefs (filter (fun x => x ≠ r) (JavaVM.globalRefs j)) j)
  | _ => ret tt
  end.

(** [REF_L(VAR)]: [NewLocalRef].  Local references are not tracked, so
    [UNREF_L] has no counterpart here. *)
Definition REF_L (v : jobject) : jobject :=
  match obj_of v with
  | Some o => JLocal o
  | None => JNull
  end.

Definition ExceptionCheck : M bool :=
  fun w => Ok (JavaVM.exceptionPending (jvm w)) w.
Definition ExceptionClear : M unit :=
  modify_jvm (JavaVM.set_exceptionPending false).
(** [EXCEPTION_IGNORE], [IFTHREW_CLEAR] *)
Definition EXCEPTION_IGNORE : M unit :=
  let* threw := ExceptionCheck in when threw ExceptionClear.
(** [EXCEPTION_IS_FATAL(MSG)] *)
Definition EXCEPTION_IS_FATAL (msg : string) : M unit :=
  let* threw := ExceptionCheck in
  if threw then ExceptionClear >> fail (FatalError msg) else ret tt.

(** [GetObjectClass] followed by [GetMethodID]: a null result comes with a
    pending [NoSuchMethodError]. *)
Definition GetMethodID (jObj : jobject) (name sig : string) : M jmethodID :=
  match obj_of jObj with
  | None => fail BadPointer
  | Some o =>
      let mid := jmethod E o name sig in
      when (mid =? 0)%N (modify_jvm (JavaVM.set_exceptionPending true)) >>
      ret mid
  end.

(** [Call<Type>Method]: the call is recorded and the environment gives
    its result; a callee that throws leaves its exception pending. *)
Definition CallMethod (jObj : jobject) (mid : jmethodID) (args : list jvalue)
  : M call_result :=
  match obj_of jObj with
  | None => fail BadPointer
  | Some o =>
      let* w := get in
      let r := jcall E (length (events w)) in
      emit (EvCall o mid args (JavaVM.nativePointer (jvm w))) >>
      when (match r with Threw => true | Returned _ => false end)
           (modify_jvm (JavaVM.set_exceptionPending true)) >>
      ret r
  end.
(** [CallIntMethod]: when the callee threw, the result is whatever the
    virtual machine hands back. *)
Definition CallIntMethod jObj mid args : M Z :=
  let* w := get in
  let* r := CallMethod jObj mid args in
  ret (match r with
       | Returned v => v
       | Threw => jthrown E (length (events w))
       end).
Definition CallVoidMethod jObj mid args : M unit :=
  CallMethod jObj mid args >> ret tt.

(** A call into the native engine. *)
Definition native (c : Native.call) : M Z :=
  let* w := get in
  emit (EvNative c) >>
  ret (native_rc E (length (events w))).

(** [s3jni_malloc()] of an [S3JniEnv] or an [S3JniDb]: fails fatally on
    OOM.  The block is handed out zeroed; its callers [memset] it. *)
Definition s3jni_oom {A} : M A := fail (FatalError "Out of memory.").
Definition s3jni_malloc_S3JniEnv : M addr :=
  let* ok := try_alloc in
  if ok
  then let* w := get in
       modify (set_memEnv (memEnv w ++ [S3JniEnv.zero])) >>
       ret (length (memEnv w))
  else s3jni_oom.
Definition s3jni_malloc_S3JniDb : M addr :=
  let* ok := try_alloc in
  if ok
  then let* w := get in
       modify (set_memDb (memDb w ++ [S3JniDb.zero])) >>
       ret (length (memDb w))
  else s3jni_oom.

(** [s3jni_jstring_to_utf8()]: [NULL] for a null string or when an
    allocation fails.  A Java string is modelled by its text. *)
Definition s3jni_jstring_to_utf8 (jstr : option string) : M (option string) :=
  match jstr with
  | None => ret None
  | Some s => let* ok := try_alloc in ret (if ok then Some s else None)
  end.

(** [s3jni_db_error()] *)
Definition s3jni_db_error (db : sqlite3) (err_code : Z)
  (zMsg : option string) : M Z :=
  (if (db =? 0)%N then ret tt
   else native (Native.sqlite3Error db err_code zMsg) >> ret tt) >>
  ret err_code.

(** [NativePointerHolder_set()] and [NativePointerHolder_get()] write and
    read the pointer field of a wrapper object.  [SetLongField] and
    [GetLongField] raise no exception on that field, so the
    [EXCEPTION_IS_FATAL] that follows the access in the source can fire
    only on an exception that was pending before it.  The model leaves
    that check out: it describes the two accesses as the source performs
    them when no exception is pending. *)
Definition NativePointerHolder_set (ppOut : jobject) (p : N) : M unit :=
  match obj_of ppOut with
  | None => fail BadPointer
  | Some o =>
      modify_jvm (fun j =>
        JavaVM.set_nativePointer (<[o:=p]> (JavaVM.nativePointer j)) j)
  end.

(** [PtrGet_sqlite3()] and the like. *)
Definition NativePointerHolder_get (pObj : jobject) : M N :=
  match obj_of pObj with
  | None => ret 0%N
  | Some o => fun w => Ok (default 0%N (JavaVM.nativePointer (jvm w) !! o)) w
  end.

(** [NewObject] with the no-argument constructor of a wrapper class: an
    object that cannot be made leaves null and a pending
    [OutOfMemoryError]. *)
Definition NewObject : M jobject :=
  let* ok := try_alloc in
  if ok
  then let* w := get in
       let o := JavaVM.nextObj (jvm w) in
       modify_jvm (JavaVM.set_nextObj (S o)) >>
       ret (JLocal o)
  else modify_jvm (JavaVM.set_exceptionPending true) >> ret JNull.

(** [new_NativePointerHolder_object()], [new_sqlite3_wrapper()].  The
    cache [S3JniGlobal.nph] of the class and its member ids is not part of
    the world: the class has its constructor or has it not, so that
    [if( !pNC->midCtor )] with the lookup in it comes to the lookup's
    result, and it fails at the first use if at all.  (Entered with an
    exception pending, the first use of a class that has its constructor
    ends with the first message in the source and with the second here;
    the statements below are about calls entered with none pending.) *)
Definition new_NativePointerHolder_object (pNative : N) : M jobject :=
  (if (jctor E =? 0)%N                        (* pNC->midCtor = GetMethodID *)
   then modify_jvm (JavaVM.set_exceptionPending true) >>
        EXCEPTION_IS_FATAL "Cannot find constructor for class."
   else ret tt) >>
  let* rv := NewObject in
  EXCEPTION_IS_FATAL "No-arg constructor threw." >>
  (if is_null rv then s3jni_oom else ret tt) >>     (* s3jni_oom_check(rv) *)
  (if is_null rv then ret tt else NativePointerHolder_set rv pNative) >>
  ret rv.
Definition new_sqlite3_wrapper (sv : sqlite3) : M jobject :=
  new_NativePointerHolder_object sv.

(** [OutputPointer_set_sqlite3()] *)
Definition OutputPointer_set_sqlite3 (jOut jDb : jobject) : M unit :=
  match obj_of jOut with
  | None => fail BadPointer
  | Some o =>
      modify_jvm (fun j =>
        JavaVM.set_value (<[o:=obj_of jDb]> (JavaVM.value j)) j)
  end.

(** ** The per-thread cache of [S3JniEnv] rows *)

(** [for( ; row; row = row->pNext ){ if( row->env == env ) ... }] *)
Fixpoint env_lookup (fuel : nat) (mem : list S3JniEnv.t) (row : ptr)
  (env : JNIEnv) : abort + ptr :=
  match fuel with
  | 0 => inl OutOfFuel
  | S fuel' =>
      match row with
      | None => inr None
      | Some a =>
          match mem !! a with
          | None => inl BadPointer
          | Some r =>
              if (S3JniEnv.env r =? env)%N then inr (Some a)
              else env_lookup fuel' mem (S3JniEnv.pNext r) env
          end
      end
  end.

(** [if( p ) p->pPrev = v] and [if( p ) p->pNext = v] on an [S3JniEnv]. *)
Definition env_set_pPrev (p : ptr) (v : ptr) : M unit :=
  match p with
  | Some n => store_env n (S3JniEnv.set_pPrev v)
  | None => ret tt
  end.
Definition env_set_pNext (p : ptr) (v : ptr) : M unit :=
  match p with
  | Some n => store_env n (S3JniEnv.set_pNext v)
  | None => ret tt
  end.

(** [S3JniGlobal_env_cache()]: fetches the row of the given env,
    allocating a row if needed. *)
Definition S3JniGlobal_env_cache (env : JNIEnv) : M addr :=
  metrics_incr M_nMutexEnv >>                              (* MUTEX_ENV_ENTER *)
  let* w := get in
  let* row := lift (env_lookup (S (length (memEnv w))) (memEnv w)
                 (S3JniGlobalType.envCache_aHead (SJG w)) env) in
  match row with
  | Some a => metrics_incr M_envCacheHits >> ret a
  | None =>
      metrics_incr M_envCacheMisses >>
      let* g := getSJG in
      let* row := match S3JniGlobalType.envCache_aFree g with
             | Some a =>
                 let* r := load_env a in
                 modify_SJG (S3JniGlobalType.set_envCache_aFree
                               (S3JniEnv.pNext r)) >>
                 env_set_pPrev (S3JniEnv.pNext r) None >>
                 ret a
             | None =>
                 let* a := s3jni_malloc_S3JniEnv in
                 metrics_incr M_envCacheAllocs >>
                 ret a
             end in
      store_env row (fun _ => S3JniEnv.zero) >>            (* memset *)
      let* g := getSJG in
      store_env row (S3JniEnv.set_pNext (S3JniGlobalType.envCache_aHead g)) >>
      env_set_pPrev (S3JniGlobalType.envCache_aHead g) (Some row) >>
      modify_SJG (S3JniGlobalType.set_envCache_aHead (Some row)) >>
      store_env row (S3JniEnv.set_env env) >>
      ret row
  end.

(** [S3JniGlobal_env_uncache()]: returns true if env was cached. *)
Definition S3JniGlobal_env_uncache (env : JNIEnv) : M bool :=
  let* w := get in
  let* row := lift (env_lookup (S (length (memEnv w))) (memEnv w)
                 (S3JniGlobalType.envCache_aHead (SJG w)) env) in
  match row with
  | None => ret false
  | Some a =>
      let* r := load_env a in
      env_set_pPrev (S3JniEnv.pNext r) (S3JniEnv.pPrev r) >>
      env_set_pNext (S3JniEnv.pPrev r) (S3JniEnv.pNext r) >>
      let* g := getSJG in
      when (bool_decide (S3JniGlobalType.envCache_aHead g = Some a))
           (modify_SJG (S3JniGlobalType.set_envCache_aHead (S3JniEnv.pNext r))) >>
      store_env a (fun _ => S3JniEnv.zero) >>              (* memset *)
      let* g := getSJG in
      store_env a (S3JniEnv.set_pNext (S3JniGlobalType.envCache_aFree g)) >>
      env_set_pPrev (S3JniGlobalType.envCache_aFree g) (Some a) >>
      modify_SJG (S3JniGlobalType.set_envCache_aFree (Some a)) >>
      ret true
  end.

(** ** The per-connection registry of [S3JniDb] records *)

Definition nonnull (j : jobject) : bool := negb (is_null j).

(** [if( p ) p->pPrev = v] and [if( p ) p->pNext = v] on an [S3JniDb]. *)
Definition db_set_pPrev (p : ptr) (v : ptr) : M unit :=
  match p with
  | Some n => store_db n (S3JniDb.set_pPrev v)
  | None => ret tt
  end.
Definition db_set_pNext (p : ptr) (v : ptr) : M unit :=
  match p with
  | Some n => store_db n (S3JniDb.set_pNext v)
  | None => ret tt
  end.

(** [S3JniDb_alloc()]: extracts an instance from the free-list, or
    allocates one if needed, and associates it with [pDb]. *)
Definition S3JniDb_alloc (pDb : sqlite3) (jDb : jobject) : M ptr :=
  metrics_incr M_nMutexPerDb >>                             (* MUTEX_PDB_ENTER *)
  let* g := getSJG in
  let* rv :=
    match S3JniGlobalType.perDb_aFree g with
    | Some a =>
        let* r := load_db a in
        modify_SJG (S3JniGlobalType.set_perDb_aFree (S3JniDb.pNext r)) >>
        match S3JniDb.pNext r with
        | Some n =>
            store_db n (S3JniDb.set_pPrev None) >>
            store_db a (S3JniDb.set_pNext None)
        | None => ret tt
        end >>
        metrics_incr M_nPdbRecycled >>
        ret (Some a)
    | None =>
        let* a := s3jni_malloc_S3JniDb in
        store_db a (fun _ => S3JniDb.zero) >>               (* memset *)
        metrics_incr M_nPdbAlloc >>
        ret (Some a)
    end in
  match rv with
  | Some a =>
      let* g := getSJG in
      store_db a (S3JniDb.set_pNext (S3JniGlobalType.perDb_aUsed g)) >>
      modify_SJG (S3JniGlobalType.set_perDb_aUsed (Some a)) >>
      db_set_pPrev (S3JniGlobalType.perDb_aUsed g) (Some a) >>
      let* j := REF_G jDb in
      store_db a (S3JniDb.set_jDb j) >>
      store_db a (S3JniDb.set_pDb pDb) >>
      ret (Some a)
  | None => ret None
  end.

(** [for( ; pDb && s; s = s->pNext){ if(s->pDb == pDb) break; }] *)
Fixpoint db_lookup (fuel : nat) (mem : list S3JniDb.t) (s : ptr)
  (pDb : sqlite3) : abort + ptr :=
  match fuel with
  | 0 => inl OutOfFuel
  | S fuel' =>
      if (pDb =? 0)%N then inr s
      else match s with
           | None => inr None
           | Some a =>
               match mem !! a with
               | None => inl BadPointer
               | Some r =>
                   if (S3JniDb.pDb r =? pDb)%N then inr (Some a)
                   else db_lookup fuel' mem (S3JniDb.pNext r) pDb
               end
           end
  end.

(** [S3JniDb_for_db()]: the S3JniDb object for the given db. *)
Definition S3JniDb_for_db (jDb : jobject) (pDb : sqlite3) : M ptr :=
  if nonnull jDb || negb (pDb =? 0)%N
  then
    metrics_incr M_nMutexPerDb >>                           (* MUTEX_PDB_ENTER *)
    let* pDb := (if (pDb =? 0)%N then NativePointerHolder_get jDb
                 else ret pDb) in
    let* w := get in
    lift (db_lookup (S (length (memDb w))) (memDb w)
            (S3JniGlobalType.perDb_aUsed (SJG w)) pDb)
  else ret None.

(** [s3jni_call_xDestroy()]: applies the [void xDestroy()] method of
    [jObj], if it has one, to [jObj]. *)
Definition s3jni_call_xDestroy (jObj : jobject) : M unit :=
  if nonnull jObj
  then
    let* method := GetMethodID jObj "xDestroy" "()V" in
    if (method =? 0)%N then ExceptionClear
    else
      metrics_incr M_nDestroy >>
      CallVoidMethod jObj method [] >>
      EXCEPTION_IGNORE        (* IFTHREW{ warn; EXCEPTION_CLEAR } *)
  else ret tt.

(** [S3JniHook_unref()] on the hook [&ps->hooks.MEMBER]: removes any Java
    references from it and clears its state. *)
Definition S3JniHook_unref (ps : addr) (k : hook_slot) (doXDestroy : bool)
  : M unit :=
  let* r := load_db ps in
  let s := S3JniDb.hook k r in
  when (doXDestroy && nonnull (S3JniHook.jObj s))
       (s3jni_call_xDestroy (S3JniHook.jObj s)) >>
  UNREF_G (S3JniHook.jObj s) >>
  store_db ps (S3JniDb.set_hook k S3JniHook.zero).          (* memset *)

(** [S3JniDb_set_aside()]: clears [s]'s state and moves it to the
    free-list. *)
Definition S3JniDb_set_aside (s : ptr) : M unit :=
  match s with
  | None => ret tt
  | Some a =>
      metrics_incr M_nMutexPerDb >>                         (* MUTEX_PDB_ENTER *)
      let* r := load_db a in
      db_set_pPrev (S3JniDb.pNext r) (S3JniDb.pPrev r) >>
      match S3JniDb.pPrev r with
      | Some q => store_db q (S3JniDb.set_pNext (S3JniDb.pNext r))
      | None =>
          let* g := getSJG in
          when (bool_decide (S3JniGlobalType.perDb_aUsed g = Some a))
               (modify_SJG (S3JniGlobalType.set_perDb_aUsed (S3JniDb.pNext r)))
      end >>
      (* sqlite3_free( s->zMainDbName ): the field is cleared below *)
      S3JniHook_unref a SlotTrace false >>
      S3JniHook_unref a SlotProgress false >>
      S3JniHook_unref a SlotCommit false >>
      S3JniHook_unref a SlotRollback false >>
      S3JniHook_unref a SlotUpdate false >>
      S3JniHook_unref a SlotAuth false >>
      S3JniHook_unref a SlotPreUpdate false >>
      S3JniHook_unref a SlotCollation true >>
      S3JniHook_unref a SlotCollationNeeded true >>
      S3JniHook_unref a SlotBusyHandler true >>
      let* r := load_db a in
      UNREF_G (S3JniDb.jDb r) >>
      store_db a (fun _ => S3JniDb.zero) >>                 (* memset *)
      let* g := getSJG in
      store_db a (S3JniDb.set_pNext (S3JniGlobalType.perDb_aFree g)) >>
      db_set_pPrev (S3JniGlobalType.perDb_aFree g) (Some a) >>
      modify_SJG (S3JniGlobalType.set_perDb_aFree (Some a))
  end.

(** [s3jni_db_exception()]: sets the db's error message from the pending
    exception and clears the exception. *)
Definition s3jni_db_exception (ps : addr) (errCode : Z) (zDfltMsg : string)
  : M Z :=
  let* ex := ExceptionCheck in                   (* ExceptionOccurred *)
  let errCode := if (errCode =? 0)%Z then SQLITE_ERROR else errCode in
  when ex
    (ExceptionClear >>
     let* w := get in
     let zMsg := jthrowable_toString E (length (events w)) in
     let* r := load_db ps in
     s3jni_db_error (S3JniDb.pDb r) errCode
       (Some (default zDfltMsg zMsg)) >>
     ret tt) >>
  ret errCode.

(** ** Hook registration *)

(** [sqlite3_busy_handler()]'s binding *)
Definition Java_org_sqlite_jni_SQLite3Jni_sqlite3_1busy_1handler
  (jDb jBusy : jobject) : M Z :=
  let* ps := S3JniDb_for_db jDb 0%N in
  match ps with
  | None => ret SQLITE_NOMEM
  | Some a =>
      if nonnull jBusy
      then
        let* r := load_db a in
        let pHook := S3JniDb.hook SlotBusyHandler r in
        if nonnull (S3JniHook.jObj pHook)
           && IsSameObject (S3JniHook.jObj pHook) jBusy
        then ret 0%Z                       (* Same object - this is a no-op. *)
        else
          S3JniHook_unref a SlotBusyHandler true >>
          let* g := REF_G jBusy in
          store_db a (S3JniDb.set_hook_jObj SlotBusyHandler g) >>
          let* mid := GetMethodID jBusy "xCallback" "(I)I" in
          store_db a (S3JniDb.set_hook_midCallback SlotBusyHandler mid) >>
          let* threw := ExceptionCheck in
          if threw
          then S3JniHook_unref a SlotBusyHandler false >> ret SQLITE_ERROR
          else
            let* r := load_db a in
            native (Native.sqlite3_busy_handler (S3JniDb.pDb r) (Some a))
      else
        S3JniHook_unref a SlotBusyHandler true >>
        let* r := load_db a in
        native (Native.sqlite3_busy_handler (S3JniDb.pDb r) None)
  end.

(** [sqlite3_busy_timeout()]'s binding *)
Definition Java_org_sqlite_jni_SQLite3Jni_sqlite3_1busy_1timeout
  (jDb : jobject) (ms : Z) : M Z :=
  let* ps := S3JniDb_for_db jDb 0%N in
  match ps with
  | Some a =>
      S3JniHook_unref a SlotBusyHandler true >>
      let* r := load_db a in
      native (Native.sqlite3_busy_timeout (S3JniDb.pDb r) ms)
  | None => ret SQLITE_MISUSE
  end.

(** [sqlite3_collation_needed()]'s binding *)
Definition Java_org_sqlite_jni_SQLite3Jni_sqlite3_1collation_1needed
  (jDb jHook : jobject) : M Z :=
  let* ps := S3JniDb_for_db jDb 0%N in
  match ps with
  | None => ret SQLITE_MISUSE
  | Some a =>
      let* r := load_db a in
      let pOld := S3JniHook.jObj (S3JniDb.hook SlotCollationNeeded r) in
      if nonnull pOld && nonnull jHook && IsSameObject pOld jHook
      then ret 0%Z
      else if is_null jHook
      then
        UNREF_G pOld >>
        store_db a (S3JniDb.set_hook SlotCollationNeeded S3JniHook.zero) >>
        native (Native.sqlite3_collation_needed (S3JniDb.pDb r)) >>
        ret 0%Z
      else
        let* xCallback :=
          GetMethodID jHook "xCollationNeeded"
            "(Lorg/sqlite/jni/sqlite3;ILjava/lang/String;)I" in
        let* threw := ExceptionCheck in
        if threw
        then s3jni_db_exception a SQLITE_MISUSE
               "Cannot not find matching callback on collation-needed hook object."
        else
          store_db a (S3JniDb.set_hook_midCallback SlotCollationNeeded xCallback) >>
          let* g := REF_G jHook in
          store_db a (S3JniDb.set_hook_jObj SlotCollationNeeded g) >>
          UNREF_G pOld >>
          native (Native.sqlite3_collation_needed16 (S3JniDb.pDb r) a)
  end.

(** [tmp = REF_L(pOld); UNREF_G(pOld); pOld = tmp] when [pOld] is set. *)
Definition localize_old (pOld : jobject) : M jobject :=
  if nonnull pOld then UNREF_G pOld >> ret (REF_L pOld) else ret pOld.

(** [s3jni_commit_rollback_hook()] *)
Definition s3jni_commit_rollback_hook (isCommit : bool)
  (jDb jHook : jobject) : M jobject :=
  let* ps := S3JniDb_for_db jDb 0%N in
  let k := if isCommit then SlotCommit else SlotRollback in
  match ps with
  | None => fail BadPointer       (* s3jni_db_error(ps->pDb, ...) with !ps *)
  | Some a =>
      let* r := load_db a in
      let pOld := S3JniHook.jObj (S3JniDb.hook k r) in
      if nonnull pOld && nonnull jHook && IsSameObject pOld jHook
      then ret pOld
      else if is_null jHook
      then
        let* pOld := localize_old pOld in
        store_db a (S3JniDb.set_hook k S3JniHook.zero) >>
        native (if isCommit
                then Native.sqlite3_commit_hook (S3JniDb.pDb r) None
                else Native.sqlite3_rollback_hook (S3JniDb.pDb r) None) >>
        ret pOld
      else
        let* xCallback :=
          GetMethodID jHook (if isCommit then "xCommitHook" else "xRollbackHook")
            (if isCommit then "()I" else "()V") in
        let* threw := ExceptionCheck in
        if threw
        then
          ExceptionClear >>
          s3jni_db_error (S3JniDb.pDb r) SQLITE_ERROR
            (Some "Cannot not find matching callback on hook object.") >>
          ret pOld
        else
          store_db a (S3JniDb.set_hook_midCallback k xCallback) >>
          let* g := REF_G jHook in
          store_db a (S3JniDb.set_hook_jObj k g) >>
          native (if isCommit
                  then Native.sqlite3_commit_hook (S3JniDb.pDb r) (Some a)
                  else Native.sqlite3_rollback_hook (S3JniDb.pDb r) (Some a)) >>
          localize_old pOld
  end.

Definition Java_org_sqlite_jni_SQLite3Jni_sqlite3_1commit_1hook
  (jDb jHook : jobject) : M jobject :=
  s3jni_commit_rollback_hook true jDb jHook.
Definition Java_org_sqlite_jni_SQLite3Jni_sqlite3_1rollback_1hook
  (jDb jHook : jobject) : M jobject :=
  s3jni_commit_rollback_hook false jDb jHook.

(** [s3jni_updatepre_hook()]: both [sqlite3_update_hook()] and
    [sqlite3_preupdate_hook()] (if [isPre] is true). *)
Definition s3jni_updatepre_hook (isPre : bool) (jDb jHook : jobject)
  : M jobject :=
  let* ps := S3JniDb_for_db jDb 0%N in
  let k := if isPre then SlotPreUpdate else SlotUpdate in
  match ps with
  | None => ret JNull
  | Some a =>
      let* r := load_db a in
      let pOld := S3JniHook.jObj (S3JniDb.hook k r) in
      if nonnull pOld && nonnull jHook && IsSameObject pOld jHook
      then ret pOld
      else if is_null jHook
      then
        let* pOld := localize_old pOld in
        store_db a (S3JniDb.set_hook k S3JniHook.zero) >>
        native (if isPre
                then Native.sqlite3_preupdate_hook (S3JniDb.pDb r) None
                else Native.sqlite3_update_hook (S3JniDb.pDb r) None) >>
        ret pOld
      else
        let* xCallback :=
          if isPre
          then GetMethodID jHook "xPreUpdate"
                 "(Lorg/sqlite/jni/sqlite3;ILjava/lang/String;Ljava/lang/String;JJ)V"
          else GetMethodID jHook "xUpdateHook"
                 "(ILjava/lang/String;Ljava/lang/String;J)V" in
        let* threw := ExceptionCheck in
        if threw
        then
          ExceptionClear >>
          s3jni_db_error (S3JniDb.pDb r) SQLITE_ERROR
            (Some "Cannot not find matching callback on (pre)update hook object.") >>
          ret pOld
        else
          store_db a (S3JniDb.set_hook_midCallback k xCallback) >>
          let* g := REF_G jHook in
          store_db a (S3JniDb.set_hook_jObj k g) >>
          native (if isPre
                  then Native.sqlite3_preupdate_hook (S3JniDb.pDb r) (Some a)
                  else Native.sqlite3_update_hook (S3JniDb.pDb r) (Some a)) >>
          localize_old pOld
  end.

Definition Java_org_sqlite_jni_SQLite3Jni_sqlite3_1update_1hook
  (jDb jHook : jobject) : M jobject :=
  s3jni_updatepre_hook false jDb jHook.
Definition Java_org_sqlite_jni_SQLite3Jni_sqlite3_1preupdate_1hook
  (jDb jHook : jobject) : M jobject :=
  s3jni_updatepre_hook true jDb jHook.

(** [sqlite3_progress_handler()]'s binding *)
Definition Java_org_sqlite_jni_SQLite3Jni_sqlite3_1progress_1handler
  (jDb : jobject) (n : Z) (jProgress : jobject) : M unit :=
  let* ps := S3JniDb_for_db jDb 0%N in
  if (n <? 1)%Z || is_null jProgress
  then
    match ps with
    | Some a =>
        let* r := load_db a in
        UNREF_G (S3JniHook.jObj (S3JniDb.hook SlotProgress r)) >>
        store_db a (S3JniDb.set_hook SlotProgress S3JniHook.zero)
    | None => ret tt
    end >>
    deref ps (fun a =>
      let* r := load_db a in
      native (Native.sqlite3_progress_handler (S3JniDb.pDb r) 0 None) >>
      ret tt)
  else
    deref ps (fun a =>
      let* r := load_db a in
      let* xCallback := GetMethodID jProgress "xCallback" "()I" in
      let* threw := ExceptionCheck in
      if threw
      then
        ExceptionClear >>
        s3jni_db_error (S3JniDb.pDb r) SQLITE_ERROR
          (Some "Cannot not find matching xCallback() on ProgressHandler object.") >>
        ret tt
      else
        UNREF_G (S3JniHook.jObj (S3JniDb.hook SlotProgress r)) >>
        store_db a (S3JniDb.set_hook_midCallback SlotProgress xCallback) >>
        let* g := REF_G jProgress in
        store_db a (S3JniDb.set_hook_jObj SlotProgress g) >>
        native (Native.sqlite3_progress_handler (S3JniDb.pDb r) n (Some a)) >>
        ret tt).

(** [sqlite3_set_authorizer()]'s binding *)
Definition Java_org_sqlite_jni_SQLite3Jni_sqlite3_1set_1authorizer
  (jDb jHook : jobject) : M Z :=
  let* ps := S3JniDb_for_db jDb 0%N in
  match ps with
  | None => ret SQLITE_MISUSE
  | Some a =>
      if is_null jHook
      then
        S3JniHook_unref a SlotAuth false >>
        let* r := load_db a in
        native (Native.sqlite3_set_authorizer (S3JniDb.pDb r) None)
      else
        let* r := load_db a in
        let pHook := S3JniDb.hook SlotAuth r in
        if nonnull (S3JniHook.jObj pHook)
           && IsSameObject (S3JniHook.jObj pHook) jHook
        then ret 0%Z                       (* Same object - this is a no-op. *)
        else
          when (nonnull (S3JniHook.jObj pHook))
               (S3JniHook_unref a SlotAuth false) >>
          let* g := REF_G jHook in
          store_db a (S3JniDb.set_hook_jObj SlotAuth g) >>
          let* mid :=
            GetMethodID jHook "xAuth"
              "(ILjava/lang/String;Ljava/lang/String;Ljava/lang/String;Ljava/lang/String;)I" in
          store_db a (S3JniDb.set_hook_midCallback SlotAuth mid) >>
          let* threw := ExceptionCheck in
          if threw
          then
            S3JniHook_unref a SlotAuth false >>
            s3jni_db_error (S3JniDb.pDb r) SQLITE_ERROR
              (Some "Error setting up Java parts of authorizer hook.")
          else
            let* rc := native (Native.sqlite3_set_authorizer (S3JniDb.pDb r) (Some a)) in
            when (negb (rc =? 0)%Z) (S3JniHook_unref a SlotAuth false) >>
            ret rc
  end.

(** [sqlite3_trace_v2()]'s binding *)
Definition Java_org_sqlite_jni_SQLite3Jni_sqlite3_1trace_1v2
  (jDb : jobject) (traceMask : Z) (jTracer : jobject) : M Z :=
  let* ps := S3JniDb_for_db jDb 0%N in
  if (traceMask =? 0)%Z || is_null jTracer
  then
    match ps with
    | Some a => S3JniHook_unref a SlotTrace false
    | None => ret tt
    end >>
    deref ps (fun a =>
      let* r := load_db a in
      native (Native.sqlite3_trace_v2 (S3JniDb.pDb r) 0 None))
  else
    match ps with
    | None => ret SQLITE_NOMEM
    | Some a =>
        let* mid :=
          GetMethodID jTracer "xCallback"
            "(ILjava/lang/Object;Ljava/lang/Object;)I" in
        store_db a (S3JniDb.set_hook_midCallback SlotTrace mid) >>
        let* threw := ExceptionCheck in
        if threw
        then
          ExceptionClear >>
          let* r := load_db a in
          s3jni_db_error (S3JniDb.pDb r) SQLITE_ERROR
            (Some "Cannot not find matching xCallback() on Tracer object.")
        else
          let* g := REF_G jTracer in
          store_db a (S3JniDb.set_hook_jObj SlotTrace g) >>
          let* r := load_db a in
          native (Native.sqlite3_trace_v2 (S3JniDb.pDb r)
                    (unsigned_of_int traceMask) (Some a))
    end.

(** ** Collations *)

(** [CollationState_xCompare()]: proxy for Java-side
    [Collation.xCompare()] callbacks.  The byte arrays are modelled by
    their contents. *)
Definition CollationState_xCompare (pArg : addr) (lhs rhs : list N) : M Z :=
  let* ps := load_db pArg in
  let* jbaLhs := try_alloc in                               (* NewByteArray *)
  let* jbaRhs := (if jbaLhs then try_alloc else ret false) in
  if negb jbaRhs
  then s3jni_db_error (S3JniDb.pDb ps) SQLITE_NOMEM None >> ret 0%Z
  else
    let* rc := CallIntMethod (S3JniHook.jObj (S3JniDb.hook SlotCollation ps))
                 (S3JniHook.midCallback (S3JniDb.hook SlotCollation ps))
                 [VBytes lhs; VBytes rhs] in
    EXCEPTION_IGNORE >>
    ret rc.

(** ** User-defined functions *)

(** [encodingTypeIsValid()] *)
Definition encodingTypeIsValid (eTextRep : Z) : bool :=
  (eTextRep =? SQLITE_UTF8)%Z || (eTextRep =? SQLITE_UTF16)%Z
  || (eTextRep =? SQLITE_UTF16LE)%Z || (eTextRep =? SQLITE_UTF16BE)%Z.

(** The [FGET] macro of [S3JniUdf_alloc()]. *)
Definition FGET (jObj : jobject) (FuncName FuncType : string) : M jmethodID :=
  let* mid := GetMethodID jObj FuncName FuncType in
  when (mid =? 0)%N ExceptionClear >>
  ret mid.

Definition zFSI : string :=
  "(Lorg/sqlite/jni/sqlite3_context;[Lorg/sqlite/jni/sqlite3_value;)V".
Definition zFV : string := "(Lorg/sqlite/jni/sqlite3_context;)V".

(** [S3JniUdf_alloc()] *)
Definition S3JniUdf_alloc (jObj : jobject) : M (option S3JniUdf.t) :=
  let* s := try_alloc in                                    (* sqlite3_malloc *)
  if s
  then
    let* g := REF_G jObj in
    let* xFunc := FGET jObj "xFunc" zFSI in
    let* xStep := FGET jObj "xStep" zFSI in
    let* xFinal := FGET jObj "xFinal" zFV in
    let* xValue := FGET jObj "xValue" zFV in
    let* xInverse := FGET jObj "xInverse" zFSI in
    let type :=
      if negb (xFunc =? 0)%N then UDF_SCALAR
      else if negb (xStep =? 0)%N && negb (xFinal =? 0)%N
      then (if negb (xValue =? 0)%N then UDF_WINDOW else UDF_AGGREGATE)
      else UDF_UNKNOWN_TYPE in
    ret (Some (S3JniUdf.mk g None (Some type) xFunc xStep xFinal xValue xInverse))
  else ret None.

(** [S3JniUdf_free()] *)
Definition S3JniUdf_free (s : S3JniUdf.t) : M unit :=
  s3jni_call_xDestroy (S3JniUdf.jObj s) >>
  UNREF_G (S3JniUdf.jObj s).
(** [S3JniUdf_finalizer()]: [if( s ) S3JniUdf_free(s)] *)
Definition S3JniUdf_finalizer (s : S3JniUdf.t) : M unit := S3JniUdf_free s.

(** The native engine's registration of a function with the state [s]
    and the destructor [S3JniUdf_finalizer]: as the binding notes, "on
    sqlite3_create_function() error, s will be destroyed via
    create_function()", that is the engine calls the destructor on [s]
    before it returns its error. *)
Definition native_create_function (c : Native.call) (s : S3JniUdf.t) : M Z :=
  let* rc := native c in
  when (negb (rc =? 0)%Z) (S3JniUdf_finalizer s) >>
  ret rc.

(** [sqlite3_create_function()]'s binding *)
Definition Java_org_sqlite_jni_SQLite3Jni_sqlite3_1create_1function
  (jDb : jobject) (jFuncName : option string) (nArg eTextRep : Z)
  (jFunctor : jobject) : M Z :=
  let* pDb := NativePointerHolder_get jDb in
  if negb (encodingTypeIsValid eTextRep)
  then s3jni_db_error pDb SQLITE_FORMAT
         (Some "Invalid function encoding option.")
  else
    let* s := S3JniUdf_alloc jFunctor in
    match s with
    | None => ret SQLITE_NOMEM
    | Some s =>
        match S3JniUdf.type s with
        | Some UDF_UNKNOWN_TYPE =>
            let* rc := s3jni_db_error pDb SQLITE_MISUSE
                         (Some "Cannot unambiguously determine function type.") in
            S3JniUdf_free s >>
            ret rc
        | type =>
            let* zFuncName := s3jni_jstring_to_utf8 jFuncName in
            match zFuncName with
            | None => S3JniUdf_free s >> ret SQLITE_NOMEM
            | Some z =>
                match type with
                | Some UDF_WINDOW =>
                    native_create_function
                      (Native.sqlite3_create_window_function
                         pDb z nArg eTextRep s) s
                | Some UDF_SCALAR =>
                    native_create_function
                      (Native.sqlite3_create_function_v2
                         pDb z nArg eTextRep s true false false) s
                | _ =>
                    native_create_function
                      (Native.sqlite3_create_function_v2
                         pDb z nArg eTextRep s false true true) s
                end
            end
        end
    end.

(** ** The auto-extension registry *)

(** [SJG.autoExt.pExt[i]], read and written. *)
Definition load_ext (i : nat) : M S3JniAutoExtension.t :=
  fun w => match S3JniGlobalType.autoExt_pExt (SJG w) !! i with
           | Some ax => Ok ax w
           | None => Abort BadPointer
           end.
Definition store_ext (i : nat)
  (f : S3JniAutoExtension.t -> S3JniAutoExtension.t) : M unit :=
  let* _ := load_ext i in
  modify_SJG (fun g =>
    S3JniGlobalType.set_autoExt_pExt
      (alter f i (S3JniGlobalType.autoExt_pExt g)) g).

(** [S3JniAutoExtension_clear()] on [&SJG.autoExt.pExt[i]]: unrefs any
    Java-side state in the entry and zeroes it out. *)
Definition S3JniAutoExtension_clear (i : nat) : M unit :=
  let* ax := load_ext i in
  if nonnull (S3JniAutoExtension.jObj ax)
  then
    UNREF_G (S3JniAutoExtension.jObj ax) >>
    store_ext i (fun _ => S3JniAutoExtension.zero)
  else ret tt.

(** [S3JniAutoExtension_init()] on [&SJG.autoExt.pExt[i]] *)
Definition S3JniAutoExtension_init (i : nat) (jAutoExt : jobject) : M Z :=
  let* mid := GetMethodID jAutoExt "xEntryPoint" "(Lorg/sqlite/jni/sqlite3;)I" in
  store_ext i (S3JniAutoExtension.set_midFunc mid) >>
  EXCEPTION_IGNORE >>                                 (* EXCEPTION_WARN_IGNORE *)
  if (mid =? 0)%N
  then S3JniAutoExtension_clear i >> ret SQLITE_ERROR
  else
    let* g := REF_G jAutoExt in
    store_ext i (S3JniAutoExtension.set_jObj g) >>
    ret 0%Z.

(** [ax->jObj && IsSameObject(env, ax->jObj, jAutoExt)] *)
Definition ext_matches (ax : S3JniAutoExtension.t) (jAutoExt : jobject) : bool :=
  nonnull (S3JniAutoExtension.jObj ax)
  && IsSameObject (S3JniAutoExtension.jObj ax) jAutoExt.

(** [for( i = 0; i < nExt; ++i )] looking for a match: [n] entries are
    left to visit from index [i] on. *)
Fixpoint autoExt_scan_up (pExt : list S3JniAutoExtension.t)
  (jAutoExt : jobject) (i n : nat) : abort + bool :=
  match n with
  | 0 => inr false
  | S n' =>
      match pExt !! i with
      | None => inl BadPointer
      | Some ax =>
          if ext_matches ax jAutoExt then inr true
          else autoExt_scan_up pExt jAutoExt (S i) n'
      end
  end.

(** [for( i = nExt-1; i >= 0; --i )] looking for a match: the entries
    below index [n] are left to visit. *)
Fixpoint autoExt_scan_down (pExt : list S3JniAutoExtension.t)
  (jAutoExt : jobject) (n : nat) : abort + option nat :=
  match n with
  | 0 => inr None
  | S i =>
      match pExt !! i with
      | None => inl BadPointer
      | Some ax =>
          if ext_matches ax jAutoExt then inr (Some i)
          else autoExt_scan_down pExt jAutoExt i
      end
  end.

(** [sqlite3_auto_extension()]'s binding.  The slot that [sqlite3_realloc]
    adds is taken to be zeroed. *)
Definition Java_org_sqlite_jni_SQLite3Jni_sqlite3_1auto_1extension
  (jAutoExt : jobject) : M Z :=
  if is_null jAutoExt then ret SQLITE_MISUSE
  else
    metrics_incr M_nMutexAutoExt >>                         (* MUTEX_EXT_ENTER *)
    let* g := getSJG in
    let* dup := lift (autoExt_scan_up (S3JniGlobalType.autoExt_pExt g) jAutoExt
                        0 (S3JniGlobalType.autoExt_nExt g)) in
    if dup then ret 0%Z                                     (* this as a no-op. *)
    else
      let nExt := S3JniGlobalType.autoExt_nExt g in
      let* rc :=
        (if bool_decide (nExt = S3JniGlobalType.autoExt_nAlloc g)
         then
           let* aNew := try_alloc in                        (* sqlite3_realloc *)
           if aNew
           then
             modify_SJG (fun g =>
               S3JniGlobalType.set_autoExt_nAlloc
                 (S (S3JniGlobalType.autoExt_nAlloc g))
                 (S3JniGlobalType.set_autoExt_pExt
                    (S3JniGlobalType.autoExt_pExt g ++ [S3JniAutoExtension.zero])
                    g)) >>
             ret 0%Z
           else ret SQLITE_NOMEM
         else ret 0%Z) in
      let* rc := (if (rc =? 0)%Z then S3JniAutoExtension_init nExt jAutoExt
                  else ret rc) in
      if (rc =? 0)%Z
      then
        let* g := getSJG in
        let* rc :=
          (if negb (S3JniGlobalType.once g)                 (* 0==once && ++once *)
           then
             modify_SJG (S3JniGlobalType.set_once true) >>
             let* rc := native Native.sqlite3_auto_extension in
             when (negb (rc =? 0)%Z) (S3JniAutoExtension_clear nExt) >>
             ret rc
           else ret 0%Z) in
        when (rc =? 0)%Z
             (modify_SJG (fun g =>
                S3JniGlobalType.set_autoExt_nExt
                  (S (S3JniGlobalType.autoExt_nExt g)) g)) >>
        ret rc
      else ret rc.

(** [sqlite3_cancel_auto_extension()]'s binding *)
Definition Java_org_sqlite_jni_SQLite3Jni_sqlite3_1cancel_1auto_1extension
  (jAutoExt : jobject) : M bool :=
  metrics_incr M_nMutexAutoExt >>                           (* MUTEX_EXT_ENTER *)
  let* g := getSJG in
  let* hit := lift (autoExt_scan_down (S3JniGlobalType.autoExt_pExt g) jAutoExt
                      (S3JniGlobalType.autoExt_nExt g)) in
  match hit with
  | None => ret false
  | Some i =>
      S3JniAutoExtension_clear i >>
      (* Move final entry into this slot. *)
      modify_SJG (fun g =>
        S3JniGlobalType.set_autoExt_nExt
          (pred (S3JniGlobalType.autoExt_nExt g)) g) >>
      let* g := getSJG in
      let* final := load_ext (S3JniGlobalType.autoExt_nExt g) in
      store_ext i (fun _ => final) >>
      store_ext (S3JniGlobalType.autoExt_nExt g)
        (fun _ => S3JniAutoExtension.zero) >>
      ret true
  end.

(** [s3jni_reset_auto_extension()]: clears all entries. *)
Fixpoint autoExt_clear_from (i n : nat) : M unit :=
  match n with
  | 0 => ret tt
  | S n' => S3JniAutoExtension_clear i >> autoExt_clear_from (S i) n'
  end.
Definition s3jni_reset_auto_extension : M unit :=
  metrics_incr M_nMutexAutoExt >>                           (* MUTEX_EXT_ENTER *)
  let* g := getSJG in
  autoExt_clear_from 0 (S3JniGlobalType.autoExt_nExt g) >>
  modify_SJG (S3JniGlobalType.set_autoExt_nExt 0).

(** The loop of [s3jni_run_java_auto_extensions()]:
    [for( i = 0; go && 0==rc; ++i )]. *)
Fixpoint autoExt_run_from (fuel : nat) (i : nat) (ps : addr) : M Z :=
  match fuel with
  | 0 => fail OutOfFuel
  | S fuel' =>
      metrics_incr M_nMutexAutoExt >>                       (* MUTEX_EXT_ENTER *)
      let* g := getSJG in
      if (S3JniGlobalType.autoExt_nExt g <=? i)%nat
      then ret 0%Z                                          (* go = 0 *)
      else
        let* entry := load_ext i in
        let jObj := REF_L (S3JniAutoExtension.jObj entry) in
        let midFunc := S3JniAutoExtension.midFunc entry in
        let* rc :=
          (if nonnull jObj
           then
             let* r := load_db ps in
             let* rc := CallIntMethod jObj midFunc [VObject (S3JniDb.jDb r)] in
             let* threw := ExceptionCheck in
             if threw
             then ExceptionClear >>
                  ret (if (rc =? 0)%Z then SQLITE_ERROR else rc)
             else ret rc
           else ret 0%Z) in
        if (rc =? 0)%Z then autoExt_run_from fuel' (S i) ps else ret rc
  end.

(** [s3jni_run_java_auto_extensions()]: the central auto-extension
    handler, which the native engine calls on the thread [env] with the
    connection it is opening. *)
Definition s3jni_run_java_auto_extensions (env : JNIEnv) (pDb : sqlite3)
  : M Z :=
  let* g := getSJG in
  if (S3JniGlobalType.autoExt_nExt g =? 0)%nat then ret 0%Z
  else
    let* jc := S3JniGlobal_env_cache env in
    let* row := load_env jc in
    match S3JniEnv.pdbOpening row with
    | None => ret SQLITE_ERROR
    | Some ps =>
        store_env jc (S3JniEnv.set_pdbOpening None) >>
        store_db ps (S3JniDb.set_pDb pDb) >>
        let* r := load_db ps in
        NativePointerHolder_set (S3JniDb.jDb r) pDb >>
        autoExt_run_from (S (S3JniGlobalType.autoExt_nExt g)) 0 ps
    end.

(** ** Opening and closing connections *)

(** [s3jni_open_pre()]: the result code with the out-parameters [*jc],
    [*zDbName] and [*ps]. *)
Definition s3jni_open_pre (env : JNIEnv) (jDbName : option string)
  : M (Z * addr * option string * ptr) :=
  let* jc := S3JniGlobal_env_cache env in
  let* zDbName := s3jni_jstring_to_utf8 jDbName in
  if bool_decide (jDbName ≠ None) && bool_decide (zDbName = None)
  then ret (SQLITE_NOMEM, jc, zDbName, None)
  else
    let* jDb := new_sqlite3_wrapper 0%N in
    if is_null jDb
    then ret (SQLITE_NOMEM, jc, None, None)
    else
      let* ps := S3JniDb_alloc 0%N jDb in
      match ps with
      | Some a =>
          store_env jc (S3JniEnv.set_pdbOpening (Some a)) >>
          ret (0%Z, jc, zDbName, ps)
      | None => ret (SQLITE_NOMEM, jc, zDbName, None)
      end.

(** [s3jni_open_post()] *)
Definition s3jni_open_post (jc : addr) (ps : ptr) (ppDb : sqlite3)
  (jOut : jobject) (theRc : Z) : M Z :=
  store_env jc (S3JniEnv.set_pdbOpening None) >>
  let* ps :=
    (if negb (ppDb =? 0)%N
     then
       deref ps (fun a =>
         let* r := load_db a in
         when (S3JniDb.pDb r =? 0)%N
              (store_db a (S3JniDb.set_pDb ppDb) >>
               NativePointerHolder_set (S3JniDb.jDb r) ppDb)) >>
       ret ps
     else S3JniDb_set_aside ps >> ret None) in
  let* jDb := match ps with
              | Some a => let* r := load_db a in ret (S3JniDb.jDb r)
              | None => ret JNull
              end in
  OutputPointer_set_sqlite3 jOut jDb >>
  ret theRc.

(** Modelled from the spec: the native engine's open.  It "invokes all
    registered auto-extensions synchronously during open, before returning
    the new handle to the caller", and an extension's failure code
    "propagates as the open operation's result"; see [open_plan_t]. *)
Definition native_open (env : JNIEnv) (c : Native.call) : M (Z * sqlite3) :=
  let* w := get in
  let n := length (events w) in
  emit (EvNative c) >>
  match open_plan E n with
  | OpenNoHandle => ret (native_rc E n, 0%N)
  | OpenHandle h runsAutoExt keeps =>
      let* rcx := (if runsAutoExt then s3jni_run_java_auto_extensions env h
                   else ret 0%Z) in
      ret (if (rcx =? 0)%Z then native_rc E n else rcx,
           if keeps then h else 0%N)
  end.

(** [sqlite3_open()]'s binding *)
Definition Java_org_sqlite_jni_SQLite3Jni_sqlite3_1open (env : JNIEnv)
  (strName : option string) (jOut : jobject) : M Z :=
  let* '(rc, jc, zName, ps) := s3jni_open_pre env strName in
  if (rc =? 0)%Z
  then
    let* '(rc, pOut) := native_open env (Native.sqlite3_open zName) in
    s3jni_open_post jc ps pOut jOut rc
  else ret rc.

(** [sqlite3_open_v2()]'s binding *)
Definition Java_org_sqlite_jni_SQLite3Jni_sqlite3_1open_1v2 (env : JNIEnv)
  (strName : option string) (jOut : jobject) (flags : Z)
  (strVfs : option string) : M Z :=
  let* '(rc, jc, zName, ps) := s3jni_open_pre env strName in
  let* '(rc, zVfs) :=
    (if (rc =? 0)%Z && bool_decide (strVfs ≠ None)
     then
       let* zVfs := s3jni_jstring_to_utf8 strVfs in
       ret (if bool_decide (zVfs = None) then SQLITE_NOMEM else rc, zVfs)
     else ret (rc, None)) in
  let* '(rc, pOut) :=
    (if (rc =? 0)%Z
     then native_open env (Native.sqlite3_open_v2 zName flags zVfs)
     else ret (rc, 0%N)) in
  s3jni_open_post jc ps pOut jOut rc.

(** [s3jni_close_db()]: wrapper for [sqlite3_close(_v2)()]. *)
Definition s3jni_close_db (jDb : jobject) (version : nat) : M Z :=
  let* ps := S3JniDb_for_db jDb 0%N in
  match ps with
  | Some a =>
      let* r := load_db a in
      let* rc := native (if bool_decide (version = 1)
                         then Native.sqlite3_close (S3JniDb.pDb r)
                         else Native.sqlite3_close_v2 (S3JniDb.pDb r)) in
      if (rc =? 0)%Z
      then
        S3JniDb_set_aside ps >>
        NativePointerHolder_set jDb 0%N >>
        ret rc
      else ret rc
  | None => ret 0%Z
  end.
Definition Java_org_sqlite_jni_SQLite3Jni_sqlite3_1close_1v2 (pDb : jobject)
  : M Z := s3jni_close_db pDb 2.
Definition Java_org_sqlite_jni_SQLite3Jni_sqlite3_1close (pDb : jobject)
  : M Z := s3jni_close_db pDb 1.

(** [Java_org_sqlite_jni_SQLite3Jni_uncacheJniEnv()] *)
Definition Java_org_sqlite_jni_SQLite3Jni_uncacheJniEnv (env : JNIEnv)
  : M bool :=
  metrics_incr M_nMutexEnv >>                               (* MUTEX_ENV_ENTER *)
  S3JniGlobal_env_uncache env.

End Bridge.


(** * The test-script helper of the bridge ([S3JNI_ENABLE_SQLTester]) *)

(** A C string is modelled by the list of its [char]s, each the [int]
    that the code reads through a [const char *]; the terminating [NUL]
    is the end of the list, and a [0] in the list is a [NUL] too (what
    follows it is memory that the code does not read). *)
Abbreviation cstring := (list Z).

(** [*z] and [z[i]]; [z++] is [tail]. *)
Definition peek (z : cstring) : Z := hd 0%Z z.
Definition peek_at (i : nat) (z : cstring) : Z := nth i z 0%Z.

Module Ch.
Definition star : Z := 42.       (* '*' *)
Definition question : Z := 63.   (* '?' *)
Definition lbracket : Z := 91.   (* '[' *)
Definition rbracket : Z := 93.   (* ']' *)
Definition caret : Z := 94.      (* '^' *)
Definition minus : Z := 45.      (* '-' *)
Definition plus : Z := 43.       (* '+' *)
Definition hash : Z := 35.       (* '#' *)
Definition zero : Z := 48.       (* '0' *)
Definition x : Z := 120.         (* 'x' *)
Definition X : Z := 88.          (* 'X' *)
End Ch.

(** Modelled from the native engine's [sqliteInt.h], which is not part
    of the bridge's source: [sqlite3Isdigit(x)] and [sqlite3Isxdigit(x)]
    look [(unsigned char)x] up in the table of the ASCII classes. *)
Definition sqlite3Isdigit (c : Z) : bool :=
  let u := (c mod 256)%Z in (48 <=? u)%Z && (u <=? 57)%Z.
Definition sqlite3Isxdigit (c : Z) : bool :=
  let u := (c mod 256)%Z in
  ((48 <=? u)%Z && (u <=? 57)%Z) || ((97 <=? u)%Z && (u <=? 102)%Z)
  || ((65 <=? u)%Z && (u <=? 70)%Z).

(** [while( (c=( *(zGlob++))) == '*' || c=='?' ){
       if( c=='?' && ( *(z++))==0 ) return 0; }]:
    the character [c] that ends the loop, with [zGlob] and [z] as the
    loop leaves them; [None] when the loop returns 0. *)
Fixpoint glob_skip (zGlob z : cstring) : option (Z * cstring * cstring) :=
  match zGlob with
  | [] => Some (0%Z, [], z)
  | c :: g =>
      if (c =? Ch.star)%Z then glob_skip g z
      else if (c =? Ch.question)%Z
      then (if (peek z =? 0)%Z then None else glob_skip g (tail z))
      else Some (c, g, z)
  end.

(** [while( *z && SQLTester_strnotglob(zGlob-1,z)==0 ){ z++; }
     return ( *z)!=0;] where [rec] is the recursive call on [zGlob-1]. *)
Fixpoint glob_star_class (rec : cstring -> option bool) (z : cstring)
  : option bool :=
  match z with
  | [] => Some false
  | c2 :: z' =>
      if (c2 =? 0)%Z then Some false
      else match rec z with
           | None => None
           | Some true => Some true
           | Some false => glob_star_class rec z'
           end
  end.

(** [while( (c2 = ( *(z++)))!=0 ){
       while( c2!=c ){ c2 = *(z++); if( c2==0 ) return 0; }
       if( SQLTester_strnotglob(zGlob,z) ) return 1; }
     return 0;]
    Both loops step through [z] one character at a time and are written
    here as the one traversal that they make; [rec] is the recursive
    call on [zGlob]. *)
Fixpoint glob_star_char (rec : cstring -> option bool) (c : Z) (z : cstring)
  : option bool :=
  match z with
  | [] => Some false
  | c2 :: z' =>
      if (c2 =? 0)%Z then Some false
      else if (c2 =? c)%Z
      then match rec z' with
           | None => None
           | Some true => Some true
           | Some false => glob_star_char rec c z'
           end
      else glob_star_char rec c z'
  end.

(** The loop of the character class, entered with the character [c2]
    and [zGlob] behind it:
    [while( c2 && c2!=']' ){
       if( c2=='-' && zGlob[0]!=']' && zGlob[0]!=0 && prior_c>0 ){
         c2 = *(zGlob++);
         if( c>=prior_c && c<=c2 ) seen = 1;
         prior_c = 0;
       }else{
         if( c==c2 ){ seen = 1; }
         prior_c = c2;
       }
       c2 = *(zGlob++);
     }]
    The result is [seen] and [zGlob] when the loop ends at a [']'], and
    [None] when it ends at the [NUL]. *)
Fixpoint glob_class (c prior_c : Z) (seen : bool) (c2 : Z) (zGlob : cstring)
  : option (bool * cstring) :=
  if (c2 =? 0)%Z then None
  else if (c2 =? Ch.rbracket)%Z then Some (seen, zGlob)
  else
    match zGlob with
    | [] => None                  (* the next [c2] is the [NUL] *)
    | n :: g =>
        if (c2 =? Ch.minus)%Z && negb (n =? Ch.rbracket)%Z && negb (n =? 0)%Z
           && (0 <? prior_c)%Z
        then
          let seen := seen || ((prior_c <=? c)%Z && (c <=? n)%Z) in
          match g with
          | [] => None            (* the next [c2] is the [NUL] *)
          | n2 :: g2 => glob_class c 0%Z seen n2 g2
          end
        else glob_class c c2 (seen || (c =? c2)%Z) n g
    end.

(** The ['['] case, after [c = *(z++)] has been found not to be [NUL]:
    [seen ^ invert] and [zGlob] behind the class, [None] when the case
    returns 0 because the class has no end. *)
Definition glob_bracket (c : Z) (zGlob : cstring) : option (bool * cstring) :=
  let c2 := peek zGlob in
  let zGlob := tail zGlob in
  let '(invert, c2, zGlob) :=
    if (c2 =? Ch.caret)%Z then (true, peek zGlob, tail zGlob)
    else (false, c2, zGlob) in
  let '(seen, c2, zGlob) :=
    if (c2 =? Ch.rbracket)%Z
    then ((c =? Ch.rbracket)%Z, peek zGlob, tail zGlob)
    else (false, c2, zGlob) in
  match glob_class c 0%Z seen c2 zGlob with
  | None => None
  | Some (seen, zGlob) => Some (xorb seen invert, zGlob)
  end.

(** [while( sqlite3Isxdigit(z[0]) ){ z++; }] and its decimal twin. *)
Fixpoint skip_xdigits (z : cstring) : cstring :=
  match z with
  | c :: z' => if sqlite3Isxdigit c then skip_xdigits z' else z
  | [] => []
  end.
Fixpoint skip_digits (z : cstring) : cstring :=
  match z with
  | c :: z' => if sqlite3Isdigit c then skip_digits z' else z
  | [] => []
  end.

(** The ['#'] case: [z] behind the number, [None] when the case
    returns 0. *)
Definition glob_number (z : cstring) : option cstring :=
  if (peek z =? Ch.zero)%Z
     && ((peek_at 1 z =? Ch.x)%Z || (peek_at 1 z =? Ch.X)%Z)
     && sqlite3Isxdigit (peek_at 2 z)
  then Some (skip_xdigits (drop 3 z))
  else
    let z := if ((peek z =? Ch.minus)%Z || (peek z =? Ch.plus)%Z)
                && sqlite3Isdigit (peek_at 1 z)
             then tail z else z in
    if negb (sqlite3Isdigit (peek z)) then None
    else Some (skip_digits (tail z)).

(** [SQLTester_strnotglob()]: non-zero ([true]) if the string [z]
    matches the glob pattern [zGlob].  One unit of fuel is spent on each
    turn of the outer loop and on each recursive call; [None] is a run
    that has none left. *)
Fixpoint strnotglob_fuel (fuel : nat) (zGlob z : cstring) : option bool :=
  match fuel with
  | 0 => None
  | S fuel' =>
      let c := peek zGlob in
      let zGlob := tail zGlob in
      if (c =? 0)%Z then Some (peek z =? 0)%Z
      else if (c =? Ch.star)%Z
      then
        match glob_skip zGlob z with
        | None => Some false
        | Some (c, zGlob, z) =>
            if (c =? 0)%Z then Some true
            else if (c =? Ch.lbracket)%Z
            then glob_star_class (strnotglob_fuel fuel' (c :: zGlob)) z
            else glob_star_char (strnotglob_fuel fuel' zGlob) c z
        end
      else if (c =? Ch.question)%Z
      then (if (peek z =? 0)%Z then Some false
            else strnotglob_fuel fuel' zGlob (tail z))
      else if (c =? Ch.lbracket)%Z
      then
        if (peek z =? 0)%Z then Some false
        else match glob_bracket (peek z) zGlob with
             | None => Some false
             | Some (ok, zGlob) =>
                 if ok then strnotglob_fuel fuel' zGlob (tail z)
                 else Some false
             end
      else if (c =? Ch.hash)%Z
      then match glob_number z with
           | None => Some false
           | Some z => strnotglob_fuel fuel' zGlob z
           end
      else if (c =? peek z)%Z then strnotglob_fuel fuel' zGlob (tail z)
      else Some false
  end.

(** No run takes more turns and calls than the pattern has characters. *)
Definition SQLTester_strnotglob (zGlob z : cstring) : option bool :=
  strnotglob_fuel (S (length zGlob)) zGlob z.

Section Tester.
Variable E : Env.

(** [Java_org_sqlite_jni_tester_SQLTester_strglob()]: the two byte
    arrays are modelled by the C strings that they hold ("we're relying
    on the byte arrays having been NUL-terminated on the Java side");
    [GetByteArrayElements] can fail to hand out either. *)
Definition Java_org_sqlite_jni_tester_SQLTester_strglob (baG baT : cstring)
  : M Z :=
  let* pG := try_alloc E in
  let* pT := (if pG then try_alloc E else ret false) in
  (if pT then ret tt else s3jni_oom) >>                (* s3jni_oom_check(pT) *)
  match SQLTester_strnotglob baG baT with
  | Some b => ret (if b then 0%Z else 1%Z)   (* rc = !SQLTester_strnotglob() *)
  | None => fail OutOfFuel
  end.

End Tester.

(** * Further parts of the bridge *)

Section Proxies.
Variable E : Env.

(** ** Callback proxies

    The native engine calls these on a thread for which
    [s3jni_get_env()] finds the [JNIEnv]. *)

(** [s3jni_commit_rollback_hook_impl()] *)
Definition s3jni_commit_rollback_hook_impl (isCommit : bool) (ps : addr)
  : M Z :=
  let* r := load_db ps in
  let* rc :=
    (if isCommit
     then CallIntMethod E (S3JniHook.jObj (S3JniDb.hook SlotCommit r))
            (S3JniHook.midCallback (S3JniDb.hook SlotCommit r)) []
     else CallVoidMethod E (S3JniHook.jObj (S3JniDb.hook SlotRollback r))
            (S3JniHook.midCallback (S3JniDb.hook SlotRollback r)) [] >>
          ret 0%Z) in
  let* threw := ExceptionCheck in                                   (* IFTHREW *)
  if threw
  then
    ExceptionClear >>
    let* r := load_db ps in
    s3jni_db_error E (S3JniDb.pDb r) SQLITE_ERROR (Some "hook callback threw.")
  else ret rc.

(** [s3jni_commit_hook_impl()] and [s3jni_rollback_hook_impl()] *)
Definition s3jni_commit_hook_impl (pP : addr) : M Z :=
  s3jni_commit_rollback_hook_impl true pP.
Definition s3jni_rollback_hook_impl (pP : addr) : M unit :=
  s3jni_commit_rollback_hook_impl false pP >> ret tt.

(** [s3jni_progress_handler_impl()]: the central C-to-Java
    [sqlite3_progress_handler()] proxy. *)
Definition s3jni_progress_handler_impl (pP : addr) : M Z :=
  let* r := load_db pP in
  let* rc := CallIntMethod E (S3JniHook.jObj (S3JniDb.hook SlotProgress r))
               (S3JniHook.midCallback (S3JniDb.hook SlotProgress r)) [] in
  let* threw := ExceptionCheck in                                   (* IFTHREW *)
  if threw
  then s3jni_db_exception E pP rc "sqlite3_progress_handler() callback threw"
  else ret rc.

(** ** Shutting the library down *)

(** [sqlite3_reset_auto_extension()]'s binding *)
Definition Java_org_sqlite_jni_SQLite3Jni_sqlite3_1reset_1auto_1extension
  : M unit := s3jni_reset_auto_extension.

(** [while( SJG.envCache.aHead ){
       S3JniGlobal_env_uncache( SJG.envCache.aHead->env ); }] *)
Fixpoint env_uncache_all (fuel : nat) : M unit :=
  match fuel with
  | 0 => fail OutOfFuel
  | S fuel' =>
      let* g := getSJG in
      match S3JniGlobalType.envCache_aHead g with
      | None => ret tt
      | Some a =>
          let* r := load_env a in
          S3JniGlobal_env_uncache (S3JniEnv.env r) >>
          env_uncache_all fuel'
      end
  end.

(** [sqlite3_shutdown()]'s binding; [sqlite3_shutdown] is the native
    engine's function of that name. *)
Variable sqlite3_shutdown : M Z.
Definition Java_org_sqlite_jni_SQLite3Jni_sqlite3_1shutdown : M Z :=
  s3jni_reset_auto_extension >>
  metrics_incr M_nMutexEnv >>                               (* MUTEX_ENV_ENTER *)
  let* w := get in
  env_uncache_all (S (length (memEnv w))) >>
  sqlite3_shutdown.

End Proxies.

(** ** UTF-16 names *)

(** [s3jni_utf16_strlen()]: the index of the first element of the array
    of [unsigned short] that is 0.  The array is modelled by the list of
    its elements, and [p[i]] behind its end is a wild read; the index is
    an [unsigned int]. *)
Fixpoint utf16_strlen_loop (fuel : nat) (p : list N) (i : N) : abort + N :=
  match fuel with
  | 0 => inl OutOfFuel
  | S fuel' =>
      match p !! N.to_nat i with
      | None => inl BadPointer
      | Some x =>
          if (x =? 0)%N then inr i
          else utf16_strlen_loop fuel' p (incr_unsigned i)
      end
  end.
Definition s3jni_utf16_strlen (z : list N) : abort + N :=
  utf16_strlen_loop (S (length z)) z 0%N.
(** ** Notions used to state the properties *)

(** The world after [MUTEX_PDB_ENTER] has counted one more entry. *)
Definition pdb_mutex_entered (w : World) : World :=
  set_SJG (S3JniGlobalType.set_metrics
             (s3jni_incr M_nMutexPerDb (S3JniGlobalType.metrics (SJG w)))
             (SJG w)) w.

(** [g'] differs from [g] in its metrics at most. *)
Definition same_but_metrics (g g' : S3JniGlobalType.t) : Prop :=
  g' = S3JniGlobalType.set_metrics (S3JniGlobalType.metrics g') g.

(** The calls into managed code that [s3jni_call_xDestroy()] makes for
    the reference [j]: one call of [xDestroy()] when the object has such
    a method, none otherwise. *)
Definition xDestroy_calls (E : Env) (j : jobject) (heap : gmap objid N)
  : list event :=
  match obj_of j with
  | Some o =>
      if (jmethod E o "xDestroy" "()V" =? 0)%N then []
      else [EvCall o (jmethod E o "xDestroy" "()V") [] heap]
  | None => []
  end.

(** The global references that are live once [j] has been released. *)
Definition released (j : jobject) (refs : list nat) : list nat :=
  match j with
  | JGlobal r _ => filter (fun x => x ≠ r) refs
  | _ => refs
  end.

(** Registrations of a user-defined function with the native engine. *)
Definition is_function_registration (e : event) : bool :=
  match e with
  | EvNative (Native.sqlite3_create_function_v2 _ _ _ _ _ _ _ _) => true
  | EvNative (Native.sqlite3_create_window_function _ _ _ _ _) => true
  | _ => false
  end.

(** What a functor object exposes. *)
Definition exposes (E : Env) (o : objid) (name sig : string) : bool :=
  negb (jmethod E o name sig =? 0)%N.

(** The managed heap of [j'] is that of [j]: the same objects with the
    same fields, and the same supply of references. *)
Definition same_heap (j j' : JavaVM.t) : Prop :=
  JavaVM.nextGlobalRef j' = JavaVM.nextGlobalRef j /\
  JavaVM.nextObj j' = JavaVM.nextObj j /\
  JavaVM.nativePointer j' = JavaVM.nativePointer j /\
  JavaVM.value j' = JavaVM.value j.

(** What a registration binding hands back. *)
Inductive hook_result :=
| ResultCode (rc : Z)
| PreviousHook (j : jobject)
| NoResult.

(** The binding that registers a callback object on each hook slot;
    [arg] is the trace mask or the progress period of the two bindings
    that take one.  (Collations are registered by name, not on a slot of
    their own.) *)
Definition register_hook (E : Env) (k : hook_slot) (jDb o : jobject) (arg : Z)
  : option (M hook_result) :=
  match k with
  | SlotBusyHandler =>
      Some (let* rc := Java_org_sqlite_jni_SQLite3Jni_sqlite3_1busy_1handler E jDb o in
            ret (ResultCode rc))
  | SlotCollationNeeded =>
      Some (let* rc := Java_org_sqlite_jni_SQLite3Jni_sqlite3_1collation_1needed E jDb o in
            ret (ResultCode rc))
  | SlotAuth =>
      Some (let* rc := Java_org_sqlite_jni_SQLite3Jni_sqlite3_1set_1authorizer E jDb o in
            ret (ResultCode rc))
  | SlotCommit =>
      Some (let* j := Java_org_sqlite_jni_SQLite3Jni_sqlite3_1commit_1hook E jDb o in
            ret (PreviousHook j))
  | SlotRollback =>
      Some (let* j := Java_org_sqlite_jni_SQLite3Jni_sqlite3_1rollback_1hook E jDb o in
            ret (PreviousHook j))
  | SlotUpdate =>
      Some (let* j := Java_org_sqlite_jni_SQLite3Jni_sqlite3_1update_1hook E jDb o in
            ret (PreviousHook j))
  | SlotPreUpdate =>
      Some (let* j := Java_org_sqlite_jni_SQLite3Jni_sqlite3_1preupdate_1hook E jDb o in
            ret (PreviousHook j))
  | SlotTrace =>
      Some (let* rc := Java_org_sqlite_jni_SQLite3Jni_sqlite3_1trace_1v2 E jDb arg o in
            ret (ResultCode rc))
  | SlotProgress =>
      Some (Java_org_sqlite_jni_SQLite3Jni_sqlite3_1progress_1handler E jDb arg o >>
            ret NoResult)
  | SlotCollation => None
  end.

(** Registering [o] again on the slot [k] of the record [a], which holds
    [o] already, succeeds and is a no-op: the record (so the stored
    reference and method handle), the live global references and the
    trace of calls (so no teardown) are what they were. *)
Definition reregistration_is_noop (E : Env) (k : hook_slot) (jDb o : jobject)
  (arg : Z) (w : World) (a : addr) : Prop :=
  forall reg,
    register_hook E k jDb o arg = Some reg ->
    exists res w',
      reg w = Ok res w' /\
      match res with
      | ResultCode rc => rc = 0%Z
      | PreviousHook j => S3JniHook.jObj <$> (S3JniDb.hook k <$> memDb w !! a) = Some j
      | NoResult => True
      end /\
      memDb w' = memDb w /\
      JavaVM.globalRefs (jvm w') = JavaVM.globalRefs (jvm w) /\
      events w' = events w.

(** The registry of auto-extensions: its array, the number of entries
    allocated and the number of active entries. *)
Definition pExt (w : World) : list S3JniAutoExtension.t :=
  S3JniGlobalType.autoExt_pExt (SJG w).
Definition nExt (w : World) : nat := S3JniGlobalType.autoExt_nExt (SJG w).
Definition nAlloc_ext (w : World) : nat := S3JniGlobalType.autoExt_nAlloc (SJG w).

(** The active entries are within the array, hold an object each, and no
    two of them hold the same object. *)
Definition autoExt_inv (w : World) : Prop :=
  nExt w <= length (pExt w) /\
  nAlloc_ext w = length (pExt w) /\
  (forall i ax, i < nExt w -> pExt w !! i = Some ax ->
     nonnull (S3JniAutoExtension.jObj ax) = true) /\
  (forall i j ax bx, i < nExt w -> j < nExt w ->
     pExt w !! i = Some ax -> pExt w !! j = Some bx ->
     IsSameObject (S3JniAutoExtension.jObj ax) (S3JniAutoExtension.jObj bx) = true ->
     i = j).

(** The worlds that registrations, cancellations and resets lead to from
    an empty registry, whatever else the bridge does in between. *)
Inductive autoExt_reachable (E : Env) : World -> Prop :=
| autoExt_initial w :
    pExt w = [] -> nExt w = 0 -> nAlloc_ext w = 0 -> autoExt_reachable E w
| autoExt_after_register w jAutoExt rc w' :
    autoExt_reachable E w ->
    Java_org_sqlite_jni_SQLite3Jni_sqlite3_1auto_1extension E jAutoExt w = Ok rc w' ->
    autoExt_reachable E w'
| autoExt_after_cancel w jAutoExt b w' :
    autoExt_reachable E w ->
    Java_org_sqlite_jni_SQLite3Jni_sqlite3_1cancel_1auto_1extension jAutoExt w = Ok b w' ->
    autoExt_reachable E w'
| autoExt_after_reset w w' :
    autoExt_reachable E w ->
    s3jni_reset_auto_extension w = Ok tt w' ->
    autoExt_reachable E w'
| autoExt_after_other w w' :
    autoExt_reachable E w ->
    pExt w' = pExt w -> nExt w' = nExt w -> nAlloc_ext w' = nAlloc_ext w ->
    autoExt_reachable E w'.

(** [e] is the call of the auto-extension [ax] with the connection
    wrapper [jDb], made when the wrapper objects hold the pointers
    [heap]. *)
Definition is_proxy_call (jDb : jobject) (heap : gmap objid N)
  (ax : S3JniAutoExtension.t) (e : event) : Prop :=
  exists o, obj_of (S3JniAutoExtension.jObj ax) = Some o /\
            e = EvCall o (S3JniAutoExtension.midFunc ax) [VObject jDb] heap.

(** Of [n] auto-extensions, the first of which is the call number [pos]
    of the bridge, [m] are invoked and the result is [rc]: all but
    the last one invoked return 0, and either all [n] were invoked and
    returned 0, or the last one invoked threw (the result is then the
    value its call handed back or, if that is 0, [SQLITE_ERROR]) or
    returned a code other than 0. *)
Definition proxy_stops_at (E : Env) (pos n m : nat) (rc : Z) : Prop :=
  m <= n /\
  (forall k, S k < m -> jcall E (pos + k) = Returned 0) /\
  ((m = n /\ rc = 0%Z /\ forall k, k < n -> jcall E (pos + k) = Returned 0) \/
   (exists k, m = S k /\
      ((jcall E (pos + k) = Threw /\
        rc = (if (jthrown E (pos + k) =? 0)%Z then SQLITE_ERROR
              else jthrown E (pos + k))) \/
       (exists v, jcall E (pos + k) = Returned v /\ v <> 0%Z /\ rc = v)))).

(** The auto-extensions [js] have been registered, in this order, and
    none has been cancelled since the registry was last empty.  A
    registration either adds an entry, and its object comes last, or it
    adds none, the object being registered already or the registration
    failing. *)
Inductive autoExt_registered (E : Env) : World -> list jobject -> Prop :=
| autoExt_registered_none w :
    pExt w = [] -> nExt w = 0 -> nAlloc_ext w = 0 ->
    autoExt_registered E w []
| autoExt_registered_reset w w' :
    autoExt_reachable E w ->
    s3jni_reset_auto_extension w = Ok tt w' ->
    autoExt_registered E w' []
| autoExt_registered_more w jAutoExt rc w' js :
    autoExt_registered E w js ->
    Java_org_sqlite_jni_SQLite3Jni_sqlite3_1auto_1extension E jAutoExt w = Ok rc w' ->
    nExt w' = S (nExt w) ->
    autoExt_registered E w' (js ++ [jAutoExt])
| autoExt_registered_same w jAutoExt rc w' js :
    autoExt_registered E w js ->
    Java_org_sqlite_jni_SQLite3Jni_sqlite3_1auto_1extension E jAutoExt w = Ok rc w' ->
    nExt w' = nExt w ->
    autoExt_registered E w' js
| autoExt_registered_other w w' js :
    autoExt_registered E w js ->
    pExt w' = pExt w -> nExt w' = nExt w -> nAlloc_ext w' = nAlloc_ext w ->
    autoExt_registered E w' js.

(** [e] is a call of the auto-extension object [j] with the connection
    wrapper [jDb], made when the wrapper objects hold the pointers
    [heap]. *)
Definition is_proxy_call_of (jDb : jobject) (heap : gmap objid N)
  (j : jobject) (e : event) : Prop :=
  exists o mid, obj_of j = Some o /\ e = EvCall o mid [VObject jDb] heap.

(** Doubly-linked lists in an arena, and the per-thread cache. *)

Section Links.
Context {R : Type} (next prev : R -> ptr).

(** The records at the addresses [l], in this order, form the list that
    starts at [p]: each one points to the next one and back to the one
    before it, the first one back to [pv], and the last one on to [NULL]. *)
Fixpoint dll (mem : list R) (pv p : ptr) (l : list addr) : Prop :=
  match l with
  | [] => p = None
  | a :: l' =>
      p = Some a /\
      exists r, mem !! a = Some r /\ prev r = pv /\
                dll mem (Some a) (next r) l'
  end.

(** [mem'] has at [a] a record with the links that [mem] has there. *)
Definition same_links (mem mem' : list R) (a : addr) : Prop :=
  forall r, mem !! a = Some r ->
    exists r', mem' !! a = Some r' /\ next r' = next r /\ prev r' = prev r.

End Links.

(** The rows [used], from [aHead] on, and [free], from [aFree] on, are
    the two lists of the cache, and no row is in both. *)
Definition env_cache_lists (w : World) (used free : list addr) : Prop :=
  dll S3JniEnv.pNext S3JniEnv.pPrev (memEnv w) None
    (S3JniGlobalType.envCache_aHead (SJG w)) used /\
  dll S3JniEnv.pNext S3JniEnv.pPrev (memEnv w) None
    (S3JniGlobalType.envCache_aFree (SJG w)) free /\
  NoDup (used ++ free).

(** The first of the rows [l] that belongs to the thread [T]. *)
Fixpoint first_row_of (mem : list S3JniEnv.t) (T : JNIEnv) (l : list addr)
  : option addr :=
  match l with
  | [] => None
  | a :: l' =>
      match mem !! a with
      | Some r => if (S3JniEnv.env r =? T)%N then Some a
                  else first_row_of mem T l'
      | None => None
      end
  end.

(** What the bridge does to the cache, but for uncaching the threads
    that [keep] excludes: acquiring a row, uncaching a thread, and steps
    that touch neither the links nor the owners of the rows. *)
Inductive env_cache_steps (E : Env) (keep : JNIEnv -> Prop)
  : World -> World -> Prop :=
| env_cache_steps_refl w : env_cache_steps E keep w w
| env_cache_steps_acquire w1 w2 T a w3 :
    env_cache_steps E keep w1 w2 ->
    S3JniGlobal_env_cache E T w2 = Ok a w3 ->
    env_cache_steps E keep w1 w3
| env_cache_steps_uncache w1 w2 T b w3 :
    env_cache_steps E keep w1 w2 ->
    ~ keep T ->
    S3JniGlobal_env_uncache T w2 = Ok b w3 ->
    env_cache_steps E keep w1 w3
| env_cache_steps_other w1 w2 w3 :
    env_cache_steps E keep w1 w2 ->
    S3JniGlobalType.envCache_aHead (SJG w3)
      = S3JniGlobalType.envCache_aHead (SJG w2) ->
    S3JniGlobalType.envCache_aFree (SJG w3)
      = S3JniGlobalType.envCache_aFree (SJG w2) ->
    map (fun r => (S3JniEnv.env r, S3JniEnv.pPrev r, S3JniEnv.pNext r))
        (memEnv w3)
      = map (fun r => (S3JniEnv.env r, S3JniEnv.pPrev r, S3JniEnv.pNext r))
            (memEnv w2) ->
    env_cache_steps E keep w1 w3.

(** The worlds that the bridge reaches from one whose cache is empty. *)
Definition env_cache_reachable (E : Env) (w : World) : Prop :=
  exists w0,
    S3JniGlobalType.envCache_aHead (SJG w0) = None /\
    S3JniGlobalType.envCache_aFree (SJG w0) = None /\
    env_cache_steps E (fun _ => False) w0 w.

(** The second half of [S3JniGlobal_env_cache()]: the row is cleared,
    linked in at the head of the used rows and given to [env]. *)
Definition env_cache_link (env : JNIEnv) (row : addr) : M addr :=
  store_env row (fun _ => S3JniEnv.zero) >>
  let* g := getSJG in
  store_env row (S3JniEnv.set_pNext (S3JniGlobalType.envCache_aHead g)) >>
  env_set_pPrev (S3JniGlobalType.envCache_aHead g) (Some row) >>
  modify_SJG (S3JniGlobalType.set_envCache_aHead (Some row)) >>
  store_env row (S3JniEnv.set_env env) >>
  ret row.

(** The two halves of [S3JniGlobal_env_uncache()] once the row is found:
    the row is taken out of the used rows, then cleared and linked in at
    the head of the free rows. *)
Definition env_cache_unlink (a : addr) : M unit :=
  let* r := load_env a in
  env_set_pPrev (S3JniEnv.pNext r) (S3JniEnv.pPrev r) >>
  env_set_pNext (S3JniEnv.pPrev r) (S3JniEnv.pNext r) >>
  let* g := getSJG in
  when (bool_decide (S3JniGlobalType.envCache_aHead g = Some a))
       (modify_SJG (S3JniGlobalType.set_envCache_aHead (S3JniEnv.pNext r))).
Definition env_cache_set_free (a : addr) : M bool :=
  store_env a (fun _ => S3JniEnv.zero) >>
  let* g := getSJG in
  store_env a (S3JniEnv.set_pNext (S3JniGlobalType.envCache_aFree g)) >>
  env_set_pPrev (S3JniGlobalType.envCache_aFree g) (Some a) >>
  modify_SJG (S3JniGlobalType.set_envCache_aFree (Some a)) >>
  ret true.

(** [if( p ) mem[p] = f(mem[p])] *)
Definition opt_alter {R} (f : R -> R) (p : ptr) (mem : list R) : list R :=
  match p with
  | Some n => alter f n mem
  | None => mem
  end.

(** The row [a] is the one that a lookup for the thread [T] finds. *)
Definition env_cached (w : World) (T : JNIEnv) (a : addr) : Prop :=
  exists used free,
    env_cache_lists w used free /\
    first_row_of (memEnv w) T used = Some a.

(** The per-connection registry. *)

(** The records [used], from [aUsed] on, and [free], from [aFree] on,
    are the two lists of the registry, and no record is in both. *)
Definition pdb_lists (w : World) (used free : list addr) : Prop :=
  dll S3JniDb.pNext S3JniDb.pPrev (memDb w) None
    (S3JniGlobalType.perDb_aUsed (SJG w)) used /\
  dll S3JniDb.pNext S3JniDb.pPrev (memDb w) None
    (S3JniGlobalType.perDb_aFree (SJG w)) free /\
  NoDup (used ++ free).

(** No record among [l] has the handle [pDb]. *)
Definition pdb_handle_unused (mem : list S3JniDb.t) (l : list addr)
  (pDb : sqlite3) : Prop :=
  forall a r, a ∈ l -> mem !! a = Some r -> S3JniDb.pDb r <> pDb.

(** No two records among [l] have the same handle, [NULL] apart. *)
Definition pdb_handles_unique (mem : list S3JniDb.t) (l : list addr) : Prop :=
  forall a b ra rb,
    a ∈ l -> b ∈ l -> mem !! a = Some ra -> mem !! b = Some rb ->
    S3JniDb.pDb ra = S3JniDb.pDb rb -> S3JniDb.pDb ra <> 0%N -> a = b.

(** The invariant of the registry. *)
Definition pdb_inv (w : World) : Prop :=
  exists used free,
    pdb_lists w used free /\ pdb_handles_unique (memDb w) used.

(** The record [a] is linked in the used-list. *)
Definition pdb_in_use (w : World) (a : addr) : Prop :=
  exists used free, pdb_lists w used free /\ a ∈ used.

(** The parts of [S3JniDb_alloc()]: a record is taken from the free-list
    or allocated, then linked in at the head of the used-list and given
    its handle and wrapper. *)
Definition db_alloc_take (E : Env) (g : S3JniGlobalType.t) : M ptr :=
  match S3JniGlobalType.perDb_aFree g with
  | Some a =>
      let* r := load_db a in
      modify_SJG (S3JniGlobalType.set_perDb_aFree (S3JniDb.pNext r)) >>
      match S3JniDb.pNext r with
      | Some n =>
          store_db n (S3JniDb.set_pPrev None) >>
          store_db a (S3JniDb.set_pNext None)
      | None => ret tt
      end >>
      metrics_incr M_nPdbRecycled >>
      ret (Some a)
  | None =>
      let* a := s3jni_malloc_S3JniDb E in
      store_db a (fun _ => S3JniDb.zero) >>
      metrics_incr M_nPdbAlloc >>
      ret (Some a)
  end.
Definition db_alloc_link (pDb : sqlite3) (jDb : jobject) (rv : ptr) : M ptr :=
  match rv with
  | Some a =>
      let* g := getSJG in
      store_db a (S3JniDb.set_pNext (S3JniGlobalType.perDb_aUsed g)) >>
      modify_SJG (S3JniGlobalType.set_perDb_aUsed (Some a)) >>
      db_set_pPrev (S3JniGlobalType.perDb_aUsed g) (Some a) >>
      let* j := REF_G jDb in
      store_db a (S3JniDb.set_jDb j) >>
      store_db a (S3JniDb.set_pDb pDb) >>
      ret (Some a)
  | None => ret None
  end.

(** The parts of [S3JniDb_set_aside()]: the record is taken out of the
    used-list, its hooks are released, and it is cleared and linked in at
    the head of the free-list. *)
Definition db_unlink (a : addr) : M unit :=
  let* r := load_db a in
  db_set_pPrev (S3JniDb.pNext r) (S3JniDb.pPrev r) >>
  match S3JniDb.pPrev r with
  | Some q => store_db q (S3JniDb.set_pNext (S3JniDb.pNext r))
  | None =>
      let* g := getSJG in
      when (bool_decide (S3JniGlobalType.perDb_aUsed g = Some a))
           (modify_SJG (S3JniGlobalType.set_perDb_aUsed (S3JniDb.pNext r)))
  end.
Definition db_unhook (E : Env) (a : addr) : M unit :=
  S3JniHook_unref E a SlotTrace false >>
  S3JniHook_unref E a SlotProgress false >>
  S3JniHook_unref E a SlotCommit false >>
  S3JniHook_unref E a SlotRollback false >>
  S3JniHook_unref E a SlotUpdate false >>
  S3JniHook_unref E a SlotAuth false >>
  S3JniHook_unref E a SlotPreUpdate false >>
  S3JniHook_unref E a SlotCollation true >>
  S3JniHook_unref E a SlotCollationNeeded true >>
  S3JniHook_unref E a SlotBusyHandler true.
Definition db_set_free (a : addr) : M unit :=
  let* r := load_db a in
  UNREF_G (S3JniDb.jDb r) >>
  store_db a (fun _ => S3JniDb.zero) >>
  let* g := getSJG in
  store_db a (S3JniDb.set_pNext (S3JniGlobalType.perDb_aFree g)) >>
  db_set_pPrev (S3JniGlobalType.perDb_aFree g) (Some a) >>
  modify_SJG (S3JniGlobalType.set_perDb_aFree (Some a)).

(** [w'] differs from [w] as releasing hooks of the record [a] makes it
    differ: in the hooks of [a], the global references and the metrics. *)
Definition unhooked (a : addr) (w w' : World) : Prop :=
  same_but_metrics (SJG w) (SJG w') /\
  memEnv w' = memEnv w /\
  same_heap (jvm w) (jvm w') /\
  (forall x, x <> a -> memDb w' !! x = memDb w !! x) /\
  (forall r, memDb w !! a = Some r ->
     exists r', memDb w' !! a = Some r' /\
       S3JniDb.pDb r' = S3JniDb.pDb r /\ S3JniDb.jDb r' = S3JniDb.jDb r /\
       S3JniDb.pNext r' = S3JniDb.pNext r /\
       S3JniDb.pPrev r' = S3JniDb.pPrev r).

(** What the bridge does to the registry: [S3JniDb_alloc()] with a
    handle that no record in use has, [S3JniDb_for_db()],
    [S3JniDb_set_aside()] of a record in use, the storing of the handle
    that the native engine has just made in a record in use, and steps
    that touch neither the links nor the handles. *)
Inductive pdb_reachable (E : Env) : World -> Prop :=
| pdb_initial w :
    S3JniGlobalType.perDb_aUsed (SJG w) = None ->
    S3JniGlobalType.perDb_aFree (SJG w) = None ->
    pdb_reachable E w
| pdb_after_alloc w pDb jDb rv w' :
    pdb_reachable E w ->
    (pDb <> 0%N -> forall used free,
       pdb_lists w used free -> pdb_handle_unused (memDb w) used pDb) ->
    S3JniDb_alloc E pDb jDb w = Ok rv w' ->
    pdb_reachable E w'
| pdb_after_for_db w jDb pDb q w' :
    pdb_reachable E w ->
    S3JniDb_for_db jDb pDb w = Ok q w' ->
    pdb_reachable E w'
| pdb_after_set_aside w a w' :
    pdb_reachable E w ->
    pdb_in_use w a ->
    S3JniDb_set_aside E (Some a) w = Ok tt w' ->
    pdb_reachable E w'
| pdb_after_bind w a X w' :
    pdb_reachable E w ->
    (forall x r, x <> a -> memDb w !! x = Some r -> S3JniDb.pDb r <> X) ->
    SJG w' = SJG w ->
    memDb w' = alter (S3JniDb.set_pDb X) a (memDb w) ->
    pdb_reachable E w'
| pdb_after_other w w' :
    pdb_reachable E w ->
    S3JniGlobalType.perDb_aUsed (SJG w') = S3JniGlobalType.perDb_aUsed (SJG w) ->
    S3JniGlobalType.perDb_aFree (SJG w') = S3JniGlobalType.perDb_aFree (SJG w) ->
    map (fun r => (S3JniDb.pDb r, S3JniDb.pPrev r, S3JniDb.pNext r)) (memDb w')
      = map (fun r => (S3JniDb.pDb r, S3JniDb.pPrev r, S3JniDb.pNext r))
            (memDb w) ->
    pdb_reachable E w'.

(** ** Sample surroundings and worlds *)

(** A functor without any of the five methods, in surroundings where
    every allocation succeeds and every call returns 0. *)
Definition env_plain : Env :=
  mkEnv (fun _ _ _ => 0%N) (fun _ => Returned 0) (fun _ => 0%Z) 1%N
        (fun _ => None)
        (fun _ => 0%Z) (fun _ => OpenNoHandle) (fun _ => true).

(** A connection whose collation is the object 7, whose [xCompare]
    throws. *)
Definition env_throwing : Env :=
  mkEnv (fun _ _ _ => 1%N) (fun _ => Threw) (fun _ => 0%Z) 1%N
        (fun _ => None)
        (fun _ => 0%Z) (fun _ => OpenNoHandle) (fun _ => true).
(** The same, on a virtual machine whose throwing calls hand back [v]. *)
Definition env_throwing_with (v : Z) : Env :=
  mkEnv (fun _ _ _ => 1%N) (fun _ => Threw) (fun _ => v) 1%N
        (fun _ => None)
        (fun _ => 0%Z) (fun _ => OpenNoHandle) (fun _ => true).
Definition world_with_collation : World :=
  set_memDb
    [S3JniDb.set_hook SlotCollation (S3JniHook.mk (JGlobal 0 7) 1%N)
       (S3JniDb.set_pDb 100%N S3JniDb.zero)]
    World0.

(** One open connection, with handle 100 and wrapper object 5, whose busy
    handler is the object 7; every object has every method. *)
Definition env_all_methods : Env :=
  mkEnv (fun _ _ _ => 1%N) (fun _ => Returned 0) (fun _ => 0%Z) 1%N
        (fun _ => None)
        (fun _ => 0%Z) (fun _ => OpenNoHandle) (fun _ => true).
Definition world_with_busy_handler : World :=
  mkWorld
    (S3JniGlobalType.set_perDb_aUsed (Some 0) S3JniGlobalType.zero)
    []
    [S3JniDb.set_hook SlotBusyHandler (S3JniHook.mk (JGlobal 1 7) 1%N)
       (S3JniDb.set_jDb (JGlobal 0 5) (S3JniDb.set_pDb 100%N S3JniDb.zero))]
    (JavaVM.mk [1; 0] 2 8 (<[5:=100%N]> ∅) ∅ false)
    [] 0.


(** One open connection (handle 100, wrapper object 5) whose progress
    handler and whose tracer are the object 7. *)
Definition world_with_progress_and_trace : World :=
  mkWorld
    (S3JniGlobalType.set_perDb_aUsed (Some 0) S3JniGlobalType.zero)
    []
    [S3JniDb.set_hook SlotTrace (S3JniHook.mk (JGlobal 2 7) 1%N)
       (S3JniDb.set_hook SlotProgress (S3JniHook.mk (JGlobal 1 7) 1%N)
          (S3JniDb.set_jDb (JGlobal 0 5) (S3JniDb.set_pDb 100%N S3JniDb.zero)))]
    (JavaVM.mk [2; 1; 0] 3 8 (<[5:=100%N]> ∅) ∅ false)
    [] 0.


(** One open connection (handle 100, wrapper object 5) whose commit hook
    is the object 7. *)
Definition world_with_commit_hook : World :=
  mkWorld
    (S3JniGlobalType.set_perDb_aUsed (Some 0) S3JniGlobalType.zero)
    []
    [S3JniDb.set_hook SlotCommit (S3JniHook.mk (JGlobal 1 7) 1%N)
       (S3JniDb.set_jDb (JGlobal 0 5) (S3JniDb.set_pDb 100%N S3JniDb.zero))]
    (JavaVM.mk [1; 0] 2 8 (<[5:=100%N]> ∅) ∅ false)
    [] 0.

(** The world that [m] leaves behind. *)
Definition world_after {A} (m : M A) (w : World) : World :=
  match m w with
  | Ok _ w' => w'
  | Abort _ => w
  end.

(** The objects 5, 6 and 7 registered as auto-extensions, in this order. *)
Definition world_with_auto_extensions : World :=
  world_after
    (Java_org_sqlite_jni_SQLite3Jni_sqlite3_1auto_1extension env_all_methods (JLocal 7))
    (world_after
       (Java_org_sqlite_jni_SQLite3Jni_sqlite3_1auto_1extension env_all_methods (JLocal 6))
       (world_after
          (Java_org_sqlite_jni_SQLite3Jni_sqlite3_1auto_1extension env_all_methods (JLocal 5))
          World0)).

(** Three auto-extensions as above and the thread 1 about to open a
    connection; the second call into managed code throws. *)
Definition env_second_extension_throws : Env :=
  mkEnv (fun _ _ _ => 1%N)
        (fun n => if (n =? 2)%nat then Threw else Returned 0)
        (fun _ => 0%Z) 1%N
        (fun _ => None) (fun _ => 0%Z) (fun _ => OpenNoHandle)
        (fun _ => true).

Definition world_with_pending_open : World :=
  let E := env_second_extension_throws in
  world_after (s3jni_open_pre E 1%N None)
    (world_after
       (Java_org_sqlite_jni_SQLite3Jni_sqlite3_1auto_1extension E (JLocal 7))
       (world_after
          (Java_org_sqlite_jni_SQLite3Jni_sqlite3_1auto_1extension E (JLocal 6))
          (world_after
             (Java_org_sqlite_jni_SQLite3Jni_sqlite3_1auto_1extension E (JLocal 5))
             World0))).

(** The thread 1 has acquired its row; since then the thread 2 has come
    and gone and the thread 3 has come. *)
Definition world_env_acquired : World :=
  world_after (S3JniGlobal_env_cache env_plain 1%N) World0.
Definition world_env_busy : World :=
  world_after (S3JniGlobal_env_cache env_plain 3%N)
    (world_after (S3JniGlobal_env_uncache 2%N)
       (world_after (S3JniGlobal_env_cache env_plain 2%N)
          world_env_acquired)).

(** A registry in which a first connection (wrapper 5, handle 100) has
    been opened and closed after a second one (wrapper 6) was prepared. *)
Definition world_registry : World :=
  let w1 := world_after (S3JniDb_alloc env_plain 0%N (JLocal 5)) World0 in
  let w2 := set_memDb (alter (S3JniDb.set_pDb 100%N) 0 (memDb w1)) w1 in
  let w3 := world_after (S3JniDb_alloc env_plain 0%N (JLocal 6)) w2 in
  world_after (S3JniDb_set_aside env_plain (Some 0)) w3.


(** * Further notions *)

Local Open Scope list_scope.

(** [w'] differs from [w] as the auto-extension proxy makes it differ:
    in the handle of records, in the slots of rows, in the pointers that
    wrappers hold, in the events and in the metrics. *)
Definition proxied (w w' : World) : Prop :=
  same_but_metrics (SJG w) (SJG w') /\
  map (fun r => (S3JniEnv.env r, S3JniEnv.pPrev r, S3JniEnv.pNext r))
      (memEnv w')
    = map (fun r => (S3JniEnv.env r, S3JniEnv.pPrev r, S3JniEnv.pNext r))
          (memEnv w) /\
  map (fun r => (S3JniDb.pPrev r, S3JniDb.pNext r)) (memDb w')
    = map (fun r => (S3JniDb.pPrev r, S3JniDb.pNext r)) (memDb w) /\
  JavaVM.value (jvm w') = JavaVM.value (jvm w).

(** Which of the two bindings opens the connection: [sqlite3_open()]'s,
    or [sqlite3_open_v2()]'s with its flags and the name of its VFS. *)
Definition open_variant : Type := option (Z * option string).

Definition open_binding (E : Env) (env : JNIEnv) (v : open_variant)
  (strName : option string) (jOut : jobject) : M Z :=
  match v with
  | None => Java_org_sqlite_jni_SQLite3Jni_sqlite3_1open E env strName jOut
  | Some (flags, strVfs) =>
      Java_org_sqlite_jni_SQLite3Jni_sqlite3_1open_1v2 E env strName jOut
        flags strVfs
  end.

(** What the bindings do between [s3jni_open_pre()], when it has
    succeeded, and [s3jni_open_post()]: the result code and the handle
    that they pass on. *)
Definition open_native (E : Env) (env : JNIEnv) (v : open_variant)
  (zName : option string) : M (Z * sqlite3) :=
  match v with
  | None => native_open E env (Native.sqlite3_open zName)
  | Some (flags, strVfs) =>
      let* '(rc, zVfs) :=
        (if bool_decide (strVfs <> None)
         then
           let* zVfs := s3jni_jstring_to_utf8 E strVfs in
           ret (if bool_decide (zVfs = None) then SQLITE_NOMEM else 0%Z, zVfs)
         else ret (0%Z, None)) in
      if (rc =? 0)%Z
      then native_open E env (Native.sqlite3_open_v2 zName flags zVfs)
      else ret (rc, 0%N)
  end.

(** After the failed open of the thread [env], whose row is [jc]: the
    record [ps] made for it is cleared and at the head of the free-list,
    the used-list is [used], the slot of the row is empty and the output
    pointer [oOut] holds null. *)
Definition open_cleaned_up (env : JNIEnv) (w : World) (used : list addr)
  (jc ps : addr) (oOut : objid) : Prop :=
  (exists free, pdb_lists w used (ps :: free)) /\
  (exists r, memDb w !! ps = Some r /\
     S3JniDb.pDb r = 0%N /\ S3JniDb.jDb r = JNull /\
     S3JniDb.zMainDbName r = None /\ S3JniDb.hooks r = Hooks.zero /\
     S3JniDb.pPrev r = None) /\
  (exists row, memEnv w !! jc = Some row /\
     S3JniEnv.env row = env /\ S3JniEnv.pdbOpening row = None) /\
  JavaVM.value (jvm w) !! oOut = Some None.

(** Surroundings in which every native call gives [SQLITE_CANTOPEN] and
    no open yields a connection handle. *)
Definition env_open_fails : Env :=
  mkEnv (fun _ _ _ => 1%N) (fun _ => Returned 0) (fun _ => 0%Z) 1%N
        (fun _ => None)
        (fun _ => 14%Z) (fun _ => OpenNoHandle) (fun _ => true).


(** Surroundings in which the allocation of rank [n] fails. *)
Definition env_oom_at (n : nat) : Env :=
  mkEnv (fun _ _ _ => 1%N) (fun _ => Returned 0) (fun _ => 0%Z) 1%N
        (fun _ => None)
        (fun _ => 0%Z) (fun _ => OpenNoHandle)
        (fun k => negb (k =? n)%nat).


(** A character to which the pattern language gives no meaning. *)
Definition glob_plain (c : Z) : Prop :=
  c <> 0%Z /\ c <> Ch.star /\ c <> Ch.question /\ c <> Ch.lbracket /\
  c <> Ch.hash.

(** The patterns made of plain characters, ['*'] and ['?']. *)
Definition glob_wild (zGlob : cstring) : Prop :=
  Forall (fun c => c = Ch.star \/ c = Ch.question \/ glob_plain c) zGlob.

(** What such a pattern matches: ['*'] any sequence of characters,
    ['?'] exactly one character, a plain character itself. *)
Inductive wild_match : cstring -> cstring -> Prop :=
| wild_end : wild_match [] []
| wild_plain c g z :
    glob_plain c -> wild_match g z -> wild_match (c :: g) (c :: z)
| wild_any c g z :
    wild_match g z -> wild_match (Ch.question :: g) (c :: z)
| wild_star g z1 z2 :
    wild_match g z2 -> wild_match (Ch.star :: g) (z1 ++ z2).

(** A string without [NUL] inside. *)
Definition no_NUL (z : cstring) : Prop := Forall (fun c => c <> 0%Z) z.

(** The members of a character class: single characters and ranges. *)
Inductive class_item :=
| Single (c : Z)
| Range (lo hi : Z).

(** How a member is written. *)
Definition class_chars (it : class_item) : cstring :=
  match it with
  | Single c => [c]
  | Range lo hi => [lo; Ch.minus; hi]
  end.

(** The members that are written with ordinary characters: neither
    [NUL] nor [']'], no ['-'] but the one in the middle of a range, and
    a range that starts at a positive character. *)
Definition class_item_ok (it : class_item) : Prop :=
  match it with
  | Single c => c <> 0%Z /\ c <> Ch.rbracket /\ c <> Ch.minus
  | Range lo hi =>
      (0 < lo)%Z /\ lo <> Ch.rbracket /\ lo <> Ch.minus /\
      hi <> 0%Z /\ hi <> Ch.rbracket
  end.

(** The character [d] is the member, or within the range or its lower
    end. *)
Definition class_item_has (d : Z) (it : class_item) : bool :=
  match it with
  | Single c => (d =? c)%Z
  | Range lo hi => (d =? lo)%Z || ((lo <=? d)%Z && (d <=? hi)%Z)
  end.

Definition class_text (its : list class_item) : cstring :=
  concat (map class_chars its).

(** A class that does not start with ['^']. *)
Definition class_plain_start (its : list class_item) : Prop :=
  peek (class_text its) <> Ch.caret.

(** A run of decimal digits, and one of hexadecimal digits. *)
Definition all_digits (ds : cstring) : Prop :=
  Forall (fun c => sqlite3Isdigit c = true) ds.
Definition all_xdigits (ds : cstring) : Prop :=
  Forall (fun c => sqlite3Isxdigit c = true) ds.

(** No sign, ['-'] or ['+']. *)
Definition is_sign (s : cstring) : Prop :=
  s = [] \/ s = [Ch.minus] \/ s = [Ch.plus].

(** A number [n] in front of [z], as ['#'] reads it: a run of decimal
    digits with an optional sign, that neither a digit nor an [x]
    follows, or ["0x"] or ["0X"] with a run of hexadecimal digits that no
    hexadecimal digit follows. *)
Definition glob_numeral (n z : cstring) : Prop :=
  (exists s ds, n = s ++ ds /\ is_sign s /\ ds <> [] /\ all_digits ds /\
     sqlite3Isdigit (peek z) = false /\ peek z <> Ch.x /\ peek z <> Ch.X) \/
  (exists x hs, n = Ch.zero :: x :: hs /\ (x = Ch.x \/ x = Ch.X) /\
     hs <> [] /\ all_xdigits hs /\ sqlite3Isxdigit (peek z) = false).



(** What the commit or rollback hook proxy adds to the events when the
    callback [o].[mid] throws on the connection [db]. *)
Definition hook_threw_events (o : objid) (mid : jmethodID)
  (heap : gmap objid N) (db : sqlite3) : list event :=
  EvCall o mid [] heap ::
  (if (db =? 0)%N then []
   else [EvNative (Native.sqlite3Error db SQLITE_ERROR
                     (Some "hook callback threw."))]).

(** The code that stands for a call that threw and handed back [v]:
    [v] itself unless it is 0. *)
Definition thrown_code (v : Z) : Z :=
  if (v =? 0)%Z then SQLITE_ERROR else v.

(** What the progress handler proxy adds to the events when the
    handler [o].[mid] throws on the connection [db], the exception
    reads [msg] and the resulting code is [code]. *)
Definition progress_threw_events (o : objid) (mid : jmethodID)
  (heap : gmap objid N) (db : sqlite3) (code : Z) (msg : option string)
  : list event :=
  EvCall o mid [] heap ::
  (if (db =? 0)%N then []
   else [EvNative (Native.sqlite3Error db code
                     (Some (default "sqlite3_progress_handler() callback threw"
                                    msg)))]).



(** What the native open does to the record [ps] of the connection
    that it opens with the handle [h]: the record keeps its wrapper, and
    either it and the pointers of the wrappers are as before, or the
    record and its wrapper have got the handle. *)
Definition bound_at (ps : addr) (h : sqlite3) (w w' : World) : Prop :=
  forall r, memDb w !! ps = Some r ->
  exists r', memDb w' !! ps = Some r' /\
    S3JniDb.jDb r' = S3JniDb.jDb r /\
    ((S3JniDb.pDb r' = S3JniDb.pDb r /\
      JavaVM.nativePointer (jvm w') = JavaVM.nativePointer (jvm w)) \/
     (S3JniDb.pDb r' = h /\
      exists o, obj_of (S3JniDb.jDb r) = Some o /\
                JavaVM.nativePointer (jvm w') !! o = Some h)).

(** The first of the records [l] that has the handle [h]. *)
Fixpoint first_record_of (mem : list S3JniDb.t) (h : sqlite3) (l : list addr)
  : option addr :=
  match l with
  | [] => None
  | a :: l' =>
      match mem !! a with
      | Some r => if (S3JniDb.pDb r =? h)%N then Some a
                  else first_record_of mem h l'
      | None => None
      end
  end.

(** What [S3JniDb_for_db()] finds for the handle [h] that it looks for:
    the first record with that handle, but the head of the used-list
    when the handle is null. *)
Definition for_db_result (mem : list S3JniDb.t) (h : sqlite3)
  (used : list addr) : ptr :=
  if (h =? 0)%N then head used else first_record_of mem h used.

(** Surroundings in which every open yields the connection 100, after
    the auto-extension hook has run. *)
Definition env_opens : Env :=
  mkEnv (fun _ _ _ => 1%N) (fun _ => Returned 0) (fun _ => 0%Z) 1%N
        (fun _ => None)
        (fun _ => 0%Z) (fun _ => OpenHandle 100%N true true) (fun _ => true).

(** What stays when a record is set aside and when one is handed out
    from the free-list: the number of allocations and of records. *)
Definition same_size (w w' : World) : Prop :=
  nAlloc w' = nAlloc w /\ length (memDb w') = length (memDb w).


Definition live_refs (w : World) : list nat := JavaVM.globalRefs (jvm w).


Definition udf_known (E : Env) (o : objid) : bool :=
  exposes E o "xFunc" zFSI
  || (exposes E o "xStep" zFSI && exposes E o "xFinal" zFV).

Definition udf_registration (E : Env) (o : objid) (pDb : sqlite3)
  (z : string) (nArg eTextRep : Z) (s : S3JniUdf.t) : Native.call :=
  if exposes E o "xFunc" zFSI
  then Native.sqlite3_create_function_v2 pDb z nArg eTextRep s true false false
  else if exposes E o "xValue" zFV
  then Native.sqlite3_create_window_function pDb z nArg eTextRep s
  else Native.sqlite3_create_function_v2 pDb z nArg eTextRep s false true true.

Definition holder_pointer (w : World) (j : jobject) : N :=
  match obj_of j with
  | Some o => default 0%N (JavaVM.nativePointer (jvm w) !! o)
  | None => 0%N
  end.


Definition hook_method (k : hook_slot) : string * string :=
  match k with
  | SlotCommit => ("xCommitHook", "()I")
  | SlotRollback => ("xRollbackHook", "()V")
  | SlotPreUpdate =>
      ("xPreUpdate",
       "(Lorg/sqlite/jni/sqlite3;ILjava/lang/String;Ljava/lang/String;JJ)V")
  | _ => ("xUpdateHook", "(ILjava/lang/String;Ljava/lang/String;J)V")
  end.

Definition hook_native (k : hook_slot) (pDb : sqlite3) (p : ptr) : Native.call :=
  match k with
  | SlotCommit => Native.sqlite3_commit_hook pDb p
  | SlotRollback => Native.sqlite3_rollback_hook pDb p
  | SlotPreUpdate => Native.sqlite3_preupdate_hook pDb p
  | _ => Native.sqlite3_update_hook pDb p
  end.

Definition hook_missing_msg (k : hook_slot) : string :=
  match k with
  | SlotCommit | SlotRollback =>
      "Cannot not find matching callback on hook object."
  | _ => "Cannot not find matching callback on (pre)update hook object."
  end.

Definition hook_swap_outcomes (E : Env) (k : hook_slot) (f : M jobject)
  (jHook : jobject) (w : World) (a : addr) (r : S3JniDb.t) : Prop :=
  let pOld := S3JniHook.jObj (S3JniDb.hook k r) in
  let next := JavaVM.nextGlobalRef (jvm w) in
  (jHook = JNull ->
   exists w',
     f w = Ok (REF_L pOld) w' /\
     memDb w' = <[a := S3JniDb.set_hook k S3JniHook.zero r]> (memDb w) /\
     events w' = events w ++ [EvNative (hook_native k (S3JniDb.pDb r) None)] /\
     live_refs w' = released pOld (live_refs w)) /\
  (forall o,
     obj_of jHook = Some o ->
     IsSameObject pOld jHook = false ->
     let mid := jmethod E o (hook_method k).1 (hook_method k).2 in
     if (mid =? 0)%N
     then
       exists w',
         f w = Ok pOld w' /\
         memDb w' = memDb w /\ live_refs w' = live_refs w /\
         events w' = events w ++
           (if (S3JniDb.pDb r =? 0)%N then []
            else [EvNative (Native.sqlite3Error (S3JniDb.pDb r) SQLITE_ERROR
                              (Some (hook_missing_msg k)))]) /\
         JavaVM.exceptionPending (jvm w') = false
     else
       exists w',
         f w = Ok (REF_L pOld) w' /\
         memDb w' =
           <[a := S3JniDb.set_hook k (S3JniHook.mk (JGlobal next o) mid) r]>
             (memDb w) /\
         events w' =
           events w ++ [EvNative (hook_native k (S3JniDb.pDb r) (Some a))] /\
         live_refs w' = released pOld (next :: live_refs w)).


Definition zTraceSig : string := "(ILjava/lang/Object;Ljava/lang/Object;)I".




Definition zAuthSig : string :=
  "(ILjava/lang/String;Ljava/lang/String;Ljava/lang/String;Ljava/lang/String;)I".


Definition zCollationNeededSig : string :=
  "(Lorg/sqlite/jni/sqlite3;ILjava/lang/String;)I".





(** * Properties *)

Local Open Scope list_scope.

(** ** Symbolic execution of the bridge's functions *)

Create HintDb monad.
#[export] Hint Unfold bind ret when fail get modify modify_SJG modify_jvm
  metrics_incr emit getSJG lift deref load_db store_db load_env store_env
  try_alloc ExceptionCheck ExceptionClear EXCEPTION_IGNORE GetMethodID
  CallMethod CallIntMethod CallVoidMethod native REF_G UNREF_G
  NativePointerHolder_set NativePointerHolder_get load_ext store_ext
  s3jni_db_error : monad.
Create HintDb setters.
#[export] Hint Unfold set_SJG set_memEnv set_memDb set_jvm set_events
  set_nAlloc S3JniGlobalType.set_envCache_aHead
  S3JniGlobalType.set_envCache_aFree S3JniGlobalType.set_perDb_aUsed
  S3JniGlobalType.set_perDb_aFree S3JniGlobalType.set_metrics
  S3JniGlobalType.set_autoExt_pExt S3JniGlobalType.set_autoExt_nAlloc
  S3JniGlobalType.set_autoExt_nExt S3JniGlobalType.set_once
  JavaVM.set_globalRefs JavaVM.set_nextGlobalRef JavaVM.set_nextObj
  JavaVM.set_nativePointer JavaVM.set_value JavaVM.set_exceptionPending
  : setters.

#[global] Arguments db_lookup : simpl never.
#[global] Arguments env_lookup : simpl never.
#[global] Arguments autoExt_scan_up : simpl never.
#[global] Arguments autoExt_scan_down : simpl never.

(** One step of symbolic execution: unfold the primitives and compute. *)
Ltac msimpl := autounfold with monad; cbn.
Ltac msimpl_in H := autounfold with monad in H; cbn in H.
(** Case analysis on a condition that the execution is stuck on. *)
Ltac mcase c :=
  let H := fresh "Hc" in
  destruct c eqn:H; msimpl; rewrite ?H; msimpl.

Lemma bind_Ok {A B} (m : M A) (k : A -> M B) w a w' :
  m w = Ok a w' -> bind m k w = k a w'.
Proof. unfold bind. intros ->. reflexivity. Qed.

(** Reading a record back after it has been written. *)
Ltac mload :=
  repeat first
    [ rewrite list_lookup_alter_eq
    | match goal with
      | H : ?m !! ?a = Some _ |- context [?m !! ?a] => rewrite H
      end ];
  cbn [fmap option_fmap option_map].
Ltac mrun := repeat (msimpl; mload).

(** Case analysis on every test that the execution is stuck on. *)
Ltac crunch :=
  repeat (cbn;
    match goal with
    | |- context [match ?x with _ => _ end] =>
        lazymatch x with
        | context [match _ with _ => _ end] => fail
        | _ => destruct x eqn:?; try discriminate
        end
    | |- context [if ?x then _ else _] =>
        lazymatch x with
        | context [match _ with _ => _ end] => fail
        | context [if _ then _ else _] => fail
        | _ => destruct x eqn:?; try discriminate
        end
    end).



(** ** User-defined functions: classification *)

Lemma FGET_run E j o name sig w :
  obj_of j = Some o ->
  FGET E j name sig w =
    Ok (jmethod E o name sig)
       (set_jvm (JavaVM.set_exceptionPending
                   (if (jmethod E o name sig =? 0)%N then false
                    else JavaVM.exceptionPending (jvm w)) (jvm w)) w).
Proof.
  intros Ho. unfold FGET, GetMethodID, bind, when, ret, modify_jvm, modify,
    ExceptionClear. rewrite Ho. cbv zeta.
  destruct (jmethod E o name sig =? 0)%N eqn:Hm; simpl; rewrite Hm; simpl;
    [reflexivity|].
  destruct w as [g me md j' ev na], j'; reflexivity.
Qed.

Lemma S3JniUdf_alloc_run E jObj o w :
  obj_of jObj = Some o ->
  alloc_ok E (nAlloc w) = true ->
  exists s w',
    S3JniUdf_alloc E jObj w = Ok (Some s) w' /\
    S3JniUdf.type s =
      Some (if exposes E o "xFunc" zFSI then UDF_SCALAR
            else if exposes E o "xStep" zFSI && exposes E o "xFinal" zFV
            then (if exposes E o "xValue" zFV then UDF_WINDOW
                  else UDF_AGGREGATE)
            else UDF_UNKNOWN_TYPE) /\
    S3JniUdf.jObj s = JGlobal (JavaVM.nextGlobalRef (jvm w)) o /\
    events w' = events w /\
    SJG w' = SJG w /\ memDb w' = memDb w /\
    JavaVM.nativePointer (jvm w') = JavaVM.nativePointer (jvm w).
Proof.
  intros Ho Ha.
  unfold S3JniUdf_alloc, bind, try_alloc. rewrite Ha.
  unfold REF_G. rewrite Ho. cbv zeta.
  repeat (rewrite (FGET_run E jObj o) by exact Ho; cbv beta iota).
  unfold ret. eexists _, _. split; [reflexivity|].
  unfold exposes. simpl.
  repeat split.
Qed.

Lemma s3jni_call_xDestroy_run E j w :
  exists w',
    s3jni_call_xDestroy E j w = Ok tt w' /\
    events w' = events w ++ xDestroy_calls E j (JavaVM.nativePointer (jvm w)) /\
    memDb w' = memDb w /\ memEnv w' = memEnv w /\ nAlloc w' = nAlloc w /\
    same_but_metrics (SJG w) (SJG w') /\
    JavaVM.globalRefs (jvm w') = JavaVM.globalRefs (jvm w) /\
    JavaVM.nextGlobalRef (jvm w') = JavaVM.nextGlobalRef (jvm w) /\
    JavaVM.nextObj (jvm w') = JavaVM.nextObj (jvm w) /\
    JavaVM.nativePointer (jvm w') = JavaVM.nativePointer (jvm w) /\
    JavaVM.value (jvm w') = JavaVM.value (jvm w).
Proof.
  unfold s3jni_call_xDestroy, xDestroy_calls, same_but_metrics.
  destruct w as [g me md jv ev na], g, jv.
  destruct j as [|o|r o]; msimpl.
  - eexists; split; [reflexivity|]. cbn. rewrite app_nil_r. repeat split.
  - mcase (jmethod E o "xDestroy" "()V" =? 0)%N.
    + eexists; split; [reflexivity|]. cbn. rewrite app_nil_r. repeat split.
    + mcase (jcall E (length ev)); destruct exceptionPending;
        (eexists; split; [reflexivity|]); cbn; repeat split.
  - mcase (jmethod E o "xDestroy" "()V" =? 0)%N.
    + eexists; split; [reflexivity|]. cbn. rewrite app_nil_r. repeat split.
    + mcase (jcall E (length ev)); destruct exceptionPending;
        (eexists; split; [reflexivity|]); cbn; repeat split.
Qed.

Lemma forallb_app_true {A} (f : A -> bool) l1 l2 :
  forallb f l1 = true -> forallb f l2 = true -> forallb f (l1 ++ l2) = true.
Proof. intros H1 H2. rewrite forallb_app, H1, H2. reflexivity. Qed.

Lemma xDestroy_calls_not_registration E j heap :
  forallb (fun e => negb (is_function_registration e))
    (xDestroy_calls E j heap) = true.
Proof.
  unfold xDestroy_calls. destruct (obj_of j) as [o|]; [|reflexivity].
  destruct (jmethod E o "xDestroy" "()V" =? 0)%N; reflexivity.
Qed.

(** C4.  A functor that exposes [xFunc] is classified SCALAR; one that
    exposes [xStep] and [xFinal] but not [xFunc] is AGGREGATE, or WINDOW
    when it also exposes [xValue]; any other functor is UNKNOWN, and its
    registration fails with SQLITE_MISUSE without any function being
    registered with the engine. *)
Theorem udf_classification E jFunctor o w :
  obj_of jFunctor = Some o ->
  alloc_ok E (nAlloc w) = true ->
  (exists s w',
     S3JniUdf_alloc E jFunctor w = Ok (Some s) w' /\
     (exposes E o "xFunc" zFSI = true ->
      S3JniUdf.type s = Some UDF_SCALAR) /\
     (exposes E o "xFunc" zFSI = false ->
      exposes E o "xStep" zFSI = true -> exposes E o "xFinal" zFV = true ->
      S3JniUdf.type s =
        Some (if exposes E o "xValue" zFV then UDF_WINDOW
              else UDF_AGGREGATE)) /\
     (exposes E o "xFunc" zFSI = false ->
      exposes E o "xStep" zFSI && exposes E o "xFinal" zFV = false ->
      S3JniUdf.type s = Some UDF_UNKNOWN_TYPE)) /\
  (exposes E o "xFunc" zFSI = false ->
   exposes E o "xStep" zFSI && exposes E o "xFinal" zFV = false ->
   forall jDb jFuncName nArg eTextRep,
     encodingTypeIsValid eTextRep = true ->
     exists w' evs,
       Java_org_sqlite_jni_SQLite3Jni_sqlite3_1create_1function
         E jDb jFuncName nArg eTextRep jFunctor w = Ok SQLITE_MISUSE w' /\
       events w' = events w ++ evs /\
       forallb (fun e => negb (is_function_registration e)) evs = true).
Proof.
  intros Ho Ha.
  destruct (S3JniUdf_alloc_run E jFunctor o w Ho Ha)
    as (s & w1 & Hrun & Hty & Hj & Hev & Hg & Hmd & Hnp).
  split.
  - exists s, w1. split; [exact Hrun|]. rewrite Hty.
    split; [|split].
    + intros ->. reflexivity.
    + intros -> -> ->. reflexivity.
    + intros -> ->. reflexivity.
  - intros Hf Hsf jDb jFuncName nArg eTextRep Henc.
    rewrite Hf, Hsf in Hty.
    unfold Java_org_sqlite_jni_SQLite3Jni_sqlite3_1create_1function.
    assert (Hget : exists p, NativePointerHolder_get jDb w = Ok p w).
    { unfold NativePointerHolder_get. destruct (obj_of jDb); eexists; reflexivity. }
    destruct Hget as [pDb Hget].
    rewrite (bind_Ok _ _ _ _ _ Hget). rewrite Henc. cbn [negb].
    rewrite (bind_Ok _ _ _ _ _ Hrun). rewrite Hty.
    destruct (s3jni_call_xDestroy_run E (S3JniUdf.jObj s)
                (if (pDb =? 0)%N then w1
                 else set_events (events w1 ++
                        [EvNative (Native.sqlite3Error pDb SQLITE_MISUSE
                           (Some "Cannot unambiguously determine function type."))]) w1))
      as (w2 & Hx & Hev2 & _).
    unfold S3JniUdf_free.
    destruct (pDb =? 0)%N eqn:Hp.
    + msimpl. rewrite Hp. msimpl. unfold bind in *. rewrite Hx. rewrite Hj. msimpl.
      eexists _, _. split; [reflexivity|]. cbn. rewrite Hev2, Hev.
      split; [reflexivity|]. apply xDestroy_calls_not_registration.
    + msimpl. rewrite Hp. msimpl. unfold bind in *. rewrite Hx. rewrite Hj. msimpl.
      eexists _, _. split; [reflexivity|]. cbn. rewrite Hev2. cbn. rewrite Hev.
      rewrite <- app_assoc.
      split; [reflexivity|]. cbn. apply xDestroy_calls_not_registration.
Qed.

Lemma udf_classification_witness :
  exists w',
    Java_org_sqlite_jni_SQLite3Jni_sqlite3_1create_1function
      env_plain JNull (Some "f") 1 SQLITE_UTF8 (JLocal 0) World0
    = Ok SQLITE_MISUSE w'.
Proof.
  destruct (udf_classification env_plain (JLocal 0) 0 World0 eq_refl eq_refl)
    as [_ H].
  destruct (H eq_refl eq_refl JNull (Some "f") 1%Z SQLITE_UTF8 eq_refl)
    as (w' & evs & Hrun & _).
  exists w'. exact Hrun.
Defined.

(** ** Collations: a comparison callback that throws *)

(** C8, as amended.  When the managed [xCompare] callback throws, the
    comparison proxy clears the exception and returns to the native
    engine the value that [CallIntMethod] handed back for the call that
    threw: the proxy does not set its result itself.  On a virtual
    machine where such a call hands back 0 the result is 0, the operands
    comparing as equal. *)
Theorem xCompare_throw_returns_call_value E pArg lhs rhs w ps o :
  memDb w !! pArg = Some ps ->
  obj_of (S3JniHook.jObj (S3JniDb.hook SlotCollation ps)) = Some o ->
  alloc_ok E (nAlloc w) = true ->
  alloc_ok E (S (nAlloc w)) = true ->
  jcall E (length (events w)) = Threw ->
  exists w',
    CollationState_xCompare E pArg lhs rhs w
    = Ok (jthrown E (length (events w))) w' /\
    (jthrown E (length (events w)) = 0%Z ->
     CollationState_xCompare E pArg lhs rhs w = Ok 0%Z w') /\
    JavaVM.exceptionPending (jvm w') = false /\
    events w' =
      events w ++
      [EvCall o (S3JniHook.midCallback (S3JniDb.hook SlotCollation ps))
         [VBytes lhs; VBytes rhs] (JavaVM.nativePointer (jvm w))] /\
    memDb w' = memDb w /\ SJG w' = SJG w.
Proof.
  intros Hps Ho Ha1 Ha2 Hthrow.
  unfold CollationState_xCompare. msimpl.
  rewrite Hps. msimpl. rewrite Ha1. msimpl. rewrite Ha2. msimpl.
  cbn in Ho. rewrite Ho. msimpl. rewrite Hthrow. msimpl.
  eexists. split; [reflexivity|].
  split; [intros ->; reflexivity|]. cbn. repeat split.
Qed.

Lemma xCompare_throw_returns_call_value_witness :
  exists w',
    CollationState_xCompare env_throwing 0 [1%N] [2%N] world_with_collation
    = Ok 0%Z w' /\
    JavaVM.exceptionPending (jvm w') = false.
Proof.
  destruct (xCompare_throw_returns_call_value env_throwing 0 [1%N] [2%N]
              world_with_collation _ 7 eq_refl eq_refl eq_refl eq_refl eq_refl)
    as (w' & _ & Hrun & Hclear & _).
  exists w'. split; [exact (Hrun eq_refl)|exact Hclear].
Defined.

(** C8, the claim as it was made: on a virtual machine whose throwing
    call hands back 7, the [xCompare] that throws makes the proxy return
    7, not 0, with the exception cleared. *)
Lemma xCompare_throw_counterexample :
  jcall (env_throwing_with 7) 0 = Threw /\
  exists w',
    CollationState_xCompare (env_throwing_with 7) 0 [1%N] [2%N]
      world_with_collation = Ok 7%Z w' /\
    JavaVM.exceptionPending (jvm w') = false /\
    length (events w') = 1.
Proof.
  split; [reflexivity|]. eexists. vm_compute. repeat split.
Qed.

(** ** Hooks: teardown *)

Lemma same_but_metrics_refl g : same_but_metrics g g.
Proof. destruct g; reflexivity. Qed.

Lemma same_but_metrics_trans g1 g2 g3 :
  same_but_metrics g1 g2 -> same_but_metrics g2 g3 -> same_but_metrics g1 g3.
Proof.
  unfold same_but_metrics. intros H1 H2. rewrite H2, H1.
  destruct g1, g3; reflexivity.
Qed.

Lemma same_but_metrics_incr k g :
  same_but_metrics g
    (S3JniGlobalType.set_metrics (s3jni_incr k (S3JniGlobalType.metrics g)) g).
Proof. destruct g; reflexivity. Qed.

Lemma S3JniDb_for_db_run jDb w p w0 :
  S3JniDb_for_db jDb 0%N w = Ok p w0 ->
  w0 = (if nonnull jDb then pdb_mutex_entered w else w).
Proof.
  unfold S3JniDb_for_db, pdb_mutex_entered.
  destruct jDb as [|o|r o]; msimpl.
  - intros [= _ <-]. reflexivity.
  - match goal with |- context [db_lookup ?f ?m ?s ?q] =>
      destruct (db_lookup f m s q) end; msimpl; [discriminate|].
    intros [= _ <-]. reflexivity.
  - match goal with |- context [db_lookup ?f ?m ?s ?q] =>
      destruct (db_lookup f m s q) end; msimpl; [discriminate|].
    intros [= _ <-]. reflexivity.
Qed.

Lemma S3JniHook_unref_run E a k d w r :
  memDb w !! a = Some r ->
  exists w',
    S3JniHook_unref E a k d w = Ok tt w' /\
    events w' =
      events w ++
      (if d then xDestroy_calls E (S3JniHook.jObj (S3JniDb.hook k r))
                  (JavaVM.nativePointer (jvm w))
       else []) /\
    memDb w' = alter (S3JniDb.set_hook k S3JniHook.zero) a (memDb w) /\
    JavaVM.globalRefs (jvm w') =
      released (S3JniHook.jObj (S3JniDb.hook k r)) (JavaVM.globalRefs (jvm w)) /\
    same_heap (jvm w) (jvm w') /\
    same_but_metrics (SJG w) (SJG w') /\
    memEnv w' = memEnv w /\ nAlloc w' = nAlloc w.
Proof.
  intros Hr. unfold S3JniHook_unref.
  unfold bind at 1. unfold load_db at 1. rewrite Hr.
  set (j := S3JniHook.jObj (S3JniDb.hook k r)).
  destruct (s3jni_call_xDestroy_run E j w)
    as (w1 & Hx & Hev & Hmd & Hme & Hna & Hg & Hrefs & Hngr & Hno & Hnp & Hval).
  assert (Hwhen : exists w1',
    when (d && nonnull j) (s3jni_call_xDestroy E j) w = Ok tt w1' /\
    events w1' = events w ++
      (if d then xDestroy_calls E j (JavaVM.nativePointer (jvm w)) else []) /\
    memDb w1' = memDb w /\ memEnv w1' = memEnv w /\ nAlloc w1' = nAlloc w /\
    same_but_metrics (SJG w) (SJG w1') /\
    JavaVM.globalRefs (jvm w1') = JavaVM.globalRefs (jvm w) /\
    same_heap (jvm w) (jvm w1')).
  { destruct d; cbn [andb].
    - destruct j as [|o|x o] eqn:Hj; cbn [nonnull is_null negb when].
      + exists w. unfold ret, xDestroy_calls. cbn. rewrite app_nil_r.
        repeat split. apply same_but_metrics_refl.
      + exists w1. repeat split; assumption.
      + exists w1. repeat split; assumption.
    - exists w. unfold when, ret. rewrite app_nil_r. repeat split.
      apply same_but_metrics_refl. }
  destruct Hwhen as (w1' & Hw & Hev' & Hmd' & Hme' & Hna' & Hg' & Hrefs' & Hh').
  rewrite (bind_Ok _ _ _ _ _ Hw).
  assert (Hu : exists w2, UNREF_G j w1' = Ok tt w2 /\
    events w2 = events w1' /\ memDb w2 = memDb w1' /\ memEnv w2 = memEnv w1' /\
    nAlloc w2 = nAlloc w1' /\ SJG w2 = SJG w1' /\
    JavaVM.globalRefs (jvm w2) = released j (JavaVM.globalRefs (jvm w1')) /\
    same_heap (jvm w1') (jvm w2)).
  { destruct j; msimpl; eexists; (split; [reflexivity|]); cbn;
      repeat split. }
  destruct Hu as (w2 & Hu & Hev2 & Hmd2 & Hme2 & Hna2 & Hg2 & Hrefs2 & Hh2).
  rewrite (bind_Ok _ _ _ _ _ Hu).
  unfold store_db. rewrite Hmd2, Hmd', Hr.
  eexists. split; [reflexivity|]. cbn.
  rewrite Hev2, Hev', Hrefs2, Hrefs', Hg2, Hme2, Hme', Hna2, Hna'.
  repeat split; try assumption.
  all: destruct Hh' as (? & ? & ? & ?), Hh2 as (? & ? & ? & ?); congruence.
Qed.

Lemma set_hook_same k v s : S3JniDb.hook k (S3JniDb.set_hook k v s) = v.
Proof. destruct s as [? ? ? [] ? ?], k; reflexivity. Qed.

Lemma set_hook_other k k' v s :
  k' <> k -> S3JniDb.hook k' (S3JniDb.set_hook k v s) = S3JniDb.hook k' s.
Proof. destruct s as [? ? ? [] ? ?], k, k'; try reflexivity; congruence. Qed.

(** ** The busy timeout *)

(** C9.  On a connection whose record is found, the busy-timeout
    operation tears the managed busy handler down before it calls the
    native busy timeout: [xDestroy()] is called on it (when it has that
    method), its global reference is released and the slot is cleared;
    the other slots, the other fields of the record and the other records
    stay as they are.  When no record is found the operation returns
    SQLITE_MISUSE and the state is that left by the lookup. *)
Theorem busy_timeout_unsets_busy_handler E jDb ms w :
  (forall a r w0,
     S3JniDb_for_db jDb 0%N w = Ok (Some a) w0 ->
     memDb w !! a = Some r ->
     let h := S3JniHook.jObj (S3JniDb.hook SlotBusyHandler r) in
     let calls := xDestroy_calls E h (JavaVM.nativePointer (jvm w)) in
     exists w' r',
       Java_org_sqlite_jni_SQLite3Jni_sqlite3_1busy_1timeout E jDb ms w
       = Ok (native_rc E (length (events w ++ calls))) w' /\
       events w' =
         events w ++ calls ++
         [EvNative (Native.sqlite3_busy_timeout (S3JniDb.pDb r) ms)] /\
       JavaVM.globalRefs (jvm w') = released h (JavaVM.globalRefs (jvm w)) /\
       memDb w' !! a = Some r' /\
       S3JniDb.hook SlotBusyHandler r' = S3JniHook.zero /\
       (forall k, k <> SlotBusyHandler -> S3JniDb.hook k r' = S3JniDb.hook k r) /\
       S3JniDb.pDb r' = S3JniDb.pDb r /\ S3JniDb.jDb r' = S3JniDb.jDb r /\
       S3JniDb.zMainDbName r' = S3JniDb.zMainDbName r /\
       S3JniDb.pNext r' = S3JniDb.pNext r /\ S3JniDb.pPrev r' = S3JniDb.pPrev r /\
       (forall b, b <> a -> memDb w' !! b = memDb w !! b) /\
       length (memDb w') = length (memDb w) /\
       same_heap (jvm w) (jvm w') /\ same_but_metrics (SJG w) (SJG w') /\
       memEnv w' = memEnv w) /\
  (forall w0,
     S3JniDb_for_db jDb 0%N w = Ok None w0 ->
     Java_org_sqlite_jni_SQLite3Jni_sqlite3_1busy_1timeout E jDb ms w
     = Ok SQLITE_MISUSE w0 /\
     w0 = (if nonnull jDb then pdb_mutex_entered w else w)).
Proof.
  split.
  - intros a r w0 Hfind Hr h calls.
    pose proof (S3JniDb_for_db_run _ _ _ _ Hfind) as Hw0.
    assert (Hr0 : memDb w0 !! a = Some r).
    { rewrite Hw0. destruct (nonnull jDb); exact Hr. }
    destruct (S3JniHook_unref_run E a SlotBusyHandler true w0 r Hr0)
      as (w1 & Hun & Hev & Hmd & Hrefs & Hheap & Hg & Hme & Hna).
    unfold Java_org_sqlite_jni_SQLite3Jni_sqlite3_1busy_1timeout.
    rewrite (bind_Ok _ _ _ _ _ Hfind). rewrite (bind_Ok _ _ _ _ _ Hun).
    assert (Hr1 : memDb w1 !! a = Some (S3JniDb.set_hook SlotBusyHandler S3JniHook.zero r)).
    { rewrite Hmd, list_lookup_alter_eq, Hr0. reflexivity. }
    msimpl. rewrite Hr1. msimpl.
    assert (Hsame : events w0 = events w /\ jvm w0 = jvm w /\ memDb w0 = memDb w
                    /\ memEnv w0 = memEnv w /\ same_but_metrics (SJG w) (SJG w0)).
    { rewrite Hw0. destruct (nonnull jDb); cbn; repeat split;
        first [apply same_but_metrics_incr | apply same_but_metrics_refl]. }
    destruct Hsame as (He0 & Hj0 & Hm0 & Hme0 & Hg0).
    rewrite Hj0, He0 in Hev. rewrite Hj0 in Hrefs, Hheap.
    rewrite Hev.
    eexists _, _. split; [reflexivity|].
    cbn. rewrite <- app_assoc. split; [reflexivity|].
    split; [exact Hrefs|]. split; [exact Hr1|].
    split; [exact (set_hook_same SlotBusyHandler S3JniHook.zero r)|].
    split; [intros k Hk; exact (set_hook_other SlotBusyHandler k _ r Hk)|].
    do 5 (split; [reflexivity|]).
    split.
    { intros b Hb. rewrite Hmd, list_lookup_alter_ne by congruence.
      rewrite Hm0. reflexivity. }
    split.
    { rewrite Hmd, length_alter, Hm0. reflexivity. }
    split; [exact Hheap|]. split; [|congruence].
    eapply same_but_metrics_trans; eassumption.
  - intros w0 Hfind.
    unfold Java_org_sqlite_jni_SQLite3Jni_sqlite3_1busy_1timeout.
    rewrite (bind_Ok _ _ _ _ _ Hfind). split; [reflexivity|].
    eapply S3JniDb_for_db_run; eassumption.
Qed.

Lemma busy_timeout_unsets_busy_handler_witness :
  exists w' r',
    Java_org_sqlite_jni_SQLite3Jni_sqlite3_1busy_1timeout
      env_all_methods (JLocal 5) 1000 world_with_busy_handler = Ok 0%Z w' /\
    events w' =
      [EvCall 7 1%N [] (<[5:=100%N]> ∅);
       EvNative (Native.sqlite3_busy_timeout 100%N 1000)] /\
    JavaVM.globalRefs (jvm w') = [0] /\
    memDb w' !! 0 = Some r' /\
    S3JniDb.hook SlotBusyHandler r' = S3JniHook.zero.
Proof.
  destruct (proj1 (busy_timeout_unsets_busy_handler env_all_methods (JLocal 5)
                     1000 world_with_busy_handler)
              0 _ _ eq_refl eq_refl)
    as (w' & r' & Hrun & Hev & Hrefs & Hr' & Hbusy & _).
  exists w', r'. repeat split; assumption.
Defined.

(** ** Hooks: registration *)

Lemma for_db_found jDb w a w0 r :
  S3JniDb_for_db jDb 0%N w = Ok (Some a) w0 ->
  memDb w !! a = Some r ->
  memDb w0 !! a = Some r /\ events w0 = events w /\ jvm w0 = jvm w /\
  memDb w0 = memDb w /\ memEnv w0 = memEnv w /\ nAlloc w0 = nAlloc w /\
  same_but_metrics (SJG w) (SJG w0).
Proof.
  intros Hfind Hr. rewrite (S3JniDb_for_db_run _ _ _ _ Hfind).
  destruct (nonnull jDb); cbn; repeat split; try assumption;
    first [apply same_but_metrics_incr | apply same_but_metrics_refl].
Qed.

Lemma commit_rollback_hook_returns_old E (isCommit : bool) jDb jHook w a r w0 :
  S3JniDb_for_db jDb 0%N w = Ok (Some a) w0 ->
  memDb w !! a = Some r ->
  let k := if isCommit then SlotCommit else SlotRollback in
  let pOld := S3JniHook.jObj (S3JniDb.hook k r) in
  exists res w',
    s3jni_commit_rollback_hook E isCommit jDb jHook w = Ok res w' /\
    obj_of res = obj_of pOld /\
    (nonnull pOld = true -> nonnull jHook = true ->
     IsSameObject pOld jHook = true -> res = pOld /\ w' = w0).
Proof.
  intros Hfind Hr k pOld.
  destruct (for_db_found _ _ _ _ _ Hfind Hr) as (Hr0 & _).
  unfold s3jni_commit_rollback_hook.
  rewrite (bind_Ok _ _ _ _ _ Hfind). fold k.
  unfold bind at 1. unfold load_db at 1. rewrite Hr0. fold pOld.
  destruct (nonnull pOld && nonnull jHook && IsSameObject pOld jHook) eqn:Hsame.
  { eexists _, _. split; [reflexivity|]. split; [reflexivity|]. auto. }
  assert (Hno : ~ (nonnull pOld = true /\ nonnull jHook = true /\
                   IsSameObject pOld jHook = true)).
  { intros (H1 & H2 & H3). rewrite H1, H2, H3 in Hsame. discriminate. }
  destruct jHook as [|oh|rh oh]; cbn [is_null].
  - (* deregistration *)
    destruct pOld as [|oo|ro oo]; mrun;
      (eexists _, _; split; [reflexivity|]; split; [reflexivity|]);
      intros; exfalso; apply Hno; auto.
  - unfold localize_old. mrun.
    destruct (jmethod E oh (if isCommit then "xCommitHook" else "xRollbackHook")
                (if isCommit then "()I" else "()V") =? 0)%N eqn:Hm; mrun.
    all: destruct (S3JniDb.pDb r =? 0)%N eqn:Hp; mrun.
    all: destruct (JavaVM.exceptionPending (jvm w0)) eqn:Hex; mrun.
    all: destruct pOld as [|oo|ro oo]; mrun.
    all: (eexists _, _; split; [reflexivity|]; split; [reflexivity|]).
    all: intros; exfalso; apply Hno; auto.
  - unfold localize_old. mrun.
    destruct (jmethod E oh (if isCommit then "xCommitHook" else "xRollbackHook")
                (if isCommit then "()I" else "()V") =? 0)%N eqn:Hm; mrun.
    all: destruct (S3JniDb.pDb r =? 0)%N eqn:Hp; mrun.
    all: destruct (JavaVM.exceptionPending (jvm w0)) eqn:Hex; mrun.
    all: destruct pOld as [|oo|ro oo]; mrun.
    all: (eexists _, _; split; [reflexivity|]; split; [reflexivity|]).
    all: intros; exfalso; apply Hno; auto.
Qed.

Lemma updatepre_hook_returns_old E (isPre : bool) jDb jHook w a r w0 :
  S3JniDb_for_db jDb 0%N w = Ok (Some a) w0 ->
  memDb w !! a = Some r ->
  let k := if isPre then SlotPreUpdate else SlotUpdate in
  let pOld := S3JniHook.jObj (S3JniDb.hook k r) in
  exists res w',
    s3jni_updatepre_hook E isPre jDb jHook w = Ok res w' /\
    obj_of res = obj_of pOld /\
    (nonnull pOld = true -> nonnull jHook = true ->
     IsSameObject pOld jHook = true -> res = pOld /\ w' = w0).
Proof.
  intros Hfind Hr k pOld.
  destruct (for_db_found _ _ _ _ _ Hfind Hr) as (Hr0 & _).
  unfold s3jni_updatepre_hook.
  rewrite (bind_Ok _ _ _ _ _ Hfind). fold k.
  unfold bind at 1. unfold load_db at 1. rewrite Hr0. fold pOld.
  destruct (nonnull pOld && nonnull jHook && IsSameObject pOld jHook) eqn:Hsame.
  { eexists _, _. split; [reflexivity|]. split; [reflexivity|]. auto. }
  assert (Hno : ~ (nonnull pOld = true /\ nonnull jHook = true /\
                   IsSameObject pOld jHook = true)).
  { intros (H1 & H2 & H3). rewrite H1, H2, H3 in Hsame. discriminate. }
  destruct jHook as [|oh|rh oh]; cbn [is_null].
  - destruct pOld as [|oo|ro oo]; mrun;
      (eexists _, _; split; [reflexivity|]; split; [reflexivity|]);
      intros; exfalso; apply Hno; auto.
  - unfold localize_old. destruct isPre; mrun.
    all: match goal with |- context [(jmethod ?e ?o ?n ?s =? 0)%N] =>
           destruct (jmethod e o n s =? 0)%N eqn:Hm end; mrun.
    all: destruct (S3JniDb.pDb r =? 0)%N eqn:Hp; mrun.
    all: destruct (JavaVM.exceptionPending (jvm w0)) eqn:Hex; mrun.
    all: destruct pOld as [|oo|ro oo]; mrun.
    all: (eexists _, _; split; [reflexivity|]; split; [reflexivity|]).
    all: intros; exfalso; apply Hno; auto.
  - unfold localize_old. destruct isPre; mrun.
    all: match goal with |- context [(jmethod ?e ?o ?n ?s =? 0)%N] =>
           destruct (jmethod e o n s =? 0)%N eqn:Hm end; mrun.
    all: destruct (S3JniDb.pDb r =? 0)%N eqn:Hp; mrun.
    all: destruct (JavaVM.exceptionPending (jvm w0)) eqn:Hex; mrun.
    all: destruct pOld as [|oo|ro oo]; mrun.
    all: (eexists _, _; split; [reflexivity|]; split; [reflexivity|]).
    all: intros; exfalso; apply Hno; auto.
Qed.

Lemma same_object_nonnull (a b : jobject) :
  nonnull a = true -> IsSameObject a b = true -> nonnull b = true.
Proof.
  unfold IsSameObject. intros Ha Hs. apply bool_decide_eq_true in Hs.
  destruct a, b; try discriminate; reflexivity.
Qed.

(** C6: registering the object that a slot already holds.  On a
    connection whose record is found, for the busy-handler, commit,
    rollback, update, pre-update, authorizer and collation-needed slots:
    when the slot holds a non-null object that is the same object as [o],
    registering [o] succeeds (with code 0 or, for the bindings that
    return the previous hook, with the object held) and changes nothing:
    the records, and so the stored reference and method, are as before,
    no global reference is taken or released, and no method of the object
    is called. *)
Theorem same_object_registration_is_noop E k jDb o arg w a r w0 :
  k ∈ [SlotBusyHandler; SlotCommit; SlotRollback; SlotUpdate; SlotPreUpdate;
       SlotAuth; SlotCollationNeeded] ->
  S3JniDb_for_db jDb 0%N w = Ok (Some a) w0 ->
  memDb w !! a = Some r ->
  nonnull (S3JniHook.jObj (S3JniDb.hook k r)) = true ->
  IsSameObject (S3JniHook.jObj (S3JniDb.hook k r)) o = true ->
  reregistration_is_noop E k jDb o arg w a.
Proof.
  intros Hk Hfind Hr Hnn Hsame reg Hreg.
  pose proof (same_object_nonnull _ _ Hnn Hsame) as Ho.
  destruct (for_db_found _ _ _ _ _ Hfind Hr) as (Hr0 & He0 & Hj0 & Hm0 & _).
  rewrite Hr. cbn [fmap option_fmap option_map].
  assert (Hcr : forall isCommit, k = (if isCommit : bool then SlotCommit else SlotRollback) ->
            s3jni_commit_rollback_hook E isCommit jDb o w
            = Ok (S3JniHook.jObj (S3JniDb.hook k r)) w0).
  { intros isCommit ->.
    destruct (commit_rollback_hook_returns_old E isCommit jDb o w a r w0 Hfind Hr)
      as (res & w' & Hrun & _ & Hs).
    destruct (Hs Hnn Ho Hsame) as [-> ->]. exact Hrun. }
  assert (Hup : forall isPre, k = (if isPre : bool then SlotPreUpdate else SlotUpdate) ->
            s3jni_updatepre_hook E isPre jDb o w
            = Ok (S3JniHook.jObj (S3JniDb.hook k r)) w0).
  { intros isPre ->.
    destruct (updatepre_hook_returns_old E isPre jDb o w a r w0 Hfind Hr)
      as (res & w' & Hrun & _ & Hs).
    destruct (Hs Hnn Ho Hsame) as [-> ->]. exact Hrun. }
  repeat (apply elem_of_cons in Hk; destruct Hk as [->|Hk]);
    [..|apply elem_of_nil in Hk; destruct Hk];
    injection Hreg as <-.
  - (* busy handler *)
    unfold Java_org_sqlite_jni_SQLite3Jni_sqlite3_1busy_1handler.
    unfold bind at 1. rewrite (bind_Ok _ _ _ _ _ Hfind).
    rewrite Ho.
    unfold bind at 1. unfold load_db at 1. rewrite Hr0.
    rewrite Hnn, Hsame. cbn.
    eexists _, _. split; [reflexivity|]. repeat split; congruence.
  - unfold Java_org_sqlite_jni_SQLite3Jni_sqlite3_1commit_1hook.
    rewrite (bind_Ok _ _ _ _ _ (Hcr true eq_refl)).
    eexists _, _. split; [reflexivity|]. cbn. repeat split; congruence.
  - unfold Java_org_sqlite_jni_SQLite3Jni_sqlite3_1rollback_1hook.
    rewrite (bind_Ok _ _ _ _ _ (Hcr false eq_refl)).
    eexists _, _. split; [reflexivity|]. cbn. repeat split; congruence.
  - unfold Java_org_sqlite_jni_SQLite3Jni_sqlite3_1update_1hook.
    rewrite (bind_Ok _ _ _ _ _ (Hup false eq_refl)).
    eexists _, _. split; [reflexivity|]. cbn. repeat split; congruence.
  - unfold Java_org_sqlite_jni_SQLite3Jni_sqlite3_1preupdate_1hook.
    rewrite (bind_Ok _ _ _ _ _ (Hup true eq_refl)).
    eexists _, _. split; [reflexivity|]. cbn. repeat split; congruence.
  - (* authorizer *)
    unfold Java_org_sqlite_jni_SQLite3Jni_sqlite3_1set_1authorizer.
    unfold bind at 1. rewrite (bind_Ok _ _ _ _ _ Hfind).
    assert (Hn : is_null o = false) by (apply negb_true_iff; exact Ho).
    rewrite Hn.
    unfold bind at 1. unfold load_db at 1. rewrite Hr0.
    rewrite Hnn, Hsame. cbn.
    eexists _, _. split; [reflexivity|]. repeat split; congruence.
  - (* collation needed *)
    unfold Java_org_sqlite_jni_SQLite3Jni_sqlite3_1collation_1needed.
    unfold bind at 1. rewrite (bind_Ok _ _ _ _ _ Hfind).
    unfold bind at 1. unfold load_db at 1. rewrite Hr0.
    rewrite Hnn, Ho, Hsame. cbn.
    eexists _, _. split; [reflexivity|]. repeat split; congruence.
Qed.

Lemma progress_handler_stores_fresh_reference E jDb n o oid w a r w0 :
  S3JniDb_for_db jDb 0%N w = Ok (Some a) w0 ->
  memDb w !! a = Some r ->
  (1 <= n)%Z ->
  obj_of o = Some oid ->
  jmethod E oid "xCallback" "()I" <> 0%N ->
  JavaVM.exceptionPending (jvm w) = false ->
  exists w',
    Java_org_sqlite_jni_SQLite3Jni_sqlite3_1progress_1handler E jDb n o w
    = Ok tt w' /\
    memDb w' !! a =
      Some (S3JniDb.set_hook SlotProgress
              (S3JniHook.mk (JGlobal (JavaVM.nextGlobalRef (jvm w)) oid)
                 (jmethod E oid "xCallback" "()I")) r) /\
    JavaVM.globalRefs (jvm w') =
      JavaVM.nextGlobalRef (jvm w)
      :: released (S3JniHook.jObj (S3JniDb.hook SlotProgress r))
           (JavaVM.globalRefs (jvm w)).
Proof.
  intros Hfind Hr Hn Ho Hm Hex.
  destruct (for_db_found _ _ _ _ _ Hfind Hr) as (Hr0 & He0 & Hj0 & Hm0 & _).
  unfold Java_org_sqlite_jni_SQLite3Jni_sqlite3_1progress_1handler.
  rewrite (bind_Ok _ _ _ _ _ Hfind).
  assert (Hlt : (n <? 1)%Z = false) by (apply Z.ltb_ge; exact Hn).
  assert (Hnull : is_null o = false) by (destruct o; [discriminate|reflexivity..]).
  rewrite Hlt, Hnull. cbn [orb deref].
  apply N.eqb_neq in Hm.
  rewrite <- Hj0 in Hex |- *.
  destruct (S3JniHook.jObj (S3JniDb.hook SlotProgress r)) as [|oo|ro oo] eqn:Hold;
    mrun; rewrite Ho; mrun; rewrite Hm; mrun; rewrite Hex; mrun;
    cbn in Hold; rewrite Hold; mrun;
    (eexists; split; [reflexivity|]); cbn; mload; split;
    try reflexivity; destruct r as [? ? ? [] ? ?]; reflexivity.
Qed.

Lemma trace_v2_stores_fresh_reference E jDb mask o oid w a r w0 :
  S3JniDb_for_db jDb 0%N w = Ok (Some a) w0 ->
  memDb w !! a = Some r ->
  mask <> 0%Z ->
  obj_of o = Some oid ->
  jmethod E oid "xCallback" "(ILjava/lang/Object;Ljava/lang/Object;)I" <> 0%N ->
  JavaVM.exceptionPending (jvm w) = false ->
  exists rc w',
    Java_org_sqlite_jni_SQLite3Jni_sqlite3_1trace_1v2 E jDb mask o w
    = Ok rc w' /\
    memDb w' !! a =
      Some (S3JniDb.set_hook SlotTrace
              (S3JniHook.mk (JGlobal (JavaVM.nextGlobalRef (jvm w)) oid)
                 (jmethod E oid "xCallback"
                    "(ILjava/lang/Object;Ljava/lang/Object;)I")) r).
Proof.
  intros Hfind Hr Hn Ho Hm Hex.
  destruct (for_db_found _ _ _ _ _ Hfind Hr) as (Hr0 & He0 & Hj0 & Hm0 & _).
  unfold Java_org_sqlite_jni_SQLite3Jni_sqlite3_1trace_1v2.
  rewrite (bind_Ok _ _ _ _ _ Hfind).
  assert (Hz : (mask =? 0)%Z = false) by (apply Z.eqb_neq; exact Hn).
  assert (Hnull : is_null o = false) by (destruct o; [discriminate|reflexivity..]).
  rewrite Hz, Hnull. cbn [orb].
  apply N.eqb_neq in Hm.
  rewrite <- Hj0 in Hex |- *.
  mrun; rewrite Ho; mrun; rewrite Hm; mrun; rewrite Hex; mrun.
  eexists _, _; split; [reflexivity|]. cbn. mload.
  destruct r as [? ? ? [] ? ?]; reflexivity.
Qed.

(** The claim that registering the same object again is a no-op on
    every slot fails on the progress and the trace slots: there the
    binding stores a new global reference (3) to the object, in place of
    the one the slot held (1, which it releases, and 2). *)
Lemma reregistration_counterexample :
  (exists w',
     Java_org_sqlite_jni_SQLite3Jni_sqlite3_1progress_1handler
       env_all_methods (JLocal 5) 1 (JLocal 7) world_with_progress_and_trace
     = Ok tt w' /\
     S3JniDb.hook SlotProgress <$> memDb world_with_progress_and_trace !! 0
     = Some (S3JniHook.mk (JGlobal 1 7) 1%N) /\
     S3JniDb.hook SlotProgress <$> memDb w' !! 0
     = Some (S3JniHook.mk (JGlobal 3 7) 1%N) /\
     JavaVM.globalRefs (jvm w') = [3; 2; 0]) /\
  (exists w',
     Java_org_sqlite_jni_SQLite3Jni_sqlite3_1trace_1v2
       env_all_methods (JLocal 5) 1 (JLocal 7) world_with_progress_and_trace
     = Ok 0%Z w' /\
     S3JniDb.hook SlotTrace <$> memDb world_with_progress_and_trace !! 0
     = Some (S3JniHook.mk (JGlobal 2 7) 1%N) /\
     S3JniDb.hook SlotTrace <$> memDb w' !! 0
     = Some (S3JniHook.mk (JGlobal 3 7) 1%N)) /\
  ~ reregistration_is_noop env_all_methods SlotProgress (JLocal 5) (JLocal 7) 1
      world_with_progress_and_trace 0 /\
  ~ reregistration_is_noop env_all_methods SlotTrace (JLocal 5) (JLocal 7) 1
      world_with_progress_and_trace 0.
Proof.
  split; [|split; [|split]].
  - eexists. vm_compute. repeat split.
  - eexists. vm_compute. repeat split.
  - intros H. destruct (H _ eq_refl) as (res & w' & Hrun & _ & Hmd & _).
    vm_compute in Hrun. injection Hrun as <- <-. vm_compute in Hmd.
    discriminate Hmd.
  - intros H. destruct (H _ eq_refl) as (res & w' & Hrun & _ & Hmd & _).
    vm_compute in Hrun. injection Hrun as <- <-. vm_compute in Hmd.
    discriminate Hmd.
Qed.

Lemma same_object_registration_is_noop_witness :
  reregistration_is_noop env_all_methods SlotBusyHandler (JLocal 5) (JLocal 7) 0
    world_with_busy_handler 0.
Proof.
  eapply (same_object_registration_is_noop env_all_methods SlotBusyHandler
            (JLocal 5) (JLocal 7) 0 world_with_busy_handler 0).
  - apply elem_of_cons. left. reflexivity.
  - reflexivity.
  - reflexivity.
  - reflexivity.
  - reflexivity.
Defined.

(** C10.  On a connection whose record is found, the commit-hook,
    rollback-hook, update-hook and pre-update-hook bindings return the
    callback object that the slot held (null when it held none), whether
    they install [jHook] or, [jHook] being null, clear the slot; when the
    slot already holds the object [jHook], that reference is returned and
    nothing changes (beyond the lookup's count of mutex entries). *)
Theorem hook_registration_returns_previous E k jDb jHook arg w a r w0 reg :
  k ∈ [SlotCommit; SlotRollback; SlotUpdate; SlotPreUpdate] ->
  register_hook E k jDb jHook arg = Some reg ->
  S3JniDb_for_db jDb 0%N w = Ok (Some a) w0 ->
  memDb w !! a = Some r ->
  let pOld := S3JniHook.jObj (S3JniDb.hook k r) in
  exists res w',
    reg w = Ok (PreviousHook res) w' /\
    obj_of res = obj_of pOld /\
    (nonnull pOld = true -> IsSameObject pOld jHook = true ->
     res = pOld /\ memDb w' = memDb w /\ memEnv w' = memEnv w /\
     jvm w' = jvm w /\ events w' = events w /\
     same_but_metrics (SJG w) (SJG w')).
Proof.
  intros Hk Hreg Hfind Hr pOld.
  destruct (for_db_found _ _ _ _ _ Hfind Hr) as (Hr0 & He0 & Hj0 & Hm0 & Hme0 & _ & Hg0).
  assert (Hcr : forall isCommit : bool,
            k = (if isCommit then SlotCommit else SlotRollback) ->
            exists res w',
              s3jni_commit_rollback_hook E isCommit jDb jHook w = Ok res w' /\
              obj_of res = obj_of pOld /\
              (nonnull pOld = true -> IsSameObject pOld jHook = true ->
               res = pOld /\ w' = w0)).
  { intros isCommit Hkk. subst pOld. rewrite Hkk.
    destruct (commit_rollback_hook_returns_old E isCommit jDb jHook w a r w0 Hfind Hr)
      as (res & w' & Hrun & Hobj & Hs).
    exists res, w'. split; [exact Hrun|]. split; [exact Hobj|].
    intros Hnn Hsame. apply Hs; try assumption.
    eapply same_object_nonnull; eassumption. }
  assert (Hup : forall isPre : bool,
            k = (if isPre then SlotPreUpdate else SlotUpdate) ->
            exists res w',
              s3jni_updatepre_hook E isPre jDb jHook w = Ok res w' /\
              obj_of res = obj_of pOld /\
              (nonnull pOld = true -> IsSameObject pOld jHook = true ->
               res = pOld /\ w' = w0)).
  { intros isPre Hkk. subst pOld. rewrite Hkk.
    destruct (updatepre_hook_returns_old E isPre jDb jHook w a r w0 Hfind Hr)
      as (res & w' & Hrun & Hobj & Hs).
    exists res, w'. split; [exact Hrun|]. split; [exact Hobj|].
    intros Hnn Hsame. apply Hs; try assumption.
    eapply same_object_nonnull; eassumption. }
  assert (Hall : exists res w' f,
            reg = (let* j := f in ret (PreviousHook j)) /\
            f w = Ok res w' /\ obj_of res = obj_of pOld /\
            (nonnull pOld = true -> IsSameObject pOld jHook = true ->
             res = pOld /\ w' = w0)).
  { repeat (apply elem_of_cons in Hk; destruct Hk as [Hk|Hk]);
      [..|apply elem_of_nil in Hk; destruct Hk]; subst k;
      injection Hreg as <-.
    - destruct (Hcr true eq_refl) as (res & w' & H1 & H2 & H3).
      exists res, w', (s3jni_commit_rollback_hook E true jDb jHook). auto.
    - destruct (Hcr false eq_refl) as (res & w' & H1 & H2 & H3).
      exists res, w', (s3jni_commit_rollback_hook E false jDb jHook). auto.
    - destruct (Hup false eq_refl) as (res & w' & H1 & H2 & H3).
      exists res, w', (s3jni_updatepre_hook E false jDb jHook). auto.
    - destruct (Hup true eq_refl) as (res & w' & H1 & H2 & H3).
      exists res, w', (s3jni_updatepre_hook E true jDb jHook). auto. }
  destruct Hall as (res & w' & f & -> & Hrun & Hobj & Hs).
  exists res, w'. rewrite (bind_Ok _ _ _ _ _ Hrun).
  split; [reflexivity|]. split; [exact Hobj|].
  intros Hnn Hsame. destruct (Hs Hnn Hsame) as [-> ->].
  repeat split; assumption.
Qed.

(** One open connection (handle 100, wrapper object 5) whose commit hook
    is the object 7: installing the object 9 returns the object 7. *)
Lemma hook_registration_returns_previous_witness :
  exists res w',
    Java_org_sqlite_jni_SQLite3Jni_sqlite3_1commit_1hook
      env_all_methods (JLocal 5) (JLocal 9) world_with_commit_hook
    = Ok res w' /\
    obj_of res = Some 7.
Proof.
  destruct (hook_registration_returns_previous env_all_methods SlotCommit
              (JLocal 5) (JLocal 9) 0 world_with_commit_hook 0 _ _ _
              ltac:(apply elem_of_cons; left; reflexivity)
              eq_refl eq_refl eq_refl)
    as (res & w' & Hrun & Hobj & _).
  exists res, w'. split; [|exact Hobj].
  unfold Java_org_sqlite_jni_SQLite3Jni_sqlite3_1commit_1hook in *.
  unfold bind in Hrun.
  destruct (s3jni_commit_rollback_hook env_all_methods true (JLocal 5) (JLocal 9)
              world_with_commit_hook) as [res0 w0|]; [|discriminate].
  injection Hrun as -> ->. reflexivity.
Defined.

(** ** The auto-extension registry *)

Lemma autoExt_scan_down_S l j n :
  autoExt_scan_down l j (S n) =
  match l !! n with
  | None => inl BadPointer
  | Some ax =>
      if ext_matches ax j then inr (Some n) else autoExt_scan_down l j n
  end.
Proof. reflexivity. Qed.

Lemma autoExt_scan_up_S l j i n :
  autoExt_scan_up l j i (S n) =
  match l !! i with
  | None => inl BadPointer
  | Some ax =>
      if ext_matches ax j then inr true else autoExt_scan_up l j (S i) n
  end.
Proof. reflexivity. Qed.

Lemma scan_down_spec l j n :
  n <= length l ->
  match autoExt_scan_down l j n with
  | inr (Some i) =>
      i < n /\ (exists ax, l !! i = Some ax /\ ext_matches ax j = true) /\
      (forall k bx, i < k -> k < n -> l !! k = Some bx -> ext_matches bx j = false)
  | inr None => forall k bx, k < n -> l !! k = Some bx -> ext_matches bx j = false
  | inl _ => False
  end.
Proof.
  induction n as [|n IH]; intros Hn.
  - intros k bx Hk. lia.
  - rewrite autoExt_scan_down_S.
    destruct (lookup_lt_is_Some_2 l n) as [ax Hax]; [lia|].
    rewrite Hax. destruct (ext_matches ax j) eqn:Hm.
    + split; [lia|]. split; [eauto|]. intros k bx H1 H2. lia.
    + specialize (IH ltac:(lia)).
      destruct (autoExt_scan_down l j n) as [|[i|]]; [exact IH|..].
      * destruct IH as (Hi & Hex & Hafter). split; [lia|]. split; [exact Hex|].
        intros k bx H1 H2 Hk. destruct (decide (k = n)) as [->|Hne].
        -- congruence.
        -- apply (Hafter k bx); [lia|lia|exact Hk].
      * intros k bx Hk Hl. destruct (decide (k = n)) as [->|Hne].
        -- congruence.
        -- apply (IH k bx); [lia|exact Hl].
Qed.

Lemma scan_up_spec l j n i :
  i + n <= length l ->
  match autoExt_scan_up l j i n with
  | inr true => exists k ax, i <= k /\ k < i + n /\ l !! k = Some ax /\ ext_matches ax j = true
  | inr false => forall k bx, i <= k -> k < i + n -> l !! k = Some bx -> ext_matches bx j = false
  | inl _ => False
  end.
Proof.
  revert i. induction n as [|n IH]; intros i Hn.
  - intros k bx H1 H2. lia.
  - rewrite autoExt_scan_up_S.
    destruct (lookup_lt_is_Some_2 l i) as [ax Hax]; [lia|].
    rewrite Hax. destruct (ext_matches ax j) eqn:Hm.
    + exists i, ax. repeat split; [lia|lia|exact Hax|exact Hm].
    + specialize (IH (S i) ltac:(lia)).
      destruct (autoExt_scan_up l j (S i) n) as [|[|]]; [exact IH|..].
      * destruct IH as (k & bx & H1 & H2 & H3 & H4). exists k, bx.
        repeat split; [lia|lia|exact H3|exact H4].
      * intros k bx H1 H2 Hk. destruct (decide (k = i)) as [->|Hne].
        -- congruence.
        -- apply (IH k bx); [lia|lia|exact Hk].
Qed.

Lemma ext_matches_nonnull ax j :
  ext_matches ax j = true -> nonnull (S3JniAutoExtension.jObj ax) = true.
Proof. unfold ext_matches. intros H. apply andb_prop in H. tauto. Qed.

Lemma IsSameObject_trans3 a b j :
  IsSameObject a j = true -> IsSameObject b j = true -> IsSameObject a b = true.
Proof.
  unfold IsSameObject. intros H1 H2.
  apply bool_decide_eq_true in H1, H2. apply bool_decide_eq_true. congruence.
Qed.

Lemma cancel_hit j w i ax :
  nExt w <= length (pExt w) ->
  autoExt_scan_down (pExt w) j (nExt w) = inr (Some i) ->
  i < nExt w -> pExt w !! i = Some ax -> ext_matches ax j = true ->
  exists w1,
    Java_org_sqlite_jni_SQLite3Jni_sqlite3_1cancel_1auto_1extension j w = Ok true w1 /\
    S (nExt w1) = nExt w /\
    nAlloc_ext w1 = nAlloc_ext w /\
    length (pExt w1) = length (pExt w) /\
    (forall k, k < nExt w1 ->
       pExt w1 !! k = if decide (k = i) then pExt w !! nExt w1 else pExt w !! k) /\
    JavaVM.globalRefs (jvm w1) =
      released (S3JniAutoExtension.jObj ax) (JavaVM.globalRefs (jvm w)) /\
    same_heap (jvm w) (jvm w1) /\
    events w1 = events w /\ memDb w1 = memDb w /\ memEnv w1 = memEnv w.
Proof.
  intros Hlen Hscan Hi Hax Hm.
  pose proof (ext_matches_nonnull _ _ Hm) as Hnn.
  unfold Java_org_sqlite_jni_SQLite3Jni_sqlite3_1cancel_1auto_1extension.
  destruct w as [g me md jv ev na]. destruct g as [h1 h2 h3 h4 mt px nA nE on].
  unfold pExt, nExt, nAlloc_ext in *. cbn in Hlen, Hscan, Hi, Hax |- *.
  msimpl. rewrite Hscan. msimpl.
  unfold S3JniAutoExtension_clear. msimpl. rewrite Hax. msimpl. rewrite Hnn.
  destruct nE as [|n]; [lia|]. cbn [pred].
  destruct (lookup_lt_is_Some_2 px n) as [fin Hfin]; [lia|].
  destruct (S3JniAutoExtension.jObj ax) as [|oo|ro oo] eqn:Hj; [discriminate|..].
  all: mrun.
  all: rewrite list_lookup_alter; destruct (decide (i = n)) as [->|Hne].
  all: mrun.
  all: rewrite ?Hfin; mrun.
  all: rewrite ?list_lookup_alter_ne by lia.
  all: rewrite ?Hfin; mrun.
  all: (eexists; split; [reflexivity|]); cbn.
  all: repeat split; rewrite ?length_alter; try reflexivity.
  all: intros k Hk.
  all: rewrite (list_lookup_alter_ne _ _ n k) by lia.
  all: destruct (decide (k = n)) as [->|Hkn]; [lia|].
  all: try (destruct (decide (k = i)) as [->|Hki]).
  all: rewrite ?list_lookup_alter_eq, ?Hax; cbn.
  all: rewrite ?list_lookup_alter_ne by lia; try reflexivity.
  all: try congruence.
Qed.

Lemma cancel_miss j w :
  autoExt_scan_down (pExt w) j (nExt w) = inr None ->
  exists w1,
    Java_org_sqlite_jni_SQLite3Jni_sqlite3_1cancel_1auto_1extension j w = Ok false w1 /\
    pExt w1 = pExt w /\ nExt w1 = nExt w /\ nAlloc_ext w1 = nAlloc_ext w /\
    same_but_metrics (SJG w) (SJG w1) /\
    jvm w1 = jvm w /\ events w1 = events w /\ memDb w1 = memDb w /\
    memEnv w1 = memEnv w.
Proof.
  intros Hscan.
  unfold Java_org_sqlite_jni_SQLite3Jni_sqlite3_1cancel_1auto_1extension.
  destruct w as [g me md jv ev na]. destruct g as [h1 h2 h3 h4 mt px nA nE on].
  unfold pExt, nExt, nAlloc_ext in *. cbn in Hscan |- *.
  msimpl. rewrite Hscan. msimpl.
  eexists. split; [reflexivity|]. cbn. repeat split.
Qed.

#[global] Arguments S3JniAutoExtension_clear : simpl never.
#[global] Arguments S3JniAutoExtension_init : simpl never.

(** What clearing and initialising an entry do to the registry. *)
Lemma S3JniAutoExtension_clear_run i w ax :
  pExt w !! i = Some ax ->
  exists w',
    S3JniAutoExtension_clear i w = Ok tt w' /\
    length (pExt w') = length (pExt w) /\
    (forall k, k <> i -> pExt w' !! k = pExt w !! k) /\
    pExt w' !! i =
      Some (if nonnull (S3JniAutoExtension.jObj ax)
            then S3JniAutoExtension.zero else ax) /\
    nExt w' = nExt w /\ nAlloc_ext w' = nAlloc_ext w /\
    S3JniGlobalType.once (SJG w') = S3JniGlobalType.once (SJG w).
Proof.
  intros Hax. unfold S3JniAutoExtension_clear.
  destruct w as [g me md jv ev na]. destruct g as [h1 h2 h3 h4 mt px nA nE on].
  unfold pExt, nExt, nAlloc_ext in *. cbn in Hax |- *.
  msimpl. rewrite Hax. msimpl.
  destruct (nonnull (S3JniAutoExtension.jObj ax)) eqn:Hnn.
  - destruct (S3JniAutoExtension.jObj ax) as [|o|r o]; [discriminate|..].
    all: msimpl; rewrite Hax; msimpl.
    all: (eexists; split; [reflexivity|]); cbn.
    all: rewrite length_alter, list_lookup_alter_eq, Hax.
    all: repeat split.
    all: intros k Hk; apply list_lookup_alter_ne; congruence.
  - eexists. split; [reflexivity|]. cbn. repeat split. exact Hax.
Qed.

Lemma S3JniAutoExtension_init_run E i j o w ax :
  obj_of j = Some o ->
  pExt w !! i = Some ax ->
  exists rc w',
    S3JniAutoExtension_init E i j w = Ok rc w' /\
    length (pExt w') = length (pExt w) /\
    (forall k, k <> i -> pExt w' !! k = pExt w !! k) /\
    nExt w' = nExt w /\ nAlloc_ext w' = nAlloc_ext w /\
    S3JniGlobalType.once (SJG w') = S3JniGlobalType.once (SJG w) /\
    (rc = 0%Z ->
     exists r mid,
       pExt w' !! i = Some (S3JniAutoExtension.mk (JGlobal r o) mid)).
Proof.
  intros Hj Hax. unfold S3JniAutoExtension_init.
  destruct w as [g me md jv ev na]. destruct g as [h1 h2 h3 h4 mt px nA nE on].
  destruct jv as [gr ngr no np vl ep].
  unfold pExt, nExt, nAlloc_ext in *. cbn in Hax |- *.
  msimpl. rewrite Hj.
  destruct (jmethod E o "xEntryPoint" "(Lorg/sqlite/jni/sqlite3;)I" =? 0)%N
    eqn:Hmid; msimpl; rewrite Hax; msimpl.
  - rewrite ?Hmid; autounfold with setters; cbn.
    match goal with |- context [S3JniAutoExtension_clear i ?w1] =>
      destruct (S3JniAutoExtension_clear_run i w1
                  (S3JniAutoExtension.set_midFunc
                     (jmethod E o "xEntryPoint" "(Lorg/sqlite/jni/sqlite3;)I") ax))
        as (w2 & Hrun & Hlen & Hother & _ & HnE & HnA & Hon);
      [cbn; rewrite list_lookup_alter_eq, Hax; reflexivity|];
      rewrite Hrun
    end.
    unfold pExt, nExt, nAlloc_ext in Hlen, Hother, HnE, HnA.
    cbn in Hlen, Hother, HnE, HnA, Hon.
    eexists _, _. split; [reflexivity|].
    rewrite Hlen, length_alter, HnE, HnA, Hon.
    repeat split; try discriminate.
    intros k Hk. rewrite Hother by exact Hk.
    apply list_lookup_alter_ne; congruence.
  - rewrite ?Hmid; autounfold with setters; cbn.
    destruct ep; msimpl; rewrite ?Hj; msimpl.
    all: rewrite list_lookup_alter_eq, Hax; msimpl.
    all: eexists _, _; (split; [reflexivity|]); cbn.
    all: rewrite !length_alter, !list_lookup_alter_eq, Hax.
    all: repeat split; eauto.
    all: intros k Hk; rewrite !list_lookup_alter_ne by congruence; reflexivity.
Qed.

Lemma auto_extension_run E j w :
  autoExt_inv w ->
  exists rc w',
    Java_org_sqlite_jni_SQLite3Jni_sqlite3_1auto_1extension E j w = Ok rc w' /\
    length (pExt w) <= length (pExt w') /\
    nAlloc_ext w' = length (pExt w') /\
    (forall k, k < nExt w -> pExt w' !! k = pExt w !! k) /\
    (nExt w' = nExt w \/
     (nExt w' = S (nExt w) /\ rc = 0%Z /\
      (exists r o mid,
         pExt w' !! nExt w = Some (S3JniAutoExtension.mk (JGlobal r o) mid) /\
         obj_of j = Some o) /\
      (forall k bx, k < nExt w -> pExt w !! k = Some bx ->
         ext_matches bx j = false))).
Proof.
  intros (Hle & HnA & Hnn & Huniq).
  unfold Java_org_sqlite_jni_SQLite3Jni_sqlite3_1auto_1extension.
  destruct (obj_of j) as [o|] eqn:Hj; cycle 1.
  { destruct j; try discriminate. cbn.
    eexists _, _. split; [reflexivity|]. repeat split; auto. }
  replace (is_null j) with false by (destruct j; [discriminate|reflexivity..]).
  msimpl. fold (pExt w) (nExt w) (nAlloc_ext w).
  pose proof (scan_up_spec (pExt w) j (nExt w) 0 ltac:(cbn; lia)) as Hscan.
  destruct (autoExt_scan_up (pExt w) j 0 (nExt w)) as [|[|]] eqn:Hs;
    [destruct Hscan| |]; msimpl.
  { eexists _, _. split; [reflexivity|]. repeat split; auto. }
  assert (Hfresh : forall k bx, k < nExt w -> pExt w !! k = Some bx ->
                     ext_matches bx j = false).
  { intros k bx Hk Hbx. apply (Hscan k bx); [lia|cbn; lia|exact Hbx]. }
  clear Hscan Hs.
  destruct (bool_decide (nExt w = nAlloc_ext w)) eqn:Hfull; msimpl.
  1: destruct (alloc_ok E (nAlloc w)) eqn:Halloc; msimpl.
  2: { eexists _, _. split; [reflexivity|]. repeat split; auto. }
  1: apply bool_decide_eq_true in Hfull.
  2: apply bool_decide_eq_false in Hfull.
  all: match goal with |- context [S3JniAutoExtension_init _ ?i _ ?w1] =>
         assert (exists ax0, pExt w1 !! i = Some ax0) as [ax0 Hax0]
           by (apply lookup_lt_is_Some_2; unfold pExt; cbn;
               fold (pExt w); rewrite ?length_app; cbn; lia);
         destruct (S3JniAutoExtension_init_run E i j o w1 ax0 Hj Hax0)
           as (rc & w2 & Hrun & Hlen2 & Hoth2 & HnE2 & HnA2 & Hon2 & Hnew2);
         rewrite Hrun; clear Hrun Hax0
       end.
  all: unfold pExt, nExt, nAlloc_ext in Hlen2, Hoth2, HnE2, HnA2; cbn in Hlen2, Hoth2, HnE2, HnA2.
  all: fold (pExt w) (nExt w) (nAlloc_ext w) (pExt w2) (nExt w2) (nAlloc_ext w2) in *.
  all: clear Hon2.
  all: assert (Hlen : length (pExt w) <= length (pExt w2))
         by (rewrite Hlen2, ?length_app; cbn; lia).
  all: assert (HnA' : nAlloc_ext w2 = length (pExt w2))
         by (rewrite Hlen2, HnA2, ?length_app; cbn; lia).
  all: assert (Hpre : forall k, k < nExt w -> pExt w2 !! k = pExt w !! k)
         by (intros k Hk; rewrite Hoth2 by lia;
             rewrite ?lookup_app_l by lia; reflexivity).
  all: clear Hlen2 HnA2 Hoth2 Hfull.
  all: destruct (rc =? 0)%Z eqn:Hrc; msimpl;
       [apply Z.eqb_eq in Hrc; destruct (Hnew2 Hrc) as (r & mid & Hnew)
       |eexists _, _; split; [reflexivity|]; repeat split; auto].
  all: destruct (S3JniGlobalType.once (SJG w2)) eqn:Hon; msimpl.
  all: try (destruct (native_rc E (length (events w2)) =? 0)%Z eqn:Hnat; msimpl;
            rewrite ?Hnat; msimpl).
  all: try match goal with |- context [S3JniAutoExtension_clear ?i ?w1] =>
         destruct (S3JniAutoExtension_clear_run i w1 _ Hnew)
           as (w3 & Hrun & Hlen3 & Hoth3 & _ & HnE3 & HnA3 & _);
         rewrite Hrun; clear Hrun; msimpl; rewrite ?Hnat; msimpl;
         unfold pExt, nExt, nAlloc_ext in Hlen3, Hoth3, HnE3, HnA3;
         cbn in Hlen3, Hoth3, HnE3, HnA3;
         fold (pExt w) (nExt w) (nAlloc_ext w) (pExt w2) (nExt w2)
           (nAlloc_ext w2) (pExt w3) (nExt w3) (nAlloc_ext w3) in *
       end.
  all: eexists _, _; (split; [reflexivity|]).
  all: unfold pExt, nExt, nAlloc_ext; cbn.
  all: fold (pExt w) (nExt w) (nAlloc_ext w) (pExt w2) (nExt w2) (nAlloc_ext w2).
  all: try fold (pExt w3) (nExt w3) (nAlloc_ext w3).
  all: try (split; [lia|]; split; [lia|];
            split; [intros k Hk; rewrite Hoth3 by lia; apply Hpre; exact Hk|];
            left; lia).
  all: (split; [lia|]); (split; [lia|]); (split; [exact Hpre|]).
  all: right; rewrite HnE2; split; [reflexivity|].
  all: split; [first [reflexivity | apply Z.eqb_eq; assumption]|].
  all: split; [eauto|exact Hfresh].
Qed.

Lemma autoExt_clear_from_run n : forall i w,
  i + n <= length (pExt w) ->
  exists w',
    autoExt_clear_from i n w = Ok tt w' /\
    length (pExt w') = length (pExt w) /\
    nExt w' = nExt w /\ nAlloc_ext w' = nAlloc_ext w.
Proof.
  induction n as [|n IH]; intros i w Hn.
  - exists w. repeat split.
  - destruct (lookup_lt_is_Some_2 (pExt w) i) as [ax Hax]; [lia|].
    destruct (S3JniAutoExtension_clear_run i w ax Hax)
      as (w1 & Hrun & Hlen & _ & _ & HnE & HnA & _).
    destruct (IH (S i) w1 ltac:(lia)) as (w2 & Hrun2 & Hlen2 & HnE2 & HnA2).
    exists w2. cbn [autoExt_clear_from]. unfold bind at 1. rewrite Hrun.
    split; [exact Hrun2|]. repeat split; congruence.
Qed.

Lemma s3jni_reset_auto_extension_run w :
  nExt w <= length (pExt w) ->
  exists w',
    s3jni_reset_auto_extension w = Ok tt w' /\
    length (pExt w') = length (pExt w) /\
    nExt w' = 0 /\ nAlloc_ext w' = nAlloc_ext w.
Proof.
  intros Hle. unfold s3jni_reset_auto_extension. msimpl.
  match goal with |- context [autoExt_clear_from 0 ?n ?w1] =>
    destruct (autoExt_clear_from_run n 0 w1) as (w2 & Hrun & Hlen & HnE & HnA);
    [exact Hle|]; rewrite Hrun
  end.
  eexists. split; [reflexivity|]. repeat split; assumption.
Qed.

Lemma nonnull_JGlobal r o : nonnull (JGlobal r o) = true.
Proof. reflexivity. Qed.

Lemma ext_matches_same ax bx j :
  ext_matches ax j = true -> ext_matches bx j = true ->
  IsSameObject (S3JniAutoExtension.jObj ax) (S3JniAutoExtension.jObj bx) = true.
Proof.
  unfold ext_matches. intros H1 H2.
  apply andb_prop in H1, H2. eapply IsSameObject_trans3; [apply H1|apply H2].
Qed.

Lemma autoExt_inv_register E j w rc w' :
  autoExt_inv w ->
  Java_org_sqlite_jni_SQLite3Jni_sqlite3_1auto_1extension E j w = Ok rc w' ->
  autoExt_inv w'.
Proof.
  intros Hinv Hrun.
  destruct (auto_extension_run E j w Hinv)
    as (rc0 & w0 & Hrun0 & Hlen & HnA & Hpre & Hcase).
  rewrite Hrun in Hrun0. injection Hrun0 as <- <-.
  destruct Hinv as (Hle & _ & Hnn & Huniq).
  destruct Hcase as [HnE|(HnE & _ & (r & o & mid & Hnew & Hj) & Hfresh)].
  - split; [lia|]. split; [exact HnA|]. rewrite HnE. split.
    + intros i ax Hi. rewrite Hpre by exact Hi. apply Hnn, Hi.
    + intros i k ax bx Hi Hk. rewrite !Hpre by assumption.
      apply Huniq; assumption.
  - assert (Hlt : nExt w < length (pExt w'))
      by (eapply lookup_lt_Some; exact Hnew).
    assert (Hold : forall i ax, i < nExt w -> pExt w !! i = Some ax ->
              IsSameObject (S3JniAutoExtension.jObj ax) (JGlobal r o) = false).
    { intros i ax Hi Hax. pose proof (Hfresh i ax Hi Hax) as Hf.
      unfold ext_matches in Hf. rewrite (Hnn i ax Hi Hax) in Hf. cbn in Hf.
      unfold IsSameObject in *. cbn. rewrite <- Hj. exact Hf. }
    split; [lia|]. split; [exact HnA|]. rewrite HnE. split.
    + intros i ax Hi Hax. destruct (decide (i = nExt w)) as [->|Hne].
      * rewrite Hnew in Hax. injection Hax as <-. reflexivity.
      * rewrite Hpre in Hax by lia. apply (Hnn i ax); [lia|exact Hax].
    + intros i k ax bx Hi Hk Hax Hbx Hsame.
      destruct (decide (i = nExt w)) as [->|Hi'];
        destruct (decide (k = nExt w)) as [->|Hk']; [reflexivity|..].
      * rewrite Hnew in Hax. injection Hax as <-.
        rewrite Hpre in Hbx by lia.
        pose proof (Hold k bx ltac:(lia) Hbx) as Hf.
        unfold IsSameObject in *.
        apply bool_decide_eq_true in Hsame. apply bool_decide_eq_false in Hf.
        cbn in Hsame, Hf. congruence.
      * rewrite Hnew in Hbx. injection Hbx as <-.
        rewrite Hpre in Hax by lia.
        pose proof (Hold i ax ltac:(lia) Hax) as Hf. cbn in Hsame. congruence.
      * rewrite Hpre in Hax, Hbx by lia.
        apply (Huniq i k ax bx); [lia|lia|assumption..].
Qed.

Lemma autoExt_inv_cancel j w b w' :
  autoExt_inv w ->
  Java_org_sqlite_jni_SQLite3Jni_sqlite3_1cancel_1auto_1extension j w = Ok b w' ->
  autoExt_inv w'.
Proof.
  intros (Hle & HnA & Hnn & Huniq) Hrun.
  pose proof (scan_down_spec (pExt w) j (nExt w) Hle) as Hscan.
  destruct (autoExt_scan_down (pExt w) j (nExt w)) as [|[i|]] eqn:Hs;
    [destruct Hscan|..].
  - destruct Hscan as (Hi & (ax & Hax & Hm) & _).
    destruct (cancel_hit j w i ax Hle Hs Hi Hax Hm)
      as (w1 & Hrun1 & HnE & HnA1 & Hlen & Hswap & _).
    rewrite Hrun in Hrun1. injection Hrun1 as -> <-.
    assert (Hsrc : forall k ax, k < nExt w' -> pExt w' !! k = Some ax ->
              exists k', k' < nExt w /\ pExt w !! k' = Some ax /\
                         k' = if decide (k = i) then nExt w' else k).
    { intros k bx Hk Hbx. rewrite Hswap in Hbx by exact Hk.
      destruct (decide (k = i)); eexists; (split; [|split; [exact Hbx|reflexivity]]); lia. }
    split; [lia|]. split; [congruence|]. split.
    + intros k bx Hk Hbx. destruct (Hsrc k bx Hk Hbx) as (k' & Hk' & Hbx' & _).
      apply (Hnn k' bx Hk' Hbx').
    + intros k1 k2 bx1 bx2 Hk1 Hk2 Hb1 Hb2 Hsame.
      destruct (Hsrc k1 bx1 Hk1 Hb1) as (k1' & Hk1' & Hb1' & E1).
      destruct (Hsrc k2 bx2 Hk2 Hb2) as (k2' & Hk2' & Hb2' & E2).
      pose proof (Huniq k1' k2' bx1 bx2 Hk1' Hk2' Hb1' Hb2' Hsame) as Heq.
      destruct (decide (k1 = i)), (decide (k2 = i)); lia.
  - destruct (cancel_miss j w Hs) as (w1 & Hrun1 & Hp & HnE & HnA1 & _).
    rewrite Hrun in Hrun1. injection Hrun1 as -> <-.
    unfold autoExt_inv. rewrite Hp, HnE, HnA1. repeat split; assumption.
Qed.

Lemma autoExt_reachable_inv E w : autoExt_reachable E w -> autoExt_inv w.
Proof.
  induction 1 as [w Hp HnE HnA|w j rc w' _ IH Hrun|w j b w' _ IH Hrun
                 |w w' _ IH Hrun|w w' _ IH Hp HnE HnA].
  - unfold autoExt_inv. rewrite Hp, HnE, HnA. cbn.
    repeat split; intros; lia.
  - exact (autoExt_inv_register E j w rc w' IH Hrun).
  - exact (autoExt_inv_cancel j w b w' IH Hrun).
  - destruct IH as (Hle & HnA & _).
    destruct (s3jni_reset_auto_extension_run w Hle)
      as (w1 & Hrun1 & Hlen & HnE & HnA1).
    rewrite Hrun in Hrun1. injection Hrun1 as <-.
    unfold autoExt_inv. rewrite HnE, Hlen, HnA1.
    split; [lia|]. split; [exact HnA|]. split; intros; lia.
  - unfold autoExt_inv. rewrite Hp, HnE, HnA. exact IH.
Qed.

(** C5: cancelling an auto-extension that is registered.  In a registry
    that registrations, cancellations and resets have led to, when an
    active entry holds the object [jAutoExt], exactly one active entry
    does, at some index [i]; the call returns true, the number of active
    entries goes down by one, the entries below the new count are as
    before save that slot [i] now holds what was the last active entry,
    none of them holds [jAutoExt] any more, and the global reference of
    the removed entry is released.  Cancelling the same object again
    returns false and leaves the array and the count as they are. *)
Theorem cancel_auto_extension_removes_one E jAutoExt w :
  autoExt_reachable E w ->
  (exists k ax, k < nExt w /\ pExt w !! k = Some ax /\
                ext_matches ax jAutoExt = true) ->
  exists i ax w1,
    i < nExt w /\ pExt w !! i = Some ax /\ ext_matches ax jAutoExt = true /\
    (forall k bx, k < nExt w -> pExt w !! k = Some bx ->
       ext_matches bx jAutoExt = true -> k = i) /\
    Java_org_sqlite_jni_SQLite3Jni_sqlite3_1cancel_1auto_1extension jAutoExt w
      = Ok true w1 /\
    S (nExt w1) = nExt w /\
    (forall k, k < nExt w1 ->
       pExt w1 !! k = if decide (k = i) then pExt w !! nExt w1 else pExt w !! k) /\
    (forall k bx, k < nExt w1 -> pExt w1 !! k = Some bx ->
       ext_matches bx jAutoExt = false) /\
    JavaVM.globalRefs (jvm w1) =
      released (S3JniAutoExtension.jObj ax) (JavaVM.globalRefs (jvm w)) /\
    exists w2,
      Java_org_sqlite_jni_SQLite3Jni_sqlite3_1cancel_1auto_1extension jAutoExt w1
        = Ok false w2 /\
      pExt w2 = pExt w1 /\ nExt w2 = nExt w1.
Proof.
  intros Hreach (k0 & ax0 & Hk0 & Hax0 & Hm0).
  pose proof (autoExt_reachable_inv E w Hreach) as Hinv.
  pose proof Hinv as (Hle & HnA & Hnn & Huniq).
  pose proof (scan_down_spec (pExt w) jAutoExt (nExt w) Hle) as Hscan.
  destruct (autoExt_scan_down (pExt w) jAutoExt (nExt w)) as [|[i|]] eqn:Hs;
    [destruct Hscan| |rewrite (Hscan k0 ax0 Hk0 Hax0) in Hm0; discriminate].
  destruct Hscan as (Hi & (ax & Hax & Hm) & _).
  destruct (cancel_hit jAutoExt w i ax Hle Hs Hi Hax Hm)
    as (w1 & Hrun & HnE & HnA1 & Hlen & Hswap & Hrefs & _).
  assert (Hone : forall k bx, k < nExt w -> pExt w !! k = Some bx ->
            ext_matches bx jAutoExt = true -> k = i).
  { intros k bx Hk Hbx Hmb.
    apply (Huniq k i bx ax Hk Hi Hbx Hax).
    exact (ext_matches_same bx ax jAutoExt Hmb Hm). }
  assert (Hnone : forall k bx, k < nExt w1 -> pExt w1 !! k = Some bx ->
            ext_matches bx jAutoExt = false).
  { intros k bx Hk Hbx. rewrite Hswap in Hbx by exact Hk.
    destruct (ext_matches bx jAutoExt) eqn:Hmb; [|reflexivity].
    destruct (decide (k = i)) as [->|Hne].
    - pose proof (Hone (nExt w1) bx ltac:(lia) Hbx Hmb). lia.
    - pose proof (Hone k bx ltac:(lia) Hbx Hmb). contradiction. }
  exists i, ax, w1. do 8 (split; [assumption|]). split; [exact Hrefs|].
  pose proof (scan_down_spec (pExt w1) jAutoExt (nExt w1) ltac:(lia)) as Hscan1.
  destruct (autoExt_scan_down (pExt w1) jAutoExt (nExt w1)) as [|[i1|]] eqn:Hs1;
    [destruct Hscan1|..].
  - destruct Hscan1 as (Hi1 & (bx & Hbx & Hmb) & _).
    rewrite (Hnone i1 bx Hi1 Hbx) in Hmb. discriminate.
  - destruct (cancel_miss jAutoExt w1 Hs1) as (w2 & Hrun2 & Hp2 & HnE2 & _).
    exists w2. repeat split; assumption.
Qed.

Lemma cancel_auto_extension_removes_one_witness :
  exists w1,
    Java_org_sqlite_jni_SQLite3Jni_sqlite3_1cancel_1auto_1extension (JLocal 5)
      world_with_auto_extensions = Ok true w1 /\
    nExt w1 = 2 /\
    pExt w1 !! 0 = pExt world_with_auto_extensions !! 2.
Proof.
  assert (Hreach : autoExt_reachable env_all_methods world_with_auto_extensions).
  { eapply autoExt_after_register with (jAutoExt := JLocal 7) (rc := 0%Z);
      [eapply autoExt_after_register with (jAutoExt := JLocal 6) (rc := 0%Z);
       [eapply autoExt_after_register with (jAutoExt := JLocal 5) (rc := 0%Z);
        [apply (autoExt_initial _ World0); reflexivity|]|]|];
      vm_compute; reflexivity. }
  assert (Hreg : exists k ax, k < nExt world_with_auto_extensions /\
                   pExt world_with_auto_extensions !! k = Some ax /\
                   ext_matches ax (JLocal 5) = true).
  { exists 0, (S3JniAutoExtension.mk (JGlobal 0 5) 1%N).
    split; [vm_compute; lia|]. split; vm_compute; reflexivity. }
  destruct (cancel_auto_extension_removes_one env_all_methods (JLocal 5)
              world_with_auto_extensions Hreach Hreg)
    as (i & ax & w1 & Hi & Hax & Hm & Hone & Hrun & HnE & Hswap & _).
  exists w1. split; [exact Hrun|].
  change (nExt world_with_auto_extensions) with 3 in HnE, Hi.
  injection HnE as HnE. split; [exact HnE|].
  assert (Hi0 : 0 = i).
  { apply (Hone 0 (S3JniAutoExtension.mk (JGlobal 0 5) 1%N));
      [vm_compute; lia|vm_compute; reflexivity..]. }
  rewrite (Hswap 0) by lia. rewrite HnE.
  destruct (decide (0 = i)); [reflexivity|contradiction].
Defined.

(** ** The auto-extension proxy *)

#[global] Arguments autoExt_run_from : simpl never.
#[global] Arguments S3JniGlobal_env_cache : simpl never.
#[global] Arguments S3JniGlobal_env_uncache : simpl never.

Lemma autoExt_run_from_S E fuel i ps :
  autoExt_run_from E (S fuel) i ps =
  (metrics_incr M_nMutexAutoExt >>
   let* g := getSJG in
   if (S3JniGlobalType.autoExt_nExt g <=? i)%nat
   then ret 0%Z
   else
     let* entry := load_ext i in
     let jObj := REF_L (S3JniAutoExtension.jObj entry) in
     let midFunc := S3JniAutoExtension.midFunc entry in
     let* rc :=
       (if nonnull jObj
        then
          let* r := load_db ps in
          let* rc := CallIntMethod E jObj midFunc [VObject (S3JniDb.jDb r)] in
          let* threw := ExceptionCheck in
          if threw
          then ExceptionClear >>
               ret (if (rc =? 0)%Z then SQLITE_ERROR else rc)
          else ret rc
        else ret 0%Z) in
     if (rc =? 0)%Z then autoExt_run_from E fuel (S i) ps else ret rc).
Proof. reflexivity. Qed.

Lemma nonnull_obj_of j : nonnull j = true -> exists o, obj_of j = Some o.
Proof. destruct j; [discriminate|eauto..]. Qed.

Lemma autoExt_run_from_spec E ps r d : forall i fuel w,
  nExt w = i + d -> d < fuel ->
  nExt w <= length (pExt w) ->
  (forall k ax, k < nExt w -> pExt w !! k = Some ax ->
     nonnull (S3JniAutoExtension.jObj ax) = true) ->
  memDb w !! ps = Some r ->
  JavaVM.exceptionPending (jvm w) = false ->
  exists m rc w' calls,
    autoExt_run_from E fuel i ps w = Ok rc w' /\
    Forall2 (is_proxy_call (S3JniDb.jDb r) (JavaVM.nativePointer (jvm w)))
      (take m (drop i (pExt w))) calls /\
    events w' = events w ++ calls /\
    proxy_stops_at E (length (events w)) d m rc /\
    same_but_metrics (SJG w) (SJG w') /\
    memEnv w' = memEnv w /\ memDb w' = memDb w /\ jvm w' = jvm w.
Proof.
  induction d as [|d IH]; intros i fuel w HnE Hfuel Hle Hnn Hps Hep;
    (destruct fuel as [|fuel]; [lia|]); rewrite autoExt_run_from_S.
  - msimpl. fold (nExt w). replace (nExt w <=? i)%nat with true
      by (symmetry; apply Nat.leb_le; lia).
    cbn. exists 0, 0%Z. eexists _, []. split; [reflexivity|].
    cbn. rewrite app_nil_r. repeat split; auto using Forall2_nil.
    + intros k Hk. lia.
    + left. repeat split. intros k Hk. lia.
  - msimpl. fold (nExt w). replace (nExt w <=? i)%nat with false
      by (symmetry; apply Nat.leb_gt; lia).
    cbn. fold (pExt w).
    destruct (lookup_lt_is_Some_2 (pExt w) i) as [ax Hax]; [lia|].
    rewrite Hax. cbn.
    destruct (nonnull_obj_of _ (Hnn i ax ltac:(lia) Hax)) as [o Ho].
    unfold REF_L. rewrite Ho. cbn. rewrite Hps. cbn.
    assert (Hdrop : forall m, take (S m) (drop i (pExt w)) =
                              ax :: take m (drop (S i) (pExt w))).
    { intros m. rewrite (drop_S _ _ _ Hax). reflexivity. }
    assert (Hcall1 : is_proxy_call (S3JniDb.jDb r)
              (JavaVM.nativePointer (jvm w)) ax
              (EvCall o (S3JniAutoExtension.midFunc ax)
                 [VObject (S3JniDb.jDb r)] (JavaVM.nativePointer (jvm w))))
      by (exists o; split; [exact Ho|reflexivity]).
    destruct (jcall E (length (events w))) as [v|] eqn:Hcall; cbn;
      rewrite ?Hep; cbn.
    + destruct (v =? 0)%Z eqn:Hv.
      * apply Z.eqb_eq in Hv. subst v.
        match goal with |- context [autoExt_run_from E fuel (S i) ps ?w1] =>
          destruct (IH (S i) fuel w1) as (m & rc & w' & calls & Hrun & Hcalls
              & Hev & (Hm & Hbefore & Hlast) & Hsjg & HmE & HmD & Hjvm);
            [unfold nExt in *; cbn; lia|lia|exact Hle|exact Hnn|exact Hps
            |exact Hep|]
        end.
        cbn in Hcalls, Hev, Hbefore, Hlast, Hsjg, HmE, HmD, Hjvm.
        rewrite length_app in Hbefore, Hlast. cbn in Hbefore, Hlast.
        exists (S m), rc, w'. eexists (_ :: calls).
        split; [exact Hrun|]. rewrite Hdrop.
        split; [constructor; [exact Hcall1|exact Hcalls]|].
        split; [rewrite Hev, <- app_assoc; reflexivity|].
        split; [|repeat split; assumption].
        split; [lia|]. split.
        -- intros [|k] Hk; [rewrite Nat.add_0_r; exact Hcall|].
           replace (length (events w) + S k) with (length (events w) + 1 + k)
             by lia. apply Hbefore. lia.
        -- destruct Hlast as [(-> & -> & Hall)|(k & -> & Hk)].
           ++ left. repeat split. intros [|k] Hk;
                [rewrite Nat.add_0_r; exact Hcall|].
              replace (length (events w) + S k)
                with (length (events w) + 1 + k) by lia.
              apply Hall. lia.
           ++ right. exists (S k). split; [reflexivity|].
              replace (length (events w) + S k)
                with (length (events w) + 1 + k) by lia.
              exact Hk.
      * apply Z.eqb_neq in Hv.
        exists 1, v. eexists _, [_]. split; [reflexivity|]. rewrite Hdrop.
        cbn. rewrite take_0.
        split; [constructor; [exact Hcall1|constructor]|].
        split; [reflexivity|].
        split; [|repeat split].
        split; [lia|]. split; [intros k Hk; lia|].
        right. exists 0. split; [reflexivity|]. right. exists v.
        rewrite Nat.add_0_r. auto.
    + set (t := jthrown E (length (events w))).
      assert (Ht : ((if (t =? 0)%Z then SQLITE_ERROR else t) =? 0)%Z = false)
        by (destruct (t =? 0)%Z eqn:Ht0; [reflexivity|exact Ht0]).
      rewrite Ht.
      exists 1, (if (t =? 0)%Z then SQLITE_ERROR else t).
      eexists _, [_]. split; [reflexivity|].
      rewrite Hdrop. cbn. rewrite take_0.
      split; [constructor; [exact Hcall1|constructor]|].
      split; [reflexivity|].
      split; [|repeat split; revert Hep; destruct (jvm w); cbn;
                intros ->; reflexivity].
      split; [lia|]. split; [intros k Hk; lia|].
      right. exists 0. split; [reflexivity|]. left.
      rewrite Nat.add_0_r. auto.
Qed.

Lemma S3JniGlobal_env_cache_hit E env w jc :
  env_lookup (S (length (memEnv w))) (memEnv w)
    (S3JniGlobalType.envCache_aHead (SJG w)) env = inr (Some jc) ->
  exists w',
    S3JniGlobal_env_cache E env w = Ok jc w' /\
    same_but_metrics (SJG w) (SJG w') /\
    memEnv w' = memEnv w /\ memDb w' = memDb w /\ jvm w' = jvm w /\
    events w' = events w /\ nAlloc w' = nAlloc w.
Proof.
  intros Hfind. unfold S3JniGlobal_env_cache. msimpl. rewrite Hfind. msimpl.
  eexists. split; [reflexivity|]. cbn. repeat split.
Qed.

Lemma same_but_metrics_registry w w' :
  same_but_metrics (SJG w) (SJG w') ->
  pExt w' = pExt w /\ nExt w' = nExt w /\ nAlloc_ext w' = nAlloc_ext w.
Proof.
  unfold same_but_metrics, pExt, nExt, nAlloc_ext. intros ->.
  repeat split.
Qed.

Lemma autoExt_registered_spec E w js :
  autoExt_registered E w js ->
  autoExt_reachable E w /\
  length js = nExt w /\
  forall k j, js !! k = Some j ->
    exists ax o, pExt w !! k = Some ax /\
                 obj_of (S3JniAutoExtension.jObj ax) = Some o /\
                 obj_of j = Some o.
Proof.
  induction 1 as [w Hp HnE HnA|w w' Hreach Hrun
                 |w j rc w' js Hreg IH Hrun HnE'
                 |w j rc w' js Hreg IH Hrun HnE'
                 |w w' js Hreg IH Hp HnE HnA].
  - split; [apply autoExt_initial; assumption|]. split; [symmetry; exact HnE|].
    intros k j Hk. rewrite lookup_nil in Hk. discriminate.
  - split; [eapply autoExt_after_reset; eassumption|].
    destruct (autoExt_reachable_inv E w Hreach) as (Hle & _).
    destruct (s3jni_reset_auto_extension_run w Hle) as (w2 & Hrun2 & _ & HnE & _).
    rewrite Hrun in Hrun2. injection Hrun2 as <-.
    split; [symmetry; exact HnE|].
    intros k j Hk. rewrite lookup_nil in Hk. discriminate.
  - destruct IH as (Hreach & Hlen & Hjs).
    split; [eapply autoExt_after_register; eassumption|].
    destruct (auto_extension_run E j w (autoExt_reachable_inv E w Hreach))
      as (rc2 & w2 & Hrun2 & _ & _ & Hpre & Hcase).
    rewrite Hrun in Hrun2. injection Hrun2 as <- <-.
    destruct Hcase as [HnE|(HnE & _ & (r & o & mid & Hnew & Ho) & _)]; [lia|].
    split; [rewrite length_app; cbn; lia|].
    intros k j0 Hk. apply lookup_app_Some in Hk.
    destruct Hk as [Hk|[Hge Hk]].
    + destruct (Hjs k j0 Hk) as (ax & o' & Hax & H1 & H2).
      exists ax, o'. rewrite Hpre; [auto|].
      rewrite <- Hlen. eapply lookup_lt_Some; exact Hk.
    + apply list_lookup_singleton_Some in Hk. destruct Hk as [Hk <-].
      assert (k = nExt w) as -> by lia.
      eexists _, o. split; [exact Hnew|]. split; [reflexivity|exact Ho].
  - destruct IH as (Hreach & Hlen & Hjs).
    split; [eapply autoExt_after_register; eassumption|].
    destruct (auto_extension_run E j w (autoExt_reachable_inv E w Hreach))
      as (rc2 & w2 & Hrun2 & _ & _ & Hpre & _).
    rewrite Hrun in Hrun2. injection Hrun2 as <- <-.
    split; [congruence|].
    intros k j0 Hk. destruct (Hjs k j0 Hk) as (ax & o & Hax & H1 & H2).
    exists ax, o. rewrite Hpre; [auto|].
    rewrite <- Hlen. eapply lookup_lt_Some; exact Hk.
  - destruct IH as (Hreach & Hlen & Hjs).
    split; [eapply autoExt_after_other; eassumption|].
    rewrite HnE, Hp. split; assumption.
Qed.

Lemma proxy_calls_of_registered E w js jDb heap m calls :
  autoExt_registered E w js ->
  m <= nExt w ->
  Forall2 (is_proxy_call jDb heap) (take m (pExt w)) calls ->
  Forall2 (is_proxy_call_of jDb heap) (take m js) calls.
Proof.
  intros Hreg Hm Hcalls.
  destruct (autoExt_registered_spec E w js Hreg) as (Hreach & Hlen & Hjs).
  destruct (autoExt_reachable_inv E w Hreach) as (Hle & _).
  apply Forall2_same_length_lookup. split.
  - rewrite <- (Forall2_length _ _ _ Hcalls), !length_take. lia.
  - intros i j e Hj He.
    apply lookup_take_Some in Hj. destruct Hj as [Hj Hi].
    destruct (Hjs i j Hj) as (ax & o & Hax & Hoa & Hoj).
    assert (Hax' : take m (pExt w) !! i = Some ax)
      by (rewrite lookup_take_lt by exact Hi; exact Hax).
    destruct (Forall2_lookup_lr _ _ _ _ _ _ Hcalls Hax' He) as (o' & Ho' & ->).
    exists o', (S3JniAutoExtension.midFunc ax). split; [congruence|reflexivity].
Qed.

Lemma auto_extensions_proxy_run E env X w jc row ps r o :
  autoExt_reachable E w ->
  0 < nExt w ->
  env_lookup (S (length (memEnv w))) (memEnv w)
    (S3JniGlobalType.envCache_aHead (SJG w)) env = inr (Some jc) ->
  memEnv w !! jc = Some row ->
  S3JniEnv.pdbOpening row = Some ps ->
  memDb w !! ps = Some r ->
  obj_of (S3JniDb.jDb r) = Some o ->
  JavaVM.exceptionPending (jvm w) = false ->
  exists m rc w' calls,
    s3jni_run_java_auto_extensions E env X w = Ok rc w' /\
    memDb w' = alter (S3JniDb.set_pDb X) ps (memDb w) /\
    memEnv w' = alter (S3JniEnv.set_pdbOpening None) jc (memEnv w) /\
    JavaVM.nativePointer (jvm w') = <[o:=X]> (JavaVM.nativePointer (jvm w)) /\
    events w' = events w ++ calls /\
    Forall2 (is_proxy_call (S3JniDb.jDb r)
               (<[o:=X]> (JavaVM.nativePointer (jvm w))))
      (take m (pExt w)) calls /\
    proxy_stops_at E (length (events w)) (nExt w) m rc /\
    JavaVM.value (jvm w') = JavaVM.value (jvm w) /\
    pExt w' = pExt w /\ nExt w' = nExt w.
Proof.
  intros Hreach Hpos Hfind Hrow Hopening Hps Ho Hep.
  destruct (autoExt_reachable_inv E w Hreach) as (Hle & _ & Hnn & _).
  unfold s3jni_run_java_auto_extensions. msimpl. fold (nExt w).
  replace (nExt w =? 0)%nat with false by (symmetry; apply Nat.eqb_neq; lia).
  destruct (S3JniGlobal_env_cache_hit E env w jc Hfind)
    as (w1 & Hrun1 & Hsjg1 & HmE1 & HmD1 & Hjvm1 & Hev1 & _).
  rewrite Hrun1. rewrite HmE1, Hrow. cbn. rewrite Hopening. cbn.
  rewrite HmE1, Hrow. cbn. rewrite HmD1, Hps. cbn.
  rewrite list_lookup_alter_eq, Hps. cbn. rewrite Ho. cbn.
  destruct (same_but_metrics_registry w w1 Hsjg1) as (Hp1 & HnE1 & _).
  match goal with |- context [autoExt_run_from E ?fuel 0 ps ?w2] =>
    destruct (autoExt_run_from_spec E ps (S3JniDb.set_pDb X r) (nExt w)
                0 fuel w2)
      as (m & rc & w' & calls & Hrun & Hcalls & Hev & Hstop & Hsjg & HmE
          & HmD & Hjvm);
      [exact HnE1|lia|unfold nExt, pExt in *; cbn; congruence
      |unfold nExt, pExt in *; cbn; rewrite Hp1, HnE1; exact Hnn
      |cbn; rewrite list_lookup_alter_eq, Hps; reflexivity
      |cbn; rewrite Hjvm1; exact Hep|]
  end.
  cbn in Hcalls, Hev, Hstop, Hsjg, HmE, HmD, Hjvm.
  rewrite drop_0 in Hcalls. rewrite Hjvm1 in Hcalls, Hjvm.
  rewrite Hev1 in Hev, Hstop.
  destruct (same_but_metrics_registry _ w' Hsjg) as (Hp & HnE & _).
  exists m, rc, w', calls. rewrite Hjvm. cbn.
  do 3 (split; [assumption|]). split; [reflexivity|].
  change (pExt _) with (pExt w1) in Hcalls. rewrite Hp1 in Hcalls.
  do 3 (split; [assumption|]). split; [reflexivity|].
  split; congruence.
Qed.

(** With no active entry the proxy returns at once: the record is then
    bound by [s3jni_open_post()]. *)
Lemma auto_extensions_proxy_without_entries E env X w :
  nExt w = 0 -> s3jni_run_java_auto_extensions E env X w = Ok 0%Z w.
Proof.
  intros HnE. unfold s3jni_run_java_auto_extensions. msimpl.
  fold (nExt w). rewrite HnE. reflexivity.
Qed.

(** C2, as amended: the proxy that the native engine calls while it
    opens the connection [X] on the thread [env].  When auto-extensions
    are registered, the row of [env] holds the record [ps] of the
    connection being opened, and no exception is pending, the proxy
    stores [X] in that record and in its wrapper object and empties the
    row's slot; then it calls the active entries in the order of the
    registry's array with the wrapper of [ps] as their only argument, and
    at each of these calls the wrapper holds [X]; it stops after the
    first call that throws (the result is then the value the call handed
    back or, if that is 0, [SQLITE_ERROR]) or returns a code other than 0
    (which is then the result), and returns 0 when there is none.  No
    output pointer receives the wrapper meanwhile.  When the
    extensions [js] have only been registered, none having been
    cancelled, the order of the array is the order of registration: the
    calls are those of [js] in this order. *)
Theorem auto_extensions_run_in_array_order E env X w jc row ps r o :
  autoExt_reachable E w ->
  0 < nExt w ->
  env_lookup (S (length (memEnv w))) (memEnv w)
    (S3JniGlobalType.envCache_aHead (SJG w)) env = inr (Some jc) ->
  memEnv w !! jc = Some row ->
  S3JniEnv.pdbOpening row = Some ps ->
  memDb w !! ps = Some r ->
  obj_of (S3JniDb.jDb r) = Some o ->
  JavaVM.exceptionPending (jvm w) = false ->
  exists m rc w' calls,
    s3jni_run_java_auto_extensions E env X w = Ok rc w' /\
    memDb w' = alter (S3JniDb.set_pDb X) ps (memDb w) /\
    memEnv w' = alter (S3JniEnv.set_pdbOpening None) jc (memEnv w) /\
    JavaVM.nativePointer (jvm w') = <[o:=X]> (JavaVM.nativePointer (jvm w)) /\
    events w' = events w ++ calls /\
    Forall2 (is_proxy_call (S3JniDb.jDb r)
               (<[o:=X]> (JavaVM.nativePointer (jvm w))))
      (take m (pExt w)) calls /\
    (forall js,
       autoExt_registered E w js ->
       Forall2 (is_proxy_call_of (S3JniDb.jDb r)
                  (<[o:=X]> (JavaVM.nativePointer (jvm w))))
         (take m js) calls) /\
    proxy_stops_at E (length (events w)) (nExt w) m rc /\
    JavaVM.value (jvm w') = JavaVM.value (jvm w) /\
    pExt w' = pExt w /\ nExt w' = nExt w.
Proof.
  intros Hreach Hn Hfind Hrow Hopening Hps Ho Hep.
  destruct (auto_extensions_proxy_run E env X w jc row ps r o
              Hreach Hn Hfind Hrow Hopening Hps Ho Hep)
    as (m & rc & w' & calls & Hrun & HmD & HmE & Hnp & Hev & Hcalls & Hstop
        & Hval & Hp & HnE).
  exists m, rc, w', calls.
  do 6 (split; [assumption|]).
  split; [|split; [exact Hstop|]; split; [exact Hval|]; split; assumption].
  intros js Hreg.
  eapply proxy_calls_of_registered; [exact Hreg| |exact Hcalls].
  destruct Hstop as (Hm & _). exact Hm.
Qed.

Lemma auto_extensions_run_in_array_order_witness :
  exists m w' calls,
    s3jni_run_java_auto_extensions env_second_extension_throws 1%N 100%N
      world_with_pending_open = Ok SQLITE_ERROR w' /\
    JavaVM.nativePointer (jvm w') !! 0 = Some 100%N /\
    events w' = events world_with_pending_open ++ calls /\
    Forall2 (is_proxy_call_of (JGlobal 3 0) (<[0:=100%N]> ∅))
      (take m [JLocal 5; JLocal 6; JLocal 7]) calls /\
    proxy_stops_at env_second_extension_throws 1 3 m SQLITE_ERROR.
Proof.
  assert (Hreg : autoExt_registered env_second_extension_throws
                   world_with_pending_open [JLocal 5; JLocal 6; JLocal 7]).
  { eapply autoExt_registered_other;
      [eapply (autoExt_registered_more _ _ (JLocal 7) 0%Z _ [JLocal 5; JLocal 6]);
       [eapply (autoExt_registered_more _ _ (JLocal 6) 0%Z _ [JLocal 5]);
        [eapply (autoExt_registered_more _ _ (JLocal 5) 0%Z _ []);
         [apply (autoExt_registered_none _ World0); reflexivity|..]|..]|..]|..];
      vm_compute; reflexivity. }
  pose proof (proj1 (autoExt_registered_spec _ _ _ Hreg)) as Hreach.
  destruct (auto_extensions_run_in_array_order env_second_extension_throws
              1%N 100%N world_with_pending_open 0
              (S3JniEnv.mk 1%N (Some 0) None None) 0
              (S3JniDb.set_jDb (JGlobal 3 0) S3JniDb.zero) 0 Hreach)
    as (m & rc & w' & calls & Hrun & _ & _ & Hnp & Hev & _ & Hjs & Hstop & _);
    [vm_compute; lia|vm_compute; reflexivity..|].
  pose proof Hrun as Hrc. vm_compute in Hrc. injection Hrc as Hrc _.
  subst rc. exists m, w', calls.
  split; [exact Hrun|]. split; [rewrite Hnp; apply lookup_insert_eq|].
  split; [exact Hev|]. split; [exact (Hjs _ Hreg)|exact Hstop].
Defined.

(** C2, the claim as it was made: the objects 5, 6 and 7 are registered
    in this order and 5 is cancelled, which moves 7 into its place; the
    proxy of the next open calls 7 and then 6, the extension registered
    last before the one registered before it. *)
Lemma auto_extensions_order_counterexample :
  let E := env_all_methods in
  exists w1 w2 w3 w4 w5 w6 jc z,
    Java_org_sqlite_jni_SQLite3Jni_sqlite3_1auto_1extension E (JLocal 5) World0
    = Ok 0%Z w1 /\
    Java_org_sqlite_jni_SQLite3Jni_sqlite3_1auto_1extension E (JLocal 6) w1
    = Ok 0%Z w2 /\
    Java_org_sqlite_jni_SQLite3Jni_sqlite3_1auto_1extension E (JLocal 7) w2
    = Ok 0%Z w3 /\
    Java_org_sqlite_jni_SQLite3Jni_sqlite3_1cancel_1auto_1extension (JLocal 5) w3
    = Ok true w4 /\
    s3jni_open_pre E 1%N None w4 = Ok (0%Z, jc, z, Some 0) w5 /\
    S3JniDb.jDb <$> memDb w5 !! 0 = Some (JGlobal 3 0) /\
    s3jni_run_java_auto_extensions E 1%N 100%N w5 = Ok 0%Z w6 /\
    events w6 =
      events w5 ++
      [EvCall 7 1%N [VObject (JGlobal 3 0)] (<[0:=100%N]> ∅);
       EvCall 6 1%N [VObject (JGlobal 3 0)] (<[0:=100%N]> ∅)].
Proof.
  cbv zeta. do 8 eexists.
  split; [vm_compute; reflexivity|].
  split; [vm_compute; reflexivity|].
  split; [vm_compute; reflexivity|].
  split; [vm_compute; reflexivity|].
  split; [vm_compute; reflexivity|].
  split; [vm_compute; reflexivity|].
  split; [vm_compute; reflexivity|].
  vm_compute. reflexivity.
Qed.


(** ** Doubly-linked lists in an arena *)

Section LinksFacts.
Context {R : Type} (next prev : R -> ptr).
Local Abbreviation dll := (dll next prev).
Local Abbreviation same_links := (same_links next prev).

Lemma same_links_refl (mem : list R) a : same_links mem mem a.
Proof. intros r Hr. eauto. Qed.

Lemma dll_same_links (mem mem' : list R) l : forall pv p,
  (forall a, a ∈ l -> same_links mem mem' a) ->
  dll mem pv p l -> dll mem' pv p l.
Proof.
  induction l as [|a l IH]; intros pv p Hsame; [exact id|].
  cbn. intros (-> & r & Hr & Hpv & Hl).
  destruct (Hsame a ltac:(left) r Hr) as (r' & Hr' & Hn & Hp).
  split; [reflexivity|]. exists r'. split; [exact Hr'|].
  split; [congruence|]. rewrite Hn. apply IH; [|exact Hl].
  intros b Hb. apply Hsame. right. exact Hb.
Qed.

Lemma dll_head (mem : list R) pv p l : dll mem pv p l -> p = head l.
Proof. destruct l; cbn; [auto|]. intros (-> & _). reflexivity. Qed.

Lemma dll_lookup (mem : list R) l : forall pv p a,
  dll mem pv p l -> a ∈ l -> is_Some (mem !! a).
Proof.
  induction l as [|b l IH]; intros pv p a Hl Ha.
  - inversion Ha.
  - destruct Hl as (-> & r & Hr & _ & Hl).
    apply elem_of_cons in Ha as [->|Ha]; [eauto|]. eapply IH; eauto.
Qed.

Lemma dll_length (mem : list R) pv p l :
  dll mem pv p l -> NoDup l -> length l <= length mem.
Proof.
  intros Hl Hnd.
  assert (Hsub : l ⊆+ seq 0 (length mem)); cycle 1.
  { apply submseteq_length in Hsub. rewrite length_seq in Hsub. exact Hsub. }
  apply NoDup_submseteq; [exact Hnd|].
  intros a Ha. apply elem_of_seq. split; [lia|]. cbn.
  apply lookup_lt_is_Some. eapply dll_lookup; eauto.
Qed.

(** The record in the middle of a list. *)
Lemma dll_app (mem : list R) l1 a l2 : forall pv p,
  dll mem pv p (l1 ++ a :: l2) ->
  exists ra, mem !! a = Some ra /\
             prev ra = from_option Some pv (last l1) /\
             next ra = head l2.
Proof.
  induction l1 as [|b l1 IH]; intros pv p.
  - cbn. intros (-> & r & Hr & Hpv & Hl). exists r.
    split; [exact Hr|]. split; [exact Hpv|]. eapply dll_head, Hl.
  - cbn. intros (-> & r & Hr & Hpv & Hl).
    destruct (IH _ _ Hl) as (ra & Hra & Hp & Hn). exists ra.
    split; [exact Hra|]. split; [|exact Hn]. rewrite Hp.
    destruct l1 as [|c l1]; [reflexivity|].
    change (last (b :: c :: l1)) with (last (c :: l1)).
    destruct (last (c :: l1)) eqn:Hlast; [reflexivity|].
    apply last_None in Hlast. discriminate.
Qed.

(** Giving the first record another predecessor. *)
Lemma dll_set_prev (mem mem' : list R) l pv v p :
  dll mem pv p l -> NoDup l ->
  (forall a r, p = Some a -> mem !! a = Some r ->
     exists r', mem' !! a = Some r' /\ next r' = next r /\ prev r' = v) ->
  (forall a, a ∈ l -> p <> Some a -> same_links mem mem' a) ->
  dll mem' v p l.
Proof.
  destruct l as [|a l]; [intros; assumption|].
  cbn. intros (-> & r & Hr & Hpv & Hl) Hnd Hhead Hrest.
  apply NoDup_cons in Hnd as [Ha Hnd].
  destruct (Hhead a r eq_refl Hr) as (r' & Hr' & Hn & Hp).
  split; [reflexivity|]. exists r'. split; [exact Hr'|].
  split; [exact Hp|]. rewrite Hn.
  eapply dll_same_links; [|exact Hl].
  intros b Hb. apply Hrest; [right; exact Hb|].
  intros [= ->]. contradiction.
Qed.

(** Taking the record [a] out of a list, by pointing its neighbours at
    each other. *)
Lemma dll_unlink (mem mem' : list R) l1 a l2 ra : forall pv p,
  dll mem pv p (l1 ++ a :: l2) ->
  NoDup (l1 ++ a :: l2) ->
  (forall x, pv = Some x -> x ∉ l1 ++ a :: l2) ->
  mem !! a = Some ra ->
  (forall x r, x ∈ l1 ++ l2 -> mem !! x = Some r ->
     exists r', mem' !! x = Some r' /\
       next r' = (if decide (prev ra = Some x) then next ra else next r) /\
       prev r' = (if decide (next ra = Some x) then prev ra else prev r)) ->
  dll mem' pv (if decide (p = Some a) then next ra else p) (l1 ++ l2).
Proof.
  induction l1 as [|b l1 IH]; intros pv p Hl Hnd Hpv Hra Hupd.
  - cbn in *. destruct Hl as (-> & r & Hr & Hp & Hl).
    rewrite Hra in Hr. injection Hr as <-.
    rewrite decide_True by reflexivity.
    apply NoDup_cons in Hnd as [Ha Hnd].
    eapply (dll_set_prev mem mem' l2 (Some a) pv); [exact Hl|exact Hnd|..].
    + intros n rn Hn Hrn.
      assert (Hin : n ∈ l2).
      { apply dll_head in Hl. rewrite Hn in Hl. destruct l2; [discriminate|].
        injection Hl as ->. left. }
      destruct (Hupd n rn Hin Hrn) as (r' & Hr' & Hn' & Hp').
      exists r'. split; [exact Hr'|].
      rewrite decide_True in Hp' by exact Hn.
      rewrite decide_False in Hn'; [split; congruence|].
      rewrite Hp. intros Heq. apply (Hpv n Heq). right. exact Hin.
    + intros x Hx Hne r Hr. destruct (Hupd x r Hx Hr) as (r' & Hr' & Hn' & Hp').
      exists r'. split; [exact Hr'|].
      rewrite decide_False in Hp' by exact Hne.
      rewrite decide_False in Hn'; [split; congruence|].
      rewrite Hp. intros Heq. apply (Hpv x Heq). right. exact Hx.
  - cbn in Hl. destruct Hl as (-> & rb & Hrb & Hpb & Hl).
    cbn in Hnd. apply NoDup_cons in Hnd as [Hb Hnd].
    assert (Hba : b <> a).
    { intros ->. apply Hb. apply elem_of_app. right. left. }
    rewrite decide_False by congruence.
    destruct (dll_app mem l1 a l2 _ _ Hl) as (ra' & Hra' & Hpa & Hna).
    rewrite Hra in Hra'. injection Hra' as <-.
    destruct (Hupd b rb ltac:(left) Hrb) as (rb' & Hrb' & Hnb' & Hpb').
    cbn. split; [reflexivity|]. exists rb'. split; [exact Hrb'|].
    rewrite decide_False in Hpb'.
    2: { rewrite Hna. intros Heq. apply Hb. apply elem_of_app. right. right.
         destruct l2; [discriminate|]. injection Heq as ->. left. }
    split; [congruence|].
    assert (Hiff : prev ra = Some b <-> next rb = Some a).
    { rewrite Hpa, (dll_head mem _ _ _ Hl).
      destruct l1 as [|c l1]; cbn; [tauto|].
      split.
      - destruct (last (c :: l1)) as [z|] eqn:Hlast.
        + cbn. intros [= ->]. exfalso. apply Hb.
          apply elem_of_app. left.
          apply last_Some in Hlast as [l' ->].
          apply elem_of_app. right. left.
        + apply last_None in Hlast. discriminate.
      - intros [= ->]. exfalso. cbn in Hnd.
        apply NoDup_cons in Hnd as [Hc _]. apply Hc.
        apply elem_of_app. right. left. }
    specialize (IH (Some b) (next rb) Hl Hnd).
    rewrite Hnb'.
    destruct (decide (prev ra = Some b)) as [Hy|Hn];
      [rewrite decide_True in IH by tauto|rewrite decide_False in IH by tauto].
    all: apply IH; [intros x [= <-]; exact Hb|exact Hra|].
    all: intros x r Hx Hr; apply Hupd; [right; exact Hx|exact Hr].
Qed.

End LinksFacts.

(** ** The per-thread cache *)

Local Abbreviation edll := (dll S3JniEnv.pNext S3JniEnv.pPrev).

Lemma env_lookup_S fuel mem row env :
  env_lookup (S fuel) mem row env =
  match row with
  | None => inr None
  | Some a =>
      match mem !! a with
      | None => inl BadPointer
      | Some r =>
          if (S3JniEnv.env r =? env)%N then inr (Some a)
          else env_lookup fuel mem (S3JniEnv.pNext r) env
      end
  end.
Proof. reflexivity. Qed.

Lemma env_lookup_first_row mem T l : forall pv p fuel,
  edll mem pv p l -> length l < fuel ->
  env_lookup fuel mem p T = inr (first_row_of mem T l).
Proof.
  induction l as [|a l IH]; intros pv p fuel Hl Hfuel;
    (destruct fuel as [|fuel]; [lia|]); rewrite env_lookup_S.
  - cbn in Hl. subst p. reflexivity.
  - destruct Hl as (-> & r & Hr & _ & Hl). cbn. rewrite Hr.
    destruct (S3JniEnv.env r =? T)%N; [reflexivity|].
    eapply IH; [exact Hl|cbn in Hfuel; lia].
Qed.

Lemma NoDup_app_l {A} (l k : list A) : NoDup (l ++ k) -> NoDup l.
Proof. intros H. apply NoDup_app in H. tauto. Qed.

Lemma env_cache_lists_lookup w used free T :
  env_cache_lists w used free ->
  env_lookup (S (length (memEnv w))) (memEnv w)
    (S3JniGlobalType.envCache_aHead (SJG w)) T
  = inr (first_row_of (memEnv w) T used).
Proof.
  intros (Hu & _ & Hnd). eapply env_lookup_first_row; [exact Hu|].
  pose proof (dll_length _ _ _ _ _ _ Hu (NoDup_app_l _ _ Hnd)). lia.
Qed.

Lemma first_row_of_Some mem T l a :
  first_row_of mem T l = Some a ->
  a ∈ l /\ exists r, mem !! a = Some r /\ S3JniEnv.env r = T.
Proof.
  induction l as [|b l IH]; cbn; [discriminate|].
  destruct (mem !! b) as [r|] eqn:Hr; [|discriminate].
  destruct (S3JniEnv.env r =? T)%N eqn:He.
  - intros [= <-]. split; [left|]. exists r. split; [exact Hr|].
    apply N.eqb_eq, He.
  - intros H. destruct (IH H) as (Hin & Hex). split; [right; exact Hin|exact Hex].
Qed.

Lemma first_row_of_ext mem mem' T l :
  (forall x, x ∈ l -> S3JniEnv.env <$> mem' !! x = S3JniEnv.env <$> mem !! x) ->
  first_row_of mem' T l = first_row_of mem T l.
Proof.
  induction l as [|b l IH]; intros Hext; [reflexivity|]. cbn.
  pose proof (Hext b ltac:(left)) as Hb.
  rewrite IH by (intros x Hx; apply Hext; right; exact Hx).
  destruct (mem' !! b) as [r'|], (mem !! b) as [r|]; cbn in Hb;
    try discriminate; [|reflexivity].
  injection Hb as ->. reflexivity.
Qed.

Lemma first_row_of_delete mem T l1 b l2 a :
  first_row_of mem T (l1 ++ b :: l2) = Some a -> a <> b ->
  is_Some (mem !! b) ->
  first_row_of mem T (l1 ++ l2) = Some a.
Proof.
  intros Hfirst Hne [rb Hrb]. induction l1 as [|c l1 IH]; cbn in *.
  - rewrite Hrb in Hfirst. destruct (S3JniEnv.env rb =? T)%N; [congruence|].
    exact Hfirst.
  - destruct (mem !! c) as [rc|]; [|discriminate].
    destruct (S3JniEnv.env rc =? T)%N; [exact Hfirst|]. apply IH, Hfirst.
Qed.

#[global] Arguments env_cache_link : simpl never.

Ltac alter_lookup :=
  repeat first
    [ rewrite list_lookup_alter_eq
    | rewrite list_lookup_alter_ne by congruence ].

Lemma env_cache_link_run T a w used ra :
  edll (memEnv w) None (S3JniGlobalType.envCache_aHead (SJG w)) used ->
  NoDup used -> a ∉ used -> memEnv w !! a = Some ra ->
  exists w',
    env_cache_link T a w = Ok a w' /\
    edll (memEnv w') None (S3JniGlobalType.envCache_aHead (SJG w')) (a :: used) /\
    S3JniGlobalType.envCache_aFree (SJG w') =
      S3JniGlobalType.envCache_aFree (SJG w) /\
    (exists r, memEnv w' !! a = Some r /\ S3JniEnv.env r = T) /\
    (forall x r, x <> a -> memEnv w !! x = Some r ->
       exists r', memEnv w' !! x = Some r' /\
         S3JniEnv.env r' = S3JniEnv.env r /\
         S3JniEnv.pNext r' = S3JniEnv.pNext r /\
         (S3JniGlobalType.envCache_aHead (SJG w) <> Some x ->
          S3JniEnv.pPrev r' = S3JniEnv.pPrev r)).
Proof.
  intros Hu Hnd Ha Hra. unfold env_cache_link. msimpl. rewrite Hra. msimpl.
  alter_lookup. rewrite Hra. msimpl.
  destruct (S3JniGlobalType.envCache_aHead (SJG w)) as [h|] eqn:Hhead.
  - assert (Hh : h ∈ used).
    { apply dll_head in Hu. destruct used; [discriminate|].
      injection Hu as ->. left. }
    assert (Hha : h <> a) by (intros ->; contradiction).
    destruct (dll_lookup _ _ _ _ _ _ h Hu Hh) as [rh Hrh].
    unfold env_set_pPrev. msimpl. alter_lookup. rewrite Hrh, ?Hra. msimpl.
    alter_lookup. rewrite ?Hra. msimpl.
    eexists. split; [reflexivity|]. cbn. alter_lookup. rewrite Hra. cbn.
    split; [|split; [reflexivity|split; [eauto|]]].
    + split; [reflexivity|]. eexists. split; [reflexivity|]. cbn.
      split; [reflexivity|].
      eapply (dll_set_prev _ _ (memEnv w)); [exact Hu|exact Hnd|..].
      * intros b r [= <-] Hr. alter_lookup. rewrite Hr. cbn. eauto.
      * intros x Hx Hne r Hr.
        assert (x <> a) by (intros ->; contradiction).
        assert (x <> h) by congruence.
        alter_lookup. eauto.
    + intros x r Hx Hr. destruct (decide (x = h)) as [->|Hxh].
      * alter_lookup. rewrite Hr. cbn. eexists. split; [reflexivity|].
        cbn. repeat split. congruence.
      * alter_lookup. eauto 6.
  - destruct used as [|u used]; [|destruct Hu as (? & _); discriminate].
    unfold env_set_pPrev. msimpl. alter_lookup. rewrite ?Hra. msimpl.
    eexists. split; [reflexivity|]. cbn. alter_lookup. rewrite Hra. cbn.
    split; [|split; [reflexivity|split; [eauto|]]].
    + split; [reflexivity|]. eexists. split; [reflexivity|]. cbn. auto.
    + intros x r Hx Hr. alter_lookup. eauto 6.
Qed.

Lemma S3JniGlobal_env_cache_eq E env :
  S3JniGlobal_env_cache E env =
  (metrics_incr M_nMutexEnv >>
   let* w := get in
   let* row := lift (env_lookup (S (length (memEnv w))) (memEnv w)
                  (S3JniGlobalType.envCache_aHead (SJG w)) env) in
   match row with
   | Some a => metrics_incr M_envCacheHits >> ret a
   | None =>
       metrics_incr M_envCacheMisses >>
       let* g := getSJG in
       let* row := match S3JniGlobalType.envCache_aFree g with
              | Some a =>
                  let* r := load_env a in
                  modify_SJG (S3JniGlobalType.set_envCache_aFree
                                (S3JniEnv.pNext r)) >>
                  env_set_pPrev (S3JniEnv.pNext r) None >>
                  ret a
              | None =>
                  let* a := s3jni_malloc_S3JniEnv E in
                  metrics_incr M_envCacheAllocs >>
                  ret a
              end in
       env_cache_link env row
   end).
Proof. reflexivity. Qed.

Lemma S3JniGlobal_env_cache_run E T w used free :
  env_cache_lists w used free ->
  match S3JniGlobal_env_cache E T w with
  | Ok a w' =>
      (first_row_of (memEnv w) T used = Some a /\
       memEnv w' = memEnv w /\ env_cache_lists w' used free) \/
      (first_row_of (memEnv w) T used = None /\
       (exists free', env_cache_lists w' (a :: used) free') /\
       (exists r, memEnv w' !! a = Some r /\ S3JniEnv.env r = T) /\
       (forall x, x ∈ used ->
          S3JniEnv.env <$> memEnv w' !! x = S3JniEnv.env <$> memEnv w !! x))
  | Abort why => why = FatalError "Out of memory."
  end.
Proof.
  intros Hlists. pose proof Hlists as (Hu & Hf & Hnd).
  rewrite S3JniGlobal_env_cache_eq. msimpl.
  rewrite (env_cache_lists_lookup w used free T Hlists).
  destruct (first_row_of (memEnv w) T used) as [a|] eqn:Hfirst; msimpl.
  { left. split; [reflexivity|]. split; [reflexivity|exact Hlists]. }
  pose proof (NoDup_app_l _ _ Hnd) as Hndu.
  destruct free as [|f free'].
  - cbn in Hf. rewrite Hf. unfold s3jni_malloc_S3JniEnv. msimpl.
    destruct (alloc_ok E (nAlloc w)); msimpl; [|reflexivity].
    match goal with |- context [env_cache_link T ?a ?w1] =>
      destruct (env_cache_link_run T a w1 used S3JniEnv.zero)
        as (w' & Hrun & Hu' & Hf' & Hrow & Hrest)
    end.
    + cbn. eapply dll_same_links; [|exact Hu].
      intros x Hx r Hr. rewrite lookup_app_l by (eapply lookup_lt_Some, Hr).
      eauto.
    + exact Hndu.
    + intros Hin. destruct (dll_lookup _ _ _ _ _ _ _ Hu Hin) as [r Hr].
      apply lookup_lt_Some in Hr. lia.
    + cbn. rewrite lookup_app_r by lia. rewrite Nat.sub_diag. reflexivity.
    + rewrite Hrun. right. split; [reflexivity|].
      split; [|split; [exact Hrow|]].
      * exists []. split; [exact Hu'|]. split; [cbn; rewrite Hf'; exact Hf|].
        rewrite app_nil_r. apply NoDup_cons. split; [|exact Hndu].
        intros Hin. destruct (dll_lookup _ _ _ _ _ _ _ Hu Hin) as [r Hr].
        apply lookup_lt_Some in Hr. lia.
      * intros x Hx. destruct (dll_lookup _ _ _ _ _ _ _ Hu Hx) as [r Hr].
        assert (Hxa : x <> length (memEnv w))
          by (apply lookup_lt_Some in Hr; lia).
        destruct (Hrest x r Hxa) as (r' & Hr' & He & _).
        { cbn. rewrite lookup_app_l by (eapply lookup_lt_Some, Hr). exact Hr. }
        rewrite Hr', Hr. cbn. congruence.
  - destruct Hf as (Hfree & rf & Hrf & Hpf & Hf). rewrite Hfree. msimpl.
    rewrite Hrf. msimpl.
    apply NoDup_app in Hnd as (_ & Hdisj & Hndf).
    apply NoDup_cons in Hndf as [Hff Hndf].
    assert (Hfu : f ∉ used) by (intros Hin; apply (Hdisj f Hin); left).
    match goal with |- context [env_set_pPrev (S3JniEnv.pNext rf) None ?w0] =>
    assert (Hpop : exists w1,
      env_set_pPrev (S3JniEnv.pNext rf) None w0 = Ok tt w1 /\
      S3JniGlobalType.envCache_aHead (SJG w1)
        = S3JniGlobalType.envCache_aHead (SJG w) /\
      S3JniGlobalType.envCache_aFree (SJG w1) = S3JniEnv.pNext rf /\
      edll (memEnv w1) None (S3JniEnv.pNext rf) free' /\
      (forall x, x ∉ free' -> memEnv w1 !! x = memEnv w !! x)) end.
    { destruct (S3JniEnv.pNext rf) as [n|] eqn:Hn; unfold env_set_pPrev.
      - assert (Hnin : n ∈ free').
        { apply dll_head in Hf. destruct free'; [discriminate|].
          injection Hf as ->. left. }
        destruct (dll_lookup _ _ _ _ _ _ n Hf Hnin) as [rn Hrn].
        msimpl. rewrite Hrn. eexists. split; [reflexivity|]. cbn.
        split; [reflexivity|]. split; [reflexivity|]. split.
        + eapply (dll_set_prev _ _ (memEnv w)); [exact Hf|exact Hndf|..].
          * intros b r [= <-] Hr. alter_lookup. rewrite Hr. cbn. eauto.
          * intros x Hx Hne r Hr. assert (x <> n) by congruence.
            alter_lookup. eauto.
        + intros x Hx. apply list_lookup_alter_ne. intros ->. contradiction.
      - eexists. split; [reflexivity|]. cbn.
        split; [reflexivity|]. split; [reflexivity|].
        destruct free' as [|? ?]; [|destruct Hf as (? & _); discriminate].
        split; [reflexivity|]. reflexivity. }
    destruct Hpop as (w1 & Hrun1 & Hhead1 & Hfree1 & Hf1 & Hsame1).
    rewrite Hrun1.
    destruct (env_cache_link_run T f w1 used rf)
      as (w' & Hrun & Hu' & Hf' & Hrow & Hrest).
    + rewrite Hhead1. eapply dll_same_links; [|exact Hu].
      intros x Hx r Hr. rewrite Hsame1; [eauto|].
      intros Hin. apply (Hdisj x Hx). right. exact Hin.
    + exact Hndu.
    + exact Hfu.
    + rewrite Hsame1 by exact Hff. exact Hrf.
    + rewrite Hrun. right. split; [reflexivity|].
      split; [|split; [exact Hrow|]].
      * exists free'. split; [exact Hu'|]. split.
        -- rewrite Hf', Hfree1. eapply dll_same_links; [|exact Hf1].
           intros x Hx r Hr.
           assert (Hxf : x <> f) by (intros ->; contradiction).
           destruct (Hrest x r Hxf Hr) as (r' & Hr' & _ & Hn' & Hp').
           exists r'. split; [exact Hr'|]. split; [exact Hn'|]. apply Hp'.
           rewrite Hhead1. intros Hx'.
           apply (Hdisj x); [|right; exact Hx].
           apply dll_head in Hu. rewrite Hx' in Hu.
           destruct used; [discriminate|]. injection Hu as ->. left.
        -- cbn. apply NoDup_cons. split.
           ++ intros Hin. apply elem_of_app in Hin as [Hin|Hin]; contradiction.
           ++ apply NoDup_app. split; [exact Hndu|]. split; [|exact Hndf].
              intros x Hx Hin. apply (Hdisj x Hx). right. exact Hin.
      * intros x Hx. destruct (dll_lookup _ _ _ _ _ _ _ Hu Hx) as [r Hr].
        assert (Hxf : x <> f) by (intros ->; contradiction).
        assert (Hxn : x ∉ free')
          by (intros Hin; apply (Hdisj x Hx); right; exact Hin).
        destruct (Hrest x r Hxf) as (r' & Hr' & He & _).
        { rewrite Hsame1 by exact Hxn. exact Hr. }
        rewrite Hr', Hr. cbn. congruence.
Qed.

#[global] Arguments env_cache_unlink : simpl never.
#[global] Arguments env_cache_set_free : simpl never.

Lemma S3JniGlobal_env_uncache_eq env w0 :
  S3JniGlobal_env_uncache env w0 =
  (let* w := get in
   let* row := lift (env_lookup (S (length (memEnv w))) (memEnv w)
                  (S3JniGlobalType.envCache_aHead (SJG w)) env) in
   match row with
   | None => ret false
   | Some a => env_cache_unlink a >> env_cache_set_free a
   end) w0.
Proof.
  unfold S3JniGlobal_env_uncache, env_cache_unlink. unfold bind, get.
  destruct (lift _ w0) as [[a|] w1|]; [|reflexivity..].
  destruct (load_env a w1) as [r w2|]; [|reflexivity].
  destruct (env_set_pPrev _ _ w2) as [? w3|]; [|reflexivity].
  destruct (env_set_pNext _ _ w3) as [? w4|]; [|reflexivity].
  destruct (getSJG w4) as [g w5|]; [|reflexivity].
  destruct (when _ _ w5) as [? w6|]; reflexivity.
Qed.

Lemma env_cache_set_free_run a w free ra :
  edll (memEnv w) None (S3JniGlobalType.envCache_aFree (SJG w)) free ->
  NoDup free -> a ∉ free -> memEnv w !! a = Some ra ->
  exists w',
    env_cache_set_free a w = Ok true w' /\
    edll (memEnv w') None (S3JniGlobalType.envCache_aFree (SJG w')) (a :: free) /\
    S3JniGlobalType.envCache_aHead (SJG w') =
      S3JniGlobalType.envCache_aHead (SJG w) /\
    (forall x, x <> a -> x ∉ free -> memEnv w' !! x = memEnv w !! x).
Proof.
  intros Hf Hnd Ha Hra. unfold env_cache_set_free. msimpl. rewrite Hra. msimpl.
  alter_lookup. rewrite Hra. msimpl.
  destruct (S3JniGlobalType.envCache_aFree (SJG w)) as [h|] eqn:Hhead.
  - assert (Hh : h ∈ free).
    { apply dll_head in Hf. destruct free; [discriminate|].
      injection Hf as ->. left. }
    assert (Hha : h <> a) by (intros ->; contradiction).
    destruct (dll_lookup _ _ _ _ _ _ h Hf Hh) as [rh Hrh].
    unfold env_set_pPrev. msimpl. alter_lookup. rewrite Hrh. msimpl.
    eexists. split; [reflexivity|]. cbn. alter_lookup. rewrite Hra. cbn.
    split; [|split; [reflexivity|]].
    + split; [reflexivity|]. eexists. split; [reflexivity|]. cbn.
      split; [reflexivity|].
      eapply (dll_set_prev _ _ (memEnv w)); [exact Hf|exact Hnd|..].
      * intros b r [= <-] Hr. alter_lookup. rewrite Hr. cbn. eauto.
      * intros x Hx Hne r Hr.
        assert (x <> a) by (intros ->; contradiction).
        assert (x <> h) by congruence.
        alter_lookup. eauto.
    + intros x Hx Hxf. assert (x <> h) by (intros ->; contradiction).
      alter_lookup. reflexivity.
  - destruct free as [|u free]; [|destruct Hf as (? & _); discriminate].
    unfold env_set_pPrev. msimpl.
    eexists. split; [reflexivity|]. cbn. alter_lookup. rewrite Hra. cbn.
    split; [|split; [reflexivity|]].
    + split; [reflexivity|]. eexists. split; [reflexivity|]. cbn. auto.
    + intros x Hx _. alter_lookup. reflexivity.
Qed.

Lemma opt_alter_lookup {R} (f : R -> R) p (mem : list R) x :
  opt_alter f p mem !! x =
  if decide (p = Some x) then f <$> mem !! x else mem !! x.
Proof.
  destruct p as [n|]; cbn.
  - destruct (decide (Some n = Some x)) as [[= ->]|Hne].
    + apply list_lookup_alter_eq.
    + apply list_lookup_alter_ne. congruence.
  - reflexivity.
Qed.

Lemma env_set_pPrev_run p v w :
  (forall n, p = Some n -> is_Some (memEnv w !! n)) ->
  exists w',
    env_set_pPrev p v w = Ok tt w' /\ SJG w' = SJG w /\
    memEnv w' = opt_alter (S3JniEnv.set_pPrev v) p (memEnv w).
Proof.
  intros Hp. destruct p as [n|]; cbn.
  - destruct (Hp n eq_refl) as [r Hr]. msimpl. rewrite Hr.
    eexists. repeat split.
  - eexists. repeat split.
Qed.

Lemma env_set_pNext_run p v w :
  (forall n, p = Some n -> is_Some (memEnv w !! n)) ->
  exists w',
    env_set_pNext p v w = Ok tt w' /\ SJG w' = SJG w /\
    memEnv w' = opt_alter (S3JniEnv.set_pNext v) p (memEnv w).
Proof.
  intros Hp. destruct p as [n|]; cbn.
  - destruct (Hp n eq_refl) as [r Hr]. msimpl. rewrite Hr.
    eexists. repeat split.
  - eexists. repeat split.
Qed.

#[global] Arguments env_set_pPrev : simpl never.
#[global] Arguments env_set_pNext : simpl never.

Lemma env_cache_unlink_run a w l1 l2 :
  edll (memEnv w) None (S3JniGlobalType.envCache_aHead (SJG w))
    (l1 ++ a :: l2) ->
  NoDup (l1 ++ a :: l2) ->
  exists w',
    env_cache_unlink a w = Ok tt w' /\
    edll (memEnv w') None (S3JniGlobalType.envCache_aHead (SJG w')) (l1 ++ l2) /\
    S3JniGlobalType.envCache_aFree (SJG w') =
      S3JniGlobalType.envCache_aFree (SJG w) /\
    memEnv w' !! a = memEnv w !! a /\
    (forall x, x ∉ l1 ++ a :: l2 -> memEnv w' !! x = memEnv w !! x) /\
    (forall x, S3JniEnv.env <$> memEnv w' !! x = S3JniEnv.env <$> memEnv w !! x).
Proof.
  intros Hu Hnd.
  destruct (dll_app _ _ _ _ _ _ _ _ Hu) as (ra & Hra & Hpa & Hna).
  unfold env_cache_unlink. msimpl. rewrite Hra. msimpl.
  assert (Hn_in : forall n, S3JniEnv.pNext ra = Some n -> n ∈ l2).
  { intros n Hn. rewrite Hn in Hna. destruct l2; [discriminate|].
    injection Hna as ->. left. }
  assert (Hp_in : forall p, S3JniEnv.pPrev ra = Some p -> p ∈ l1).
  { intros p Hp. rewrite Hp in Hpa. destruct (last l1) as [z|] eqn:Hlast;
      [|discriminate]. cbn in Hpa. injection Hpa as ->.
    apply last_Some in Hlast as [l' ->]. apply elem_of_app. right. left. }
  destruct (env_set_pPrev_run (S3JniEnv.pNext ra) (S3JniEnv.pPrev ra) w)
    as (w1 & Hrun1 & Hg1 & Hm1).
  { intros n Hn. eapply dll_lookup; [exact Hu|].
    apply elem_of_app. right. right. apply Hn_in, Hn. }
  rewrite Hrun1.
  destruct (env_set_pNext_run (S3JniEnv.pPrev ra) (S3JniEnv.pNext ra) w1)
    as (w2 & Hrun2 & Hg2 & Hm2).
  { intros p Hp. rewrite Hm1, opt_alter_lookup.
    assert (His : is_Some (memEnv w !! p)).
    { eapply dll_lookup; [exact Hu|]. apply elem_of_app. left. apply Hp_in, Hp. }
    destruct (decide _); [apply fmap_is_Some|]; exact His. }
  rewrite Hrun2. rewrite Hg2, Hg1.
  assert (Hmem : forall x, memEnv w2 !! x =
            (if decide (S3JniEnv.pPrev ra = Some x)
             then fmap (S3JniEnv.set_pNext (S3JniEnv.pNext ra)) else id)
              ((if decide (S3JniEnv.pNext ra = Some x)
                then fmap (S3JniEnv.set_pPrev (S3JniEnv.pPrev ra)) else id)
                 (memEnv w !! x))).
  { intros x. rewrite Hm2, opt_alter_lookup, Hm1, opt_alter_lookup.
    destruct (decide (S3JniEnv.pPrev ra = Some x)),
             (decide (S3JniEnv.pNext ra = Some x)); reflexivity. }
  assert (Hnd' := Hnd). apply NoDup_app in Hnd' as (Hnd1 & Hdisj & Hnd2).
  apply NoDup_cons in Hnd2 as [Ha2 Hnd2].
  assert (Ha1 : a ∉ l1) by (intros Hin; apply (Hdisj a Hin); left).
  assert (Hlinks : edll (memEnv w2) None
            (if decide (S3JniGlobalType.envCache_aHead (SJG w) = Some a)
             then S3JniEnv.pNext ra
             else S3JniGlobalType.envCache_aHead (SJG w)) (l1 ++ l2)).
  { eapply (dll_unlink _ _ (memEnv w)); [exact Hu|exact Hnd|discriminate
                                         |exact Hra|].
    intros x r Hx Hr. rewrite Hmem, Hr.
    destruct (decide (S3JniEnv.pPrev ra = Some x)),
             (decide (S3JniEnv.pNext ra = Some x)); cbn; eauto. }
  assert (Hother : forall x, x ∉ l1 ++ l2 -> memEnv w2 !! x = memEnv w !! x).
  { intros x Hx. rewrite Hmem.
    rewrite decide_False, decide_False; [reflexivity|..].
    - intros Hn. apply Hx, elem_of_app. right. apply Hn_in, Hn.
    - intros Hp. apply Hx, elem_of_app. left. apply Hp_in, Hp. }
  assert (Henv : forall x, S3JniEnv.env <$> memEnv w2 !! x
                           = S3JniEnv.env <$> memEnv w !! x).
  { intros x. rewrite Hmem.
    destruct (decide (S3JniEnv.pPrev ra = Some x)),
             (decide (S3JniEnv.pNext ra = Some x)),
             (memEnv w !! x); reflexivity. }
  assert (Haa : a ∉ l1 ++ l2)
    by (intros Hin; apply elem_of_app in Hin as [?|?]; contradiction).
  destruct (decide (S3JniGlobalType.envCache_aHead (SJG w) = Some a))
    as [Hhd|Hhd].
  - rewrite bool_decide_eq_true_2 by exact Hhd. msimpl.
    eexists. split; [reflexivity|]. cbn. rewrite Hg2, Hg1.
    split; [exact Hlinks|]. split; [reflexivity|].
    split; [rewrite (Hother a Haa); exact Hra|]. split; [|exact Henv].
    intros x Hx. apply Hother. intros Hin. apply Hx.
    apply elem_of_app in Hin as [?|?]; apply elem_of_app;
      [left|right; right]; assumption.
  - rewrite bool_decide_eq_false_2 by exact Hhd. msimpl.
    exists w2. split; [reflexivity|]. rewrite Hg2, Hg1.
    split; [exact Hlinks|]. split; [reflexivity|].
    split; [rewrite (Hother a Haa); exact Hra|]. split; [|exact Henv].
    intros x Hx. apply Hother. intros Hin. apply Hx.
    apply elem_of_app in Hin as [?|?]; apply elem_of_app;
      [left|right; right]; assumption.
Qed.

Lemma S3JniGlobal_env_uncache_run T w used free :
  env_cache_lists w used free ->
  exists b w',
    S3JniGlobal_env_uncache T w = Ok b w' /\
    ((first_row_of (memEnv w) T used = None /\ b = false /\ w' = w) \/
     (exists l1 a l2,
        used = l1 ++ a :: l2 /\
        first_row_of (memEnv w) T used = Some a /\ b = true /\
        env_cache_lists w' (l1 ++ l2) (a :: free) /\
        forall x, x ∈ l1 ++ l2 ->
          S3JniEnv.env <$> memEnv w' !! x = S3JniEnv.env <$> memEnv w !! x)).
Proof.
  intros Hlists. pose proof Hlists as (Hu & Hf & Hnd).
  rewrite S3JniGlobal_env_uncache_eq. msimpl.
  rewrite (env_cache_lists_lookup w used free T Hlists).
  destruct (first_row_of (memEnv w) T used) as [a|] eqn:Hfirst; msimpl.
  2: { exists false, w. split; [reflexivity|]. left. auto. }
  destruct (first_row_of_Some _ _ _ _ Hfirst) as (Hin & ra & Hra & _).
  apply list_elem_of_split in Hin as (l1 & l2 & ->).
  assert (Hnd' := Hnd). apply NoDup_app in Hnd' as (Hndu & Hdisj & Hndf).
  destruct (env_cache_unlink_run a w l1 l2 Hu Hndu)
    as (w1 & Hrun1 & Hu1 & Hf1 & Ha1 & Hother1 & Henv1).
  rewrite Hrun1.
  assert (Haf : a ∉ free).
  { intros Hin. apply (Hdisj a); [|exact Hin].
    apply elem_of_app. right. left. }
  destruct (env_cache_set_free_run a w1 free ra)
    as (w2 & Hrun2 & Hf2 & Hu2 & Hother2).
  { rewrite Hf1. eapply dll_same_links; [|exact Hf].
    intros x Hx r Hr. rewrite Hother1; [eauto|].
    intros Hin. apply (Hdisj x Hin Hx). }
  { exact Hndf. }
  { exact Haf. }
  { rewrite Ha1. exact Hra. }
  rewrite Hrun2. exists true, w2. split; [reflexivity|]. right.
  exists l1, a, l2. do 3 (split; [reflexivity|]).
  assert (Hau : a ∉ l1 ++ l2).
  { intros Hin. apply NoDup_app in Hndu as (_ & Hd & Hn2).
    apply NoDup_cons in Hn2 as [Hn2 _].
    apply elem_of_app in Hin as [Hin|Hin]; [|contradiction].
    apply (Hd a Hin). left. }
  assert (Hkeep : forall x, x ∈ l1 ++ l2 -> memEnv w2 !! x = memEnv w1 !! x).
  { intros x Hx. apply Hother2.
    - intros ->. contradiction.
    - intros Hin. apply (Hdisj x); [|exact Hin].
      apply elem_of_app in Hx as [?|?]; apply elem_of_app;
        [left|right; right]; assumption. }
  split; [split; [|split]|].
  - rewrite Hu2. eapply dll_same_links; [|exact Hu1].
    intros x Hx r Hr. rewrite (Hkeep x Hx). eauto.
  - exact Hf2.
  - apply NoDup_app. split; [|split].
    + apply NoDup_app in Hndu as (Hn1 & Hd & Hn2).
      apply NoDup_cons in Hn2 as [_ Hn2].
      apply NoDup_app. split; [exact Hn1|]. split; [|exact Hn2].
      intros x Hx1 Hx2. apply (Hd x Hx1). right. exact Hx2.
    + intros x Hx Hin. apply elem_of_cons in Hin as [->|Hin];
        [contradiction|].
      apply (Hdisj x); [|exact Hin].
      apply elem_of_app in Hx as [?|?]; apply elem_of_app;
        [left|right; right]; assumption.
    + apply NoDup_cons. split; [exact Haf|exact Hndf].
  - intros x Hx. rewrite (Hkeep x Hx). apply Henv1.
Qed.

Lemma env_cache_lists_other w w' used free :
  S3JniGlobalType.envCache_aHead (SJG w')
    = S3JniGlobalType.envCache_aHead (SJG w) ->
  S3JniGlobalType.envCache_aFree (SJG w')
    = S3JniGlobalType.envCache_aFree (SJG w) ->
  map (fun r => (S3JniEnv.env r, S3JniEnv.pPrev r, S3JniEnv.pNext r))
      (memEnv w')
    = map (fun r => (S3JniEnv.env r, S3JniEnv.pPrev r, S3JniEnv.pNext r))
          (memEnv w) ->
  env_cache_lists w used free ->
  env_cache_lists w' used free /\
  forall T, first_row_of (memEnv w') T used = first_row_of (memEnv w) T used.
Proof.
  intros Hh Hf Hmap (Hu & Hfr & Hnd).
  assert (Hshape : forall x r, memEnv w !! x = Some r ->
            exists r', memEnv w' !! x = Some r' /\
              S3JniEnv.env r' = S3JniEnv.env r /\
              S3JniEnv.pNext r' = S3JniEnv.pNext r /\
              S3JniEnv.pPrev r' = S3JniEnv.pPrev r).
  { intros x r Hr.
    assert (Hx : map (fun r => (S3JniEnv.env r, S3JniEnv.pPrev r,
                                S3JniEnv.pNext r)) (memEnv w') !! x
                 = Some (S3JniEnv.env r, S3JniEnv.pPrev r, S3JniEnv.pNext r))
      by (rewrite Hmap, list_lookup_fmap, Hr; reflexivity).
    rewrite list_lookup_fmap in Hx.
    destruct (memEnv w' !! x) as [r'|]; [|discriminate].
    cbn in Hx. injection Hx as He Hp Hn. eauto 6. }
  assert (Hlinks : forall x, same_links S3JniEnv.pNext S3JniEnv.pPrev
                     (memEnv w) (memEnv w') x).
  { intros x r Hr. destruct (Hshape x r Hr) as (r' & Hr' & _ & Hn & Hp).
    eauto. }
  split.
  - split; [|split; [|exact Hnd]].
    + rewrite Hh. eapply dll_same_links; [|exact Hu]. auto.
    + rewrite Hf. eapply dll_same_links; [|exact Hfr]. auto.
  - intros T. apply first_row_of_ext. intros x Hx.
    destruct (dll_lookup _ _ _ _ _ _ _ Hu Hx) as [r Hr].
    destruct (Hshape x r Hr) as (r' & Hr' & He & _).
    rewrite Hr, Hr'. cbn. congruence.
Qed.

Lemma env_cache_steps_lists E keep w1 w2 :
  env_cache_steps E keep w1 w2 ->
  (exists used free, env_cache_lists w1 used free) ->
  exists used free, env_cache_lists w2 used free.
Proof.
  induction 1 as [w|w1 w2 T a w3 _ IH Hrun|w1 w2 T b w3 _ IH _ Hrun
                 |w1 w2 w3 _ IH Hh Hf Hmap]; intros Hinv; [exact Hinv|..];
    destruct (IH Hinv) as (used & free & Hlists).
  - pose proof (S3JniGlobal_env_cache_run E T w2 used free Hlists) as Hspec.
    rewrite Hrun in Hspec.
    destruct Hspec as [(_ & _ & H)|(_ & (free' & H) & _)]; eauto.
  - destruct (S3JniGlobal_env_uncache_run T w2 used free Hlists)
      as (b' & w' & Hrun' & Hspec).
    rewrite Hrun in Hrun'. injection Hrun' as <- <-.
    destruct Hspec as [(_ & _ & ->)|(l1 & a & l2 & _ & _ & _ & H & _)]; eauto.
  - destruct (env_cache_lists_other w2 w3 used free Hh Hf Hmap Hlists)
      as [H _]. eauto.
Qed.

Lemma env_cache_steps_cached E T a w1 w2 :
  env_cache_steps E (fun T' => T' = T) w1 w2 ->
  env_cached w1 T a -> env_cached w2 T a.
Proof.
  induction 1 as [w|w1 w2 T' a' w3 _ IH Hrun|w1 w2 T' b w3 _ IH Hne Hrun
                 |w1 w2 w3 _ IH Hh Hf Hmap]; intros Hc; [exact Hc|..];
    destruct (IH Hc) as (used & free & Hlists & Hfirst).
  - pose proof (S3JniGlobal_env_cache_run E T' w2 used free Hlists) as Hspec.
    rewrite Hrun in Hspec.
    destruct Hspec as [(_ & Hmem & H)|(Hmiss & (free' & H) & (r & Hr & He) & Henv)].
    + exists used, free. split; [exact H|]. rewrite Hmem. exact Hfirst.
    + exists (a' :: used), free'. split; [exact H|]. cbn. rewrite Hr.
      destruct (S3JniEnv.env r =? T)%N eqn:HeT.
      * apply N.eqb_eq in HeT. rewrite He in HeT. subst T'. congruence.
      * rewrite (first_row_of_ext (memEnv w2)) by exact Henv. exact Hfirst.
  - destruct (S3JniGlobal_env_uncache_run T' w2 used free Hlists)
      as (b' & w' & Hrun' & Hspec).
    rewrite Hrun in Hrun'. injection Hrun' as <- <-.
    destruct Hspec as [(_ & _ & ->)|(l1 & a' & l2 & -> & Hf' & _ & H & Henv)].
    + exists used, free. auto.
    + exists (l1 ++ l2), (a' :: free). split; [exact H|].
      rewrite (first_row_of_ext (memEnv w2)) by exact Henv.
      destruct (first_row_of_Some _ _ _ _ Hf') as (_ & r' & Hr' & He').
      destruct (first_row_of_Some _ _ _ _ Hfirst) as (_ & r & Hr & He).
      eapply first_row_of_delete; [exact Hfirst| |eauto].
      intros ->. rewrite Hr in Hr'. injection Hr' as <-. congruence.
  - destruct (env_cache_lists_other w2 w3 used free Hh Hf Hmap Hlists)
      as [H Hsame]. exists used, free. split; [exact H|].
    rewrite Hsame. exact Hfirst.
Qed.

(** C3: the row of a thread is stable.  When, in a reachable state of
    the cache, [S3JniGlobal_env_cache()] returns the row [a] for the
    thread [T], that row belongs to [T]; and after any further steps of
    the bridge other than uncaching [T], the function returns the same
    row [a] for [T], which still belongs to [T]. *)
Theorem env_cache_row_is_stable E T w a w1 w2 :
  env_cache_reachable E w ->
  S3JniGlobal_env_cache E T w = Ok a w1 ->
  env_cache_steps E (fun T' => T' = T) w1 w2 ->
  (exists r, memEnv w1 !! a = Some r /\ S3JniEnv.env r = T) /\
  exists w3,
    S3JniGlobal_env_cache E T w2 = Ok a w3 /\
    exists r, memEnv w3 !! a = Some r /\ S3JniEnv.env r = T.
Proof.
  intros (w0 & Hh0 & Hf0 & Hsteps0) Hrun Hsteps.
  destruct (env_cache_steps_lists E _ w0 w Hsteps0) as (used & free & Hlists).
  { exists [], []. split; [exact Hh0|]. split; [exact Hf0|]. constructor. }
  pose proof (S3JniGlobal_env_cache_run E T w used free Hlists) as Hspec.
  rewrite Hrun in Hspec.
  assert (Hc1 : env_cached w1 T a).
  { destruct Hspec as [(Hfirst & Hmem & H)|(_ & (free' & H) & (r & Hr & He) & _)].
    - exists used, free. split; [exact H|]. rewrite Hmem. exact Hfirst.
    - exists (a :: used), free'. split; [exact H|]. cbn. rewrite Hr.
      rewrite (proj2 (N.eqb_eq _ _) He). reflexivity. }
  split.
  { destruct Hc1 as (u1 & f1 & _ & Hfirst1).
    destruct (first_row_of_Some _ _ _ _ Hfirst1) as (_ & Hex). exact Hex. }
  destruct (env_cache_steps_cached E T a w1 w2 Hsteps Hc1)
    as (u2 & f2 & Hlists2 & Hfirst2).
  pose proof (S3JniGlobal_env_cache_run E T w2 u2 f2 Hlists2) as Hspec2.
  destruct (S3JniGlobal_env_cache E T w2) as [a3 w3|why] eqn:Hrun2.
  - destruct Hspec2 as [(Hfirst3 & Hmem & _)|(Hmiss & _)]; [|congruence].
    assert (a3 = a) by congruence. subst a3.
    exists w3. split; [reflexivity|]. rewrite Hmem.
    destruct (first_row_of_Some _ _ _ _ Hfirst2) as (_ & Hex). exact Hex.
  - exfalso. revert Hrun2. rewrite S3JniGlobal_env_cache_eq. msimpl.
    rewrite (env_cache_lists_lookup w2 u2 f2 T Hlists2), Hfirst2. msimpl.
    discriminate.
Qed.

Lemma env_cache_row_is_stable_witness :
  exists w3, S3JniGlobal_env_cache env_plain 1%N world_env_busy = Ok 0 w3.
Proof.
  assert (Hreach : env_cache_reachable env_plain World0).
  { exists World0. split; [reflexivity|]. split; [reflexivity|]. constructor. }
  assert (Hrun : S3JniGlobal_env_cache env_plain 1%N World0
                 = Ok 0 world_env_acquired) by (vm_compute; reflexivity).
  assert (Hsteps : env_cache_steps env_plain (fun T' => T' = 1%N)
                     world_env_acquired world_env_busy).
  { eapply env_cache_steps_acquire with (T := 3%N) (a := 1);
      [eapply env_cache_steps_uncache with (T := 2%N) (b := true);
       [eapply env_cache_steps_acquire with (T := 2%N) (a := 1);
        [apply env_cache_steps_refl|vm_compute; reflexivity]
       |discriminate|vm_compute; reflexivity]
      |vm_compute; reflexivity]. }
  destruct (env_cache_row_is_stable env_plain 1%N World0 0
              world_env_acquired world_env_busy Hreach Hrun Hsteps)
    as [_ (w3 & Hagain & _)].
  exists w3. exact Hagain.
Defined.

(** After the thread 1 has been uncached, its next row can be another
    one: here the thread 2 has taken over the row that 1 had. *)
Lemma env_cache_row_after_release :
  let acquire := S3JniGlobal_env_cache env_plain in
  let w :=
    world_after (acquire 2%N)
      (world_after (S3JniGlobal_env_uncache 1%N)
         (world_after (S3JniGlobal_env_uncache 2%N)
            (world_after (acquire 2%N) world_env_acquired))) in
  exists w', acquire 1%N w = Ok 1 w'.
Proof. eexists. vm_compute. reflexivity. Qed.


(** ** The per-connection registry *)

Local Abbreviation ddll := (dll S3JniDb.pNext S3JniDb.pPrev).

#[global] Arguments db_alloc_take : simpl never.
#[global] Arguments db_alloc_link : simpl never.
#[global] Arguments db_unlink : simpl never.
#[global] Arguments db_unhook : simpl never.
#[global] Arguments db_set_free : simpl never.
#[global] Arguments S3JniHook_unref : simpl never.

Lemma S3JniDb_alloc_eq E pDb jDb :
  S3JniDb_alloc E pDb jDb =
  (metrics_incr M_nMutexPerDb >>
   let* g := getSJG in
   let* rv := db_alloc_take E g in
   db_alloc_link pDb jDb rv).
Proof. reflexivity. Qed.

Lemma S3JniDb_set_aside_eq E a w :
  S3JniDb_set_aside E (Some a) w =
  (metrics_incr M_nMutexPerDb >>
   db_unlink a >> db_unhook E a >> db_set_free a) w.
Proof.
  unfold S3JniDb_set_aside, db_unlink, db_unhook. unfold bind.
  destruct (metrics_incr _ w) as [? w0|]; [|reflexivity].
  destruct (load_db a w0) as [r w1|]; [|reflexivity].
  destruct (db_set_pPrev _ _ w1) as [? w2|]; [|reflexivity].
  destruct (S3JniDb.pPrev r) as [q|].
  1: destruct (store_db q _ w2) as [? w3|]; [|reflexivity].
  2: destruct (getSJG w2) as [g w3'|]; [|reflexivity].
  2: destruct (when _ _ w3') as [? w3|]; [|reflexivity].
  all: repeat (match goal with
          | |- context [S3JniHook_unref ?e ?x ?k ?d ?w] =>
              destruct (S3JniHook_unref e x k d w) as [? ?|]; [|reflexivity]
          end).
  all: reflexivity.
Qed.

Lemma db_set_pPrev_run p v w :
  (forall n, p = Some n -> is_Some (memDb w !! n)) ->
  exists w',
    db_set_pPrev p v w = Ok tt w' /\ SJG w' = SJG w /\
    memDb w' = opt_alter (S3JniDb.set_pPrev v) p (memDb w) /\
    memEnv w' = memEnv w /\ jvm w' = jvm w /\ events w' = events w.
Proof.
  intros Hp. destruct p as [n|]; cbn.
  - destruct (Hp n eq_refl) as [r Hr]. msimpl. rewrite Hr.
    eexists. repeat split.
  - eexists. repeat split.
Qed.

#[global] Arguments db_set_pPrev : simpl never.
#[global] Arguments db_set_pNext : simpl never.

Lemma dll_head_in {R} (next prev : R -> ptr) (mem : list R) pv p l h :
  dll next prev mem pv p l -> p = Some h -> h ∈ l.
Proof.
  intros Hl Hp. apply dll_head in Hl. rewrite Hp in Hl.
  destruct l; [discriminate|]. injection Hl as ->. left.
Qed.

Lemma pdb_lists_disjoint w used free x :
  pdb_lists w used free -> x ∈ used -> x ∈ free -> False.
Proof.
  intros (_ & _ & Hnd) Hu Hf. apply NoDup_app in Hnd as (_ & Hd & _).
  exact (Hd x Hu Hf).
Qed.

Lemma db_alloc_take_run E w used free :
  pdb_lists w used free ->
  match db_alloc_take E (SJG w) w with
  | Ok rv w1 =>
      exists a ra free',
        rv = Some a /\ (a ∉ used) /\ (a ∉ free') /\
        memDb w1 !! a = Some ra /\ S3JniDb.pPrev ra = None /\
        S3JniGlobalType.perDb_aUsed (SJG w1)
          = S3JniGlobalType.perDb_aUsed (SJG w) /\
        ddll (memDb w1) None (S3JniGlobalType.perDb_aFree (SJG w1)) free' /\
        NoDup (used ++ free') /\
        (forall x, x ∈ used -> memDb w1 !! x = memDb w !! x) /\
        (free = a :: free' \/ (free = [] /\ free' = [])) /\
        jvm w1 = jvm w /\ memEnv w1 = memEnv w /\ events w1 = events w
  | Abort why => why = FatalError "Out of memory." /\ free = []
  end.
Proof.
  intros Hlists. pose proof Hlists as (Hu & Hf & Hnd).
  pose proof (NoDup_app_l _ _ Hnd) as Hndu.
  unfold db_alloc_take. destruct free as [|f free'].
  - cbn in Hf. rewrite Hf. unfold s3jni_malloc_S3JniDb. msimpl.
    destruct (alloc_ok E (nAlloc w)); msimpl; [|auto].
    rewrite lookup_app_r by lia. rewrite Nat.sub_diag. cbn.
    assert (Hfresh : length (memDb w) ∉ used).
    { intros Hin. destruct (dll_lookup _ _ _ _ _ _ _ Hu Hin) as [r Hr].
      apply lookup_lt_Some in Hr. lia. }
    exists (length (memDb w)), S3JniDb.zero, [].
    split; [reflexivity|]. split; [exact Hfresh|].
    split; [apply not_elem_of_nil|].
    split; [rewrite list_lookup_alter_eq, lookup_app_r by lia;
            rewrite Nat.sub_diag; reflexivity|].
    split; [reflexivity|]. split; [reflexivity|]. split; [exact Hf|].
    split; [exact Hnd|]. split; [|auto].
    intros x Hx. destruct (dll_lookup _ _ _ _ _ _ _ Hu Hx) as [r Hr].
    rewrite list_lookup_alter_ne by (intros <-; contradiction).
    apply lookup_app_l. eapply lookup_lt_Some, Hr.
  - destruct Hf as (Hfree & rf & Hrf & Hpf & Hf). rewrite Hfree. msimpl.
    rewrite Hrf. msimpl.
    pose proof Hnd as Hnd'.
    apply NoDup_app in Hnd' as (_ & Hdisj & Hndf).
    apply NoDup_cons in Hndf as [Hff Hndf].
    assert (Hfu : f ∉ used) by (intros Hin; apply (Hdisj f Hin); left).
    assert (Hnd1 : NoDup (used ++ free')).
    { apply NoDup_app. split; [exact Hndu|]. split; [|exact Hndf].
      intros x Hx Hin. apply (Hdisj x Hx). right. exact Hin. }
    destruct (S3JniDb.pNext rf) as [n|] eqn:Hn.
    + assert (Hnin : n ∈ free') by (eapply dll_head_in; [exact Hf|reflexivity]).
      destruct (dll_lookup _ _ _ _ _ _ n Hf Hnin) as [rn Hrn].
      assert (Hnf : n <> f) by (intros ->; contradiction).
      msimpl. rewrite Hrn. msimpl. alter_lookup. rewrite Hrf. msimpl.
      exists f, (S3JniDb.set_pNext None rf), free'.
      split; [reflexivity|]. split; [exact Hfu|]. split; [exact Hff|].
      split; [alter_lookup; rewrite Hrf; reflexivity|].
      split; [exact Hpf|]. split; [reflexivity|]. split.
      * eapply (dll_set_prev _ _ (memDb w)); [exact Hf|exact Hndf|..].
        -- intros b r [= <-] Hr. alter_lookup. rewrite Hr. cbn. eauto.
        -- intros x Hx Hne r Hr.
           assert (x <> n) by congruence.
           assert (x <> f) by (intros ->; contradiction).
           alter_lookup. eauto.
      * split; [exact Hnd1|]. split; [|auto].
        intros x Hx.
        assert (x <> f) by (intros ->; contradiction).
        assert (x <> n) by (intros ->; apply (Hdisj n Hx); right; exact Hnin).
        alter_lookup. reflexivity.
    + destruct free' as [|? ?]; [|destruct Hf as (? & _); discriminate].
      msimpl. exists f, rf, [].
      split; [reflexivity|]. split; [exact Hfu|]. split; [exact Hff|].
      split; [exact Hrf|]. split; [exact Hpf|]. split; [reflexivity|].
      split; [reflexivity|]. split; [exact Hnd1|]. auto.
Qed.

Lemma db_alloc_link_run pDb jDb a w used ra :
  ddll (memDb w) None (S3JniGlobalType.perDb_aUsed (SJG w)) used ->
  NoDup used -> a ∉ used ->
  memDb w !! a = Some ra -> S3JniDb.pPrev ra = None ->
  exists w' r',
    db_alloc_link pDb jDb (Some a) w = Ok (Some a) w' /\
    ddll (memDb w') None (S3JniGlobalType.perDb_aUsed (SJG w')) (a :: used) /\
    S3JniGlobalType.perDb_aFree (SJG w')
      = S3JniGlobalType.perDb_aFree (SJG w) /\
    memDb w' !! a = Some r' /\
    S3JniDb.pDb r' = pDb /\
    S3JniDb.jDb r' =
      match obj_of jDb with
      | Some o => JGlobal (JavaVM.nextGlobalRef (jvm w)) o
      | None => JNull
      end /\
    S3JniDb.hooks r' = S3JniDb.hooks ra /\
    S3JniDb.zMainDbName r' = S3JniDb.zMainDbName ra /\
    (forall x r, x <> a -> memDb w !! x = Some r ->
       exists rx, memDb w' !! x = Some rx /\
         S3JniDb.pDb rx = S3JniDb.pDb r /\
         S3JniDb.pNext rx = S3JniDb.pNext r /\
         (S3JniGlobalType.perDb_aUsed (SJG w) <> Some x -> rx = r)) /\
    memEnv w' = memEnv w /\ events w' = events w /\
    JavaVM.value (jvm w') = JavaVM.value (jvm w) /\
    JavaVM.nativePointer (jvm w') = JavaVM.nativePointer (jvm w) /\
    JavaVM.exceptionPending (jvm w') = JavaVM.exceptionPending (jvm w).
Proof.
  intros Hu Hnd Ha Hra Hpa. unfold db_alloc_link. msimpl. rewrite Hra. msimpl.
  destruct (db_set_pPrev_run (S3JniGlobalType.perDb_aUsed (SJG w)) (Some a)
    (set_SJG (S3JniGlobalType.set_perDb_aUsed (Some a) (SJG w))
       (set_memDb
          (alter (S3JniDb.set_pNext (S3JniGlobalType.perDb_aUsed (SJG w))) a
             (memDb w)) w)))
    as (w1 & Hrun1 & Hg1 & Hm1 & Hme1 & Hj1 & Hev1).
  { intros h Hh. cbn.
    assert (Hin : h ∈ used) by (eapply dll_head_in; [exact Hu|exact Hh]).
    assert (h <> a) by (intros ->; contradiction).
    alter_lookup. eapply dll_lookup; [exact Hu|exact Hin]. }
  rewrite Hrun1. cbn in Hg1, Hm1, Hme1, Hj1, Hev1.
  assert (Hlook : forall x, memDb w1 !! x =
     (if decide (S3JniGlobalType.perDb_aUsed (SJG w) = Some x)
      then fmap (S3JniDb.set_pPrev (Some a)) else id)
       (if decide (x = a)
        then Some (S3JniDb.set_pNext (S3JniGlobalType.perDb_aUsed (SJG w)) ra)
        else memDb w !! x)).
  { intros x. rewrite Hm1, opt_alter_lookup.
    destruct (decide (x = a)) as [->|Hxa].
    - rewrite list_lookup_alter_eq, Hra.
      destruct (decide _); reflexivity.
    - rewrite list_lookup_alter_ne by congruence.
      destruct (decide _); reflexivity. }
  assert (Hhead_a : S3JniGlobalType.perDb_aUsed (SJG w) <> Some a).
  { intros Hh. apply Ha. eapply dll_head_in; [exact Hu|exact Hh]. }
  assert (Hla : memDb w1 !! a
     = Some (S3JniDb.set_pNext (S3JniGlobalType.perDb_aUsed (SJG w)) ra)).
  { rewrite Hlook, decide_False by exact Hhead_a.
    rewrite decide_True by reflexivity. reflexivity. }
  rewrite <- Hj1.
  destruct (obj_of jDb) as [o|] eqn:Ho; msimpl; rewrite ?Ho; msimpl;
    rewrite Hla; msimpl; alter_lookup; rewrite Hla; msimpl.
  all: eexists _, _; (split; [reflexivity|]); cbn.
  all: rewrite Hg1, Hme1, Hev1; cbn.
  all: match goal with |- context [alter ?f ?a0 (alter ?g ?a0 (memDb ?w0))] =>
         assert (Hla' : alter f a (alter g a (memDb w1)) !! a
                        = Some (f (g (S3JniDb.set_pNext
                             (S3JniGlobalType.perDb_aUsed (SJG w)) ra))))
           by (alter_lookup; rewrite Hla; reflexivity);
         assert (Hlx : forall x, x <> a ->
                   alter f a (alter g a (memDb w1)) !! x = memDb w1 !! x)
           by (intros; alter_lookup; reflexivity);
         set (mem' := alter f a (alter g a (memDb w1))) in *;
         clearbody mem'
       end.
  all: split;
    [split; [reflexivity|]; eexists; split; [exact Hla'|];
     split; [exact Hpa|]; cbn;
     eapply (dll_set_prev _ _ (memDb w)); [exact Hu|exact Hnd|..]|].
  all: try (intros h r Hh Hr;
    assert (Hin : h ∈ used) by (eapply dll_head_in; [exact Hu|exact Hh]);
    assert (Hha : h <> a) by (intros ->; contradiction);
    rewrite (Hlx h Hha), Hlook, decide_True by exact Hh;
    rewrite decide_False by exact Hha; rewrite Hr; cbn; eauto; fail).
  all: try (intros x Hx Hne r Hr;
    assert (Hxa : x <> a) by (intros ->; contradiction);
    rewrite (Hlx x Hxa), Hlook, decide_False by exact Hne;
    rewrite decide_False by exact Hxa; eauto; fail).
  all: split; [reflexivity|]; split; [exact Hla'|].
  all: do 4 (split; [reflexivity|]).
  all: split; [|auto].
  all: intros x r Hxa Hr; rewrite (Hlx x Hxa), Hlook;
    rewrite (decide_False (P := x = a)) by exact Hxa; rewrite Hr;
    destruct (decide (S3JniGlobalType.perDb_aUsed (SJG w) = Some x)); cbn;
    [eexists; split; [reflexivity|]; cbn; repeat split; contradiction
    |eauto].
Qed.

Lemma pdb_lists_metrics w k used free :
  pdb_lists w used free ->
  pdb_lists
    (set_SJG (S3JniGlobalType.set_metrics
                (s3jni_incr k (S3JniGlobalType.metrics (SJG w))) (SJG w)) w)
    used free.
Proof. exact id. Qed.

Lemma S3JniDb_alloc_run E pDb jDb w used free :
  pdb_lists w used free ->
  match S3JniDb_alloc E pDb jDb w with
  | Ok rv w' =>
      exists a r' free',
        rv = Some a /\
        pdb_lists w' (a :: used) free' /\
        (free = a :: free' \/ (free = [] /\ free' = [])) /\
        memDb w' !! a = Some r' /\
        S3JniDb.pDb r' = pDb /\
        S3JniDb.jDb r' =
          match obj_of jDb with
          | Some o => JGlobal (JavaVM.nextGlobalRef (jvm w)) o
          | None => JNull
          end /\
        (forall x r, x ∈ used -> memDb w !! x = Some r ->
           exists rx, memDb w' !! x = Some rx /\
                      S3JniDb.pDb rx = S3JniDb.pDb r) /\
        memEnv w' = memEnv w /\ events w' = events w /\
        JavaVM.value (jvm w') = JavaVM.value (jvm w) /\
        JavaVM.nativePointer (jvm w') = JavaVM.nativePointer (jvm w) /\
        JavaVM.exceptionPending (jvm w') = JavaVM.exceptionPending (jvm w)
  | Abort why => why = FatalError "Out of memory." /\ free = []
  end.
Proof.
  intros Hlists. rewrite S3JniDb_alloc_eq. msimpl.
  match goal with |- context [db_alloc_take E ?g ?w0] =>
    pose proof (db_alloc_take_run E w0 used free
                  (pdb_lists_metrics w M_nMutexPerDb used free Hlists)) as Htake;
    change (SJG w0) with g in Htake;
    destruct (db_alloc_take E g w0) as [rv w1|why]; [|exact Htake]
  end.
  destruct Htake as (a & ra & free' & -> & Hau & Haf & Hra & Hpa & Hu1 & Hf1
                     & Hnd1 & Hsame1 & Hfree & Hj1 & Hme1 & Hev1).
  cbn in Hu1, Hsame1, Hj1, Hme1, Hev1.
  destruct Hlists as (Hu & _ & _).
  destruct (db_alloc_link_run pDb jDb a w1 used ra)
    as (w' & r' & Hrun & Hu' & Hf' & Hr' & HpDb & HjDb & _ & _ & Hrest
        & Hme & Hev & Hv & Hnp & Hep);
    [rewrite Hu1; eapply dll_same_links; [|exact Hu];
     intros x Hx r Hr; rewrite (Hsame1 x Hx); eauto
    |exact (NoDup_app_l _ _ Hnd1)|exact Hau|exact Hra|exact Hpa|].
  rewrite Hrun. exists a, r', free'. split; [reflexivity|].
  split.
  { split; [exact Hu'|]. split.
    - rewrite Hf'. eapply dll_same_links; [|exact Hf1].
      intros x Hx r Hr.
      assert (Hxa : x <> a) by (intros ->; contradiction).
      destruct (Hrest x r Hxa Hr) as (rx & Hrx & _ & _ & Hsame).
      rewrite Hsame in Hrx; [eauto|].
      rewrite Hu1. intros Hh.
      apply NoDup_app in Hnd1 as (_ & Hd & _). apply (Hd x); [|exact Hx].
      eapply dll_head_in; [exact Hu|exact Hh].
    - cbn. apply NoDup_cons. split; [|exact Hnd1].
      intros Hin. apply elem_of_app in Hin as [?|?]; contradiction. }
  split; [exact Hfree|]. split; [exact Hr'|]. split; [exact HpDb|].
  split; [rewrite HjDb, Hj1; reflexivity|].
  split.
  { intros x r Hx Hr.
    assert (Hxa : x <> a) by (intros ->; contradiction).
    destruct (Hrest x r Hxa) as (rx & Hrx & Hp & _);
      [rewrite (Hsame1 x Hx); exact Hr|eauto]. }
  rewrite Hme, Hev, Hv, Hnp, Hep, Hme1, Hev1, Hj1. auto.
Qed.

Lemma db_lookup_S fuel mem s pDb :
  db_lookup (S fuel) mem s pDb =
  if (pDb =? 0)%N then inr s
  else match s with
       | None => inr None
       | Some a =>
           match mem !! a with
           | None => inl BadPointer
           | Some r =>
               if (S3JniDb.pDb r =? pDb)%N then inr (Some a)
               else db_lookup fuel mem (S3JniDb.pNext r) pDb
           end
       end.
Proof. reflexivity. Qed.

(** The search of [S3JniDb_for_db()] ends: it yields the first record of
    the list with the handle looked for, or the head of the list when it
    looks for [NULL]. *)
Lemma db_lookup_total mem pDb l : forall pv p fuel,
  ddll mem pv p l -> length l < fuel ->
  exists q, db_lookup fuel mem p pDb = inr q /\
            (forall a, q = Some a -> a ∈ l) /\
            (pDb <> 0%N -> forall a r, q = Some a -> mem !! a = Some r ->
               S3JniDb.pDb r = pDb).
Proof.
  induction l as [|a l IH]; intros pv p fuel Hl Hfuel;
    (destruct fuel as [|fuel]; [lia|]); rewrite db_lookup_S;
    destruct (pDb =? 0)%N eqn:Hz.
  - cbn in Hl. subst p. exists None. repeat split; discriminate.
  - cbn in Hl. subst p. exists None. repeat split; discriminate.
  - destruct Hl as (-> & _). exists (Some a). split; [reflexivity|].
    split; [intros ? [= <-]; left|].
    apply N.eqb_eq in Hz. contradiction.
  - destruct Hl as (-> & r & Hr & _ & Hl). rewrite Hr.
    destruct (S3JniDb.pDb r =? pDb)%N eqn:He.
    + exists (Some a). split; [reflexivity|].
      split; [intros ? [= <-]; left|].
      intros _ ? ? [= <-] Hr'. rewrite Hr in Hr'. injection Hr' as <-.
      apply N.eqb_eq, He.
    + destruct (IH _ _ fuel Hl ltac:(cbn in Hfuel; lia)) as (q & Hq & Hin & Hh).
      exists q. split; [exact Hq|]. split; [|exact Hh].
      intros b Hb. right. apply Hin, Hb.
Qed.

#[global] Arguments S3JniDb_for_db : simpl never.

Lemma S3JniDb_for_db_total jDb pDb w used free :
  pdb_lists w used free ->
  exists q w',
    S3JniDb_for_db jDb pDb w = Ok q w' /\
    (forall a, q = Some a -> a ∈ used) /\
    same_but_metrics (SJG w) (SJG w') /\
    memDb w' = memDb w /\ memEnv w' = memEnv w /\ jvm w' = jvm w /\
    events w' = events w.
Proof.
  intros (Hu & _ & Hnd). unfold S3JniDb_for_db.
  destruct (nonnull jDb || negb (pDb =? 0)%N).
  2: { exists None, w. split; [reflexivity|]. split; [discriminate|].
       repeat split. apply same_but_metrics_refl. }
  assert (Hlen : length used < S (length (memDb w))).
  { pose proof (dll_length _ _ _ _ _ _ Hu (NoDup_app_l _ _ Hnd)). lia. }
  assert (Hget : exists X, forall w0,
    (if (pDb =? 0)%N then NativePointerHolder_get jDb else ret pDb) w0
    = Ok (X w0) w0).
  { destruct (pDb =? 0)%N.
    - unfold NativePointerHolder_get. destruct (obj_of jDb); eexists;
        intros w0; reflexivity.
    - eexists. intros w0. reflexivity. }
  destruct Hget as [X HX].
  unfold bind at 1. unfold metrics_incr, modify_SJG, modify. cbn.
  unfold bind at 1. rewrite HX. unfold bind, get. cbn.
  match goal with |- context [db_lookup _ _ _ ?h] =>
    destruct (db_lookup_total (memDb w) h used _ _ _ Hu Hlen)
      as (q & Hq & Hin & _)
  end.
  rewrite Hq. cbn. exists q. eexists. split; [reflexivity|].
  split; [exact Hin|]. cbn. repeat split.
Qed.

Lemma db_unlink_run a w l1 l2 :
  ddll (memDb w) None (S3JniGlobalType.perDb_aUsed (SJG w)) (l1 ++ a :: l2) ->
  NoDup (l1 ++ a :: l2) ->
  exists w',
    db_unlink a w = Ok tt w' /\
    ddll (memDb w') None (S3JniGlobalType.perDb_aUsed (SJG w')) (l1 ++ l2) /\
    S3JniGlobalType.perDb_aFree (SJG w')
      = S3JniGlobalType.perDb_aFree (SJG w) /\
    memDb w' !! a = memDb w !! a /\
    (forall x, x ∉ l1 ++ a :: l2 -> memDb w' !! x = memDb w !! x) /\
    (forall x, S3JniDb.pDb <$> memDb w' !! x = S3JniDb.pDb <$> memDb w !! x) /\
    memEnv w' = memEnv w /\ jvm w' = jvm w /\ events w' = events w.
Proof.
  intros Hu Hnd.
  destruct (dll_app _ _ _ _ _ _ _ _ Hu) as (ra & Hra & Hpa & Hna).
  unfold db_unlink. msimpl. rewrite Hra. msimpl.
  assert (Hn_in : forall n, S3JniDb.pNext ra = Some n -> n ∈ l2).
  { intros n Hn. rewrite Hn in Hna. destruct l2; [discriminate|].
    injection Hna as ->. left. }
  assert (Hp_in : forall p, S3JniDb.pPrev ra = Some p -> p ∈ l1).
  { intros p Hp. rewrite Hp in Hpa. destruct (last l1) as [z|] eqn:Hlast;
      [|discriminate]. cbn in Hpa. injection Hpa as ->.
    apply last_Some in Hlast as [l' ->]. apply elem_of_app. right. left. }
  destruct (db_set_pPrev_run (S3JniDb.pNext ra) (S3JniDb.pPrev ra) w)
    as (w1 & Hrun1 & Hg1 & Hm1 & Hme1 & Hj1 & Hev1).
  { intros n Hn. eapply dll_lookup; [exact Hu|].
    apply elem_of_app. right. right. apply Hn_in, Hn. }
  rewrite Hrun1.
  assert (Hnd' := Hnd). apply NoDup_app in Hnd' as (Hnd1 & Hdisj & Hnd2).
  apply NoDup_cons in Hnd2 as [Ha2 Hnd2].
  assert (Ha1 : a ∉ l1) by (intros Hin; apply (Hdisj a Hin); left).
  assert (Haa : a ∉ l1 ++ l2)
    by (intros Hin; apply elem_of_app in Hin as [?|?]; contradiction).
  assert (Hsub : forall x, x ∉ l1 ++ a :: l2 -> x ∉ l1 ++ l2).
  { intros x Hx Hin. apply Hx.
    apply elem_of_app in Hin as [?|?]; apply elem_of_app;
      [left|right; right]; assumption. }
  assert (Hgoal : forall mem2 : list S3JniDb.t,
    (forall x, mem2 !! x =
       (if decide (S3JniDb.pPrev ra = Some x)
        then fmap (S3JniDb.set_pNext (S3JniDb.pNext ra)) else id)
         ((if decide (S3JniDb.pNext ra = Some x)
           then fmap (S3JniDb.set_pPrev (S3JniDb.pPrev ra)) else id)
            (memDb w !! x))) ->
    ddll mem2 None
      (if decide (S3JniGlobalType.perDb_aUsed (SJG w) = Some a)
       then S3JniDb.pNext ra else S3JniGlobalType.perDb_aUsed (SJG w))
      (l1 ++ l2) /\
    mem2 !! a = memDb w !! a /\
    (forall x, x ∉ l1 ++ a :: l2 -> mem2 !! x = memDb w !! x) /\
    (forall x, S3JniDb.pDb <$> mem2 !! x = S3JniDb.pDb <$> memDb w !! x)).
  { intros mem2 Hmem.
    assert (Hother : forall x, x ∉ l1 ++ l2 -> mem2 !! x = memDb w !! x).
    { intros x Hx. rewrite Hmem.
      rewrite decide_False, decide_False; [reflexivity|..].
      - intros Hn. apply Hx, elem_of_app. right. apply Hn_in, Hn.
      - intros Hp. apply Hx, elem_of_app. left. apply Hp_in, Hp. }
    split; [|split; [apply Hother, Haa|split; [intros x Hx; apply Hother, Hsub, Hx|]]].
    - eapply (dll_unlink _ _ (memDb w)); [exact Hu|exact Hnd|discriminate
                                          |exact Hra|].
      intros x r Hx Hr. rewrite Hmem, Hr.
      destruct (decide (S3JniDb.pPrev ra = Some x)),
               (decide (S3JniDb.pNext ra = Some x)); cbn; eauto.
    - intros x. rewrite Hmem.
      destruct (decide (S3JniDb.pPrev ra = Some x)),
               (decide (S3JniDb.pNext ra = Some x)),
               (memDb w !! x); reflexivity. }
  destruct (S3JniDb.pPrev ra) as [q|] eqn:Hq.
  - assert (Hqin : q ∈ l1) by (apply Hp_in; reflexivity).
    assert (Hhd : S3JniGlobalType.perDb_aUsed (SJG w) <> Some a).
    { intros Hh. apply Ha1.
      rewrite (dll_head _ _ _ _ _ _ Hu) in Hh.
      destruct l1 as [|c l1]; [inversion Hqin|].
      injection Hh as ->. left. }
    assert (Hq1 : is_Some (memDb w1 !! q)).
    { rewrite Hm1, opt_alter_lookup.
      assert (His : is_Some (memDb w !! q)).
      { eapply dll_lookup; [exact Hu|]. apply elem_of_app. left. exact Hqin. }
      destruct His as [rq0 Hrq0]. rewrite Hrq0.
      destruct (decide (S3JniDb.pNext ra = Some q)); cbn; eauto. }
    destruct Hq1 as [rq Hrq]. msimpl. rewrite Hrq.
    eexists. split; [reflexivity|]. cbn. rewrite Hg1, Hme1, Hj1, Hev1.
    destruct (Hgoal (alter (S3JniDb.set_pNext (S3JniDb.pNext ra)) q (memDb w1)))
      as (H1 & H2 & H3 & H4).
    { intros x. rewrite Hm1.
      change (alter ?f q ?m) with (opt_alter f (Some q) m).
      rewrite !opt_alter_lookup.
      destruct (decide (Some q = Some x)),
               (decide (S3JniDb.pNext ra = Some x)); reflexivity. }
    rewrite decide_False in H1 by exact Hhd. rewrite Hra in H2. auto 10.
  - assert (Hl1 : l1 = []).
    { destruct (last l1) eqn:Hlast; [discriminate|].
      apply last_None in Hlast. exact Hlast. }
    subst l1. cbn in Hu. destruct Hu as (Hhd & Hu). msimpl.
    rewrite Hg1, Hhd. rewrite bool_decide_eq_true_2 by reflexivity. msimpl.
    eexists. split; [reflexivity|]. cbn. rewrite Hg1, Hme1, Hj1, Hev1.
    destruct (Hgoal (memDb w1)) as (H1 & H2 & H3 & H4).
    { intros x. rewrite Hm1, opt_alter_lookup.
      rewrite (decide_False (P := None = Some x)) by discriminate.
      destruct (decide (S3JniDb.pNext ra = Some x)); reflexivity. }
    rewrite Hhd, decide_True in H1 by reflexivity. rewrite Hra in H2.
    auto 10.
Qed.

Lemma unhooked_refl a w : unhooked a w w.
Proof.
  split; [apply same_but_metrics_refl|]. split; [reflexivity|].
  split; [repeat split|]. split; [reflexivity|]. eauto 6.
Qed.

Lemma same_heap_trans j1 j2 j3 :
  same_heap j1 j2 -> same_heap j2 j3 -> same_heap j1 j3.
Proof.
  unfold same_heap. intros (?&?&?&?) (?&?&?&?). repeat split; congruence.
Qed.

Lemma unhooked_step E a k d w w1 r :
  unhooked a w w1 -> memDb w !! a = Some r ->
  exists w2, S3JniHook_unref E a k d w1 = Ok tt w2 /\ unhooked a w w2.
Proof.
  intros (Hg & Hme & Hh & Hx & Ha) Hr.
  destruct (Ha r Hr) as (r1 & Hr1 & Hp1 & Hj1 & Hn1 & Hv1).
  destruct (S3JniHook_unref_run E a k d w1 r1 Hr1)
    as (w2 & Hrun & _ & Hm2 & _ & Hh2 & Hg2 & Hme2 & _).
  exists w2. split; [exact Hrun|].
  split; [eapply same_but_metrics_trans; eassumption|].
  split; [congruence|]. split; [eapply same_heap_trans; eassumption|].
  split.
  - intros x Hxa. rewrite Hm2, list_lookup_alter_ne by congruence.
    apply Hx, Hxa.
  - intros r0 Hr0. rewrite Hr in Hr0. injection Hr0 as <-.
    rewrite Hm2, list_lookup_alter_eq, Hr1. cbn.
    eexists. split; [reflexivity|].
    destruct r1, k; cbn in *; auto.
Qed.

Lemma db_unhook_run E a w r :
  memDb w !! a = Some r ->
  exists w', db_unhook E a w = Ok tt w' /\ unhooked a w w'.
Proof.
  intros Hr. unfold db_unhook.
  pose proof (unhooked_refl a w) as H0.
  repeat match goal with
  | H : unhooked a w ?w1
    |- context [bind (S3JniHook_unref E a ?k ?d) _ ?w1] =>
      let w2 := fresh "w" in
      let Hrun := fresh "Hrun" in
      let H2 := fresh "H" in
      destruct (unhooked_step E a k d w w1 r H Hr) as (w2 & Hrun & H2);
      rewrite (bind_Ok _ _ _ _ _ Hrun); cbv beta; clear H Hrun
  end.
  match goal with
  | H : unhooked a w ?w1 |- context [S3JniHook_unref E a ?k ?d ?w1] =>
      destruct (unhooked_step E a k d w w1 r H Hr) as (wf & Hrunf & Hf)
  end.
  exists wf. split; assumption.
Qed.

Lemma db_set_free_run a w free ra :
  ddll (memDb w) None (S3JniGlobalType.perDb_aFree (SJG w)) free ->
  NoDup free -> a ∉ free -> memDb w !! a = Some ra ->
  exists w',
    db_set_free a w = Ok tt w' /\
    ddll (memDb w') None (S3JniGlobalType.perDb_aFree (SJG w')) (a :: free) /\
    S3JniGlobalType.perDb_aUsed (SJG w')
      = S3JniGlobalType.perDb_aUsed (SJG w) /\
    memDb w' !! a
      = Some (S3JniDb.set_pNext (S3JniGlobalType.perDb_aFree (SJG w))
                S3JniDb.zero) /\
    (forall x, x <> a -> x ∉ free -> memDb w' !! x = memDb w !! x) /\
    (forall x, x <> a ->
       S3JniDb.pDb <$> memDb w' !! x = S3JniDb.pDb <$> memDb w !! x) /\
    memEnv w' = memEnv w /\ events w' = events w /\
    same_heap (jvm w) (jvm w') /\
    JavaVM.globalRefs (jvm w')
      = released (S3JniDb.jDb ra) (JavaVM.globalRefs (jvm w)).
Proof.
  intros Hf Hnd Ha Hra. unfold db_set_free.
  assert (Hunref : exists w0,
    UNREF_G (S3JniDb.jDb ra) w = Ok tt w0 /\ SJG w0 = SJG w /\
    memDb w0 = memDb w /\ memEnv w0 = memEnv w /\ events w0 = events w /\
    same_heap (jvm w) (jvm w0) /\
    JavaVM.globalRefs (jvm w0)
      = released (S3JniDb.jDb ra) (JavaVM.globalRefs (jvm w))).
  { destruct (S3JniDb.jDb ra); msimpl; eexists; (split; [reflexivity|]);
      cbn; repeat split. }
  destruct Hunref as (w0 & Hrun0 & Hg0 & Hm0 & Hme0 & Hev0 & Hh0 & Hrefs0).
  unfold bind at 1. unfold load_db at 1. rewrite Hra.
  rewrite (bind_Ok _ _ _ _ _ Hrun0). msimpl. rewrite Hm0, Hra. msimpl.
  alter_lookup. rewrite Hra. msimpl. rewrite Hg0.
  match goal with |- context [db_set_pPrev ?p ?v ?w1] =>
    destruct (db_set_pPrev_run p v w1)
      as (w2 & Hrun2 & Hg2 & Hm2 & Hme2 & Hj2 & Hev2)
  end.
  { intros h Hh. cbn.
    assert (Hin : h ∈ free) by (eapply dll_head_in; [exact Hf|exact Hh]).
    assert (h <> a) by (intros ->; contradiction).
    alter_lookup. eapply dll_lookup; [exact Hf|exact Hin]. }
  rewrite Hrun2. cbn in Hg2, Hm2, Hme2, Hj2, Hev2.
  eexists. split; [reflexivity|]. cbn.
  rewrite Hg2, Hg0, Hme2, Hme0, Hev2, Hev0, Hj2.
  assert (Hhead_a : S3JniGlobalType.perDb_aFree (SJG w) <> Some a).
  { intros Hh. apply Ha. eapply dll_head_in; [exact Hf|exact Hh]. }
  assert (Hlook : forall x, memDb w2 !! x =
     (if decide (S3JniGlobalType.perDb_aFree (SJG w) = Some x)
      then fmap (S3JniDb.set_pPrev (Some a)) else id)
       (if decide (x = a)
        then Some (S3JniDb.set_pNext (S3JniGlobalType.perDb_aFree (SJG w))
                     S3JniDb.zero)
        else memDb w !! x)).
  { intros x. rewrite Hm2, opt_alter_lookup.
    destruct (decide (x = a)) as [->|Hxa].
    - rewrite !list_lookup_alter_eq, Hra.
      destruct (decide _); reflexivity.
    - rewrite !list_lookup_alter_ne by congruence.
      destruct (decide _); reflexivity. }
  assert (Hla : memDb w2 !! a
     = Some (S3JniDb.set_pNext (S3JniGlobalType.perDb_aFree (SJG w))
               S3JniDb.zero)).
  { rewrite Hlook, decide_False by exact Hhead_a.
    rewrite decide_True by reflexivity. reflexivity. }
  split.
  { split; [reflexivity|]. eexists. split; [exact Hla|].
    split; [reflexivity|]. cbn.
    eapply (dll_set_prev _ _ (memDb w)); [exact Hf|exact Hnd|..].
    - intros h r Hh Hr.
      assert (Hin : h ∈ free) by (eapply dll_head_in; [exact Hf|exact Hh]).
      assert (Hha : h <> a) by (intros ->; contradiction).
      rewrite Hlook, decide_True by exact Hh.
      rewrite decide_False by exact Hha. rewrite Hr. cbn. eauto.
    - intros x Hx Hne r Hr.
      assert (Hxa : x <> a) by (intros ->; contradiction).
      rewrite Hlook, decide_False by exact Hne.
      rewrite decide_False by exact Hxa. eauto. }
  split; [reflexivity|]. split; [exact Hla|].
  split.
  { intros x Hxa Hxf. rewrite Hlook.
    rewrite decide_False; [rewrite decide_False by exact Hxa; reflexivity|].
    intros Hh. apply Hxf. eapply dll_head_in; [exact Hf|exact Hh]. }
  split.
  { intros x Hxa. rewrite Hlook. rewrite (decide_False (P := x = a)) by exact Hxa.
    destruct (decide _), (memDb w !! x); reflexivity. }
  auto.
Qed.

(** The registry of connections leaves the cache of threads alone. *)
Lemma db_unlink_frame a w w' :
  db_unlink a w = Ok tt w' ->
  S3JniGlobalType.envCache_aHead (SJG w')
    = S3JniGlobalType.envCache_aHead (SJG w) /\
  S3JniGlobalType.envCache_aFree (SJG w')
    = S3JniGlobalType.envCache_aFree (SJG w).
Proof.
  unfold db_unlink, db_set_pPrev. msimpl. crunch.
  all: intros [= <-]; cbn; split; reflexivity.
Qed.

Lemma db_set_free_frame a w w' :
  db_set_free a w = Ok tt w' ->
  S3JniGlobalType.envCache_aHead (SJG w')
    = S3JniGlobalType.envCache_aHead (SJG w) /\
  S3JniGlobalType.envCache_aFree (SJG w')
    = S3JniGlobalType.envCache_aFree (SJG w).
Proof.
  unfold db_set_free, db_set_pPrev. msimpl. crunch.
  all: intros [= <-]; cbn; split; reflexivity.
Qed.

Lemma S3JniDb_alloc_frame E pDb jDb w rv w' :
  S3JniDb_alloc E pDb jDb w = Ok rv w' ->
  S3JniGlobalType.envCache_aHead (SJG w')
    = S3JniGlobalType.envCache_aHead (SJG w) /\
  S3JniGlobalType.envCache_aFree (SJG w')
    = S3JniGlobalType.envCache_aFree (SJG w).
Proof.
  unfold S3JniDb_alloc, db_set_pPrev, s3jni_malloc_S3JniDb, s3jni_oom.
  msimpl. crunch.
  all: intros [= _ <-]; cbn; split; reflexivity.
Qed.

Lemma S3JniDb_set_aside_run E a w l1 l2 free :
  pdb_lists w (l1 ++ a :: l2) free ->
  exists w',
    S3JniDb_set_aside E (Some a) w = Ok tt w' /\
    pdb_lists w' (l1 ++ l2) (a :: free) /\
    memDb w' !! a
      = Some (S3JniDb.set_pNext (S3JniGlobalType.perDb_aFree (SJG w))
                S3JniDb.zero) /\
    (forall x, x <> a ->
       S3JniDb.pDb <$> memDb w' !! x = S3JniDb.pDb <$> memDb w !! x) /\
    memEnv w' = memEnv w /\ same_heap (jvm w) (jvm w') /\
    S3JniGlobalType.envCache_aHead (SJG w')
      = S3JniGlobalType.envCache_aHead (SJG w) /\
    S3JniGlobalType.envCache_aFree (SJG w')
      = S3JniGlobalType.envCache_aFree (SJG w).
Proof.
  intros (Hu & Hf & Hnd).
  pose proof (NoDup_app_l _ _ Hnd) as Hndu.
  assert (Hdisj : forall x, x ∈ l1 ++ a :: l2 -> x ∉ free)
    by (apply NoDup_app in Hnd; tauto).
  assert (Hndf : NoDup free) by (apply NoDup_app in Hnd; tauto).
  assert (Hau : a ∈ l1 ++ a :: l2) by (apply elem_of_app; right; left).
  assert (Haa : a ∉ l1 ++ l2).
  { intros Hin. apply NoDup_app in Hndu as (_ & Hd & Hn2).
    apply NoDup_cons in Hn2 as [Hn2 _].
    apply elem_of_app in Hin as [Hin|Hin]; [|contradiction].
    apply (Hd a Hin). left. }
  assert (Hsub : forall x, x ∈ l1 ++ l2 -> x ∈ l1 ++ a :: l2).
  { intros x Hin. apply elem_of_app in Hin as [?|?]; apply elem_of_app;
      [left|right; right]; assumption. }
  rewrite S3JniDb_set_aside_eq.
  unfold bind at 1. unfold metrics_incr, modify_SJG, modify at 1.
  match goal with |- context [bind (db_unlink a) _ ?w0] =>
    destruct (db_unlink_run a w0 l1 l2 Hu Hndu)
      as (w1 & Hrun1 & Hu1 & Hf1 & Ha1 & Hout1 & Hp1 & Hme1 & Hj1 & Hev1)
  end.
  rewrite (bind_Ok _ _ _ _ _ Hrun1). cbv beta.
  cbn in Hf1, Ha1, Hout1, Hp1, Hme1, Hj1, Hev1.
  destruct (dll_lookup _ _ _ _ _ _ a Hu Hau) as [ra Hra].
  rewrite Hra in Ha1.
  destruct (db_unhook_run E a w1 ra Ha1)
    as (w2 & Hrun2 & Hg2 & Hme2 & Hh2 & Hx2 & Ha2).
  rewrite (bind_Ok _ _ _ _ _ Hrun2). cbv beta.
  destruct (Ha2 ra Ha1) as (ra2 & Hra2 & _).
  assert (Hheads2 : S3JniGlobalType.perDb_aUsed (SJG w2)
                      = S3JniGlobalType.perDb_aUsed (SJG w1) /\
                    S3JniGlobalType.perDb_aFree (SJG w2)
                      = S3JniGlobalType.perDb_aFree (SJG w1)).
  { unfold same_but_metrics in Hg2. rewrite Hg2. split; reflexivity. }
  destruct Hheads2 as [Hhu2 Hhf2].
  destruct (db_set_free_run a w2 free ra2)
    as (w3 & Hrun3 & Hf3 & Hu3 & Ha3 & Hout3 & Hp3 & Hme3 & _ & Hh3 & _).
  { rewrite Hhf2, Hf1. eapply dll_same_links; [|exact Hf].
    intros x Hx r Hr. assert (Hxa : x <> a).
    { intros ->. exact (Hdisj a Hau Hx). }
    rewrite (Hx2 x Hxa), Hout1; [eauto|].
    intros Hin. exact (Hdisj x Hin Hx). }
  { exact Hndf. }
  { exact (Hdisj a Hau). }
  { exact Hra2. }
  rewrite Hrun3. exists w3. split; [reflexivity|].
  assert (Hkeep : forall x, x ∈ l1 ++ l2 -> memDb w3 !! x = memDb w1 !! x).
  { intros x Hx. assert (Hxa : x <> a) by (intros ->; contradiction).
    rewrite Hout3; [apply Hx2, Hxa|exact Hxa|].
    apply Hdisj, Hsub, Hx. }
  split; [split; [|split]|].
  - rewrite Hu3, Hhu2. eapply dll_same_links; [|exact Hu1].
    intros x Hx r Hr. rewrite (Hkeep x Hx). eauto.
  - exact Hf3.
  - apply NoDup_app. split; [|split].
    + apply NoDup_app in Hndu as (Hn1 & Hd & Hn2).
      apply NoDup_cons in Hn2 as [_ Hn2].
      apply NoDup_app. split; [exact Hn1|]. split; [|exact Hn2].
      intros x Hx1 Hx2'. apply (Hd x Hx1). right. exact Hx2'.
    + intros x Hx Hin. apply elem_of_cons in Hin as [->|Hin];
        [contradiction|].
      exact (Hdisj x (Hsub x Hx) Hin).
    + apply NoDup_cons. split; [exact (Hdisj a Hau)|exact Hndf].
  - split; [rewrite Ha3, Hhf2, Hf1; reflexivity|].
    split.
    + intros x Hxa. rewrite (Hp3 x Hxa), (Hx2 x Hxa). apply Hp1.
    + split; [congruence|].
      split; [rewrite Hj1 in Hh2; eapply same_heap_trans; eassumption|].
      destruct (db_unlink_frame _ _ _ Hrun1) as [E1 E1'].
      destruct (db_set_free_frame _ _ _ Hrun3) as [E3 E3'].
      unfold same_but_metrics in Hg2. rewrite E3, E3', Hg2. cbn.
      rewrite E1, E1'. split; reflexivity.
Qed.

Lemma dll_unique {R} (next prev : R -> ptr) (mem : list R) l : forall l' pv p,
  dll next prev mem pv p l -> dll next prev mem pv p l' -> l = l'.
Proof.
  induction l as [|a l IH]; intros [|a' l'] pv p; cbn.
  - reflexivity.
  - intros -> (? & _). discriminate.
  - intros (-> & _) ?. discriminate.
  - intros (-> & r & Hr & _ & Hl) ([= <-] & r' & Hr' & _ & Hl').
    rewrite Hr in Hr'. injection Hr' as <-. f_equal. eapply IH; eassumption.
Qed.

Lemma pdb_lists_shape w w' used free :
  S3JniGlobalType.perDb_aUsed (SJG w') = S3JniGlobalType.perDb_aUsed (SJG w) ->
  S3JniGlobalType.perDb_aFree (SJG w') = S3JniGlobalType.perDb_aFree (SJG w) ->
  (forall x r, memDb w !! x = Some r ->
     exists r', memDb w' !! x = Some r' /\
       S3JniDb.pNext r' = S3JniDb.pNext r /\
       S3JniDb.pPrev r' = S3JniDb.pPrev r) ->
  pdb_lists w used free -> pdb_lists w' used free.
Proof.
  intros Hu Hf Hshape (H1 & H2 & H3).
  split; [|split; [|exact H3]].
  - rewrite Hu. eapply dll_same_links; [|exact H1].
    intros x _ r Hr. apply (Hshape x r Hr).
  - rewrite Hf. eapply dll_same_links; [|exact H2].
    intros x _ r Hr. apply (Hshape x r Hr).
Qed.

Lemma pdb_inv_alloc E w pDb jDb rv w' :
  pdb_inv w ->
  (pDb <> 0%N -> forall used free,
     pdb_lists w used free -> pdb_handle_unused (memDb w) used pDb) ->
  S3JniDb_alloc E pDb jDb w = Ok rv w' ->
  pdb_inv w'.
Proof.
  intros (used & free & Hlists & Huniq) Hfresh Hrun.
  pose proof (S3JniDb_alloc_run E pDb jDb w used free Hlists) as Hspec.
  rewrite Hrun in Hspec.
  destruct Hspec as (a & r' & free' & -> & Hlists' & _ & Hr' & HpDb & _
                     & Hrest & _).
  exists (a :: used), free'. split; [exact Hlists'|].
  assert (Hau : a ∉ used).
  { destruct Hlists' as (_ & _ & Hnd). cbn in Hnd.
    apply NoDup_cons in Hnd as [Hn _]. intros Hin. apply Hn.
    apply elem_of_app. left. exact Hin. }
  assert (Hold : forall x rx, x ∈ used -> memDb w' !! x = Some rx ->
            exists r, memDb w !! x = Some r /\ S3JniDb.pDb rx = S3JniDb.pDb r).
  { intros x rx Hx Hrx. destruct Hlists as (Hu & _).
    destruct (dll_lookup _ _ _ _ _ _ x Hu Hx) as [r Hr].
    destruct (Hrest x r Hx Hr) as (rx' & Hrx' & Hp).
    rewrite Hrx in Hrx'. injection Hrx' as <-. eauto. }
  assert (Hnew : forall x rx, x ∈ used -> memDb w' !! x = Some rx ->
            S3JniDb.pDb rx = pDb -> pDb <> 0%N -> False).
  { intros x rx Hx Hrx Heq Hnz.
    destruct (Hold x rx Hx Hrx) as (r & Hr & Hp).
    apply (Hfresh Hnz used free Hlists x r Hx Hr). congruence. }
  intros x y rx ry Hx Hy Hrx Hry Heq Hnz.
  apply elem_of_cons in Hx as [->|Hx]; apply elem_of_cons in Hy as [->|Hy].
  - reflexivity.
  - exfalso. rewrite Hr' in Hrx. injection Hrx as <-.
    apply (Hnew y ry Hy Hry); congruence.
  - exfalso. rewrite Hr' in Hry. injection Hry as <-.
    apply (Hnew x rx Hx Hrx); congruence.
  - destruct (Hold x rx Hx Hrx) as (r1 & Hr1 & Hp1).
    destruct (Hold y ry Hy Hry) as (r2 & Hr2 & Hp2).
    apply (Huniq x y r1 r2 Hx Hy Hr1 Hr2); congruence.
Qed.

Lemma pdb_inv_for_db w jDb pDb q w' :
  pdb_inv w -> S3JniDb_for_db jDb pDb w = Ok q w' -> pdb_inv w'.
Proof.
  intros (used & free & Hlists & Huniq) Hrun.
  destruct (S3JniDb_for_db_total jDb pDb w used free Hlists)
    as (q' & w0 & Hrun' & _ & Hg & Hm & _).
  rewrite Hrun in Hrun'. injection Hrun' as <- <-.
  exists used, free. rewrite Hm. split; [|exact Huniq].
  destruct Hlists as (H1 & H2 & H3). unfold pdb_lists.
  unfold same_but_metrics in Hg. rewrite Hm, Hg. cbn. auto.
Qed.

Lemma pdb_inv_set_aside E w a w' :
  pdb_inv w -> pdb_in_use w a ->
  S3JniDb_set_aside E (Some a) w = Ok tt w' ->
  pdb_inv w'.
Proof.
  intros (used & free & Hlists & Huniq) (used0 & free0 & Hlists0 & Ha) Hrun.
  assert (used0 = used).
  { destruct Hlists as (H1 & _), Hlists0 as (H0 & _).
    eapply dll_unique; eassumption. }
  subst used0. apply list_elem_of_split in Ha as (l1 & l2 & ->).
  destruct (S3JniDb_set_aside_run E a w l1 l2 free Hlists)
    as (w0 & Hrun0 & Hlists' & _ & Hp & _).
  rewrite Hrun in Hrun0. injection Hrun0 as <-.
  exists (l1 ++ l2), (a :: free). split; [exact Hlists'|].
  assert (Haa : a ∉ l1 ++ l2).
  { destruct Hlists' as (_ & _ & Hnd). intros Hin.
    apply NoDup_app in Hnd as (_ & Hd & _). apply (Hd a Hin). left. }
  assert (Hsub : forall x, x ∈ l1 ++ l2 -> x ∈ l1 ++ a :: l2).
  { intros x Hin. apply elem_of_app in Hin as [?|?]; apply elem_of_app;
      [left|right; right]; assumption. }
  assert (Hold : forall x rx, x ∈ l1 ++ l2 -> memDb w' !! x = Some rx ->
            exists r, memDb w !! x = Some r /\ S3JniDb.pDb rx = S3JniDb.pDb r).
  { intros x rx Hx Hrx. assert (Hxa : x <> a) by (intros ->; contradiction).
    pose proof (Hp x Hxa) as Hpx. rewrite Hrx in Hpx.
    destruct (memDb w !! x) as [r|]; [|discriminate].
    cbn in Hpx. injection Hpx as Hpx. eauto. }
  intros x y rx ry Hx Hy Hrx Hry Heq Hnz.
  destruct (Hold x rx Hx Hrx) as (r1 & Hr1 & Hp1).
  destruct (Hold y ry Hy Hry) as (r2 & Hr2 & Hp2).
  apply (Huniq x y r1 r2 (Hsub x Hx) (Hsub y Hy) Hr1 Hr2); congruence.
Qed.

Lemma pdb_inv_bind w a X w' :
  pdb_inv w ->
  (forall x r, x <> a -> memDb w !! x = Some r -> S3JniDb.pDb r <> X) ->
  SJG w' = SJG w ->
  memDb w' = alter (S3JniDb.set_pDb X) a (memDb w) ->
  pdb_inv w'.
Proof.
  intros (used & free & Hlists & Huniq) Hfresh Hg Hm.
  exists used, free. split.
  - eapply pdb_lists_shape; [rewrite Hg; reflexivity..| |exact Hlists].
    intros x r Hr. rewrite Hm. destruct (decide (x = a)) as [->|Hxa].
    + rewrite list_lookup_alter_eq, Hr. cbn. eauto.
    + rewrite list_lookup_alter_ne by congruence. eauto.
  - intros x y rx ry Hx Hy. rewrite Hm.
    destruct (decide (x = a)) as [->|Hxa], (decide (y = a)) as [->|Hya];
      [reflexivity|..].
    + rewrite list_lookup_alter_eq, list_lookup_alter_ne by congruence.
      destruct (memDb w !! a) as [r|]; [|discriminate]. cbn.
      intros [= <-] Hry Heq _. exfalso.
      apply (Hfresh y ry Hya Hry). cbn in Heq. congruence.
    + rewrite list_lookup_alter_eq, list_lookup_alter_ne by congruence.
      destruct (memDb w !! a) as [r|]; [|discriminate]. cbn.
      intros Hrx [= <-] Heq _. exfalso.
      apply (Hfresh x rx Hxa Hrx). cbn in Heq. congruence.
    + rewrite !list_lookup_alter_ne by congruence. apply Huniq; assumption.
Qed.

Lemma pdb_inv_other w w' :
  pdb_inv w ->
  S3JniGlobalType.perDb_aUsed (SJG w') = S3JniGlobalType.perDb_aUsed (SJG w) ->
  S3JniGlobalType.perDb_aFree (SJG w') = S3JniGlobalType.perDb_aFree (SJG w) ->
  map (fun r => (S3JniDb.pDb r, S3JniDb.pPrev r, S3JniDb.pNext r)) (memDb w')
    = map (fun r => (S3JniDb.pDb r, S3JniDb.pPrev r, S3JniDb.pNext r))
          (memDb w) ->
  pdb_inv w'.
Proof.
  intros (used & free & Hlists & Huniq) Hu Hf Hmap.
  assert (Hshape : forall x, 
    (fun r => (S3JniDb.pDb r, S3JniDb.pPrev r, S3JniDb.pNext r))
      <$> memDb w' !! x
    = (fun r => (S3JniDb.pDb r, S3JniDb.pPrev r, S3JniDb.pNext r))
      <$> memDb w !! x).
  { intros x. rewrite <- !list_lookup_fmap.
    change (map (fun r => (S3JniDb.pDb r, S3JniDb.pPrev r, S3JniDb.pNext r))
              (memDb w') !! x
            = map (fun r => (S3JniDb.pDb r, S3JniDb.pPrev r, S3JniDb.pNext r))
                (memDb w) !! x).
    rewrite Hmap. reflexivity. }
  exists used, free. split.
  - eapply pdb_lists_shape; [exact Hu|exact Hf| |exact Hlists].
    intros x r Hr. pose proof (Hshape x) as Hx. rewrite Hr in Hx.
    destruct (memDb w' !! x) as [r'|]; [|discriminate].
    cbn in Hx. injection Hx as _ Hp Hn. eauto.
  - intros x y rx ry Hx Hy Hrx Hry.
    pose proof (Hshape x) as Hsx. pose proof (Hshape y) as Hsy.
    rewrite Hrx in Hsx. rewrite Hry in Hsy.
    destruct (memDb w !! x) as [r1|] eqn:Hr1; [|discriminate].
    destruct (memDb w !! y) as [r2|] eqn:Hr2; [|discriminate].
    cbn in Hsx, Hsy. injection Hsx as Hp1 _ _. injection Hsy as Hp2 _ _.
    rewrite Hp1, Hp2. apply (Huniq x y r1 r2 Hx Hy Hr1 Hr2).
Qed.

(** C1: the invariant of the per-connection registry.  In every state
    that [S3JniDb_alloc()], [S3JniDb_for_db()], [S3JniDb_set_aside()] and
    the binding of a new native handle lead to, the used-list and the
    free-list are well-formed doubly-linked lists without a record in
    common, and no two records of the used-list have the same handle,
    [NULL] apart.  A record that [S3JniDb_alloc()] returns then, recycled
    or not, is in the used-list and holds the handle passed in and the
    global reference to the wrapper that this very call has made. *)
Theorem perDb_registry_invariant E w :
  pdb_reachable E w ->
  (exists used free,
     pdb_lists w used free /\ pdb_handles_unique (memDb w) used) /\
  (forall pDb jDb o rv w',
     obj_of jDb = Some o ->
     S3JniDb_alloc E pDb jDb w = Ok rv w' ->
     exists a r,
       rv = Some a /\ pdb_in_use w' a /\ memDb w' !! a = Some r /\
       S3JniDb.pDb r = pDb /\
       S3JniDb.jDb r = JGlobal (JavaVM.nextGlobalRef (jvm w)) o).
Proof.
  intros Hreach.
  assert (Hinv : pdb_inv w).
  { induction Hreach as [w Hu Hf|w pDb jDb rv w' _ IH Hfresh Hrun
                        |w jDb pDb q w' _ IH Hrun|w a w' _ IH Ha Hrun
                        |w a X w' _ IH Hfresh Hg Hm|w w' _ IH Hu Hf Hmap].
    - exists [], []. split; [|intros ? ? ? ? Hin; inversion Hin].
      split; [exact Hu|]. split; [exact Hf|]. constructor.
    - exact (pdb_inv_alloc E w pDb jDb rv w' IH Hfresh Hrun).
    - exact (pdb_inv_for_db w jDb pDb q w' IH Hrun).
    - exact (pdb_inv_set_aside E w a w' IH Ha Hrun).
    - exact (pdb_inv_bind w a X w' IH Hfresh Hg Hm).
    - exact (pdb_inv_other w w' IH Hu Hf Hmap). }
  split; [exact Hinv|].
  intros pDb jDb o rv w' Ho Hrun.
  destruct Hinv as (used & free & Hlists & _).
  pose proof (S3JniDb_alloc_run E pDb jDb w used free Hlists) as Hspec.
  rewrite Hrun, Ho in Hspec.
  destruct Hspec as (a & r' & free' & -> & Hlists' & _ & Hr' & HpDb & HjDb & _).
  exists a, r'. split; [reflexivity|].
  split; [exists (a :: used), free'; split; [exact Hlists'|left]|].
  auto.
Qed.

Lemma perDb_registry_invariant_witness :
  exists r w',
    S3JniDb_alloc env_plain 200%N (JLocal 7) world_registry = Ok (Some 0) w' /\
    memDb w' !! 0 = Some r /\
    S3JniDb.pDb r = 200%N /\
    S3JniDb.jDb r = JGlobal (JavaVM.nextGlobalRef (jvm world_registry)) 7.
Proof.
  set (w1 := world_after (S3JniDb_alloc env_plain 0%N (JLocal 5)) World0).
  set (w2 := set_memDb (alter (S3JniDb.set_pDb 100%N) 0 (memDb w1)) w1).
  set (w3 := world_after (S3JniDb_alloc env_plain 0%N (JLocal 6)) w2).
  assert (Hreach : pdb_reachable env_plain world_registry).
  { apply (pdb_after_set_aside env_plain w3 0).
    - apply (pdb_after_alloc env_plain w2 0%N (JLocal 6) (Some 1));
        [|intros H; contradiction|vm_compute; reflexivity].
      apply (pdb_after_bind env_plain w1 0 100%N);
        [|intros [|x] r Hx Hr; [contradiction|discriminate]
         |reflexivity|reflexivity].
      apply (pdb_after_alloc env_plain World0 0%N (JLocal 5) (Some 0));
        [|intros H; contradiction|vm_compute; reflexivity].
      apply pdb_initial; reflexivity.
    - exists [1; 0], []. split; [|right; left].
      split; [|split; [reflexivity|]].
      + vm_compute. repeat first [split | eexists | reflexivity].
      + apply NoDup_cons. split; [|apply NoDup_singleton].
        intros Hin. apply list_elem_of_singleton in Hin. discriminate.
    - vm_compute. reflexivity. }
  set (w' := world_after (S3JniDb_alloc env_plain 200%N (JLocal 7))
               world_registry).
  assert (Hrun : S3JniDb_alloc env_plain 200%N (JLocal 7) world_registry
                 = Ok (Some 0) w') by (vm_compute; reflexivity).
  destruct (proj2 (perDb_registry_invariant env_plain world_registry Hreach)
              200%N (JLocal 7) 7 (Some 0) w' eq_refl Hrun)
    as (a & r & Ha & _ & Hr & Hp & Hj).
  injection Ha as <-. exists r, w'. auto.
Defined.


(** * Further properties of the bridge *)


(** ** Opening a connection that fails *)

Lemma proxied_refl w : proxied w w.
Proof. split; [apply same_but_metrics_refl|]. repeat split. Qed.

Lemma proxied_trans w1 w2 w3 : proxied w1 w2 -> proxied w2 w3 -> proxied w1 w3.
Proof.
  intros (H1 & H2 & H3 & H4) (G1 & G2 & G3 & G4).
  split; [eapply same_but_metrics_trans; eassumption|].
  repeat split; congruence.
Qed.

Lemma autoExt_run_from_frame E ps fuel : forall i w rc w',
  autoExt_run_from E fuel i ps w = Ok rc w' -> proxied w w'.
Proof.
  induction fuel as [|fuel IH]; intros i w rc w'; [discriminate|].
  rewrite autoExt_run_from_S. msimpl.
  destruct (_ <=? i)%nat.
  { intros [= _ <-]. split; [|repeat split].
    unfold same_but_metrics. cbn. destruct (SJG w); reflexivity. }
  cbn. destruct (S3JniGlobalType.autoExt_pExt (SJG w) !! i) as [ax|];
    [|discriminate]. cbn.
  assert (Hfin : forall (k : M Z) w1,
    proxied w w1 ->
    (k = autoExt_run_from E fuel (S i) ps \/ exists rc1, k = ret rc1) ->
    k w1 = Ok rc w' -> proxied w w').
  { intros k w1 Hp [->|[rc1 ->]].
    - intros Hrun. eapply proxied_trans; [exact Hp|]. eapply IH, Hrun.
    - intros [= _ <-]. exact Hp. }
  destruct (nonnull (REF_L (S3JniAutoExtension.jObj ax))) eqn:Hnn; cbn.
  2: { apply (Hfin (autoExt_run_from E fuel (S i) ps)); [|left; reflexivity].
       split; [|repeat split]. unfold same_but_metrics. cbn.
       destruct (SJG w); reflexivity. }
  destruct (memDb w !! ps) as [r|]; [|discriminate]. cbn.
  destruct (obj_of (REF_L (S3JniAutoExtension.jObj ax))) as [o|];
    [|discriminate]. cbn.
  destruct (jcall E (length (events w))) as [v|]; cbn;
    destruct (JavaVM.exceptionPending (jvm w)); cbn;
    repeat (match goal with
            | |- context [(?x =? 0)%Z] => destruct (x =? 0)%Z; cbn
            end).
  all: first
    [ apply (Hfin (autoExt_run_from E fuel (S i) ps)); [|left; reflexivity]
    | apply (Hfin (ret _)); [|right; eexists; reflexivity] ].
  all: split; [|repeat split]; unfold same_but_metrics; cbn;
    destruct (SJG w); reflexivity.
Qed.

Lemma map_alter_same {A B} (g : A -> B) (f : A -> A) (l : list A) i :
  (forall x, g (f x) = g x) -> map g (alter f i l) = map g l.
Proof.
  intros Hg. revert i. induction l as [|x l IH]; intros [|i]; cbn;
    rewrite ?Hg, ?IH; reflexivity.
Qed.

#[global] Arguments s3jni_run_java_auto_extensions : simpl never.

Lemma s3jni_run_java_auto_extensions_frame E env h w eu ef jc rc w' :
  env_cache_lists w eu ef ->
  first_row_of (memEnv w) env eu = Some jc ->
  s3jni_run_java_auto_extensions E env h w = Ok rc w' ->
  proxied w w'.
Proof.
  intros Hlists Hfirst. unfold s3jni_run_java_auto_extensions. msimpl.
  destruct (_ =? 0)%nat; [intros [= _ <-]; apply proxied_refl|].
  destruct (S3JniGlobal_env_cache_hit E env w jc) as (w1 & Hrun1 & Hg1 & Hme1
    & Hmd1 & Hj1 & Hev1 & _).
  { rewrite (env_cache_lists_lookup w eu ef env Hlists), Hfirst. reflexivity. }
  rewrite Hrun1.
  assert (Hp1 : proxied w w1).
  { split; [exact Hg1|]. rewrite Hme1, Hmd1, Hj1. repeat split. }
  destruct (memEnv w1 !! jc) as [row|] eqn:Hrow; [|discriminate]. cbn.
  destruct (S3JniEnv.pdbOpening row) as [ps|]; cbn;
    [|intros [= _ <-]; exact Hp1].
  rewrite Hrow. cbn.
  destruct (memDb w1 !! ps) as [r|] eqn:Hr; [|discriminate]. cbn.
  rewrite list_lookup_alter_eq, Hr. cbn.
  destruct (obj_of (S3JniDb.jDb r)) as [o|]; [|discriminate]. cbn.
  intros Hrun. apply autoExt_run_from_frame in Hrun.
  eapply proxied_trans; [exact Hp1|].
  eapply proxied_trans; [|exact Hrun].
  split; [apply same_but_metrics_refl|]. cbn.
  split; [apply map_alter_same; reflexivity|].
  split; [apply map_alter_same; reflexivity|reflexivity].
Qed.

#[global] Arguments native_open : simpl never.

Lemma proxied_events w ev : proxied w (set_events ev w).
Proof. split; [apply same_but_metrics_refl|]. repeat split. Qed.

Lemma native_open_frame E env c w eu ef jc rc p w' :
  env_cache_lists w eu ef ->
  first_row_of (memEnv w) env eu = Some jc ->
  native_open E env c w = Ok (rc, p) w' ->
  proxied w w'.
Proof.
  intros Hlists Hfirst. unfold native_open. msimpl.
  destruct (open_plan E (length (events w))) as [|h runs keeps]; msimpl.
  { intros [= _ _ <-]. apply proxied_events. }
  destruct runs; msimpl.
  2: { intros [= _ _ <-]. apply proxied_events. }
  match goal with |- context [s3jni_run_java_auto_extensions E env h ?w0] =>
    destruct (s3jni_run_java_auto_extensions E env h w0) as [rcx w1|] eqn:Hrun;
      [|discriminate];
    apply (s3jni_run_java_auto_extensions_frame E env h w0 eu ef jc) in Hrun;
      [|exact Hlists|exact Hfirst]
  end.
  intros [= _ _ <-]. eapply proxied_trans; [apply proxied_events|exact Hrun].
Qed.

Lemma s3jni_jstring_to_utf8_run E jstr w :
  exists z w',
    s3jni_jstring_to_utf8 E jstr w = Ok z w' /\
    SJG w' = SJG w /\ memDb w' = memDb w /\ memEnv w' = memEnv w /\
    events w' = events w /\ jvm w' = jvm w /\
    (z = None -> jstr <> None -> alloc_ok E (nAlloc w) = false).
Proof.
  destruct jstr as [s|]; cbn.
  - msimpl. eexists _, _. split; [reflexivity|]. cbn. repeat split.
    destruct (alloc_ok E (nAlloc w)); [discriminate|reflexivity].
  - exists None, w. repeat split. intros _ H. contradiction.
Qed.

Lemma new_sqlite3_wrapper_run E sv w :
  match new_sqlite3_wrapper E sv w with
  | Ok j w' =>
      (exists o, j = JLocal o) /\
      SJG w' = SJG w /\ memDb w' = memDb w /\ memEnv w' = memEnv w /\
      events w' = events w /\
      JavaVM.value (jvm w') = JavaVM.value (jvm w) /\
      JavaVM.nextGlobalRef (jvm w') = JavaVM.nextGlobalRef (jvm w)
  | Abort why =>
      (why = FatalError "Cannot find constructor for class." /\
       jctor E = 0%N) \/
      (why = FatalError "No-arg constructor threw." /\ jctor E <> 0%N /\
       (alloc_ok E (nAlloc w) = false \/
        JavaVM.exceptionPending (jvm w) = true))
  end.
Proof.
  unfold new_sqlite3_wrapper, new_NativePointerHolder_object, NewObject,
    EXCEPTION_IS_FATAL.
  destruct (jctor E =? 0)%N eqn:Hc.
  { msimpl. left. split; [reflexivity|]. apply N.eqb_eq. exact Hc. }
  apply N.eqb_neq in Hc.
  msimpl. destruct (alloc_ok E (nAlloc w)); msimpl; [|right; auto].
  destruct (JavaVM.exceptionPending (jvm w)) eqn:Hex; msimpl; [right; auto|].
  split; [eauto|]. repeat split.
Qed.

#[global] Arguments s3jni_jstring_to_utf8 : simpl never.
#[global] Arguments new_sqlite3_wrapper : simpl never.
#[global] Arguments S3JniDb_alloc : simpl never.
#[global] Arguments S3JniDb_set_aside : simpl never.
#[global] Arguments s3jni_open_pre : simpl never.
#[global] Arguments s3jni_open_post : simpl never.

(** The row [jc] is the row of the thread [env]. *)
Lemma env_cached_alter w env jc w' f :
  env_cached w env jc ->
  (forall r, S3JniEnv.env (f r) = S3JniEnv.env r /\
             S3JniEnv.pPrev (f r) = S3JniEnv.pPrev r /\
             S3JniEnv.pNext (f r) = S3JniEnv.pNext r) ->
  S3JniGlobalType.envCache_aHead (SJG w')
    = S3JniGlobalType.envCache_aHead (SJG w) ->
  S3JniGlobalType.envCache_aFree (SJG w')
    = S3JniGlobalType.envCache_aFree (SJG w) ->
  memEnv w' = alter f jc (memEnv w) ->
  env_cached w' env jc.
Proof.
  intros (eu & ef & Hlists & Hfirst) Hf Hh Hfr Hm.
  destruct (env_cache_lists_other w w' eu ef Hh Hfr) as [Hl' Hsame];
    [|exact Hlists|].
  - rewrite Hm. apply map_alter_same. intros r.
    destruct (Hf r) as (-> & -> & ->). reflexivity.
  - exists eu, ef. split; [exact Hl'|]. rewrite Hsame. exact Hfirst.
Qed.

Lemma env_cached_same w env jc w' :
  env_cached w env jc ->
  S3JniGlobalType.envCache_aHead (SJG w')
    = S3JniGlobalType.envCache_aHead (SJG w) ->
  S3JniGlobalType.envCache_aFree (SJG w')
    = S3JniGlobalType.envCache_aFree (SJG w) ->
  map (fun r => (S3JniEnv.env r, S3JniEnv.pPrev r, S3JniEnv.pNext r))
      (memEnv w')
    = map (fun r => (S3JniEnv.env r, S3JniEnv.pPrev r, S3JniEnv.pNext r))
          (memEnv w) ->
  env_cached w' env jc.
Proof.
  intros (eu & ef & Hlists & Hfirst) Hh Hfr Hm.
  destruct (env_cache_lists_other w w' eu ef Hh Hfr Hm Hlists) as [Hl' Hsame].
  exists eu, ef. split; [exact Hl'|]. rewrite Hsame. exact Hfirst.
Qed.

Lemma env_cached_row w env jc :
  env_cached w env jc -> exists row, memEnv w !! jc = Some row.
Proof.
  intros (eu & ef & _ & Hfirst).
  destruct (first_row_of_Some _ _ _ _ Hfirst) as (_ & r & Hr & _). eauto.
Qed.

Lemma S3JniGlobal_env_cache_frame E env w jc w0 :
  S3JniGlobal_env_cache E env w = Ok jc w0 ->
  memDb w0 = memDb w /\ jvm w0 = jvm w /\ events w0 = events w /\
  S3JniGlobalType.perDb_aUsed (SJG w0) = S3JniGlobalType.perDb_aUsed (SJG w) /\
  S3JniGlobalType.perDb_aFree (SJG w0) = S3JniGlobalType.perDb_aFree (SJG w).
Proof.
  rewrite S3JniGlobal_env_cache_eq.
  unfold env_cache_link, s3jni_malloc_S3JniEnv, env_set_pPrev, s3jni_oom.
  msimpl. crunch.
  all: intros [= _ <-]; cbn; repeat split.
Qed.

Lemma s3jni_open_pre_run E env name w eu ef used free rc jc z p w1 :
  env_cache_lists w eu ef -> pdb_lists w used free ->
  s3jni_open_pre E env name w = Ok (rc, jc, z, p) w1 ->
  env_cached w1 env jc /\
  JavaVM.value (jvm w1) = JavaVM.value (jvm w) /\
  ((rc = SQLITE_NOMEM /\ p = None /\ pdb_lists w1 used free /\
    name <> None) \/
   (rc = 0%Z /\
    exists ps r row free1,
      p = Some ps /\ pdb_lists w1 (ps :: used) free1 /\
      (free = ps :: free1 \/ (free = [] /\ free1 = [])) /\
      memDb w1 !! ps = Some r /\ S3JniDb.pDb r = 0%N /\
      (exists g o, S3JniDb.jDb r = JGlobal g o) /\
      memEnv w1 !! jc = Some row /\ S3JniEnv.pdbOpening row = Some ps)).
Proof.
  intros Hel Hdl. unfold s3jni_open_pre.
  unfold bind at 1.
  pose proof (S3JniGlobal_env_cache_run E env w eu ef Hel) as Hspec.
  destruct (S3JniGlobal_env_cache E env w) as [jc0 w0|] eqn:Hc; [|discriminate].
  destruct (S3JniGlobal_env_cache_frame E env w jc0 w0 Hc)
    as (Hmd0 & Hj0 & Hev0 & Hu0 & Hf0).
  assert (Hc0 : env_cached w0 env jc0).
  { destruct Hspec as [(Hfirst & Hmem & H)|(_ & (free' & H) & (r & Hr & He) & _)].
    - exists eu, ef. split; [exact H|]. rewrite Hmem. exact Hfirst.
    - exists (jc0 :: eu), free'. split; [exact H|]. cbn. rewrite Hr.
      rewrite (proj2 (N.eqb_eq _ _) He). reflexivity. }
  assert (Hdl0 : pdb_lists w0 used free).
  { destruct Hdl as (H1 & H2 & H3). unfold pdb_lists.
    rewrite Hmd0, Hu0, Hf0. auto. }
  clear Hspec Hc.
  unfold bind at 1.
  destruct (s3jni_jstring_to_utf8_run E name w0)
    as (z0 & w0' & Hrunz & Hgz & Hmdz & Hmez & Hevz & Hjz & _).
  rewrite Hrunz.
  assert (Hcz : env_cached w0' env jc0).
  { eapply env_cached_same; [exact Hc0|rewrite Hgz; reflexivity..
                            |rewrite Hmez; reflexivity]. }
  assert (Hdlz : pdb_lists w0' used free).
  { destruct Hdl0 as (H1 & H2 & H3). unfold pdb_lists.
    rewrite Hmdz, Hgz. auto. }
  destruct (bool_decide (name <> None) && bool_decide (z0 = None)) eqn:Hnm.
  { intros [= <- <- <- <- <-]. split; [exact Hcz|].
    split; [rewrite Hjz, Hj0; reflexivity|]. left.
    apply andb_prop in Hnm as [Hn _]. apply bool_decide_eq_true in Hn.
    auto. }
  unfold bind at 1.
  pose proof (new_sqlite3_wrapper_run E 0%N w0') as Hw.
  destruct (new_sqlite3_wrapper E 0%N w0') as [jDb w2|]; [|discriminate].
  destruct Hw as ([o ->] & Hg2 & Hmd2 & Hme2 & Hev2 & Hv2 & Hngr2).
  cbn [is_null].
  assert (Hc2 : env_cached w2 env jc0).
  { eapply env_cached_same; [exact Hcz|rewrite Hg2; reflexivity..
                            |rewrite Hme2; reflexivity]. }
  assert (Hdl2 : pdb_lists w2 used free).
  { destruct Hdlz as (H1 & H2 & H3). unfold pdb_lists.
    rewrite Hmd2, Hg2. auto. }
  unfold bind at 1.
  pose proof (S3JniDb_alloc_run E 0%N (JLocal o) w2 used free Hdl2) as Ha.
  destruct (S3JniDb_alloc E 0%N (JLocal o) w2) as [rv w3|] eqn:Hal;
    [|discriminate].
  apply S3JniDb_alloc_frame in Hal as [Hh3 Hf3].
  destruct Ha as (ps & r & free1 & -> & Hdl3 & Hfree & Hr & HpDb & HjDb & _
                  & Hme3 & Hev3 & Hv3 & _).
  assert (Hc3 : env_cached w3 env jc0).
  { eapply env_cached_same; [exact Hc2|exact Hh3|exact Hf3
                            |rewrite Hme3; reflexivity]. }
  destruct (env_cached_row _ _ _ Hc3) as [row Hrow].
  msimpl. rewrite Hrow. intros [= <- <- <- <- <-].
  split.
  { eapply env_cached_alter; [exact Hc3| |reflexivity..].
    intros r0. repeat split. }
  split; [cbn; rewrite Hv3, Hv2, Hjz, Hj0; reflexivity|].
  right. split; [reflexivity|].
  exists ps, r, (S3JniEnv.set_pdbOpening (Some ps) row), free1.
  split; [reflexivity|]. split; [exact Hdl3|]. split; [exact Hfree|].
  split; [exact Hr|]. split; [exact HpDb|].
  split; [cbn in HjDb; eauto|].
  split; [cbn; rewrite list_lookup_alter_eq, Hrow; reflexivity|reflexivity].
Qed.

Lemma open_binding_eq E env v strName jOut w jc zName ps w1 :
  s3jni_open_pre E env strName w = Ok (0%Z, jc, zName, ps) w1 ->
  open_binding E env v strName jOut w =
  (let* '(rc, pOut) := open_native E env v zName in
   s3jni_open_post E jc ps pOut jOut rc) w1.
Proof.
  intros Hpre. destruct v as [[flags strVfs]|]; cbn [open_binding open_native].
  - unfold Java_org_sqlite_jni_SQLite3Jni_sqlite3_1open_1v2.
    unfold bind. rewrite Hpre. cbn [Z.eqb andb].
    destruct (bool_decide (strVfs <> None)); [|reflexivity].
    destruct (s3jni_jstring_to_utf8 E strVfs w1) as [z w2|]; [|reflexivity].
    cbn. destruct (bool_decide (z = None)); reflexivity.
  - unfold Java_org_sqlite_jni_SQLite3Jni_sqlite3_1open.
    unfold bind at 1. rewrite Hpre. reflexivity.
Qed.

Lemma open_native_frame E env v zName w eu ef jc rc p w' :
  env_cache_lists w eu ef ->
  first_row_of (memEnv w) env eu = Some jc ->
  open_native E env v zName w = Ok (rc, p) w' ->
  proxied w w'.
Proof.
  intros Hlists Hfirst. destruct v as [[flags strVfs]|]; cbn [open_native].
  2: { apply (native_open_frame E env _ w eu ef jc); assumption. }
  unfold bind at 1.
  destruct (bool_decide (strVfs <> None)).
  - unfold bind at 1.
    destruct (s3jni_jstring_to_utf8_run E strVfs w)
      as (z & w0 & Hrun & Hg & Hmd & Hme & Hev & Hj & _).
    rewrite Hrun. cbn.
    assert (Hp0 : proxied w w0).
    { split; [rewrite Hg; apply same_but_metrics_refl|].
      rewrite Hme, Hmd, Hj. repeat split. }
    destruct (bool_decide (z = None)); cbn.
    + intros [= _ _ <-]. exact Hp0.
    + intros Hrun'. eapply proxied_trans; [exact Hp0|].
      apply (native_open_frame E env _ w0 eu ef jc) in Hrun'; [exact Hrun'|..].
      * destruct Hlists as (H1 & H2 & H3). unfold env_cache_lists.
        rewrite Hme, Hg. auto.
      * rewrite Hme. exact Hfirst.
  - cbn. apply (native_open_frame E env _ w eu ef jc); assumption.
Qed.

Lemma map_lookup_eq {A B} (f : A -> B) (l l' : list A) x :
  map f l' = map f l -> f <$> l' !! x = f <$> l !! x.
Proof.
  intros H. rewrite <- !list_lookup_fmap.
  change (map f l' !! x = map f l !! x). rewrite H. reflexivity.
Qed.

Lemma proxied_pdb_lists w w' used free :
  proxied w w' -> pdb_lists w used free -> pdb_lists w' used free.
Proof.
  intros (Hg & _ & Hmap & _). unfold same_but_metrics in Hg.
  apply pdb_lists_shape; [rewrite Hg; reflexivity..|].
  intros x r Hr.
  pose proof (map_lookup_eq _ _ _ x Hmap) as Hx. rewrite Hr in Hx.
  destruct (memDb w' !! x) as [r'|]; [|discriminate].
  cbn in Hx. injection Hx as Hp Hn. eauto.
Qed.

Lemma proxied_env_row w w' jc row :
  proxied w w' -> memEnv w !! jc = Some row ->
  exists row', memEnv w' !! jc = Some row' /\
               S3JniEnv.env row' = S3JniEnv.env row.
Proof.
  intros (_ & Hmap & _) Hrow.
  pose proof (map_lookup_eq _ _ _ jc Hmap) as Hx. rewrite Hrow in Hx.
  destruct (memEnv w' !! jc) as [row'|]; [|discriminate].
  cbn in Hx. injection Hx as He _ _. eauto.
Qed.

Lemma s3jni_open_post_failed E jc ps jOut oOut rc w used free row :
  pdb_lists w (ps :: used) free ->
  memEnv w !! jc = Some row ->
  obj_of jOut = Some oOut ->
  exists w',
    s3jni_open_post E jc (Some ps) 0%N jOut rc w = Ok rc w' /\
    pdb_lists w' used (ps :: free) /\
    memDb w' !! ps
      = Some (S3JniDb.set_pNext (S3JniGlobalType.perDb_aFree (SJG w))
                S3JniDb.zero) /\
    memEnv w' = alter (S3JniEnv.set_pdbOpening None) jc (memEnv w) /\
    JavaVM.value (jvm w') = <[oOut:=None]> (JavaVM.value (jvm w)).
Proof.
  intros Hlists Hrow Ho. unfold s3jni_open_post.
  unfold bind at 1. unfold store_env at 1. rewrite Hrow.
  cbn [N.eqb negb]. unfold bind at 1. unfold bind at 1.
  match goal with |- context [S3JniDb_set_aside E (Some ps) ?w0] =>
    destruct (S3JniDb_set_aside_run E ps w0 [] used free Hlists)
      as (w1 & Hrun & Hl1 & Hr1 & _ & Hme1 & Hh1 & _)
  end.
  rewrite Hrun. cbn [ret]. unfold bind at 1. cbn [ret].
  unfold bind at 1. unfold OutputPointer_set_sqlite3. rewrite Ho.
  msimpl. eexists. split; [reflexivity|]. cbn.
  split; [exact Hl1|]. split; [exact Hr1|]. split; [exact Hme1|].
  destruct Hh1 as (_ & _ & _ & ->). reflexivity.
Qed.

(** X1.  An open that gets no connection handle leaves no record behind.
    For both open bindings: when the pre-open step has succeeded and the
    step between it and the post-open step (the native open or, for
    [sqlite3_open_v2()], the conversion of the VFS name) yields the code
    [rc] and no handle, the binding returns [rc]; the record made for the
    open is unlinked from the used-list, which is as before the call,
    cleared, and at the head of the free-list; the "opening" slot of the
    thread's row is empty; and the output pointer holds null. *)
Theorem failed_open_leaves_no_record E env v strName jOut oOut w eu ef
  used free jc zName p rc w1 w2 :
  env_cache_lists w eu ef ->
  pdb_lists w used free ->
  obj_of jOut = Some oOut ->
  s3jni_open_pre E env strName w = Ok (0%Z, jc, zName, p) w1 ->
  open_native E env v zName w1 = Ok (rc, 0%N) w2 ->
  exists ps w3,
    p = Some ps /\
    open_binding E env v strName jOut w = Ok rc w3 /\
    open_cleaned_up env w3 used jc ps oOut.
Proof.
  intros Henv Hdb Ho Hpre Hnat.
  destruct (s3jni_open_pre_run E env strName w eu ef used free _ _ _ _ _
              Henv Hdb Hpre) as (Hc & _ & [(Hrc & _)|(_ & Hok)]);
    [discriminate|].
  destruct Hok as (ps & r & row & free1 & -> & Hl1 & _ & _ & _ & _ & Hrow & _).
  exists ps.
  rewrite (open_binding_eq E env v strName jOut w jc zName (Some ps) w1 Hpre).
  unfold bind at 1. rewrite Hnat.
  destruct Hc as (eu1 & ef1 & Hl & Hfirst).
  pose proof (open_native_frame E env v zName w1 eu1 ef1 jc rc 0%N w2
                Hl Hfirst Hnat) as Hp.
  pose proof (proxied_pdb_lists _ _ _ _ Hp Hl1) as Hl2.
  destruct (first_row_of_Some _ _ _ _ Hfirst) as (_ & row1 & Hrow1 & He1).
  destruct (proxied_env_row _ _ _ _ Hp Hrow1) as (row2 & Hrow2 & He2).
  destruct (s3jni_open_post_failed E jc ps jOut oOut rc w2 used free1 row2
              Hl2 Hrow2 Ho) as (w3 & Hrun & Hl3 & Hr3 & Hme3 & Hv3).
  exists w3. split; [reflexivity|]. split; [exact Hrun|].
  split; [eauto|]. split.
  { eexists. split; [exact Hr3|]. repeat split. }
  split.
  { exists (S3JniEnv.set_pdbOpening None row2).
    split; [rewrite Hme3, list_lookup_alter_eq, Hrow2; reflexivity|].
    split; [cbn; congruence|reflexivity]. }
  rewrite Hv3. apply lookup_insert_eq.
Qed.

Lemma failed_open_leaves_no_record_witness :
  exists ps w3,
    Some 0 = Some ps /\
    open_binding env_open_fails 1%N None (Some "a.db") (JLocal 9) World0
      = Ok 14%Z w3 /\
    open_cleaned_up 1%N w3 [] 0 ps 9.
Proof.
  apply (failed_open_leaves_no_record env_open_fails 1%N None (Some "a.db")
           (JLocal 9) 9 World0 [] [] [] [] 0 (Some "a.db") (Some 0) 14%Z
           (world_after (s3jni_open_pre env_open_fails 1%N (Some "a.db"))
              World0)
           (world_after (open_native env_open_fails 1%N None (Some "a.db"))
              (world_after (s3jni_open_pre env_open_fails 1%N (Some "a.db"))
                 World0))).
  - split; [reflexivity|]. split; [reflexivity|]. apply NoDup_nil_2.
  - split; [reflexivity|]. split; [reflexivity|]. apply NoDup_nil_2.
  - reflexivity.
  - vm_compute. reflexivity.
  - vm_compute. reflexivity.
Defined.


Lemma peek_no_NUL z : no_NUL z -> (peek z =? 0)%Z = bool_decide (z = []).
Proof.
  destruct z as [|c z]; [reflexivity|].
  intros H. apply Forall_cons in H as [Hc _]. cbn.
  apply Z.eqb_neq in Hc. rewrite Hc. reflexivity.
Qed.

Lemma no_NUL_tail z : no_NUL z -> no_NUL (tail z).
Proof. destruct z; [auto|]. intros H. apply Forall_cons in H as [_ H]. exact H. Qed.

Lemma wild_star_iff g z :
  wild_match (Ch.star :: g) z <->
  exists z1 z2, z = z1 ++ z2 /\ wild_match g z2.
Proof.
  split.
  - intros H.
    inversion H as [|c' g' z' Hc Hm|c' g' z' Hm|g' z1 z2 Hm]; subst.
    + destruct Hc as (_ & Hs & _). contradiction.
    + eauto.
  - intros (z1 & z2 & -> & H). constructor. exact H.
Qed.

Lemma wild_question_iff g z :
  wild_match (Ch.question :: g) z <->
  exists c z', z = c :: z' /\ wild_match g z'.
Proof.
  split.
  - intros H.
    inversion H as [|c' g' z' Hc Hm|c' g' z' Hm|g' z1 z2 Hm]; subst.
    + destruct Hc as (_ & _ & Hq & _). contradiction.
    + eauto.
  - intros (c & z' & -> & H). constructor. exact H.
Qed.

Lemma wild_plain_iff c g z :
  glob_plain c ->
  wild_match (c :: g) z <-> exists z', z = c :: z' /\ wild_match g z'.
Proof.
  intros Hc. split.
  - intros H.
    inversion H as [|c' g' z' Hc' Hm|c' g' z' Hm|g' z1 z2 Hm]; subst.
    + eauto.
    + destruct Hc as (_ & _ & Hq & _). contradiction.
    + destruct Hc as (_ & Hs & _). contradiction.
  - intros (z' & -> & H). constructor; assumption.
Qed.

Lemma wild_nil_iff z : wild_match [] z <-> z = [].
Proof.
  split.
  - intros H. inversion H. reflexivity.
  - intros ->. constructor.
Qed.

Lemma wild_star_star g z :
  wild_match (Ch.star :: Ch.star :: g) z <-> wild_match (Ch.star :: g) z.
Proof.
  rewrite !wild_star_iff. split.
  - intros (z1 & z2 & -> & H). apply wild_star_iff in H as (z3 & z4 & -> & H).
    exists (z1 ++ z3), z4. rewrite app_assoc. auto.
  - intros (z1 & z2 & -> & H). exists z1, z2. split; [reflexivity|].
    apply (wild_star g [] z2). exact H.
Qed.

Lemma wild_star_question g z :
  wild_match (Ch.star :: Ch.question :: g) z <->
  exists c z', z = c :: z' /\ wild_match (Ch.star :: g) z'.
Proof.
  rewrite wild_star_iff. split.
  - intros (z1 & z2 & -> & H).
    apply wild_question_iff in H as (c & z' & -> & H).
    destruct z1 as [|d z1].
    + exists c, z'. split; [reflexivity|]. apply (wild_star g [] z'). exact H.
    + exists d, (z1 ++ c :: z'). split; [reflexivity|].
      replace (z1 ++ c :: z') with ((z1 ++ [c]) ++ z')
        by (rewrite <- app_assoc; reflexivity).
      constructor. exact H.
  - intros (c & z' & -> & H). apply wild_star_iff in H as (z1 & z2 & -> & H).
    exists (removelast (c :: z1)), (List.last (c :: z1) 0%Z :: z2).
    split.
    + change (c :: z1 ++ z2) with ((c :: z1) ++ z2).
      rewrite (app_removelast_last (l := c :: z1) 0%Z) at 1 by discriminate.
      rewrite <- app_assoc. reflexivity.
    + constructor. exact H.
Qed.

Lemma glob_plain_eqb c :
  glob_plain c ->
  (c =? 0)%Z = false /\ (c =? Ch.star)%Z = false /\
  (c =? Ch.question)%Z = false /\ (c =? Ch.lbracket)%Z = false /\
  (c =? Ch.hash)%Z = false.
Proof.
  intros (H0 & H1 & H2 & H3 & H4).
  repeat split; apply Z.eqb_neq; assumption.
Qed.

Lemma glob_skip_spec g : glob_wild g -> forall z, no_NUL z ->
  match glob_skip g z with
  | None => ~ wild_match (Ch.star :: g) z
  | Some (c, g', z') =>
      no_NUL z' /\ glob_wild g' /\
      ((c = 0%Z /\ g' = []) \/ (glob_plain c /\ length g' < length g)) /\
      (wild_match (Ch.star :: g) z <->
       if (c =? 0)%Z then True else wild_match (Ch.star :: c :: g') z')
  end.
Proof.
  induction g as [|c g IH]; intros Hg z Hz.
  - cbn. split; [exact Hz|]. split; [constructor|]. split; [left; auto|].
    split; [auto|]. intros _. rewrite <- (app_nil_r z).
    apply (wild_star [] z []). constructor.
  - apply Forall_cons in Hg as [Hc Hg]. specialize (IH Hg).
    destruct Hc as [->|[->|Hc]].
    + cbn. specialize (IH z Hz).
      destruct (glob_skip g z) as [[[c' g'] z']|].
      * destruct IH as (H1 & H2 & H3 & H4).
        split; [exact H1|]. split; [exact H2|]. split.
        { destruct H3 as [H3|[H3 H3']]; [left; exact H3|right].
          split; [exact H3|]. cbn. lia. }
        rewrite wild_star_star. exact H4.
      * rewrite wild_star_star. exact IH.
    + cbn. rewrite (peek_no_NUL z Hz).
      destruct z as [|d z].
      * cbn. rewrite wild_star_question. intros (? & ? & ? & _). discriminate.
      * rewrite bool_decide_eq_false_2 by discriminate. cbn.
        apply Forall_cons in Hz as [_ Hz]. specialize (IH z Hz).
        assert (Hiff : wild_match (Ch.star :: Ch.question :: g) (d :: z) <->
                       wild_match (Ch.star :: g) z).
        { rewrite wild_star_question. split.
          - intros (? & ? & [= <- <-] & H). exact H.
          - intros H. eauto. }
        destruct (glob_skip g z) as [[[c' g'] z']|].
        -- destruct IH as (H1 & H2 & H3 & H4).
           split; [exact H1|]. split; [exact H2|]. split.
           { destruct H3 as [H3|[H3 H3']]; [left; exact H3|right].
             split; [exact H3|]. cbn. lia. }
           rewrite Hiff. exact H4.
        -- rewrite Hiff. exact IH.
    + destruct (glob_plain_eqb c Hc) as (E0 & E1 & E2 & _).
      cbn. rewrite E1, E2.
      split; [exact Hz|]. split; [exact Hg|]. split.
      { right. split; [exact Hc|]. cbn. lia. }
      rewrite E0. reflexivity.
Qed.

Lemma glob_star_char_spec (rec : cstring -> option bool)
  (P : cstring -> Prop) c :
  (forall z, no_NUL z -> exists b, rec z = Some b /\ (b = true <-> P z)) ->
  forall z, no_NUL z ->
  exists b, glob_star_char rec c z = Some b /\
            (b = true <-> exists z1 z2, z = z1 ++ c :: z2 /\ P z2).
Proof.
  intros Hrec. induction z as [|c2 z IH]; intros Hz.
  - exists false. split; [reflexivity|]. split; [discriminate|].
    intros ([|? ?] & ? & ? & _); discriminate.
  - apply Forall_cons in Hz as [Hc2 Hz]. specialize (IH Hz).
    cbn. apply Z.eqb_neq in Hc2. rewrite Hc2.
    destruct IH as (b & Hb & Hiff).
    destruct (c2 =? c)%Z eqn:Hcc.
    + apply Z.eqb_eq in Hcc. subst c2.
      destruct (Hrec z Hz) as (b1 & Hb1 & Hiff1). rewrite Hb1.
      destruct b1.
      * exists true. split; [reflexivity|]. split; [|reflexivity].
        intros _. exists [], z. split; [reflexivity|]. apply Hiff1. reflexivity.
      * exists b. split; [exact Hb|]. rewrite Hiff. split.
        -- intros (z1 & z2 & -> & HP). exists (c :: z1), z2. auto.
        -- intros ([|d z1] & z2 & Heq & HP).
           ++ injection Heq as <-. apply Hiff1 in HP. discriminate.
           ++ injection Heq as <- ->. eauto.
    + apply Z.eqb_neq in Hcc.
      exists b. split; [exact Hb|]. rewrite Hiff. split.
      * intros (z1 & z2 & -> & HP). exists (c2 :: z1), z2. auto.
      * intros ([|d z1] & z2 & Heq & HP).
        -- injection Heq as <- _. contradiction.
        -- injection Heq as <- ->. eauto.
Qed.

Lemma wild_star_plain c g z :
  glob_plain c ->
  wild_match (Ch.star :: c :: g) z <->
  exists z1 z2, z = z1 ++ c :: z2 /\ wild_match g z2.
Proof.
  intros Hc. rewrite wild_star_iff. split.
  - intros (z1 & z2 & -> & H).
    apply (wild_plain_iff c g z2 Hc) in H as (z' & -> & H). eauto.
  - intros (z1 & z2 & -> & H). exists z1, (c :: z2). split; [reflexivity|].
    constructor; assumption.
Qed.

Lemma no_NUL_app_r z1 z2 : no_NUL (z1 ++ z2) -> no_NUL z2.
Proof. intros H. apply Forall_app in H as [_ H]. exact H. Qed.

Lemma strnotglob_fuel_wild fuel : forall zGlob,
  length zGlob < fuel -> glob_wild zGlob ->
  forall z, no_NUL z ->
  exists b, strnotglob_fuel fuel zGlob z = Some b /\
            (b = true <-> wild_match zGlob z).
Proof.
  induction fuel as [|fuel IH]; intros zGlob Hlen Hg z Hz; [lia|].
  destruct zGlob as [|c g].
  - cbn. rewrite (peek_no_NUL z Hz). eexists. split; [reflexivity|].
    rewrite wild_nil_iff. apply bool_decide_eq_true.
  - apply Forall_cons in Hg as [Hc Hg]. cbn in Hlen.
    destruct Hc as [->|[->|Hc]].
    + cbn [strnotglob_fuel peek hd tail].
      change (Ch.star =? 0)%Z with false. change (Ch.star =? Ch.star)%Z with true.
      cbv iota.
      pose proof (glob_skip_spec g Hg z Hz) as Hs.
      destruct (glob_skip g z) as [[[c' g'] z']|].
      * destruct Hs as (Hz' & Hg' & Hc' & Hiff).
        destruct Hc' as [[-> ->]|[Hc' Hlen']].
        -- cbn. exists true. split; [reflexivity|].
           cbn in Hiff. rewrite Hiff. tauto.
        -- destruct (glob_plain_eqb c' Hc') as (E0 & _ & _ & E3 & _).
           rewrite E0 in Hiff |- *. rewrite E3.
           destruct (glob_star_char_spec (strnotglob_fuel fuel g')
                       (wild_match g') c'
                       (fun z0 Hz0 => IH g' ltac:(lia) Hg' z0 Hz0) z' Hz')
             as (b & Hb & Hbiff).
           exists b. split; [exact Hb|].
           rewrite Hiff, (wild_star_plain c' g' z' Hc'). exact Hbiff.
      * exists false. split; [reflexivity|]. split; [discriminate|].
        intros H. contradiction.
    + cbn [strnotglob_fuel peek hd tail].
      change (Ch.question =? 0)%Z with false.
      change (Ch.question =? Ch.star)%Z with false.
      change (Ch.question =? Ch.question)%Z with true. cbv iota.
      change (hd 0%Z z) with (peek z). rewrite (peek_no_NUL z Hz).
      destruct z as [|d z].
      * cbn. exists false. split; [reflexivity|]. split; [discriminate|].
        rewrite wild_question_iff. intros (? & ? & ? & _). discriminate.
      * rewrite bool_decide_eq_false_2 by discriminate.
        apply Forall_cons in Hz as [_ Hz].
        destruct (IH g ltac:(lia) Hg z Hz) as (b & Hb & Hiff).
        exists b. split; [exact Hb|]. rewrite Hiff, wild_question_iff. split.
        -- eauto.
        -- intros (? & ? & [= <- <-] & H). exact H.
    + destruct (glob_plain_eqb c Hc) as (E0 & E1 & E2 & E3 & E4).
      cbn [strnotglob_fuel peek hd tail]. rewrite E0, E1, E2, E3, E4.
      destruct z as [|d z].
      * cbn. rewrite E0. exists false. split; [reflexivity|].
        split; [discriminate|].
        rewrite (wild_plain_iff c g [] Hc). intros (? & ? & _). discriminate.
      * unfold peek. cbn [hd tail]. apply Forall_cons in Hz as [_ Hz].
        destruct (c =? d)%Z eqn:Hcd.
        -- apply Z.eqb_eq in Hcd. subst d.
           destruct (IH g ltac:(lia) Hg z Hz) as (b & Hb & Hiff).
           exists b. split; [exact Hb|].
           rewrite Hiff, (wild_plain_iff c g (c :: z) Hc). split.
           ++ eauto.
           ++ intros (? & [= <-] & H). exact H.
        -- apply Z.eqb_neq in Hcd.
           exists false. split; [reflexivity|]. split; [discriminate|].
           rewrite (wild_plain_iff c g (d :: z) Hc).
           intros (? & [= ? _] & _). congruence.
Qed.

(** *** Fuel *)

Lemma glob_skip_length g : forall z c g' z',
  glob_skip g z = Some (c, g', z') ->
  length g' <= length g /\ (c <> 0%Z -> length g' < length g).
Proof.
  induction g as [|a g IH]; intros z c g' z'; cbn.
  - intros [= <- <- <-]. split; [cbn; lia|]. intros H. contradiction.
  - destruct (a =? Ch.star)%Z.
    { intros H. apply IH in H as [H1 H2]. split; [lia|]. intros Hc.
      specialize (H2 Hc). lia. }
    destruct (a =? Ch.question)%Z.
    { destruct (peek z =? 0)%Z; [discriminate|].
      intros H. apply IH in H as [H1 H2]. split; [lia|]. intros Hc.
      specialize (H2 Hc). lia. }
    intros [= <- <- <-]. cbn. split; [lia|]. intros _. lia.
Qed.

Lemma glob_class_length g : forall c prior seen c2 seen' g',
  glob_class c prior seen c2 g = Some (seen', g') -> length g' <= length g.
Proof.
  induction g as [g IH] using (induction_ltof1 _ (@length Z)).
  unfold ltof in IH.
  intros c prior seen c2 seen' g'.
  destruct g as [|n g]; cbn.
  - destruct (c2 =? 0)%Z; [discriminate|].
    destruct (c2 =? Ch.rbracket)%Z; [|discriminate].
    intros [= _ <-]. cbn. lia.
  - destruct (c2 =? 0)%Z; [discriminate|].
    destruct (c2 =? Ch.rbracket)%Z; [intros [= _ <-]; cbn; lia|].
    destruct (_ && _).
    + destruct g as [|n2 g2]; [discriminate|].
      intros H. apply IH in H; cbn in *; lia.
    + intros H. apply IH in H; cbn in *; lia.
Qed.

Lemma glob_bracket_length c g ok g' :
  glob_bracket c g = Some (ok, g') -> length g' <= length g.
Proof.
  unfold glob_bracket.
  assert (Ht : forall l : cstring, length (tail l) <= length l)
    by (intros [|? ?]; cbn; lia).
  destruct (peek g =? Ch.caret)%Z.
  - destruct (peek (tail g) =? Ch.rbracket)%Z.
    + destruct (glob_class _ _ _ _ _) as [[s g1]|] eqn:Hc; [|discriminate].
      intros [= _ <-]. apply glob_class_length in Hc.
      pose proof (Ht g). pose proof (Ht (tail g)).
      pose proof (Ht (tail (tail g))). lia.
    + destruct (glob_class _ _ _ _ _) as [[s g1]|] eqn:Hc; [|discriminate].
      intros [= _ <-]. apply glob_class_length in Hc.
      pose proof (Ht g). pose proof (Ht (tail g)). lia.
  - destruct (peek g =? Ch.rbracket)%Z.
    + destruct (glob_class _ _ _ _ _) as [[s g1]|] eqn:Hc; [|discriminate].
      intros [= _ <-]. apply glob_class_length in Hc.
      pose proof (Ht g). pose proof (Ht (tail g)). lia.
    + destruct (glob_class _ _ _ _ _) as [[s g1]|] eqn:Hc; [|discriminate].
      intros [= _ <-]. apply glob_class_length in Hc.
      pose proof (Ht g). lia.
Qed.

Lemma glob_star_class_total (rec : cstring -> option bool) :
  (forall z, exists b, rec z = Some b) ->
  forall z, exists b, glob_star_class rec z = Some b.
Proof.
  intros Hrec. induction z as [|c z IH]; cbn; [eauto|].
  destruct (c =? 0)%Z; [eauto|].
  destruct (Hrec (c :: z)) as ([|] & ->); eauto.
Qed.

Lemma glob_star_char_total (rec : cstring -> option bool) c :
  (forall z, exists b, rec z = Some b) ->
  forall z, exists b, glob_star_char rec c z = Some b.
Proof.
  intros Hrec. induction z as [|c2 z IH]; cbn; [eauto|].
  destruct (c2 =? 0)%Z; [eauto|].
  destruct (c2 =? c)%Z; [|exact IH].
  destruct (Hrec z) as ([|] & ->); eauto.
Qed.

Lemma strnotglob_fuel_total fuel : forall zGlob z,
  length zGlob < fuel -> exists b, strnotglob_fuel fuel zGlob z = Some b.
Proof.
  induction fuel as [|fuel IH]; intros zGlob z Hlen; [lia|].
  assert (Ht : length (tail zGlob) <= length zGlob)
    by (destruct zGlob; cbn; lia).
  cbn [strnotglob_fuel].
  destruct (peek zGlob =? 0)%Z eqn:E0; [eauto|].
  assert (Hlt : length (tail zGlob) < length zGlob).
  { destruct zGlob; [discriminate|]. cbn. lia. }
  destruct (peek zGlob =? Ch.star)%Z.
  { destruct (glob_skip (tail zGlob) z) as [[[c g] z']|] eqn:Hs; [|eauto].
    apply glob_skip_length in Hs as [H1 H2].
    destruct (c =? 0)%Z eqn:Ec; [eauto|].
    apply Z.eqb_neq in Ec. specialize (H2 Ec).
    destruct (c =? Ch.lbracket)%Z.
    - apply glob_star_class_total. intros z0. apply IH. cbn. lia.
    - apply glob_star_char_total. intros z0. apply IH. lia. }
  destruct (peek zGlob =? Ch.question)%Z.
  { destruct (peek z =? 0)%Z; [eauto|]. apply IH. lia. }
  destruct (peek zGlob =? Ch.lbracket)%Z.
  { destruct (peek z =? 0)%Z; [eauto|].
    destruct (glob_bracket (peek z) (tail zGlob)) as [[ok g]|] eqn:Hb; [|eauto].
    destruct ok; [|eauto]. apply glob_bracket_length in Hb. apply IH. lia. }
  destruct (peek zGlob =? Ch.hash)%Z.
  { destruct (glob_number z); [|eauto]. apply IH. lia. }
  destruct (peek zGlob =? peek z)%Z; [|eauto]. apply IH. lia.
Qed.

Lemma glob_star_class_mono (rec rec' : cstring -> option bool) :
  (forall z b, rec z = Some b -> rec' z = Some b) ->
  forall z b, glob_star_class rec z = Some b -> glob_star_class rec' z = Some b.
Proof.
  intros Hrec. induction z as [|c z IH]; cbn; [auto|].
  intros b. destruct (c =? 0)%Z; [auto|].
  destruct (rec (c :: z)) as [[|]|] eqn:Hr; [| |discriminate];
    rewrite (Hrec _ _ Hr); auto.
Qed.

Lemma glob_star_char_mono (rec rec' : cstring -> option bool) c :
  (forall z b, rec z = Some b -> rec' z = Some b) ->
  forall z b, glob_star_char rec c z = Some b ->
              glob_star_char rec' c z = Some b.
Proof.
  intros Hrec. induction z as [|c2 z IH]; cbn; [auto|].
  intros b. destruct (c2 =? 0)%Z; [auto|].
  destruct (c2 =? c)%Z; [|auto].
  destruct (rec z) as [[|]|] eqn:Hr; [| |discriminate];
    rewrite (Hrec _ _ Hr); auto.
Qed.

Lemma strnotglob_fuel_mono fuel : forall fuel' zGlob z b,
  strnotglob_fuel fuel zGlob z = Some b -> fuel <= fuel' ->
  strnotglob_fuel fuel' zGlob z = Some b.
Proof.
  induction fuel as [|fuel IH]; intros fuel' zGlob z b; [discriminate|].
  intros H Hle. destruct fuel' as [|fuel']; [lia|].
  assert (Hle' : fuel <= fuel') by lia.
  cbn [strnotglob_fuel] in H |- *.
  destruct (peek zGlob =? 0)%Z; [exact H|].
  destruct (peek zGlob =? Ch.star)%Z.
  { destruct (glob_skip (tail zGlob) z) as [[[c g] z']|]; [|exact H].
    destruct (c =? 0)%Z; [exact H|].
    destruct (c =? Ch.lbracket)%Z.
    - revert H. apply glob_star_class_mono. intros z0 b0 H0.
      apply (IH fuel' _ _ _ H0 Hle').
    - revert H. apply glob_star_char_mono. intros z0 b0 H0.
      apply (IH fuel' _ _ _ H0 Hle'). }
  destruct (peek zGlob =? Ch.question)%Z.
  { destruct (peek z =? 0)%Z; [exact H|]. apply (IH fuel' _ _ _ H Hle'). }
  destruct (peek zGlob =? Ch.lbracket)%Z.
  { destruct (peek z =? 0)%Z; [exact H|].
    destruct (glob_bracket (peek z) (tail zGlob)) as [[[|] g]|]; [|exact H..].
    apply (IH fuel' _ _ _ H Hle'). }
  destruct (peek zGlob =? Ch.hash)%Z.
  { destruct (glob_number z); [|exact H]. apply (IH fuel' _ _ _ H Hle'). }
  destruct (peek zGlob =? peek z)%Z; [|exact H]. apply (IH fuel' _ _ _ H Hle').
Qed.

(** With enough fuel the result does not depend on the fuel. *)
Lemma strnotglob_fuel_enough fuel zGlob z :
  length zGlob < fuel ->
  strnotglob_fuel fuel zGlob z = SQLTester_strnotglob zGlob z.
Proof.
  intros Hlen. unfold SQLTester_strnotglob.
  destruct (strnotglob_fuel_total (S (length zGlob)) zGlob z ltac:(lia))
    as (b & Hb).
  rewrite Hb. apply (strnotglob_fuel_mono _ _ _ _ _ Hb). lia.
Qed.

(** *** Character classes *)

Lemma glob_class_S c prior_c seen c2 zGlob :
  glob_class c prior_c seen c2 zGlob =
  if (c2 =? 0)%Z then None
  else if (c2 =? Ch.rbracket)%Z then Some (seen, zGlob)
  else
    match zGlob with
    | [] => None
    | n :: g =>
        if (c2 =? Ch.minus)%Z && negb (n =? Ch.rbracket)%Z && negb (n =? 0)%Z
           && (0 <? prior_c)%Z
        then
          let seen := seen || ((prior_c <=? c)%Z && (c <=? n)%Z) in
          match g with
          | [] => None
          | n2 :: g2 => glob_class c 0%Z seen n2 g2
          end
        else glob_class c c2 (seen || (c =? c2)%Z) n g
    end.
Proof. destruct zGlob; reflexivity. Qed.

Lemma glob_class_items d g its : forall prior seen c2 zg,
  Forall class_item_ok its ->
  c2 :: zg = class_text its ++ Ch.rbracket :: g ->
  glob_class d prior seen c2 zg
  = Some (seen || existsb (class_item_has d) its, g).
Proof.
  induction its as [|it its IH]; intros prior seen c2 zg Hok Heq.
  - injection Heq as -> ->. rewrite glob_class_S. cbn.
    rewrite orb_false_r. reflexivity.
  - apply Forall_cons in Hok as [Hit Hok].
    assert (Hrest : exists n g1,
              class_text its ++ Ch.rbracket :: g = n :: g1).
    { destruct (class_text its) as [|n g1]; cbn; eauto. }
    destruct Hrest as (n & g1 & Hrest).
    unfold class_text in Heq. cbn [map concat] in Heq.
    fold (class_text its) in Heq. rewrite <- app_assoc, Hrest in Heq.
    destruct it as [s|lo hi]; cbn in Hit, Heq.
    + destruct Hit as (H0 & H1 & H2). injection Heq as -> ->.
      rewrite glob_class_S.
      apply Z.eqb_neq in H0, H1, H2. rewrite H0, H1, H2. cbn [andb].
      rewrite (IH s (seen || (d =? s)%Z) n g1 Hok (eq_sym Hrest)).
      cbn. rewrite orb_assoc. reflexivity.
    + destruct Hit as (Hpos & H1 & H2 & H3 & H4). injection Heq as -> ->.
      rewrite glob_class_S.
      assert (H0 : (lo =? 0)%Z = false) by (apply Z.eqb_neq; lia).
      apply Z.eqb_neq in H1, H2, H3, H4. rewrite H0, H1, H2. cbn [andb].
      rewrite glob_class_S.
      change (Ch.minus =? 0)%Z with false.
      change (Ch.minus =? Ch.rbracket)%Z with false.
      change (Ch.minus =? Ch.minus)%Z with true.
      rewrite H3, H4. apply Z.ltb_lt in Hpos. rewrite Hpos. cbn [andb negb].
      cbv zeta.
      rewrite (IH 0%Z _ n g1 Hok (eq_sym Hrest)).
      cbn. rewrite !orb_assoc. reflexivity.
Qed.

Lemma class_text_cons its g :
  its <> [] -> Forall class_item_ok its ->
  exists c2 zg, class_text its ++ Ch.rbracket :: g = c2 :: zg /\
                c2 = peek (class_text its) /\ c2 <> Ch.rbracket.
Proof.
  destruct its as [|it its]; [contradiction|]. intros _ Hok.
  apply Forall_cons in Hok as [Hit _].
  destruct it as [s|lo hi]; cbn in *; eexists _, _;
    (split; [reflexivity|]); (split; [reflexivity|]); tauto.
Qed.

Lemma glob_bracket_items d g its :
  its <> [] -> Forall class_item_ok its ->
  (class_plain_start its ->
   glob_bracket d (class_text its ++ Ch.rbracket :: g)
   = Some (existsb (class_item_has d) its, g)) /\
  glob_bracket d (Ch.caret :: class_text its ++ Ch.rbracket :: g)
  = Some (negb (existsb (class_item_has d) its), g).
Proof.
  intros Hne Hok.
  destruct (class_text_cons its g Hne Hok) as (c2 & zg & Heq & Hc2 & Hrb).
  apply Z.eqb_neq in Hrb. split.
  - intros Hstart. unfold class_plain_start in Hstart. rewrite <- Hc2 in Hstart.
    apply Z.eqb_neq in Hstart.
    unfold glob_bracket. rewrite Heq. cbn [peek hd tail].
    rewrite Hstart, Hrb.
    rewrite (glob_class_items d g its 0%Z false c2 zg Hok (eq_sym Heq)).
    cbn. rewrite xorb_false_r. reflexivity.
  - unfold glob_bracket. cbn [peek hd tail].
    change (Ch.caret =? Ch.caret)%Z with true. cbv iota.
    rewrite Heq. cbn [peek hd tail]. rewrite Hrb.
    rewrite (glob_class_items d g its 0%Z false c2 zg Hok (eq_sym Heq)).
    cbn. rewrite xorb_true_r. reflexivity.
Qed.

Lemma strnotglob_class its g d z :
  its <> [] -> Forall class_item_ok its -> d <> 0%Z ->
  (class_plain_start its ->
   SQLTester_strnotglob (Ch.lbracket :: class_text its ++ Ch.rbracket :: g)
     (d :: z)
   = if existsb (class_item_has d) its then SQLTester_strnotglob g z
     else Some false) /\
  SQLTester_strnotglob
    (Ch.lbracket :: Ch.caret :: class_text its ++ Ch.rbracket :: g) (d :: z)
  = (if existsb (class_item_has d) its then Some false
     else SQLTester_strnotglob g z).
Proof.
  intros Hne Hok Hd. apply Z.eqb_neq in Hd.
  destruct (glob_bracket_items d g its Hne Hok) as [H1 H2].
  split.
  - intros Hstart. specialize (H1 Hstart).
    unfold SQLTester_strnotglob at 1. cbn [strnotglob_fuel peek hd tail].
    change (Ch.lbracket =? 0)%Z with false.
    change (Ch.lbracket =? Ch.star)%Z with false.
    change (Ch.lbracket =? Ch.question)%Z with false.
    change (Ch.lbracket =? Ch.lbracket)%Z with true. cbv iota.
    rewrite Hd, H1.
    destruct (existsb _ its); [|reflexivity].
    apply strnotglob_fuel_enough. cbn. rewrite length_app. cbn. lia.
  - unfold SQLTester_strnotglob at 1. cbn [strnotglob_fuel peek hd tail].
    change (Ch.lbracket =? 0)%Z with false.
    change (Ch.lbracket =? Ch.star)%Z with false.
    change (Ch.lbracket =? Ch.question)%Z with false.
    change (Ch.lbracket =? Ch.lbracket)%Z with true. cbv iota.
    rewrite Hd, H2.
    destruct (existsb _ its); [reflexivity|]. cbn [negb].
    apply strnotglob_fuel_enough. cbn. rewrite length_app. cbn. lia.
Qed.

(** *** Numbers *)

Lemma skip_digits_stop z : sqlite3Isdigit (peek z) = false -> skip_digits z = z.
Proof. destruct z as [|c z]; cbn; [reflexivity|]. intros ->. reflexivity. Qed.

Lemma skip_digits_run ds z :
  all_digits ds -> sqlite3Isdigit (peek z) = false ->
  skip_digits (ds ++ z) = z.
Proof.
  intros Hds Hz. induction Hds as [|d ds Hd _ IH]; cbn.
  - apply skip_digits_stop, Hz.
  - rewrite Hd. exact IH.
Qed.

Lemma skip_xdigits_run ds z :
  all_xdigits ds -> sqlite3Isxdigit (peek z) = false ->
  skip_xdigits (ds ++ z) = z.
Proof.
  intros Hds Hz. induction Hds as [|d ds Hd _ IH]; cbn.
  - destruct z as [|c z]; cbn in *; [reflexivity|]. rewrite Hz. reflexivity.
  - rewrite Hd. exact IH.
Qed.

Lemma digit_not (d c : Z) :
  sqlite3Isdigit d = true -> sqlite3Isdigit c = false -> (d =? c)%Z = false.
Proof.
  intros Hd Hc. apply Z.eqb_neq. intros ->. congruence.
Qed.

Lemma peek_at_1_cons c z : peek_at 1 (c :: z) = peek z.
Proof. destruct z; reflexivity. Qed.

Lemma glob_number_decimal s ds z :
  is_sign s -> ds <> [] -> all_digits ds ->
  sqlite3Isdigit (peek z) = false ->
  peek z <> Ch.x -> peek z <> Ch.X ->
  glob_number (s ++ ds ++ z) = Some z.
Proof.
  intros Hs Hne Hds Hz Hx HX.
  destruct ds as [|d0 ds]; [contradiction|].
  apply Forall_cons in Hds as [Hd0 Hds].
  assert (Hm : (d0 =? Ch.minus)%Z = false)
    by (apply (digit_not _ _ Hd0); reflexivity).
  assert (Hp : (d0 =? Ch.plus)%Z = false)
    by (apply (digit_not _ _ Hd0); reflexivity).
  assert (Hnext : (peek (ds ++ z) =? Ch.x)%Z = false /\
                  (peek (ds ++ z) =? Ch.X)%Z = false).
  { destruct ds as [|d1 ds'].
    - cbn [app]. split; apply Z.eqb_neq; assumption.
    - apply Forall_cons in Hds as [Hd1 _]. cbn [app peek hd].
      split; apply (digit_not _ _ Hd1); reflexivity. }
  destruct Hnext as [Hnx HnX].
  assert (Hplain : glob_number ((d0 :: ds) ++ z) = Some z).
  { unfold glob_number. cbn [app]. rewrite peek_at_1_cons.
    cbn [peek hd tail]. change (hd 0%Z (ds ++ z)) with (peek (ds ++ z)).
    rewrite Hnx, HnX, Hm, Hp. rewrite andb_false_r. cbn [orb andb].
    cbn [peek hd tail]. rewrite Hd0. cbn [negb].
    rewrite (skip_digits_run ds z Hds Hz). reflexivity. }
  destruct Hs as [-> | [-> | ->]]; [exact Hplain| |].
  - unfold glob_number. cbn [app]. rewrite peek_at_1_cons.
    cbn [peek hd tail].
    change (Ch.minus =? Ch.zero)%Z with false.
    change (Ch.minus =? Ch.minus)%Z with true.
    rewrite Hd0. cbn [orb andb peek hd tail]. rewrite Hd0. cbn [negb].
    rewrite (skip_digits_run ds z Hds Hz). reflexivity.
  - unfold glob_number. cbn [app]. rewrite peek_at_1_cons.
    cbn [peek hd tail].
    change (Ch.plus =? Ch.zero)%Z with false.
    change (Ch.plus =? Ch.minus)%Z with false.
    change (Ch.plus =? Ch.plus)%Z with true.
    rewrite Hd0. cbn [orb andb peek hd tail]. rewrite Hd0. cbn [negb].
    rewrite (skip_digits_run ds z Hds Hz). reflexivity.
Qed.

Lemma glob_number_hex x hs z :
  x = Ch.x \/ x = Ch.X -> hs <> [] -> all_xdigits hs ->
  sqlite3Isxdigit (peek z) = false ->
  glob_number (Ch.zero :: x :: hs ++ z) = Some z.
Proof.
  intros Hx Hne Hhs Hz.
  destruct hs as [|h0 hs]; [contradiction|].
  apply Forall_cons in Hhs as [Hh0 Hhs].
  unfold glob_number. cbn [app peek peek_at hd nth drop].
  change (Ch.zero =? Ch.zero)%Z with true. rewrite Hh0.
  assert (Hxx : ((x =? Ch.x) || (x =? Ch.X))%Z = true)
    by (destruct Hx as [->| ->]; reflexivity).
  rewrite Hxx. cbn [andb].
  rewrite drop_0, (skip_xdigits_run hs z Hhs Hz). reflexivity.
Qed.

Lemma glob_number_none z :
  sqlite3Isdigit (peek z) = false ->
  ((peek z = Ch.minus \/ peek z = Ch.plus) ->
   sqlite3Isdigit (peek_at 1 z) = false) ->
  glob_number z = None.
Proof.
  intros Hz Hs. unfold glob_number.
  assert (H0 : (peek z =? Ch.zero)%Z = false).
  { apply Z.eqb_neq. intros H. rewrite H in Hz. discriminate. }
  rewrite H0. cbn [andb].
  destruct ((peek z =? Ch.minus)%Z || (peek z =? Ch.plus)%Z) eqn:Hsg.
  - rewrite Hs; [cbn [andb]; rewrite Hz; reflexivity|].
    apply orb_true_iff in Hsg as [H|H]; apply Z.eqb_eq in H; auto.
  - cbn [andb]. rewrite Hz. reflexivity.
Qed.

Lemma strnotglob_fuel_S fuel zGlob z :
  strnotglob_fuel (S fuel) zGlob z =
  let c := peek zGlob in
  let zGlob := tail zGlob in
  if (c =? 0)%Z then Some (peek z =? 0)%Z
  else if (c =? Ch.star)%Z
  then
    match glob_skip zGlob z with
    | None => Some false
    | Some (c, zGlob, z) =>
        if (c =? 0)%Z then Some true
        else if (c =? Ch.lbracket)%Z
        then glob_star_class (strnotglob_fuel fuel (c :: zGlob)) z
        else glob_star_char (strnotglob_fuel fuel zGlob) c z
    end
  else if (c =? Ch.question)%Z
  then (if (peek z =? 0)%Z then Some false
        else strnotglob_fuel fuel zGlob (tail z))
  else if (c =? Ch.lbracket)%Z
  then
    if (peek z =? 0)%Z then Some false
    else match glob_bracket (peek z) zGlob with
         | None => Some false
         | Some (ok, zGlob) =>
             if ok then strnotglob_fuel fuel zGlob (tail z)
             else Some false
         end
  else if (c =? Ch.hash)%Z
  then match glob_number z with
       | None => Some false
       | Some z => strnotglob_fuel fuel zGlob z
       end
  else if (c =? peek z)%Z then strnotglob_fuel fuel zGlob (tail z)
  else Some false.
Proof. reflexivity. Qed.

Lemma strnotglob_hash g z :
  SQLTester_strnotglob (Ch.hash :: g) z =
  match glob_number z with
  | None => Some false
  | Some z' => SQLTester_strnotglob g z'
  end.
Proof.
  unfold SQLTester_strnotglob at 1. rewrite strnotglob_fuel_S.
  cbn [peek hd tail length].
  change (Ch.hash =? 0)%Z with false.
  change (Ch.hash =? Ch.star)%Z with false.
  change (Ch.hash =? Ch.question)%Z with false.
  change (Ch.hash =? Ch.lbracket)%Z with false.
  change (Ch.hash =? Ch.hash)%Z with true. cbv iota zeta.
  destruct (glob_number z); [|reflexivity].
  apply strnotglob_fuel_enough. lia.
Qed.

(** *** The properties *)

(** X2.  On patterns made of plain characters, ['*'] and ['?'], and on
    strings without [NUL] inside, [SQLTester_strnotglob()] returns, and
    returns non-zero exactly when the string matches the pattern:
    ['*'] stands for any sequence of characters, ['?'] for exactly one
    character, and a plain character for itself. *)
Theorem strnotglob_wildcards zGlob z :
  glob_wild zGlob -> no_NUL z ->
  exists b, SQLTester_strnotglob zGlob z = Some b /\
            (b = true <-> wild_match zGlob z).
Proof.
  intros Hg Hz. apply strnotglob_fuel_wild; [lia|assumption..].
Qed.

Lemma strnotglob_wildcards_witness :
  exists b, SQLTester_strnotglob [97; 42; 98; 63]%Z [97; 120; 120; 98; 99]%Z
            = Some b /\
            (b = true <-> wild_match [97; 42; 98; 63]%Z [97; 120; 120; 98; 99]%Z).
Proof.
  apply strnotglob_wildcards.
  - unfold glob_wild.
    repeat (apply Forall_cons; split); try apply Forall_nil_2;
      first [ left; reflexivity
            | right; left; reflexivity
            | right; right; unfold glob_plain;
              cbv [Ch.star Ch.question Ch.lbracket Ch.hash]; lia ].
  - unfold no_NUL.
    repeat (apply Forall_cons; split); try apply Forall_nil_2; discriminate.
Defined.

(** X3.  A character class whose members are written with ordinary
    characters matches one character of the string: with the rest [g] of
    the pattern, ["[...]g"] matches [d :: z] exactly when [d] is a member
    of the class, within one of its ranges or the lower end of one, and
    [g] matches [z]; ["[^...]g"] exactly when [d] is none of these and
    [g] matches [z]. *)
Theorem strnotglob_character_class its g d z :
  its <> [] -> Forall class_item_ok its -> d <> 0%Z ->
  (class_plain_start its ->
   SQLTester_strnotglob (Ch.lbracket :: class_text its ++ Ch.rbracket :: g)
     (d :: z)
   = if existsb (class_item_has d) its then SQLTester_strnotglob g z
     else Some false) /\
  SQLTester_strnotglob
    (Ch.lbracket :: Ch.caret :: class_text its ++ Ch.rbracket :: g) (d :: z)
  = (if existsb (class_item_has d) its then Some false
     else SQLTester_strnotglob g z).
Proof. apply strnotglob_class. Qed.

Lemma strnotglob_character_class_witness :
  let its := [Range 97 102; Single 120] in
  SQLTester_strnotglob
    (Ch.lbracket :: class_text its ++ Ch.rbracket :: [33]%Z) [99; 33]%Z
  = (if existsb (class_item_has 99) its
     then SQLTester_strnotglob [33]%Z [33]%Z else Some false) /\
  SQLTester_strnotglob
    (Ch.lbracket :: Ch.caret :: class_text its ++ Ch.rbracket :: [33]%Z)
    [99; 33]%Z
  = (if existsb (class_item_has 99) its
     then Some false else SQLTester_strnotglob [33]%Z [33]%Z).
Proof.
  intros its.
  destruct (strnotglob_character_class its [33]%Z 99 [33]%Z) as [H1 H2].
  - discriminate.
  - repeat (apply Forall_cons; split); try apply Forall_nil_2;
      cbn; repeat split; try discriminate; lia.
  - discriminate.
  - split; [apply H1; discriminate|exact H2].
Defined.

(** X4.  ['#'] matches a number and always all of it: when the string
    starts with a number in the sense of [glob_numeral], the pattern
    ["#g"] matches it exactly when [g] matches what follows the
    number. *)
Theorem strnotglob_number g n z :
  glob_numeral n z ->
  SQLTester_strnotglob (Ch.hash :: g) (n ++ z) = SQLTester_strnotglob g z.
Proof.
  intros [(s & ds & -> & Hs & Hne & Hds & Hz & Hx & HX)
         |(x & hs & -> & Hx & Hne & Hhs & Hz)].
  - rewrite strnotglob_hash, <- app_assoc, (glob_number_decimal s ds z); auto.
  - rewrite strnotglob_hash. cbn [app].
    rewrite (glob_number_hex x hs z); auto.
Qed.

Lemma strnotglob_number_witness :
  SQLTester_strnotglob [Ch.hash; 97]%Z ([45; 49; 50] ++ [97])%Z
  = SQLTester_strnotglob [97]%Z [97]%Z.
Proof.
  apply (strnotglob_number [97]%Z [45; 49; 50]%Z [97]%Z).
  left. exists [45]%Z, [49; 50]%Z.
  split; [reflexivity|]. split; [right; left; reflexivity|].
  split; [discriminate|].
  split; [repeat (apply Forall_cons; split); try apply Forall_nil_2;
          reflexivity|].
  split; [reflexivity|]. split; discriminate.
Defined.

(** A string that starts with no number fails to match ["#g"]. *)
Lemma strnotglob_number_missing g z :
  sqlite3Isdigit (peek z) = false ->
  ((peek z = Ch.minus \/ peek z = Ch.plus) ->
   sqlite3Isdigit (peek_at 1 z) = false) ->
  SQLTester_strnotglob (Ch.hash :: g) z = Some false.
Proof.
  intros Hz Hs. rewrite strnotglob_hash, (glob_number_none z); auto.
Qed.



#[global] Arguments SQLTester_strnotglob : simpl never.

Lemma wild_match_plain p : Forall glob_plain p ->
  forall z, wild_match p z <-> z = p.
Proof.
  induction 1 as [|c p Hc _ IH]; intros z.
  - apply wild_nil_iff.
  - rewrite (wild_plain_iff c p z Hc). split.
    + intros (z' & -> & H). apply IH in H. congruence.
    + intros ->. exists p. split; [reflexivity|]. apply IH. reflexivity.
Qed.

Lemma glob_plain_wild p : Forall glob_plain p -> glob_wild p.
Proof.
  intros H. unfold glob_wild. eapply Forall_impl; [exact H|]. cbn. auto.
Qed.

(** X5.  [SQLTester.strglob()] with a pattern of plain characters only:
    when both byte arrays can be had, the call returns 0 if the string is
    the pattern and 1 otherwise; when one of them cannot be had, the call
    ends in the fatal error of the virtual machine. *)
Theorem strglob_plain_pattern E p z w :
  Forall glob_plain p -> no_NUL z ->
  (alloc_ok E (nAlloc w) = true -> alloc_ok E (S (nAlloc w)) = true ->
   exists w',
     Java_org_sqlite_jni_tester_SQLTester_strglob E p z w
     = Ok (if bool_decide (z = p) then 0%Z else 1%Z) w') /\
  (alloc_ok E (nAlloc w) = false \/ alloc_ok E (S (nAlloc w)) = false ->
   Java_org_sqlite_jni_tester_SQLTester_strglob E p z w
   = Abort (FatalError "Out of memory.")).
Proof.
  intros Hp Hz.
  destruct (strnotglob_fuel_wild (S (length p)) p ltac:(lia)
              (glob_plain_wild p Hp) z Hz) as (b & Hb & Hiff).
  fold (SQLTester_strnotglob p z) in Hb.
  rewrite (wild_match_plain p Hp z) in Hiff.
  unfold Java_org_sqlite_jni_tester_SQLTester_strglob.
  split.
  - intros H1 H2. msimpl. rewrite H1. cbn. rewrite H2. cbn. rewrite Hb. cbn.
    eexists. f_equal.
    destruct b.
    + rewrite bool_decide_eq_true_2; [reflexivity|]. apply Hiff. reflexivity.
    + rewrite bool_decide_eq_false_2; [reflexivity|].
      intros H. apply Hiff in H. discriminate.
  - intros H. msimpl.
    destruct (alloc_ok E (nAlloc w)) eqn:H1; cbn; [|reflexivity].
    destruct H as [H|H]; [discriminate|]. rewrite H. reflexivity.
Qed.

Lemma strglob_plain_pattern_witness :
  (exists w',
     Java_org_sqlite_jni_tester_SQLTester_strglob env_plain
       [97; 98]%Z [97; 98]%Z World0 = Ok 0%Z w') /\
  Java_org_sqlite_jni_tester_SQLTester_strglob (env_oom_at 1)
    [97; 98]%Z [97; 99]%Z World0 = Abort (FatalError "Out of memory.").
Proof.
  assert (Hp : Forall glob_plain [97; 98]%Z).
  { repeat (apply Forall_cons; split); try apply Forall_nil_2;
      unfold glob_plain; cbv [Ch.star Ch.question Ch.lbracket Ch.hash]; lia. }
  assert (Hz : forall c, c <> 0%Z -> no_NUL [97; c]%Z).
  { intros c Hc.
    repeat (apply Forall_cons; split); try apply Forall_nil_2;
      [discriminate|assumption]. }
  split.
  - apply (proj1 (strglob_plain_pattern env_plain _ _ World0 Hp
                    (Hz 98%Z ltac:(discriminate)))); reflexivity.
  - apply (proj2 (strglob_plain_pattern (env_oom_at 1) _ _ World0 Hp
                    (Hz 99%Z ltac:(discriminate)))).
    right. reflexivity.
Defined.



(** ** Callback proxies *)

(** X6.  The commit and rollback hook proxies call the registered
    callback once.  When it returns, the commit proxy hands on the
    value returned and the rollback proxy 0.  When it throws, the
    exception is cleared, the error [SQLITE_ERROR] with the message
    "hook callback threw." is set on the connection, and the proxy
    returns [SQLITE_ERROR], which for a commit hook turns the commit into
    a rollback. *)
Theorem commit_rollback_hook_proxy E (isCommit : bool) ps w r o :
  memDb w !! ps = Some r ->
  obj_of (S3JniHook.jObj
            (S3JniDb.hook (if isCommit then SlotCommit else SlotRollback) r))
    = Some o ->
  JavaVM.exceptionPending (jvm w) = false ->
  let mid := S3JniHook.midCallback
               (S3JniDb.hook (if isCommit then SlotCommit else SlotRollback) r) in
  let heap := JavaVM.nativePointer (jvm w) in
  exists rc w',
    s3jni_commit_rollback_hook_impl E isCommit ps w = Ok rc w' /\
    JavaVM.exceptionPending (jvm w') = false /\
    memDb w' = memDb w /\ SJG w' = SJG w /\
    match jcall E (length (events w)) with
    | Returned v =>
        rc = (if isCommit then v else 0%Z) /\
        events w' = events w ++ [EvCall o mid [] heap]
    | Threw =>
        rc = SQLITE_ERROR /\
        events w' = events w ++ hook_threw_events o mid heap (S3JniDb.pDb r)
    end.
Proof.
  intros Hr Ho Hex mid heap. subst mid heap.
  unfold s3jni_commit_rollback_hook_impl, hook_threw_events. msimpl.
  rewrite Hr. msimpl.
  destruct isCommit; cbn in Ho |- *; rewrite Ho; msimpl;
    (destruct (jcall E (length (events w))) as [v|]; msimpl;
     [rewrite Hex; msimpl; eexists _, _; split; [reflexivity|];
      cbn; repeat split; assumption
     |rewrite Hr; msimpl;
      destruct (S3JniDb.pDb r =? 0)%N; msimpl;
      eexists _, _; (split; [reflexivity|]); cbn;
      rewrite <- ?app_assoc; repeat split]).
Qed.

Lemma commit_rollback_hook_proxy_witness :
  exists w',
    s3jni_commit_rollback_hook_impl env_throwing true 0 world_with_commit_hook
    = Ok SQLITE_ERROR w' /\
    JavaVM.exceptionPending (jvm w') = false /\
    events w' = hook_threw_events 7 1%N (<[5:=100%N]> ∅) 100%N.
Proof.
  destruct (commit_rollback_hook_proxy env_throwing true 0
              world_with_commit_hook _ 7 eq_refl eq_refl eq_refl)
    as (rc & w' & Hrun & Hclear & _ & _ & Hrc & Hev).
  exists w'. rewrite Hrc in Hrun. repeat split; assumption.
Defined.

(** X7.  The progress handler proxy calls the registered handler once
    and hands on what it returns.  When the handler throws, the
    exception is cleared and the proxy returns the value that the call
    handed back or, if that is 0, [SQLITE_ERROR]: in either case not 0,
    so that the operation in progress is interrupted.  The connection's
    error is set to that code with the text of the exception, or with a
    default text when that cannot be had. *)
Theorem progress_handler_proxy E ps w r o :
  memDb w !! ps = Some r ->
  obj_of (S3JniHook.jObj (S3JniDb.hook SlotProgress r)) = Some o ->
  JavaVM.exceptionPending (jvm w) = false ->
  let mid := S3JniHook.midCallback (S3JniDb.hook SlotProgress r) in
  let heap := JavaVM.nativePointer (jvm w) in
  exists rc w',
    s3jni_progress_handler_impl E ps w = Ok rc w' /\
    JavaVM.exceptionPending (jvm w') = false /\
    memDb w' = memDb w /\ SJG w' = SJG w /\
    match jcall E (length (events w)) with
    | Returned v =>
        rc = v /\ events w' = events w ++ [EvCall o mid [] heap]
    | Threw =>
        rc = thrown_code (jthrown E (length (events w))) /\
        rc <> 0%Z /\
        events w' = events w ++
          progress_threw_events o mid heap (S3JniDb.pDb r) rc
            (jthrowable_toString E (S (length (events w))))
    end.
Proof.
  intros Hr Ho Hex mid heap. subst mid heap.
  unfold s3jni_progress_handler_impl, progress_threw_events, thrown_code.
  msimpl.
  rewrite Hr. msimpl. cbn in Ho. rewrite Ho. msimpl.
  destruct (jcall E (length (events w))) as [v|]; msimpl.
  - rewrite Hex. msimpl. eexists _, _. split; [reflexivity|].
    cbn. repeat split; assumption.
  - unfold s3jni_db_exception. msimpl. rewrite Hr. msimpl.
    rewrite length_app. cbn [length]. rewrite Nat.add_1_r.
    set (t := jthrown E (length (events w))).
    assert (Hnz : (if (t =? 0)%Z then SQLITE_ERROR else t) <> 0%Z)
      by (destruct (t =? 0)%Z eqn:Ht; [discriminate|apply Z.eqb_neq; exact Ht]).
    destruct (S3JniDb.pDb r =? 0)%N; msimpl;
      eexists _, _; (split; [reflexivity|]); cbn;
      rewrite <- ?app_assoc; repeat split; exact Hnz.
Qed.

Lemma progress_handler_proxy_witness :
  (exists w',
     s3jni_progress_handler_impl env_throwing 0 world_with_progress_and_trace
     = Ok SQLITE_ERROR w' /\
     JavaVM.exceptionPending (jvm w') = false) /\
  (exists w',
     s3jni_progress_handler_impl (env_throwing_with 7) 0
       world_with_progress_and_trace = Ok 7%Z w' /\
     JavaVM.exceptionPending (jvm w') = false).
Proof.
  split.
  - destruct (progress_handler_proxy env_throwing 0
                world_with_progress_and_trace _ 7 eq_refl eq_refl eq_refl)
      as (rc & w' & Hrun & Hclear & _ & _ & Hrc & _).
    exists w'. rewrite Hrc in Hrun. split; assumption.
  - destruct (progress_handler_proxy (env_throwing_with 7) 0
                world_with_progress_and_trace _ 7 eq_refl eq_refl eq_refl)
      as (rc & w' & Hrun & Hclear & _ & _ & Hrc & _).
    exists w'. rewrite Hrc in Hrun. split; assumption.
Defined.

(** ** UTF-16 names *)

Lemma incr_unsigned_of_nat i :
  (N.of_nat (S i) < 2 ^ 32)%N -> incr_unsigned (N.of_nat i) = N.of_nat (S i).
Proof.
  intros Hi. unfold incr_unsigned.
  rewrite N.mod_small; lia.
Qed.

Lemma utf16_strlen_loop_run l1 rest : forall k fuel i,
  Forall (fun x => x <> 0%N) l1 ->
  (N.of_nat (length l1) < 2 ^ 32)%N ->
  length l1 = i + k -> k < fuel ->
  utf16_strlen_loop fuel (l1 ++ rest) (N.of_nat i) =
  match rest with
  | [] => inl BadPointer
  | x :: _ => if (x =? 0)%N then inr (N.of_nat (length l1))
              else utf16_strlen_loop (fuel - S k) (l1 ++ rest)
                     (incr_unsigned (N.of_nat (length l1)))
  end.
Proof.
  induction k as [|k IH]; intros fuel i Hnz Hlen Hi Hfuel.
  - destruct fuel as [|fuel]; [lia|]. cbn [utf16_strlen_loop].
    rewrite Nat2N.id. replace i with (length l1) by lia.
    rewrite lookup_app_r by lia. rewrite Nat.sub_diag.
    destruct rest as [|x rest]; [reflexivity|]. cbn [lookup list_lookup].
    destruct (x =? 0)%N; [reflexivity|].
    replace (S fuel - 1) with fuel by lia. reflexivity.
  - destruct fuel as [|fuel]; [lia|]. cbn [utf16_strlen_loop].
    rewrite Nat2N.id.
    assert (Hlt : i < length l1) by lia.
    destruct (lookup_lt_is_Some_2 l1 i Hlt) as (x & Hx).
    rewrite (lookup_app_l_Some _ _ _ _ Hx).
    assert (Hx0 : (x =? 0)%N = false).
    { apply N.eqb_neq. rewrite Forall_forall in Hnz. apply Hnz.
      apply (list_elem_of_lookup_2 _ _ _ Hx). }
    rewrite Hx0, incr_unsigned_of_nat by lia.
    rewrite (IH fuel (S i) Hnz Hlen) by lia.
    reflexivity.
Qed.

(** X8.  [s3jni_utf16_strlen()] returns the number of elements in front
    of the first 0 of the array (for an array of less than 2^32
    elements); on an array without a 0 it reads behind the end of the
    array. *)
Theorem s3jni_utf16_strlen_first_zero l1 :
  Forall (fun x => x <> 0%N) l1 ->
  (N.of_nat (length l1) < 2 ^ 32)%N ->
  (forall l2, s3jni_utf16_strlen (l1 ++ 0%N :: l2)
              = inr (N.of_nat (length l1))) /\
  s3jni_utf16_strlen l1 = inl BadPointer.
Proof.
  intros Hnz Hlen. split.
  - intros l2. unfold s3jni_utf16_strlen.
    rewrite (utf16_strlen_loop_run l1 (0%N :: l2) (length l1) _ 0 Hnz Hlen);
      [reflexivity|lia|].
    rewrite length_app. cbn. lia.
  - unfold s3jni_utf16_strlen.
    pose proof (utf16_strlen_loop_run l1 [] (length l1) (S (length l1)) 0
                  Hnz Hlen eq_refl ltac:(lia)) as H.
    rewrite app_nil_r in H. exact H.
Qed.

Lemma s3jni_utf16_strlen_first_zero_witness :
  s3jni_utf16_strlen ([97; 98] ++ 0 :: [99])%N = inr 2%N.
Proof.
  apply (proj1 (s3jni_utf16_strlen_first_zero [97; 98]%N
                  ltac:(repeat (apply Forall_cons; split);
                        try apply Forall_nil_2; discriminate)
                  ltac:(reflexivity))).
Defined.

(** ** Shutting the library down *)

Lemma S3JniAutoExtension_clear_frame i w w' :
  S3JniAutoExtension_clear i w = Ok tt w' ->
  memEnv w' = memEnv w /\
  S3JniGlobalType.envCache_aHead (SJG w')
    = S3JniGlobalType.envCache_aHead (SJG w) /\
  S3JniGlobalType.envCache_aFree (SJG w')
    = S3JniGlobalType.envCache_aFree (SJG w) /\
  memDb w' = memDb w /\ events w' = events w.
Proof.
  unfold S3JniAutoExtension_clear. msimpl. crunch.
  all: intros [= <-]; cbn; repeat split; reflexivity.
Qed.

Lemma autoExt_clear_from_frame n : forall i w w',
  autoExt_clear_from i n w = Ok tt w' ->
  memEnv w' = memEnv w /\
  S3JniGlobalType.envCache_aHead (SJG w')
    = S3JniGlobalType.envCache_aHead (SJG w) /\
  S3JniGlobalType.envCache_aFree (SJG w')
    = S3JniGlobalType.envCache_aFree (SJG w) /\
  memDb w' = memDb w /\ events w' = events w.
Proof.
  induction n as [|n IH]; intros i w w'; cbn [autoExt_clear_from].
  - intros [= <-]. repeat split.
  - unfold bind at 1.
    destruct (S3JniAutoExtension_clear i w) as [[] w1|] eqn:H1; [|discriminate].
    intros H2.
    apply S3JniAutoExtension_clear_frame in H1 as (A1 & A2 & A3 & A4 & A5).
    apply IH in H2 as (B1 & B2 & B3 & B4 & B5). repeat split; congruence.
Qed.

Lemma s3jni_reset_auto_extension_frame w w' :
  s3jni_reset_auto_extension w = Ok tt w' ->
  memEnv w' = memEnv w /\
  S3JniGlobalType.envCache_aHead (SJG w')
    = S3JniGlobalType.envCache_aHead (SJG w) /\
  S3JniGlobalType.envCache_aFree (SJG w')
    = S3JniGlobalType.envCache_aFree (SJG w) /\
  memDb w' = memDb w /\ events w' = events w.
Proof.
  unfold s3jni_reset_auto_extension. msimpl.
  match goal with |- context [autoExt_clear_from 0 ?n ?w0] =>
    destruct (autoExt_clear_from 0 n w0) as [[] w1|] eqn:H1; [|discriminate]
  end.
  intros [= <-].
  apply autoExt_clear_from_frame in H1 as (A1 & A2 & A3 & A4 & A5).
  cbn in *. repeat split; assumption.
Qed.

Lemma S3JniGlobal_env_uncache_frame T w b w' :
  S3JniGlobal_env_uncache T w = Ok b w' ->
  nExt w' = nExt w /\ pExt w' = pExt w /\ memDb w' = memDb w /\
  jvm w' = jvm w /\ events w' = events w.
Proof.
  unfold S3JniGlobal_env_uncache, env_set_pPrev, env_set_pNext, nExt, pExt.
  msimpl. crunch.
  all: intros [= _ <-]; cbn; repeat split; reflexivity.
Qed.

Lemma env_uncache_all_run used : forall fuel w free,
  env_cache_lists w used free -> length used < fuel ->
  exists w',
    env_uncache_all fuel w = Ok tt w' /\
    env_cache_lists w' [] (rev used ++ free) /\
    nExt w' = nExt w /\ pExt w' = pExt w /\ memDb w' = memDb w /\
    jvm w' = jvm w /\ events w' = events w.
Proof.
  induction used as [|a l IH]; intros fuel w free Hlists Hfuel;
    (destruct fuel as [|fuel]; [cbn in Hfuel; lia|]); cbn [env_uncache_all].
  - destruct Hlists as (Hu & Hf & Hnd). cbn in Hu.
    msimpl. rewrite Hu. exists w. split; [reflexivity|].
    split; [|repeat split].
    split; [exact Hu|]. split; assumption.
  - pose proof Hlists as (Hu & Hf & Hnd).
    cbn in Hu. destruct Hu as (Hhead & r & Hr & Hprev & Hrest).
    msimpl. rewrite Hhead. msimpl. rewrite Hr.
    assert (Hfirst : first_row_of (memEnv w) (S3JniEnv.env r) (a :: l) = Some a).
    { cbn. rewrite Hr, N.eqb_refl. reflexivity. }
    destruct (S3JniGlobal_env_uncache_run (S3JniEnv.env r) w (a :: l) free
                Hlists) as (b & w1 & Hrun & [(Hnone & _)|Hhit]).
    { rewrite Hfirst in Hnone. discriminate. }
    destruct Hhit as (l1 & a' & l2 & Hsplit & Hfirst' & -> & Hlists1 & _).
    rewrite Hfirst in Hfirst'. injection Hfirst' as <-.
    assert (Hl1 : l1 = [] /\ l2 = l).
    { destruct l1 as [|x l1]; [injection Hsplit as ->; auto|].
      injection Hsplit as <- ->. exfalso.
      cbn in Hnd. apply NoDup_cons in Hnd as [Hin _]. apply Hin.
      rewrite !elem_of_app. left. right. left. }
    destruct Hl1 as [-> ->]. cbn [app] in Hlists1.
    rewrite Hrun.
    destruct (IH fuel w1 (a :: free) Hlists1 ltac:(cbn in Hfuel; lia))
      as (w' & Hrun' & Hlists' & H1 & H2 & H3 & H4 & H5).
    apply S3JniGlobal_env_uncache_frame in Hrun as (G1 & G2 & G3 & G4 & G5).
    exists w'. split; [exact Hrun'|].
    split; [cbn [rev]; rewrite <- app_assoc; exact Hlists'|].
    repeat split; congruence.
Qed.

#[global] Arguments env_uncache_all : simpl never.
#[global] Arguments s3jni_reset_auto_extension : simpl never.

Lemma env_cache_lists_length w used free :
  env_cache_lists w used free -> length used <= length (memEnv w).
Proof.
  intros (Hu & _ & Hnd).
  apply NoDup_app in Hnd as (Hnd & _).
  assert (Hin : forall x, x ∈ used -> x ∈ seq 0 (length (memEnv w))).
  { intros x Hx. apply elem_of_seq. split; [lia|]. cbn.
    destruct (dll_lookup _ _ _ _ _ _ x Hu Hx) as (rx & Hrx).
    apply lookup_lt_Some in Hrx. exact Hrx. }
  assert (Hsub : used ⊆+ seq 0 (length (memEnv w))).
  { apply NoDup_submseteq; assumption. }
  apply submseteq_length in Hsub. rewrite length_seq in Hsub. exact Hsub.
Qed.

(** X9.  [sqlite3_shutdown()]'s binding empties both registries before
    it calls the native engine: no auto-extension is left registered,
    the per-thread cache has no row in use, and every row that was in
    use is on the free-list, the first of them last.  The result is what
    the native function returns. *)
Theorem shutdown_empties_registries (sqlite3_shutdown : M Z) w used free :
  env_cache_lists w used free ->
  nExt w <= length (pExt w) ->
  exists w1,
    Java_org_sqlite_jni_SQLite3Jni_sqlite3_1shutdown sqlite3_shutdown w
    = sqlite3_shutdown w1 /\
    nExt w1 = 0 /\
    S3JniGlobalType.envCache_aHead (SJG w1) = None /\
    env_cache_lists w1 [] (rev used ++ free) /\
    memDb w1 = memDb w /\ events w1 = events w.
Proof.
  intros Hlists Hext.
  unfold Java_org_sqlite_jni_SQLite3Jni_sqlite3_1shutdown.
  destruct (s3jni_reset_auto_extension_run w Hext)
    as (w0 & Hreset & _ & Hn0 & _).
  pose proof (s3jni_reset_auto_extension_frame w w0 Hreset)
    as (F1 & F2 & F3 & F4 & F5).
  rewrite (bind_Ok _ _ _ _ _ Hreset). cbv beta.
  unfold bind at 1. unfold metrics_incr at 1, modify_SJG at 1, modify at 1.
  unfold bind at 1. unfold get at 1. unfold bind at 1.
  match goal with |- context [env_uncache_all ?f ?wx] =>
    assert (Hl : env_cache_lists wx used free);
    [|destruct (env_uncache_all_run used f wx free Hl) as
        (w1 & Hrun & Hl1 & G1 & G2 & G3 & G4 & G5)]
  end.
  { destruct Hlists as (Hu & Hf & Hnd). unfold env_cache_lists. cbn.
    rewrite F1, F2, F3. auto. }
  { cbn. rewrite F1. pose proof (env_cache_lists_length w used free Hlists).
    lia. }
  rewrite Hrun. exists w1. split; [reflexivity|].
  split; [rewrite G1; exact Hn0|].
  split; [destruct Hl1 as (Hu & _); exact Hu|].
  split; [exact Hl1|].
  split; [rewrite G3; exact F4|rewrite G5; exact F5].
Qed.

Lemma shutdown_empties_registries_witness :
  exists w1,
    Java_org_sqlite_jni_SQLite3Jni_sqlite3_1shutdown (ret 0%Z) world_env_busy
    = Ok 0%Z w1 /\
    S3JniGlobalType.envCache_aHead (SJG w1) = None /\
    env_cache_lists w1 [] (rev [1; 0] ++ []).
Proof.
  destruct (shutdown_empties_registries (ret 0%Z) world_env_busy [1; 0] [])
    as (w1 & Hrun & _ & Hhead & Hl & _).
  - split; [|split; [reflexivity|]].
    + vm_compute. repeat first [split | eexists | reflexivity].
    + repeat (apply NoDup_cons; split); try apply NoDup_nil_2;
        rewrite ?elem_of_cons; rewrite ?elem_of_nil; intuition discriminate.
  - vm_compute. lia.
  - exists w1. split; [exact Hrun|]. split; assumption.
Defined.



(** ** The pre-open step *)






(** ** Opening a connection that succeeds *)

Lemma autoExt_run_from_kept E ps fuel : forall i w rc w',
  autoExt_run_from E fuel i ps w = Ok rc w' ->
  memDb w' = memDb w /\
  JavaVM.nativePointer (jvm w') = JavaVM.nativePointer (jvm w).
Proof.
  induction fuel as [|fuel IH]; intros i w rc w'; [discriminate|].
  rewrite autoExt_run_from_S. msimpl.
  destruct (_ <=? i)%nat.
  { intros [= _ <-]. split; reflexivity. }
  cbn. destruct (S3JniGlobalType.autoExt_pExt (SJG w) !! i) as [ax|];
    [|discriminate]. cbn.
  assert (Hfin : forall (k : M Z) w1,
    (memDb w1 = memDb w /\
     JavaVM.nativePointer (jvm w1) = JavaVM.nativePointer (jvm w)) ->
    (k = autoExt_run_from E fuel (S i) ps \/ exists rc1, k = ret rc1) ->
    k w1 = Ok rc w' ->
    memDb w' = memDb w /\
    JavaVM.nativePointer (jvm w') = JavaVM.nativePointer (jvm w)).
  { intros k w1 [Hp1 Hp2] [->|[rc1 ->]].
    - intros Hrun. apply IH in Hrun as [H1 H2]. split; congruence.
    - intros [= _ <-]. split; assumption. }
  destruct (nonnull (REF_L (S3JniAutoExtension.jObj ax))) eqn:Hnn; cbn.
  2: { apply (Hfin (autoExt_run_from E fuel (S i) ps)); [|left; reflexivity].
       split; reflexivity. }
  destruct (memDb w !! ps) as [r|]; [|discriminate]. cbn.
  destruct (obj_of (REF_L (S3JniAutoExtension.jObj ax))) as [o|];
    [|discriminate]. cbn.
  destruct (jcall E (length (events w))) as [v|]; cbn;
    destruct (JavaVM.exceptionPending (jvm w)); cbn;
    repeat (match goal with
            | |- context [(?x =? 0)%Z] => destruct (x =? 0)%Z; cbn
            end).
  all: first
    [ apply (Hfin (autoExt_run_from E fuel (S i) ps)); [|left; reflexivity]
    | apply (Hfin (ret _)); [|right; eexists; reflexivity] ].
  all: split; reflexivity.
Qed.

Lemma bound_at_refl ps h w : bound_at ps h w w.
Proof. intros r Hr. exists r. split; [exact Hr|]. split; [reflexivity|]. left. auto. Qed.

Lemma bound_at_same ps h w w' :
  memDb w' = memDb w ->
  JavaVM.nativePointer (jvm w') = JavaVM.nativePointer (jvm w) ->
  bound_at ps h w w'.
Proof.
  intros Hm Hn r Hr. exists r. rewrite Hm. split; [exact Hr|].
  split; [reflexivity|]. left. auto.
Qed.

Lemma s3jni_run_java_auto_extensions_bound E env h w eu ef jc row ps rc w' :
  env_cache_lists w eu ef ->
  first_row_of (memEnv w) env eu = Some jc ->
  memEnv w !! jc = Some row -> S3JniEnv.pdbOpening row = Some ps ->
  s3jni_run_java_auto_extensions E env h w = Ok rc w' ->
  bound_at ps h w w'.
Proof.
  intros Hlists Hfirst Hrow Hps. unfold s3jni_run_java_auto_extensions. msimpl.
  destruct (_ =? 0)%nat; [intros [= _ <-]; apply bound_at_refl|].
  destruct (S3JniGlobal_env_cache_hit E env w jc) as (w1 & Hrun1 & Hg1 & Hme1
    & Hmd1 & Hj1 & Hev1 & _).
  { rewrite (env_cache_lists_lookup w eu ef env Hlists), Hfirst. reflexivity. }
  rewrite Hrun1. rewrite Hme1, Hrow. cbn. rewrite Hps. cbn.
  rewrite Hme1, Hrow. cbn.
  destruct (memDb w1 !! ps) as [r|] eqn:Hr; [|discriminate]. cbn.
  rewrite list_lookup_alter_eq, Hr. cbn.
  destruct (obj_of (S3JniDb.jDb r)) as [o|] eqn:Ho; [|discriminate]. cbn.
  intros Hrun. apply autoExt_run_from_kept in Hrun as [Hk1 Hk2].
  cbn in Hk1, Hk2.
  intros r0 Hr0. rewrite <- Hmd1, Hr in Hr0. injection Hr0 as <-.
  exists (S3JniDb.set_pDb h r). rewrite Hk1, list_lookup_alter_eq, Hr.
  split; [reflexivity|]. split; [reflexivity|]. right.
  split; [reflexivity|]. exists o. split; [exact Ho|].
  rewrite Hk2. apply lookup_insert_eq.
Qed.

Lemma native_open_bound E env c w eu ef jc row ps rc p w' :
  env_cache_lists w eu ef ->
  first_row_of (memEnv w) env eu = Some jc ->
  memEnv w !! jc = Some row -> S3JniEnv.pdbOpening row = Some ps ->
  native_open E env c w = Ok (rc, p) w' ->
  p = 0%N \/ bound_at ps p w w'.
Proof.
  intros Hlists Hfirst Hrow Hps. unfold native_open. msimpl.
  destruct (open_plan E (length (events w))) as [|h runs keeps]; msimpl.
  { intros [= _ <- _]. left. reflexivity. }
  destruct keeps.
  2: { destruct runs; msimpl.
       - destruct (s3jni_run_java_auto_extensions _ _ _ _); [|discriminate].
         intros [= _ <- _]. left. reflexivity.
       - intros [= _ <- _]. left. reflexivity. }
  destruct runs; msimpl.
  2: { intros [= _ <- <-]. right. apply bound_at_same; reflexivity. }
  match goal with |- context [s3jni_run_java_auto_extensions E env h ?w0] =>
    destruct (s3jni_run_java_auto_extensions E env h w0) as [rcx w1|] eqn:Hrun;
      [|discriminate];
    apply (s3jni_run_java_auto_extensions_bound E env h w0 eu ef jc row ps)
      in Hrun; [|exact Hlists|exact Hfirst|exact Hrow|exact Hps]
  end.
  intros [= _ <- <-]. right. exact Hrun.
Qed.

Lemma open_native_bound E env v zName w eu ef jc row ps rc h w' :
  env_cache_lists w eu ef ->
  first_row_of (memEnv w) env eu = Some jc ->
  memEnv w !! jc = Some row -> S3JniEnv.pdbOpening row = Some ps ->
  open_native E env v zName w = Ok (rc, h) w' ->
  h = 0%N \/ bound_at ps h w w'.
Proof.
  intros Hlists Hfirst Hrow Hps.
  destruct v as [[flags strVfs]|]; cbn [open_native].
  2: { apply (native_open_bound E env _ w eu ef jc row ps); assumption. }
  unfold bind at 1.
  destruct (bool_decide (strVfs <> None)).
  - unfold bind at 1.
    destruct (s3jni_jstring_to_utf8_run E strVfs w)
      as (z & w0 & Hrun & Hg & Hmd & Hme & Hev & Hj & _).
    rewrite Hrun. cbn.
    destruct (bool_decide (z = None)); cbn.
    + intros [= _ <- _]. left. reflexivity.
    + intros Hrun'.
      apply (native_open_bound E env _ w0 eu ef jc row ps) in Hrun'.
      * destruct Hrun' as [->|Hb]; [left; reflexivity|right].
        intros r Hr. rewrite <- Hmd in Hr.
        destruct (Hb r Hr) as (r' & H1 & H2 & H3).
        exists r'. rewrite <- Hj. auto.
      * destruct Hlists as (H1 & H2 & H3). unfold env_cache_lists.
        rewrite Hme, Hg. auto.
      * rewrite Hme. exact Hfirst.
      * rewrite Hme. exact Hrow.
      * exact Hps.
  - cbn. apply (native_open_bound E env _ w eu ef jc row ps); assumption.
Qed.

Lemma s3jni_open_post_bound E jc ps h jOut oOut rc w row r g o :
  h <> 0%N ->
  memEnv w !! jc = Some row -> memDb w !! ps = Some r ->
  S3JniDb.jDb r = JGlobal g o -> obj_of jOut = Some oOut ->
  (S3JniDb.pDb r = 0%N \/
   (S3JniDb.pDb r = h /\ JavaVM.nativePointer (jvm w) !! o = Some h)) ->
  exists w' r',
    s3jni_open_post E jc (Some ps) h jOut rc w = Ok rc w' /\
    memDb w' !! ps = Some r' /\ S3JniDb.pDb r' = h /\
    S3JniDb.jDb r' = JGlobal g o /\
    JavaVM.nativePointer (jvm w') !! o = Some h /\
    JavaVM.value (jvm w') !! oOut = Some (Some o) /\
    memEnv w' = alter (S3JniEnv.set_pdbOpening None) jc (memEnv w) /\
    SJG w' = SJG w /\
    map (fun r => (S3JniDb.pPrev r, S3JniDb.pNext r)) (memDb w')
      = map (fun r => (S3JniDb.pPrev r, S3JniDb.pNext r)) (memDb w).
Proof.
  intros Hh Hrow Hr Hj Ho Hcase. apply N.eqb_neq in Hh.
  unfold s3jni_open_post, OutputPointer_set_sqlite3. rewrite Ho.
  msimpl. rewrite Hrow. cbn. rewrite Hh. cbn.
  rewrite Hr. cbn.
  destruct Hcase as [H0|[Hp Hn]].
  - rewrite H0. cbn. rewrite Hr. cbn. rewrite Hj. cbn.
    rewrite list_lookup_alter_eq, Hr. cbn.
    eexists _, (S3JniDb.set_pDb h r). split; [reflexivity|]. cbn.
    rewrite list_lookup_alter_eq, Hr. cbn. rewrite ?Hj. cbn.
    split; [reflexivity|]. split; [reflexivity|]. split; [reflexivity|].
    split; [apply lookup_insert_eq|]. split; [apply lookup_insert_eq|].
    split; [reflexivity|]. split; [reflexivity|].
    apply map_alter_same. reflexivity.
  - rewrite Hp, Hh. cbn. rewrite Hr. cbn. rewrite Hj. cbn.
    eexists _, r. split; [reflexivity|]. cbn. rewrite ?Hj. cbn.
    split; [exact Hr|]. split; [exact Hp|]. split; [reflexivity|].
    split; [exact Hn|]. split; [apply lookup_insert_eq|].
    repeat split.
Qed.

(** ** Looking a connection up *)

Lemma db_lookup_first mem h l : forall pv p fuel,
  ddll mem pv p l -> length l < fuel ->
  db_lookup fuel mem p h = inr (for_db_result mem h l).
Proof.
  unfold for_db_result.
  induction l as [|a l IH]; intros pv p fuel Hl Hfuel;
    (destruct fuel as [|fuel]; [lia|]); rewrite db_lookup_S;
    destruct (h =? 0)%N eqn:Hz.
  - cbn in Hl. subst p. reflexivity.
  - cbn in Hl. subst p. reflexivity.
  - destruct Hl as (-> & _). reflexivity.
  - destruct Hl as (-> & r & Hr & _ & Hl). cbn. rewrite Hr.
    destruct (S3JniDb.pDb r =? h)%N; [reflexivity|].
    rewrite (IH _ _ fuel Hl ltac:(cbn in Hfuel; lia)). reflexivity.
Qed.

Lemma S3JniDb_for_db_spec jDb pDb w used free :
  pdb_lists w used free ->
  let h := if (pDb =? 0)%N
           then match obj_of jDb with
                | Some o => default 0%N (JavaVM.nativePointer (jvm w) !! o)
                | None => 0%N
                end
           else pDb in
  exists w',
    S3JniDb_for_db jDb pDb w
    = Ok (if nonnull jDb || negb (pDb =? 0)%N
          then for_db_result (memDb w) h used else None) w' /\
    same_but_metrics (SJG w) (SJG w') /\
    memDb w' = memDb w /\ memEnv w' = memEnv w /\ jvm w' = jvm w /\
    events w' = events w /\ nAlloc w' = nAlloc w.
Proof.
  intros (Hu & _ & Hnd) h. subst h. unfold S3JniDb_for_db.
  destruct (nonnull jDb || negb (pDb =? 0)%N).
  2: { exists w. split; [reflexivity|]. repeat split.
       apply same_but_metrics_refl. }
  assert (Hlen : length used < S (length (memDb w))).
  { pose proof (dll_length _ _ _ _ _ _ Hu (NoDup_app_l _ _ Hnd)). lia. }
  unfold bind at 1. unfold metrics_incr, modify_SJG, modify. cbn.
  unfold bind at 1.
  destruct (pDb =? 0)%N.
  - unfold NativePointerHolder_get. destruct (obj_of jDb) as [o|]; cbn.
    + unfold bind, get. cbn.
      rewrite (db_lookup_first _ _ used _ _ _ Hu Hlen). cbn.
      eexists. split; [reflexivity|]. cbn. repeat split.
    + unfold bind, get. cbn.
      rewrite (db_lookup_first _ _ used _ _ _ Hu Hlen). cbn.
      eexists. split; [reflexivity|]. cbn. repeat split.
  - unfold bind, get. cbn.
    rewrite (db_lookup_first _ _ used _ _ _ Hu Hlen). cbn.
    eexists. split; [reflexivity|]. cbn. repeat split.
Qed.

(** X12.  [S3JniDb_for_db()] on a registry with the used-list [used]:
    given a handle that is not null, or a wrapper object that holds one,
    it returns the first record of the used-list with that handle, and
    null when there is none; given neither a wrapper nor a handle it
    returns null; and given a wrapper that holds the null pointer it
    returns the head of the used-list, whatever that record's handle is.
    Nothing but the mutex counter changes. *)
Theorem registry_lookup jDb pDb w used free :
  pdb_lists w used free ->
  let h := if (pDb =? 0)%N
           then match obj_of jDb with
                | Some o => default 0%N (JavaVM.nativePointer (jvm w) !! o)
                | None => 0%N
                end
           else pDb in
  exists w',
    S3JniDb_for_db jDb pDb w
    = Ok (if nonnull jDb || negb (pDb =? 0)%N
          then (if (h =? 0)%N then head used
                else first_record_of (memDb w) h used)
          else None) w' /\
    same_but_metrics (SJG w) (SJG w') /\
    memDb w' = memDb w /\ memEnv w' = memEnv w /\ jvm w' = jvm w /\
    events w' = events w.
Proof.
  intros Hl h.
  destruct (S3JniDb_for_db_spec jDb pDb w used free Hl)
    as (w' & Hrun & H1 & H2 & H3 & H4 & H5 & _).
  exists w'. split; [exact Hrun|]. auto.
Qed.

Lemma registry_lookup_witness :
  exists w',
    S3JniDb_for_db (JLocal 5) 0%N world_with_commit_hook = Ok (Some 0) w'.
Proof.
  destruct (registry_lookup (JLocal 5) 0%N world_with_commit_hook [0] [])
    as (w' & Hrun & _).
  - split; [|split; [reflexivity|]].
    + vm_compute. repeat first [split | eexists | reflexivity].
    + apply NoDup_singleton.
  - exists w'. exact Hrun.
Defined.

(** X11.  An open that gets a connection handle binds it.  For both
    open bindings: when the pre-open step has succeeded and the native
    open yields the code [rc] and the handle [h], the binding returns
    [rc]; the record made for the open heads the used-list and has the
    handle [h]; its wrapper object holds [h] and is what the output
    pointer holds; the "opening" slot of the thread's row is empty; and
    looking the wrapper up in the registry gives the record. *)
Theorem successful_open_binds_record E env v strName jOut oOut w eu ef
  used free jc zName p rc h w1 w2 :
  env_cache_lists w eu ef ->
  pdb_lists w used free ->
  obj_of jOut = Some oOut ->
  s3jni_open_pre E env strName w = Ok (0%Z, jc, zName, p) w1 ->
  open_native E env v zName w1 = Ok (rc, h) w2 ->
  h <> 0%N ->
  exists ps g o r w3 w4,
    p = Some ps /\
    open_binding E env v strName jOut w = Ok rc w3 /\
    (exists free1, pdb_lists w3 (ps :: used) free1) /\
    memDb w3 !! ps = Some r /\ S3JniDb.pDb r = h /\
    S3JniDb.jDb r = JGlobal g o /\
    JavaVM.nativePointer (jvm w3) !! o = Some h /\
    JavaVM.value (jvm w3) !! oOut = Some (Some o) /\
    (exists row, memEnv w3 !! jc = Some row /\
                 S3JniEnv.pdbOpening row = None) /\
    S3JniDb_for_db (JLocal o) 0%N w3 = Ok (Some ps) w4.
Proof.
  intros Henv Hdb Ho Hpre Hnat Hh.
  destruct (s3jni_open_pre_run E env strName w eu ef used free _ _ _ _ _
              Henv Hdb Hpre) as (Hc & _ & [(Hrc & _)|(_ & Hok)]);
    [discriminate|].
  destruct Hok as (ps & r & row & free1 & -> & Hl1 & _ & Hr & HpDb
                   & (g & o & HjDb) & Hrow & Hslot).
  exists ps, g, o.
  rewrite (open_binding_eq E env v strName jOut w jc zName (Some ps) w1 Hpre).
  unfold bind at 1. rewrite Hnat.
  destruct Hc as (eu1 & ef1 & Hl & Hfirst).
  pose proof (open_native_frame E env v zName w1 eu1 ef1 jc rc h w2
                Hl Hfirst Hnat) as Hp.
  destruct (open_native_bound E env v zName w1 eu1 ef1 jc row ps rc h w2
              Hl Hfirst Hrow Hslot Hnat) as [Hz|Hb]; [contradiction|].
  pose proof (proxied_pdb_lists _ _ _ _ Hp Hl1) as Hl2.
  destruct (proxied_env_row _ _ _ _ Hp Hrow) as (row2 & Hrow2 & _).
  destruct (Hb r Hr) as (r2 & Hr2 & Hj2 & Hcase).
  rewrite HjDb in Hj2.
  assert (Hcase2 : S3JniDb.pDb r2 = 0%N \/
            (S3JniDb.pDb r2 = h /\
             JavaVM.nativePointer (jvm w2) !! o = Some h)).
  { destruct Hcase as [[H1 _]|[H1 (o' & Ho' & Hn)]].
    - left. congruence.
    - right. split; [exact H1|]. rewrite HjDb in Ho'. cbn in Ho'.
      injection Ho' as <-. exact Hn. }
  destruct (s3jni_open_post_bound E jc ps h jOut oOut rc w2 row2 r2 g o
              Hh Hrow2 Hr2 Hj2 Ho Hcase2)
    as (w3 & r3 & Hrun & Hr3 & Hp3 & Hj3 & Hn3 & Hv3 & Hme3 & Hg3 & Hmap3).
  assert (Hl3 : pdb_lists w3 (ps :: used) free1).
  { apply (pdb_lists_shape w2 w3); [rewrite Hg3; reflexivity..| |exact Hl2].
    intros x rx Hrx.
    pose proof (map_lookup_eq _ _ _ x Hmap3) as Hx. rewrite Hrx in Hx.
    destruct (memDb w3 !! x) as [rx'|]; [|discriminate].
    cbn in Hx. injection Hx as Hpv Hnx. eauto. }
  destruct (S3JniDb_for_db_spec (JLocal o) 0%N w3 (ps :: used) free1 Hl3)
    as (w4 & Hfind & _).
  cbn in Hfind. rewrite Hn3 in Hfind. cbn in Hfind.
  unfold for_db_result in Hfind. apply N.eqb_neq in Hh. rewrite Hh in Hfind.
  cbn in Hfind. rewrite Hr3, Hp3, N.eqb_refl in Hfind.
  exists r3, w3, w4. split; [reflexivity|]. split; [exact Hrun|].
  split; [eauto|]. split; [exact Hr3|]. split; [exact Hp3|].
  split; [exact Hj3|]. split; [exact Hn3|]. split; [exact Hv3|].
  split; [|exact Hfind].
  exists (S3JniEnv.set_pdbOpening None row2).
  split; [rewrite Hme3, list_lookup_alter_eq, Hrow2; reflexivity|reflexivity].
Qed.

Lemma successful_open_binds_record_witness :
  exists ps g o r w3 w4,
    Some 0 = Some ps /\
    open_binding env_opens 1%N (Some (6%Z, None)) (Some "a.db") (JLocal 9)
      world_with_auto_extensions = Ok 0%Z w3 /\
    (exists free1, pdb_lists w3 (ps :: []) free1) /\
    memDb w3 !! ps = Some r /\ S3JniDb.pDb r = 100%N /\
    S3JniDb.jDb r = JGlobal g o /\
    JavaVM.nativePointer (jvm w3) !! o = Some 100%N /\
    JavaVM.value (jvm w3) !! 9 = Some (Some o) /\
    (exists row, memEnv w3 !! 0 = Some row /\
                 S3JniEnv.pdbOpening row = None) /\
    S3JniDb_for_db (JLocal o) 0%N w3 = Ok (Some ps) w4.
Proof.
  apply (successful_open_binds_record env_opens 1%N (Some (6%Z, None))
           (Some "a.db") (JLocal 9) 9 world_with_auto_extensions
           [] [] [] [] 0 (Some "a.db") (Some 0) 0%Z 100%N
           (world_after (s3jni_open_pre env_opens 1%N (Some "a.db"))
              world_with_auto_extensions)
           (world_after
              (open_native env_opens 1%N (Some (6%Z, None)) (Some "a.db"))
              (world_after (s3jni_open_pre env_opens 1%N (Some "a.db"))
                 world_with_auto_extensions))).
  - split; [reflexivity|]. split; [reflexivity|]. apply NoDup_nil_2.
  - split; [reflexivity|]. split; [reflexivity|]. apply NoDup_nil_2.
  - reflexivity.
  - vm_compute. reflexivity.
  - vm_compute. reflexivity.
  - discriminate.
Defined.

(** ** Closing a connection *)

#[global] Arguments s3jni_close_db : simpl never.

Lemma pdb_lists_same w w' used free :
  memDb w' = memDb w ->
  S3JniGlobalType.perDb_aUsed (SJG w') = S3JniGlobalType.perDb_aUsed (SJG w) ->
  S3JniGlobalType.perDb_aFree (SJG w') = S3JniGlobalType.perDb_aFree (SJG w) ->
  pdb_lists w used free -> pdb_lists w' used free.
Proof.
  intros Hm Hu Hf (H1 & H2 & H3). unfold pdb_lists.
  rewrite Hm, Hu, Hf. auto.
Qed.

Lemma same_but_metrics_perDb g g' :
  same_but_metrics g g' ->
  S3JniGlobalType.perDb_aUsed g' = S3JniGlobalType.perDb_aUsed g /\
  S3JniGlobalType.perDb_aFree g' = S3JniGlobalType.perDb_aFree g.
Proof. unfold same_but_metrics. intros ->. split; reflexivity. Qed.

Lemma S3JniHook_unref_events E a k d w w' :
  S3JniHook_unref E a k d w = Ok tt w' ->
  exists evs, events w' = events w ++ evs.
Proof.
  destruct (memDb w !! a) as [r|] eqn:Hr.
  - destruct (S3JniHook_unref_run E a k d w r Hr) as (w1 & Hrun & Hev & _).
    rewrite Hrun. intros [= <-]. eauto.
  - unfold S3JniHook_unref. msimpl. rewrite Hr. discriminate.
Qed.

Lemma bind_events {A B} (m : M A) (k : A -> M B) w b w' :
  (forall w0 a w1, m w0 = Ok a w1 -> exists e, events w1 = events w0 ++ e) ->
  (forall a w1 b' w2, k a w1 = Ok b' w2 ->
     exists e, events w2 = events w1 ++ e) ->
  bind m k w = Ok b w' -> exists e, events w' = events w ++ e.
Proof.
  intros Hm Hk. unfold bind.
  destruct (m w) as [a w1|] eqn:H1; [|discriminate].
  intros H2. apply Hm in H1 as [e1 H1]. apply Hk in H2 as [e2 H2].
  exists (e1 ++ e2). rewrite H2, H1, app_assoc. reflexivity.
Qed.

Lemma db_unhook_events E a w w' :
  db_unhook E a w = Ok tt w' -> exists evs, events w' = events w ++ evs.
Proof.
  unfold db_unhook.
  repeat (apply bind_events;
          [intros ? [] ?; apply S3JniHook_unref_events|intros _ ? [] ?]).
  apply S3JniHook_unref_events.
Qed.

Lemma db_unlink_events a w w' :
  db_unlink a w = Ok tt w' -> events w' = events w.
Proof.
  unfold db_unlink, db_set_pPrev. msimpl. crunch.
  all: intros [= <-]; reflexivity.
Qed.

Lemma db_set_free_events a w w' :
  db_set_free a w = Ok tt w' -> events w' = events w.
Proof.
  unfold db_set_free, db_set_pPrev. msimpl. crunch.
  all: intros [= <-]; reflexivity.
Qed.

Lemma S3JniDb_set_aside_events E a w w' :
  S3JniDb_set_aside E (Some a) w = Ok tt w' ->
  exists evs, events w' = events w ++ evs.
Proof.
  rewrite S3JniDb_set_aside_eq.
  unfold bind at 1. unfold metrics_incr at 1, modify_SJG at 1, modify at 1.
  unfold bind at 1.
  match goal with |- context [db_unlink a ?wx] =>
    destruct (db_unlink a wx) as [[] w1|] eqn:H1; [|discriminate]
  end.
  apply db_unlink_events in H1. cbn in H1.
  unfold bind at 1.
  destruct (db_unhook E a w1) as [[] w2|] eqn:H2; [|discriminate].
  apply db_unhook_events in H2 as [evs H2].
  intros H3. apply db_set_free_events in H3.
  exists evs. congruence.
Qed.

(** X13.  Closing a connection: [s3jni_close_db()] on a wrapper that
    holds the handle [h] of the used record [a] calls the native close
    (the one of its version) on [h] and returns its result.  When that
    is 0, the record is unlinked from the used-list, cleared and put at
    the head of the free-list, and the wrapper holds the null pointer
    from then on; when it is not 0, the registry and the wrapper stay as
    they are. *)
Theorem close_sets_record_aside E jDb o version w l1 a l2 free h :
  pdb_lists w (l1 ++ a :: l2) free ->
  obj_of jDb = Some o ->
  JavaVM.nativePointer (jvm w) !! o = Some h -> h <> 0%N ->
  first_record_of (memDb w) h (l1 ++ a :: l2) = Some a ->
  let rc := native_rc E (length (events w)) in
  let call := if bool_decide (version = 1) then Native.sqlite3_close h
              else Native.sqlite3_close_v2 h in
  exists w',
    s3jni_close_db E jDb version w = Ok rc w' /\
    (exists evs, events w' = events w ++ EvNative call :: evs) /\
    if (rc =? 0)%Z
    then pdb_lists w' (l1 ++ l2) (a :: free) /\
         memDb w' !! a
           = Some (S3JniDb.set_pNext (S3JniGlobalType.perDb_aFree (SJG w))
                     S3JniDb.zero) /\
         JavaVM.nativePointer (jvm w') !! o = Some 0%N
    else pdb_lists w' (l1 ++ a :: l2) free /\
         memDb w' = memDb w /\ jvm w' = jvm w.
Proof.
  intros Hl Ho Hn Hh Hfirst rc call. subst rc call.
  unfold s3jni_close_db.
  destruct (S3JniDb_for_db_spec jDb 0%N w _ _ Hl)
    as (w0 & Hfind & Hg0 & Hmd0 & Hme0 & Hj0 & Hev0 & _).
  cbn in Hfind. rewrite Ho, Hn in Hfind. cbn in Hfind.
  assert (Hnn : nonnull jDb = true) by (destruct jDb; [discriminate|auto..]).
  rewrite Hnn in Hfind. cbn in Hfind.
  unfold for_db_result in Hfind. pose proof Hh as Hh'.
  apply N.eqb_neq in Hh'. rewrite Hh', Hfirst in Hfind.
  rewrite (bind_Ok _ _ _ _ _ Hfind). cbv beta iota.
  assert (Hra : exists r, memDb w !! a = Some r /\ S3JniDb.pDb r = h).
  { clear -Hfirst. induction (l1 ++ a :: l2) as [|b l IH]; [discriminate|].
    cbn in Hfirst. destruct (memDb w !! b) as [rb|] eqn:Hb; [|discriminate].
    destruct (S3JniDb.pDb rb =? h)%N eqn:He.
    - injection Hfirst as <-. exists rb. split; [exact Hb|].
      apply N.eqb_eq, He.
    - apply IH, Hfirst. }
  destruct Hra as (r & Hr & Hp).
  destruct (same_but_metrics_perDb _ _ Hg0) as [Hu0 Hf0].
  unfold bind at 1. unfold load_db at 1. rewrite Hmd0, Hr.
  unfold bind at 1. unfold native at 1, bind at 1, get at 1.
  unfold bind at 1, emit at 1, modify at 1, ret at 1.
  rewrite Hp, Hev0. cbv beta iota.
  destruct (native_rc E (length (events w)) =? 0)%Z eqn:Hrc.
  - match goal with |- context [set_events ?ev w0] =>
      set (wx := set_events ev w0)
    end.
    assert (Hlx : pdb_lists wx (l1 ++ a :: l2) free)
      by (apply (pdb_lists_same w); [exact Hmd0|exact Hu0|exact Hf0|exact Hl]).
    destruct (S3JniDb_set_aside_run E a wx l1 l2 free Hlx)
      as (w1 & Hrun & Hl1 & Hr1 & _ & _ & Hheap & _).
    destruct (S3JniDb_set_aside_events E a wx w1 Hrun) as [evs Hevs].
    rewrite (bind_Ok _ _ _ _ _ Hrun). cbv beta.
    unfold NativePointerHolder_set. rewrite Ho. msimpl.
    eexists. split; [reflexivity|]. cbn.
    split.
    { exists evs. rewrite Hevs. cbn. rewrite <- app_assoc. reflexivity. }
    split; [exact Hl1|]. split; [cbn in Hr1; rewrite Hf0 in Hr1; exact Hr1|].
    apply lookup_insert_eq.
  - cbn. eexists. split; [reflexivity|]. cbn.
    split; [exists []; reflexivity|].
    split; [apply (pdb_lists_same w); assumption|].
    split; assumption.
Qed.

Lemma close_sets_record_aside_witness :
  exists w',
    s3jni_close_db env_all_methods (JLocal 5) 1 world_with_commit_hook
    = Ok 0%Z w' /\
    pdb_lists w' [] [0] /\
    JavaVM.nativePointer (jvm w') !! 5 = Some 0%N.
Proof.
  destruct (close_sets_record_aside env_all_methods (JLocal 5) 5 1
              world_with_commit_hook [] 0 [] [] 100%N)
    as (w' & Hrun & _ & Hl & _ & Hn).
  - split; [|split; [reflexivity|]].
    + vm_compute. repeat first [split | eexists | reflexivity].
    + apply NoDup_singleton.
  - reflexivity.
  - reflexivity.
  - discriminate.
  - reflexivity.
  - exists w'. split; [exact Hrun|]. split; [exact Hl|exact Hn].
Defined.



(** ** The per-thread cache: recycling *)

Lemma S3JniGlobal_env_cache_source E T w a w' :
  S3JniGlobal_env_cache E T w = Ok a w' ->
  match env_lookup (S (length (memEnv w))) (memEnv w)
          (S3JniGlobalType.envCache_aHead (SJG w)) T with
  | inr (Some x) =>
      a = x /\ nAlloc w' = nAlloc w /\ length (memEnv w') = length (memEnv w)
  | inr None =>
      match S3JniGlobalType.envCache_aFree (SJG w) with
      | Some f =>
          a = f /\ nAlloc w' = nAlloc w /\
          length (memEnv w') = length (memEnv w)
      | None =>
          a = length (memEnv w) /\ nAlloc w' = S (nAlloc w) /\
          length (memEnv w') = S (length (memEnv w))
      end
  | inl _ => False
  end.
Proof.
  rewrite S3JniGlobal_env_cache_eq.
  unfold env_cache_link, s3jni_malloc_S3JniEnv, env_set_pPrev, s3jni_oom.
  msimpl.
  destruct (env_lookup _ _ _ T) as [why|[x|]]; cbn; [discriminate| |].
  { intros [= <- <-]. repeat split. }
  destruct (S3JniGlobalType.envCache_aFree (SJG w)) as [f|]; cbn.
  - crunch.
    all: intros [= <- <-]; cbn; rewrite ?length_alter; repeat split.
  - crunch.
    all: intros [= <- <-]; cbn; rewrite ?length_alter, ?length_app; cbn;
      repeat split; lia.
Qed.

Lemma S3JniGlobal_env_cache_fatal E T w used free msg :
  env_cache_lists w used free ->
  S3JniGlobal_env_cache E T w = Abort (FatalError msg) ->
  S3JniGlobalType.envCache_aFree (SJG w) = None.
Proof.
  intros Hl. rewrite S3JniGlobal_env_cache_eq.
  unfold env_cache_link, s3jni_malloc_S3JniEnv, env_set_pPrev, s3jni_oom.
  msimpl. rewrite (env_cache_lists_lookup w used free T Hl).
  destruct (first_row_of (memEnv w) T used) as [x|]; cbn; [discriminate|].
  destruct (S3JniGlobalType.envCache_aFree (SJG w)) as [f|]; cbn;
    [|reflexivity].
  crunch.
Qed.

Lemma S3JniGlobal_env_uncache_sizes T w b w' :
  S3JniGlobal_env_uncache T w = Ok b w' ->
  nAlloc w' = nAlloc w /\ length (memEnv w') = length (memEnv w).
Proof.
  unfold S3JniGlobal_env_uncache, env_set_pPrev, env_set_pNext.
  msimpl. crunch.
  all: intros [= _ <-]; cbn; rewrite ?length_alter; split; reflexivity.
Qed.

Lemma NoDup_split_inj {A} (l1 l2 l1' l2' : list A) a :
  NoDup (l1 ++ a :: l2) -> l1 ++ a :: l2 = l1' ++ a :: l2' ->
  l1 = l1' /\ l2 = l2'.
Proof.
  revert l1'. induction l1 as [|x l1 IH]; intros l1' Hnd Heq.
  - destruct l1' as [|y l1']; [injection Heq as ->; auto|].
    injection Heq as <- ->. exfalso.
    apply NoDup_cons in Hnd as [Hin _]. apply Hin.
    rewrite elem_of_app. right. left.
  - destruct l1' as [|y l1'].
    + injection Heq as -> <-. exfalso.
      apply NoDup_cons in Hnd as [Hin _]. apply Hin.
      rewrite elem_of_app. right. left.
    + injection Heq as <- Heq. cbn in Hnd. apply NoDup_cons in Hnd as [_ Hnd].
      destruct (IH l1' Hnd Heq) as [-> ->]. auto.
Qed.

(** X14.  A row that a thread gives up is the next one handed out:
    after [S3JniGlobal_env_uncache()] of the thread [T], whose row is
    [a], [S3JniGlobal_env_cache()] of a thread [T'] that has no row gives
    [T'] the row [a], without allocating anything. *)
Theorem env_row_is_recycled E T T' w l1 a l2 free :
  env_cache_lists w (l1 ++ a :: l2) free ->
  first_row_of (memEnv w) T (l1 ++ a :: l2) = Some a ->
  first_row_of (memEnv w) T' (l1 ++ l2) = None ->
  exists w1 w2,
    S3JniGlobal_env_uncache T w = Ok true w1 /\
    S3JniGlobal_env_cache E T' w1 = Ok a w2 /\
    env_cached w2 T' a /\
    (exists free', env_cache_lists w2 (a :: l1 ++ l2) free') /\
    nAlloc w2 = nAlloc w /\ length (memEnv w2) = length (memEnv w).
Proof.
  intros Hlists Hfirst Hnone.
  destruct (S3JniGlobal_env_uncache_run T w _ free Hlists)
    as (b & w1 & Hrun1 & [(Hn & _)|Hhit]).
  { rewrite Hfirst in Hn. discriminate. }
  destruct Hhit as (k1 & a' & k2 & Hsplit & Hfirst' & -> & Hl1 & Henv1).
  rewrite Hfirst in Hfirst'. injection Hfirst' as <-.
  destruct Hlists as (Hu & Hf & Hnd).
  destruct (NoDup_split_inj l1 l2 k1 k2 a (NoDup_app_l _ _ Hnd) Hsplit)
    as [<- <-].
  destruct (S3JniGlobal_env_uncache_sizes T w true w1 Hrun1) as [Hna1 Hlen1].
  exists w1.
  assert (Hnone1 : first_row_of (memEnv w1) T' (l1 ++ l2) = None).
  { rewrite <- Hnone. apply first_row_of_ext. exact Henv1. }
  pose proof (S3JniGlobal_env_cache_run E T' w1 _ _ Hl1) as Hspec.
  destruct (S3JniGlobal_env_cache E T' w1) as [a2 w2|why] eqn:Hrun2.
  - pose proof (S3JniGlobal_env_cache_source E T' w1 a2 w2 Hrun2) as Hsrc.
    rewrite (env_cache_lists_lookup w1 _ _ T' Hl1), Hnone1 in Hsrc.
    destruct Hl1 as (Hu1 & Hf1 & Hnd1). cbn in Hf1.
    destruct Hf1 as (Hfree1 & _). rewrite Hfree1 in Hsrc.
    destruct Hsrc as (-> & Hna2 & Hlen2).
    exists w2. split; [exact Hrun1|]. split; [reflexivity|].
    destruct Hspec as [(Hs & _)|(_ & Hl2 & (r & Hr & He) & _)].
    { rewrite Hnone1 in Hs. discriminate. }
    split.
    { destruct Hl2 as (free' & Hl2). exists (a :: l1 ++ l2), free'.
      split; [exact Hl2|]. cbn. rewrite Hr.
      rewrite (proj2 (N.eqb_eq _ _) He). reflexivity. }
    split; [exact Hl2|]. split; congruence.
  - exfalso. subst why.
    apply (S3JniGlobal_env_cache_fatal E T' w1 _ _ _ Hl1) in Hrun2.
    destruct Hl1 as (_ & Hf1 & _). cbn in Hf1. destruct Hf1 as (Hfree1 & _).
    congruence.
Qed.

Lemma env_row_is_recycled_witness :
  exists w1 w2,
    S3JniGlobal_env_uncache 3%N world_env_busy = Ok true w1 /\
    S3JniGlobal_env_cache env_plain 7%N w1 = Ok 1 w2 /\
    nAlloc w2 = nAlloc world_env_busy.
Proof.
  destruct (env_row_is_recycled env_plain 3%N 7%N world_env_busy [] 1 [0] [])
    as (w1 & w2 & H1 & H2 & _ & _ & H3 & _).
  - split; [|split; [reflexivity|]].
    + vm_compute. repeat first [split | eexists | reflexivity].
    + repeat (apply NoDup_cons; split); try apply NoDup_nil_2;
        rewrite ?elem_of_cons; rewrite ?elem_of_nil; intuition discriminate.
  - reflexivity.
  - reflexivity.
  - exists w1, w2. auto.
Defined.

#[global] Arguments Java_org_sqlite_jni_SQLite3Jni_uncacheJniEnv : simpl never.

(** X15.  [uncacheJniEnv()] tells whether the thread had a row.  For a
    thread without one it returns false and leaves the cache as it is;
    for a thread with one it returns true and the row, the first of the
    thread in the list, moves to the head of the free-list. *)
Theorem uncacheJniEnv_reports_row T w used free :
  env_cache_lists w used free ->
  exists w',
    Java_org_sqlite_jni_SQLite3Jni_uncacheJniEnv T w
    = Ok (bool_decide (is_Some (first_row_of (memEnv w) T used))) w' /\
    match first_row_of (memEnv w) T used with
    | None => memEnv w' = memEnv w /\ env_cache_lists w' used free
    | Some a =>
        exists l1 l2, used = l1 ++ a :: l2 /\
                      env_cache_lists w' (l1 ++ l2) (a :: free)
    end.
Proof.
  intros Hl. unfold Java_org_sqlite_jni_SQLite3Jni_uncacheJniEnv.
  unfold bind at 1. unfold metrics_incr at 1, modify_SJG at 1, modify at 1.
  match goal with |- context [S3JniGlobal_env_uncache T ?wx] =>
    assert (Hlx : env_cache_lists wx used free)
      by (destruct Hl as (H1 & H2 & H3); split; [exact H1|split; assumption]);
    destruct (S3JniGlobal_env_uncache_run T wx used free Hlx)
      as (b & w' & Hrun & Hcase)
  end.
  cbn [memEnv set_SJG] in Hcase.
  exists w'. rewrite Hrun.
  destruct Hcase as [(Hn & -> & ->)|(l1 & a & l2 & Hs & Hf & -> & Hl' & _)].
  - rewrite Hn. split.
    + rewrite bool_decide_eq_false_2; [reflexivity|].
      intros [? H]; discriminate.
    + split; [reflexivity|exact Hlx].
  - rewrite Hf. split.
    + rewrite bool_decide_eq_true_2; [reflexivity|]. eauto.
    + eauto.
Qed.

Lemma uncacheJniEnv_reports_row_witness :
  (exists w', Java_org_sqlite_jni_SQLite3Jni_uncacheJniEnv 9%N world_env_busy
              = Ok false w') /\
  (exists w', Java_org_sqlite_jni_SQLite3Jni_uncacheJniEnv 1%N world_env_busy
              = Ok true w').
Proof.
  assert (Hl : env_cache_lists world_env_busy [1; 0] []).
  { split; [|split; [reflexivity|]].
    + vm_compute. repeat first [split | eexists | reflexivity].
    + repeat (apply NoDup_cons; split); try apply NoDup_nil_2;
        rewrite ?elem_of_cons; rewrite ?elem_of_nil; intuition discriminate. }
  split.
  - destruct (uncacheJniEnv_reports_row 9%N world_env_busy [1; 0] [] Hl)
      as (w' & Hrun & _).
    exists w'. exact Hrun.
  - destruct (uncacheJniEnv_reports_row 1%N world_env_busy [1; 0] [] Hl)
      as (w' & Hrun & _).
    exists w'. exact Hrun.
Defined.

(** ** The registry: recycling *)

Lemma bind_same_size {A B} (m : M A) (k : A -> M B) w b w' :
  (forall w0 a w1, m w0 = Ok a w1 -> same_size w0 w1) ->
  (forall a w1 b' w2, k a w1 = Ok b' w2 -> same_size w1 w2) ->
  bind m k w = Ok b w' -> same_size w w'.
Proof.
  intros Hm Hk. unfold bind.
  destruct (m w) as [a w1|] eqn:H1; [|discriminate].
  intros H2. apply Hm in H1 as [H1 H1']. apply Hk in H2 as [H2 H2'].
  split; congruence.
Qed.

Lemma S3JniHook_unref_same_size E a k d w w' :
  S3JniHook_unref E a k d w = Ok tt w' -> same_size w w'.
Proof.
  destruct (memDb w !! a) as [r|] eqn:Hr.
  - destruct (S3JniHook_unref_run E a k d w r Hr)
      as (w1 & Hrun & _ & Hm & _ & _ & _ & _ & Hn).
    rewrite Hrun. intros [= <-]. split; [exact Hn|].
    rewrite Hm, length_alter. reflexivity.
  - unfold S3JniHook_unref. msimpl. rewrite Hr. discriminate.
Qed.

Lemma S3JniDb_set_aside_same_size E a w w' :
  S3JniDb_set_aside E (Some a) w = Ok tt w' -> same_size w w'.
Proof.
  rewrite S3JniDb_set_aside_eq.
  apply bind_same_size.
  { intros w0 [] w1. unfold metrics_incr, modify_SJG, modify.
    intros [= <-]. split; reflexivity. }
  intros _ w1 [] w2. apply bind_same_size.
  { intros w0 [] w3. unfold db_unlink, db_set_pPrev. msimpl. crunch.
    all: intros [= <-]; split; cbn; rewrite ?length_alter; reflexivity. }
  intros _ w3 [] w4. apply bind_same_size.
  { intros w0 [] w5. unfold db_unhook.
    repeat (apply bind_same_size;
            [intros ? [] ?; apply S3JniHook_unref_same_size|intros _ ? [] ?]).
    apply S3JniHook_unref_same_size. }
  intros _ w5 [] w6. unfold db_set_free, db_set_pPrev. msimpl. crunch.
  all: intros [= <-]; split; cbn; rewrite ?length_alter; reflexivity.
Qed.

Lemma S3JniDb_alloc_recycles E pDb jDb w rv w' f :
  S3JniGlobalType.perDb_aFree (SJG w) = Some f ->
  S3JniDb_alloc E pDb jDb w = Ok rv w' ->
  same_size w w' /\
  map (fun r => (S3JniDb.hooks r, S3JniDb.zMainDbName r)) (memDb w')
    = map (fun r => (S3JniDb.hooks r, S3JniDb.zMainDbName r)) (memDb w).
Proof.
  intros Hf. unfold S3JniDb_alloc, db_set_pPrev. msimpl. rewrite Hf. cbn.
  crunch.
  all: intros [= _ <-]; cbn; split;
    [split; cbn; rewrite ?length_alter; reflexivity|];
    repeat (rewrite map_alter_same by reflexivity); reflexivity.
Qed.

(** X16.  A record that is set aside is the next one handed out, and
    it carries nothing over: after [S3JniDb_set_aside()] of the used
    record [a], [S3JniDb_alloc()] returns [a] again, now at the head of
    the used-list, with the new handle and a new global reference to the
    new wrapper, with no hook and no name; nothing is allocated and the
    free-list is as it was before the record was set aside. *)
Theorem registry_record_is_recycled E a w l1 l2 free pDb jDb :
  pdb_lists w (l1 ++ a :: l2) free ->
  exists w1 w2 r,
    S3JniDb_set_aside E (Some a) w = Ok tt w1 /\
    S3JniDb_alloc E pDb jDb w1 = Ok (Some a) w2 /\
    pdb_lists w2 (a :: l1 ++ l2) free /\
    memDb w2 !! a = Some r /\
    S3JniDb.pDb r = pDb /\
    S3JniDb.jDb r = match obj_of jDb with
                    | Some o => JGlobal (JavaVM.nextGlobalRef (jvm w)) o
                    | None => JNull
                    end /\
    S3JniDb.hooks r = Hooks.zero /\ S3JniDb.zMainDbName r = None /\
    nAlloc w2 = nAlloc w /\ length (memDb w2) = length (memDb w).
Proof.
  intros Hl.
  destruct (S3JniDb_set_aside_run E a w l1 l2 free Hl)
    as (w1 & Hrun1 & Hl1 & Hr1 & _ & _ & Hheap & _).
  destruct (S3JniDb_set_aside_same_size E a w w1 Hrun1) as [Hn1 Hlen1].
  pose proof (S3JniDb_alloc_run E pDb jDb w1 _ _ Hl1) as Hspec.
  pose proof Hl1 as (_ & Hf1 & _). cbn in Hf1. destruct Hf1 as (Hfree1 & _).
  destruct (S3JniDb_alloc E pDb jDb w1) as [rv w2|why] eqn:Hrun2.
  2: { destruct Hspec as [_ Hs]. discriminate. }
  destruct Hspec as (a2 & r2 & free2 & -> & Hl2 & Hfree & Hr2 & Hp2 & Hj2 & _).
  destruct Hfree as [Hfree|[Hfree _]]; [|discriminate].
  injection Hfree as <- <-.
  destruct (S3JniDb_alloc_recycles E pDb jDb w1 _ w2 a Hfree1 Hrun2)
    as ([Hn2 Hlen2] & Hmap).
  pose proof (map_lookup_eq _ _ _ a Hmap) as Hx. rewrite Hr2, Hr1 in Hx.
  cbn in Hx. injection Hx as Hh Hz.
  exists w1, w2, r2. split; [exact Hrun1|]. split; [exact Hrun2|].
  split; [exact Hl2|]. split; [exact Hr2|]. split; [exact Hp2|].
  split.
  { rewrite Hj2. destruct Hheap as (Hg & _). rewrite Hg. reflexivity. }
  split; [exact Hh|]. split; [exact Hz|]. split; congruence.
Qed.

Lemma registry_record_is_recycled_witness :
  exists w1 w2,
    S3JniDb_set_aside env_all_methods (Some 0) world_with_commit_hook
    = Ok tt w1 /\
    S3JniDb_alloc env_all_methods 200%N (JLocal 6) w1 = Ok (Some 0) w2 /\
    S3JniDb.hooks <$> memDb w2 !! 0 = Some Hooks.zero /\
    nAlloc w2 = nAlloc world_with_commit_hook.
Proof.
  destruct (registry_record_is_recycled env_all_methods 0
              world_with_commit_hook [] [] [] 200%N (JLocal 6))
    as (w1 & w2 & r & H1 & H2 & _ & Hr & _ & _ & Hh & _ & Hn & _).
  - split; [|split; [reflexivity|]].
    + vm_compute. repeat first [split | eexists | reflexivity].
    + apply NoDup_singleton.
  - exists w1, w2. split; [exact H1|]. split; [exact H2|].
    split; [rewrite Hr; cbn; rewrite Hh; reflexivity|exact Hn].
Defined.


Lemma S3JniAutoExtension_clear_refs i w ax :
  pExt w !! i = Some ax ->
  exists w',
    S3JniAutoExtension_clear i w = Ok tt w' /\
    length (pExt w') = length (pExt w) /\
    (forall k, k <> i -> pExt w' !! k = pExt w !! k) /\
    pExt w' !! i =
      Some (if nonnull (S3JniAutoExtension.jObj ax)
            then S3JniAutoExtension.zero else ax) /\
    nExt w' = nExt w /\ nAlloc_ext w' = nAlloc_ext w /\
    events w' = events w /\
    (forall r, r ∈ live_refs w' -> r ∈ live_refs w) /\
    (forall r o, S3JniAutoExtension.jObj ax = JGlobal r o -> r ∉ live_refs w').
Proof.
  intros Hax. unfold S3JniAutoExtension_clear.
  destruct w as [g me md jv ev na]. destruct g as [h1 h2 h3 h4 mt px nA nE on].
  unfold pExt, nExt, nAlloc_ext, live_refs in *. cbn in Hax |- *.
  msimpl. rewrite Hax. msimpl.
  destruct (nonnull (S3JniAutoExtension.jObj ax)) eqn:Hnn.
  - destruct (S3JniAutoExtension.jObj ax) as [|o|r o]; [discriminate|..].
    all: msimpl; rewrite Hax; msimpl.
    all: (eexists; split; [reflexivity|]); cbn.
    all: rewrite length_alter, list_lookup_alter_eq, Hax.
    all: repeat split; try discriminate; auto.
    all: try (intros k Hk; apply list_lookup_alter_ne; congruence).
    + intros r0 Hr0. apply list_elem_of_filter in Hr0. apply Hr0.
    + intros r0 o0 [= <- <-] Hr0. apply list_elem_of_filter in Hr0.
      destruct Hr0 as [Hne _]. apply Hne. reflexivity.
  - eexists. split; [reflexivity|]. cbn. repeat split; auto.
    intros r o Hj. rewrite Hj in Hnn. discriminate.
Qed.

Lemma autoExt_clear_from_refs n : forall i w,
  i + n <= length (pExt w) ->
  exists w',
    autoExt_clear_from i n w = Ok tt w' /\
    length (pExt w') = length (pExt w) /\
    nExt w' = nExt w /\ nAlloc_ext w' = nAlloc_ext w /\
    events w' = events w /\
    (forall k, k < i \/ i + n <= k -> pExt w' !! k = pExt w !! k) /\
    (forall k ax, i <= k < i + n -> pExt w !! k = Some ax ->
       pExt w' !! k = Some (if nonnull (S3JniAutoExtension.jObj ax)
                            then S3JniAutoExtension.zero else ax) /\
       forall r o, S3JniAutoExtension.jObj ax = JGlobal r o ->
                   r ∉ live_refs w') /\
    (forall r, r ∈ live_refs w' -> r ∈ live_refs w).
Proof.
  induction n as [|n IH]; intros i w Hn.
  - exists w. repeat split; auto; lia.
  - destruct (lookup_lt_is_Some_2 (pExt w) i) as [ax Hax]; [lia|].
    destruct (S3JniAutoExtension_clear_refs i w ax Hax)
      as (w1 & Hrun & Hlen & Hoth & Hat & HnE & HnA & Hev & Hsub & Hgone).
    destruct (IH (S i) w1 ltac:(lia))
      as (w2 & Hrun2 & Hlen2 & HnE2 & HnA2 & Hev2 & Hout2 & Hin2 & Hsub2).
    exists w2. cbn [autoExt_clear_from]. unfold bind at 1. rewrite Hrun.
    split; [exact Hrun2|].
    split; [congruence|]. split; [congruence|]. split; [congruence|].
    split; [congruence|].
    split; [intros k Hk; rewrite Hout2 by lia; apply Hoth; lia|].
    split; [|intros r Hr; apply Hsub, Hsub2, Hr].
    intros k bx Hk Hbx. destruct (decide (k = i)) as [->|Hne].
    + rewrite Hax in Hbx. injection Hbx as <-. split.
      * rewrite Hout2 by lia. exact Hat.
      * intros r o Hj Hr. apply Hsub2 in Hr. exact (Hgone r o Hj Hr).
    + rewrite <- Hoth in Hbx by exact Hne.
      destruct (Hin2 k bx ltac:(lia) Hbx) as [Hz Hg]. split; assumption.
Qed.

(** X17. [sqlite3_reset_auto_extension()] empties the list of automatic
    extensions: every registered entry is zeroed and its global reference
    released, the array keeps its capacity, the slots above the used part
    are untouched and no Java code is called.  Afterwards cancelling any
    object reports that nothing was found. *)
Theorem reset_auto_extension_releases_all j w :
  autoExt_inv w ->
  exists w' w'',
    Java_org_sqlite_jni_SQLite3Jni_sqlite3_1reset_1auto_1extension w = Ok tt w' /\
    nExt w' = 0 /\ nAlloc_ext w' = nAlloc_ext w /\
    length (pExt w') = length (pExt w) /\
    (forall k, k < nExt w -> pExt w' !! k = Some S3JniAutoExtension.zero) /\
    (forall k, nExt w <= k -> pExt w' !! k = pExt w !! k) /\
    (forall k ax r o, k < nExt w -> pExt w !! k = Some ax ->
       S3JniAutoExtension.jObj ax = JGlobal r o -> r ∉ live_refs w') /\
    (forall r, r ∈ live_refs w' -> r ∈ live_refs w) /\
    events w' = events w /\
    Java_org_sqlite_jni_SQLite3Jni_sqlite3_1cancel_1auto_1extension j w'
      = Ok false w'' /\
    pExt w'' = pExt w' /\ nExt w'' = 0.
Proof.
  intros (Hle & HnA & Hnn & _).
  unfold Java_org_sqlite_jni_SQLite3Jni_sqlite3_1reset_1auto_1extension,
    s3jni_reset_auto_extension.
  msimpl.
  match goal with |- context [autoExt_clear_from 0 ?n ?w1] =>
    destruct (autoExt_clear_from_refs n 0 w1)
      as (w2 & Hrun & Hlen & HnE & HnA2 & Hev & Hout & Hin & Hsub);
    [exact Hle|]; rewrite Hrun
  end.
  match goal with |- context [Ok tt ?wx] => set (w' := wx) end.
  assert (Hp : pExt w' = pExt w2) by reflexivity.
  assert (Hn : nExt w' = 0) by reflexivity.
  destruct (cancel_miss j w') as (w'' & Hc & HpE & HnE'' & _).
  { rewrite Hn. reflexivity. }
  exists w', w''. split; [reflexivity|].
  split; [reflexivity|]. split; [exact HnA2|]. split; [exact Hlen|].
  split.
  { intros k Hk. destruct (lookup_lt_is_Some_2 (pExt w) k) as [ax Hax]; [lia|].
    destruct (Hin k ax) as [Hz _]; [cbn; fold (nExt w); lia|exact Hax|].
    rewrite Hp, Hz. rewrite (Hnn k ax Hk Hax). reflexivity. }
  split.
  { intros k Hk. rewrite Hp. apply Hout. right. cbn. fold (nExt w). lia. }
  split.
  { intros k ax r o Hk Hax Hj.
    destruct (Hin k ax) as [_ Hg]; [cbn; fold (nExt w); lia|exact Hax|].
    exact (Hg r o Hj). }
  split; [exact Hsub|]. split; [exact Hev|].
  split; [exact Hc|]. split; [exact HpE|]. rewrite HnE''. exact Hn.
Qed.

Lemma reset_auto_extension_releases_all_witness :
  autoExt_inv world_with_auto_extensions /\
  exists w' w'',
    Java_org_sqlite_jni_SQLite3Jni_sqlite3_1reset_1auto_1extension
      world_with_auto_extensions = Ok tt w' /\
    nExt w' = 0 /\
    Java_org_sqlite_jni_SQLite3Jni_sqlite3_1cancel_1auto_1extension (JLocal 6) w'
      = Ok false w''.
Proof.
  assert (Hinv : autoExt_inv world_with_auto_extensions).
  { apply (autoExt_reachable_inv env_all_methods).
    eapply autoExt_after_register with (jAutoExt := JLocal 7) (rc := 0%Z);
      [eapply autoExt_after_register with (jAutoExt := JLocal 6) (rc := 0%Z);
       [eapply autoExt_after_register with (jAutoExt := JLocal 5) (rc := 0%Z);
        [apply (autoExt_initial _ World0); reflexivity|]|]|];
      vm_compute; reflexivity. }
  split; [exact Hinv|].
  destruct (reset_auto_extension_releases_all (JLocal 6)
              world_with_auto_extensions Hinv)
    as (w' & w'' & Hrun & Hn & _ & _ & _ & _ & _ & _ & _ & Hc & _).
  exists w', w''. split; [exact Hrun|]. split; [exact Hn|exact Hc].
Defined.


Lemma S3JniUdf_alloc_refs E jObj o w :
  obj_of jObj = Some o ->
  alloc_ok E (nAlloc w) = true ->
  exists s w',
    S3JniUdf_alloc E jObj w = Ok (Some s) w' /\
    S3JniUdf.type s =
      Some (if exposes E o "xFunc" zFSI then UDF_SCALAR
            else if exposes E o "xStep" zFSI && exposes E o "xFinal" zFV
            then (if exposes E o "xValue" zFV then UDF_WINDOW
                  else UDF_AGGREGATE)
            else UDF_UNKNOWN_TYPE) /\
    S3JniUdf.jObj s = JGlobal (JavaVM.nextGlobalRef (jvm w)) o /\
    events w' = events w /\
    nAlloc w' = S (nAlloc w) /\
    live_refs w' = JavaVM.nextGlobalRef (jvm w) :: live_refs w /\
    JavaVM.nativePointer (jvm w') = JavaVM.nativePointer (jvm w).
Proof.
  intros Ho Ha.
  unfold S3JniUdf_alloc, bind, try_alloc. rewrite Ha.
  unfold REF_G. rewrite Ho. cbv zeta.
  repeat (rewrite (FGET_run E jObj o) by exact Ho; cbv beta iota).
  unfold ret. eexists _, _. split; [reflexivity|].
  unfold exposes. simpl.
  repeat split.
Qed.

Lemma NativePointerHolder_get_run j w :
  NativePointerHolder_get j w = Ok (holder_pointer w j) w.
Proof.
  unfold NativePointerHolder_get, holder_pointer.
  destruct (obj_of j); reflexivity.
Qed.

Lemma s3jni_db_error_run E db rc msg w :
  exists w',
    s3jni_db_error E db rc msg w = Ok rc w' /\
    events w' = events w ++
      (if (db =? 0)%N then []
       else [EvNative (Native.sqlite3Error db rc msg)]) /\
    jvm w' = jvm w /\ nAlloc w' = nAlloc w /\ SJG w' = SJG w /\
    memDb w' = memDb w /\ memEnv w' = memEnv w.
Proof.
  unfold s3jni_db_error. destruct (db =? 0)%N; msimpl.
  - eexists. split; [reflexivity|]. rewrite app_nil_r. repeat split.
  - eexists. split; [reflexivity|]. repeat split.
Qed.

Lemma S3JniUdf_free_run E s r o w :
  S3JniUdf.jObj s = JGlobal r o ->
  exists w',
    S3JniUdf_free E s w = Ok tt w' /\
    events w' = events w
      ++ xDestroy_calls E (JGlobal r o) (JavaVM.nativePointer (jvm w)) /\
    live_refs w' = filter (fun x => x ≠ r) (live_refs w).
Proof.
  intros Hj. unfold S3JniUdf_free. rewrite Hj.
  destruct (s3jni_call_xDestroy_run E (JGlobal r o) w)
    as (w1 & Hx & Hev & _ & _ & _ & _ & Hrefs & _).
  unfold bind at 1. rewrite Hx. msimpl.
  eexists. split; [reflexivity|]. unfold live_refs. cbn.
  rewrite Hrefs. split; [exact Hev|reflexivity].
Qed.

(** X18. [sqlite3_create_function()]'s binding, for a functor object:
    an invalid encoding gives [SQLITE_FORMAT] before anything is
    allocated or referenced; a failed allocation of the function's
    state gives [SQLITE_NOMEM]; when the name is null or cannot be
    converted the result is [SQLITE_NOMEM], the functor's [xDestroy()]
    is called and the reference taken for it is released; and otherwise
    exactly one native registration is made, chosen by the methods the
    functor exposes, whose result is the binding's result.  When that
    result is 0 the functor's reference stays live; when it is not, the
    native engine has called the destructor it was given, so that the
    functor's [xDestroy()] has been called and its reference released. *)
Theorem create_function_outcomes E jDb jFuncName nArg eTextRep jFunctor o w :
  obj_of jFunctor = Some o ->
  let f := Java_org_sqlite_jni_SQLite3Jni_sqlite3_1create_1function
             E jDb jFuncName nArg eTextRep jFunctor in
  let pDb := holder_pointer w jDb in
  let r := JavaVM.nextGlobalRef (jvm w) in
  (encodingTypeIsValid eTextRep = false ->
   exists w',
     f w = Ok SQLITE_FORMAT w' /\
     events w' = events w ++
       (if (pDb =? 0)%N then []
        else [EvNative (Native.sqlite3Error pDb SQLITE_FORMAT
                          (Some "Invalid function encoding option."))]) /\
     jvm w' = jvm w /\ nAlloc w' = nAlloc w) /\
  (encodingTypeIsValid eTextRep = true ->
   alloc_ok E (nAlloc w) = false ->
   exists w',
     f w = Ok SQLITE_NOMEM w' /\ events w' = events w /\ jvm w' = jvm w) /\
  (encodingTypeIsValid eTextRep = true ->
   alloc_ok E (nAlloc w) = true ->
   udf_known E o = true ->
   jFuncName = None \/ alloc_ok E (S (nAlloc w)) = false ->
   exists w',
     f w = Ok SQLITE_NOMEM w' /\
     events w' = events w
       ++ xDestroy_calls E jFunctor (JavaVM.nativePointer (jvm w)) /\
     live_refs w' = filter (fun x => x ≠ r) (live_refs w)) /\
  (forall z,
   encodingTypeIsValid eTextRep = true ->
   alloc_ok E (nAlloc w) = true ->
   udf_known E o = true ->
   jFuncName = Some z -> alloc_ok E (S (nAlloc w)) = true ->
   let rc := native_rc E (length (events w)) in
   exists s w',
     f w = Ok rc w' /\
     S3JniUdf.jObj s = JGlobal r o /\
     if (rc =? 0)%Z
     then
       events w' = events w
         ++ [EvNative (udf_registration E o pDb z nArg eTextRep s)] /\
       live_refs w' = r :: live_refs w
     else
       events w' = events w
         ++ [EvNative (udf_registration E o pDb z nArg eTextRep s)]
         ++ xDestroy_calls E jFunctor (JavaVM.nativePointer (jvm w)) /\
       live_refs w' = filter (fun x => x ≠ r) (live_refs w)).
Proof.
  intros Ho f pDb r. subst f.
  unfold Java_org_sqlite_jni_SQLite3Jni_sqlite3_1create_1function.
  rewrite (bind_Ok _ _ _ _ _ (NativePointerHolder_get_run jDb w)).
  fold pDb.
  split; [|split; [|split]].
  - intros ->. cbn [negb].
    destruct (s3jni_db_error_run E pDb SQLITE_FORMAT
                (Some "Invalid function encoding option.") w)
      as (w' & Hrun & Hev & Hj & Hn & _).
    exists w'. repeat split; assumption.
  - intros -> Ha. cbn [negb].
    unfold S3JniUdf_alloc, try_alloc. unfold bind at 1. unfold bind at 1.
    rewrite Ha. msimpl. eexists. repeat split.
  - intros -> Ha Hk Hname. cbn [negb].
    destruct (S3JniUdf_alloc_refs E jFunctor o w Ho Ha)
      as (s & w1 & Hrun & Hty & Hj & Hev & Hn & Hrefs & Hnp).
    rewrite (bind_Ok _ _ _ _ _ Hrun). rewrite Hty.
    assert (Hz : s3jni_jstring_to_utf8 E jFuncName w1 = Ok None w1 \/
                 s3jni_jstring_to_utf8 E jFuncName w1
                   = Ok None (set_nAlloc (S (nAlloc w1)) w1)).
    { destruct Hname as [->|Hf]; [left; reflexivity|].
      destruct jFuncName as [z|]; [right|left; reflexivity].
      unfold s3jni_jstring_to_utf8, try_alloc. unfold bind.
      rewrite Hn, Hf. reflexivity. }
    unfold udf_known in Hk.
    assert (Hxd : xDestroy_calls E (JGlobal r o) (JavaVM.nativePointer (jvm w1))
                  = xDestroy_calls E jFunctor (JavaVM.nativePointer (jvm w)))
      by (rewrite Hnp; unfold xDestroy_calls; rewrite Ho; reflexivity).
    destruct (exposes E o "xFunc" zFSI);
      [|destruct (exposes E o "xStep" zFSI && exposes E o "xFinal" zFV);
        [destruct (exposes E o "xValue" zFV)|discriminate]].
    all: cbv iota.
    all: destruct Hz as [Hz|Hz]; rewrite (bind_Ok _ _ _ _ _ Hz); cbv iota.
    all: match goal with |- context [bind (S3JniUdf_free _ ?s0) _ ?wz] =>
           destruct (S3JniUdf_free_run E s0 r o wz Hj)
             as (w2 & Hfree & Hev2 & Hrefs2)
         end.
    all: rewrite (bind_Ok _ _ _ _ _ Hfree).
    all: exists w2; split; [reflexivity|].
    all: rewrite Hev2, Hrefs2; unfold live_refs in *; cbn [events jvm set_nAlloc].
    all: rewrite Hev, Hxd, Hrefs; split; [reflexivity|].
    all: fold r; rewrite filter_cons; destruct (decide (r ≠ r));
           [contradiction|reflexivity].
  - intros z -> Ha Hk -> Ha2. cbn [negb].
    destruct (S3JniUdf_alloc_refs E jFunctor o w Ho Ha)
      as (s & w1 & Hrun & Hty & Hj & Hev & Hn & Hrefs & Hnp).
    rewrite (bind_Ok _ _ _ _ _ Hrun). rewrite Hty.
    assert (Hz : s3jni_jstring_to_utf8 E (Some z) w1
                   = Ok (Some z) (set_nAlloc (S (nAlloc w1)) w1)).
    { unfold s3jni_jstring_to_utf8, try_alloc. unfold bind.
      rewrite Hn, Ha2. reflexivity. }
    unfold udf_known in Hk. unfold udf_registration.
    exists s.
    destruct (exposes E o "xFunc" zFSI);
      [|destruct (exposes E o "xStep" zFSI && exposes E o "xFinal" zFV);
        [destruct (exposes E o "xValue" zFV)|discriminate]].
    all: cbv iota.
    all: rewrite (bind_Ok _ _ _ _ _ Hz); cbv iota.
    all: unfold native_create_function, S3JniUdf_finalizer.
    all: match goal with |- context [native _ ?c] =>
           rewrite (bind_Ok (native E c) _ _ (native_rc E (length (events w)))
                      (set_events (events w ++ [EvNative c])
                         (set_nAlloc (S (nAlloc w1)) w1)))
             by (unfold native; msimpl; rewrite Hev; reflexivity)
         end.
    all: set (rc := native_rc E (length (events w))).
    all: destruct (rc =? 0)%Z eqn:Hrc; cbn [negb when].
    all: try (msimpl; eexists; split; [reflexivity|];
              split; [exact Hj|]; unfold live_refs in *; cbn;
              rewrite Hrefs; split; reflexivity).
    all: match goal with |- context [bind (S3JniUdf_free _ ?s0) _ ?wz] =>
           destruct (S3JniUdf_free_run E s0 r o wz Hj)
             as (w2 & Hfree & Hev2 & Hrefs2)
         end.
    all: rewrite (bind_Ok _ _ _ _ _ Hfree); msimpl.
    all: eexists; split; [reflexivity|]; split; [exact Hj|].
    all: rewrite Hev2, Hrefs2; unfold live_refs in *; cbn.
    all: rewrite Hrefs, Hnp, <- app_assoc.
    all: assert (Hxd : xDestroy_calls E (JGlobal r o)
                         (JavaVM.nativePointer (jvm w))
                       = xDestroy_calls E jFunctor
                           (JavaVM.nativePointer (jvm w)))
           by (unfold xDestroy_calls; rewrite Ho; reflexivity).
    all: rewrite <- Hxd; split; [reflexivity|].
    all: fold r; rewrite filter_cons; destruct (decide (r ≠ r));
           [contradiction|reflexivity].
Qed.

Lemma create_function_outcomes_witness :
  obj_of (JLocal 5) = Some 5 /\
  (exists s w',
     Java_org_sqlite_jni_SQLite3Jni_sqlite3_1create_1function env_all_methods
       JNull (Some "f") 1 SQLITE_UTF8 (JLocal 5) World0
       = Ok 0%Z w' /\
     events w' = [EvNative (Native.sqlite3_create_function_v2 0 "f" 1
                              SQLITE_UTF8 s true false false)] /\
     live_refs w' = [0]) /\
  (exists s w',
     Java_org_sqlite_jni_SQLite3Jni_sqlite3_1create_1function env_open_fails
       JNull (Some "f") 1 SQLITE_UTF8 (JLocal 5) World0
       = Ok 14%Z w' /\
     events w' = [EvNative (Native.sqlite3_create_function_v2 0 "f" 1
                              SQLITE_UTF8 s true false false);
                  EvCall 5 1%N [] ∅] /\
     live_refs w' = []).
Proof.
  split; [reflexivity|]. split.
  - destruct (create_function_outcomes env_all_methods JNull (Some "f") 1
                SQLITE_UTF8 (JLocal 5) 5 World0 eq_refl)
      as (_ & _ & _ & Hreg).
    destruct (Hreg "f") as (s & w' & Hrun & _ & Hev & Hrefs);
      [vm_compute; reflexivity..|].
    exists s, w'. split; [exact Hrun|]. split; [exact Hev|exact Hrefs].
  - destruct (create_function_outcomes env_open_fails JNull (Some "f") 1
                SQLITE_UTF8 (JLocal 5) 5 World0 eq_refl)
      as (_ & _ & _ & Hreg).
    destruct (Hreg "f") as (s & w' & Hrun & _ & Hev & Hrefs);
      [vm_compute; reflexivity..|].
    exists s, w'. split; [exact Hrun|]. split; [exact Hev|exact Hrefs].
Defined.


Lemma alter_as_insert {A} (f : A -> A) (a : nat) (l : list A) (x : A) :
  l !! a = Some x -> alter f a l = <[a := f x]> l.
Proof.
  intros Hx. apply list_eq. intros i.
  destruct (decide (i = a)) as [->|Hne].
  - rewrite list_lookup_alter_eq, Hx.
    rewrite list_lookup_insert_eq by (eapply lookup_lt_Some; exact Hx).
    reflexivity.
  - rewrite list_lookup_alter_ne, list_lookup_insert_ne by congruence.
    reflexivity.
Qed.

Lemma alter_twice_as_insert {A} (f g : A -> A) (a : nat) (l : list A) (x : A) :
  l !! a = Some x -> alter g a (alter f a l) = <[a := g (f x)]> l.
Proof.
  intros Hx. rewrite (alter_as_insert g a _ (f x)).
  - rewrite (alter_as_insert f a l x Hx). apply list_insert_insert_eq.
  - rewrite list_lookup_alter_eq, Hx. reflexivity.
Qed.

Lemma set_hook_jObj_midCallback k g mid r :
  S3JniDb.set_hook_jObj k g (S3JniDb.set_hook_midCallback k mid r)
  = S3JniDb.set_hook k (S3JniHook.mk g mid) r.
Proof. destruct r as [? ? ? h ? ?]; destruct h; destruct k; reflexivity. Qed.

Lemma commit_rollback_hook_swap E (isCommit : bool) jDb jHook w a r w0 :
  S3JniDb_for_db jDb 0%N w = Ok (Some a) w0 ->
  memDb w !! a = Some r ->
  JavaVM.exceptionPending (jvm w) = false ->
  hook_swap_outcomes E (if isCommit then SlotCommit else SlotRollback)
    (s3jni_commit_rollback_hook E isCommit jDb jHook) jHook w a r.
Proof.
  intros Hfind Hr Hex.
  destruct (for_db_found _ _ _ _ _ Hfind Hr) as (Hr0 & Hev0 & Hj0 & Hm0 & _).
  unfold hook_swap_outcomes, s3jni_commit_rollback_hook.
  rewrite (bind_Ok _ _ _ _ _ Hfind).
  assert (Hload : load_db a w0 = Ok r w0)
    by (unfold load_db; rewrite Hr0; reflexivity).
  rewrite (bind_Ok _ _ _ _ _ Hload). cbv beta zeta.
  set (k := if isCommit then SlotCommit else SlotRollback).
  set (pOld := S3JniHook.jObj (S3JniDb.hook k r)).
  split.
  - intros ->. rewrite andb_false_r. cbn [andb is_null].
    unfold localize_old.
    destruct pOld as [|oo|ro oo] eqn:HpOld; mrun.
    all: eexists; split; [reflexivity|]; unfold live_refs; cbn.
    all: rewrite Hm0, Hev0, Hj0, (alter_as_insert _ a _ r Hr).
    all: destruct isCommit; repeat split.
  - intros o Ho Hsame. rewrite Hsame, andb_false_r.
    replace (is_null jHook) with false
      by (destruct jHook; [discriminate|reflexivity..]).
    unfold GetMethodID. rewrite Ho.
    replace (jmethod E o (if isCommit then "xCommitHook" else "xRollbackHook")
               (if isCommit then "()I" else "()V"))
      with (jmethod E o (hook_method k).1 (hook_method k).2)
      by (destruct isCommit; reflexivity).
    set (mid := jmethod E o (hook_method k).1 (hook_method k).2).
    destruct (mid =? 0)%N eqn:Hmid.
    + mrun. destruct (S3JniDb.pDb r =? 0)%N; mrun.
      all: eexists; split; [reflexivity|]; unfold live_refs; cbn.
      all: rewrite Hm0, Hev0, Hj0, ?app_nil_r.
      all: destruct isCommit; repeat split.
    + mrun. rewrite Hj0, Hex. unfold localize_old.
      pose proof (fun g => set_hook_jObj_midCallback k g mid r) as Hset.
      destruct pOld as [|oo|ro oo] eqn:HpOld; mrun.
      all: rewrite Ho; mrun.
      all: eexists; split; [reflexivity|]; unfold live_refs; cbn.
      all: rewrite Hev0, Hj0, Hm0.
      all: rewrite (alter_twice_as_insert _ _ a _ r Hr), Hset.
      all: destruct isCommit; repeat split.
Qed.

Lemma updatepre_hook_swap E (isPre : bool) jDb jHook w a r w0 :
  S3JniDb_for_db jDb 0%N w = Ok (Some a) w0 ->
  memDb w !! a = Some r ->
  JavaVM.exceptionPending (jvm w) = false ->
  hook_swap_outcomes E (if isPre then SlotPreUpdate else SlotUpdate)
    (s3jni_updatepre_hook E isPre jDb jHook) jHook w a r.
Proof.
  intros Hfind Hr Hex.
  destruct (for_db_found _ _ _ _ _ Hfind Hr) as (Hr0 & Hev0 & Hj0 & Hm0 & _).
  unfold hook_swap_outcomes, s3jni_updatepre_hook.
  rewrite (bind_Ok _ _ _ _ _ Hfind).
  assert (Hload : load_db a w0 = Ok r w0)
    by (unfold load_db; rewrite Hr0; reflexivity).
  rewrite (bind_Ok _ _ _ _ _ Hload). cbv beta zeta.
  set (k := if isPre then SlotPreUpdate else SlotUpdate).
  set (pOld := S3JniHook.jObj (S3JniDb.hook k r)).
  split.
  - intros ->. rewrite andb_false_r. cbn [andb is_null].
    unfold localize_old.
    destruct pOld as [|oo|ro oo] eqn:HpOld; mrun.
    all: eexists; split; [reflexivity|]; unfold live_refs; cbn.
    all: rewrite Hm0, Hev0, Hj0, (alter_as_insert _ a _ r Hr).
    all: destruct isPre; repeat split.
  - intros o Ho Hsame. rewrite Hsame, andb_false_r.
    replace (is_null jHook) with false
      by (destruct jHook; [discriminate|reflexivity..]).
    unfold GetMethodID. rewrite Ho.
    match goal with |- context [bind (if isPre then ?x else ?y)] =>
      replace (if isPre then x else y)
        with (bind (when (jmethod E o (hook_method k).1 (hook_method k).2 =? 0)%N
                      (modify_jvm (JavaVM.set_exceptionPending true)))
                (fun _ => ret (jmethod E o (hook_method k).1 (hook_method k).2)))
        by (destruct isPre; reflexivity)
    end.
    set (mid := jmethod E o (hook_method k).1 (hook_method k).2).
    destruct (mid =? 0)%N eqn:Hmid.
    + mrun. destruct (S3JniDb.pDb r =? 0)%N; mrun.
      all: eexists; split; [reflexivity|]; unfold live_refs; cbn.
      all: rewrite Hm0, Hev0, Hj0, ?app_nil_r.
      all: destruct isPre; repeat split.
    + mrun. rewrite Hj0, Hex. unfold localize_old.
      pose proof (fun g => set_hook_jObj_midCallback k g mid r) as Hset.
      destruct pOld as [|oo|ro oo] eqn:HpOld; mrun.
      all: rewrite Ho; mrun.
      all: eexists; split; [reflexivity|]; unfold live_refs; cbn.
      all: rewrite Hev0, Hj0, Hm0.
      all: rewrite (alter_twice_as_insert _ _ a _ r Hr), Hset.
      all: destruct isPre; repeat split.
Qed.

(** X19. Registering a commit, rollback, update or pre-update hook on a
    connection that has a record, with no exception pending.  A null
    hook object clears the slot, unregisters the native hook and returns
    a local reference to the old hook object, whose global reference is
    released.  An object of another class than the slot's callback
    interface, that is one without the callback method, leaves record
    and references as they were, clears the exception, sets the
    connection's error to [SQLITE_ERROR] and returns the old hook as it
    is stored.  Any other object than the one registered is stored under
    a new global reference with its callback method, the native hook is
    registered with the record, and the old hook is returned as a local
    reference after its global reference has been released. *)
Theorem hook_registration_outcomes E jDb jHook w a r w0 :
  S3JniDb_for_db jDb 0%N w = Ok (Some a) w0 ->
  memDb w !! a = Some r ->
  JavaVM.exceptionPending (jvm w) = false ->
  hook_swap_outcomes E SlotCommit
    (Java_org_sqlite_jni_SQLite3Jni_sqlite3_1commit_1hook E jDb jHook)
    jHook w a r /\
  hook_swap_outcomes E SlotRollback
    (Java_org_sqlite_jni_SQLite3Jni_sqlite3_1rollback_1hook E jDb jHook)
    jHook w a r /\
  hook_swap_outcomes E SlotUpdate
    (Java_org_sqlite_jni_SQLite3Jni_sqlite3_1update_1hook E jDb jHook)
    jHook w a r /\
  hook_swap_outcomes E SlotPreUpdate
    (Java_org_sqlite_jni_SQLite3Jni_sqlite3_1preupdate_1hook E jDb jHook)
    jHook w a r.
Proof.
  intros Hfind Hr Hex.
  split; [exact (commit_rollback_hook_swap E true jDb jHook w a r w0 Hfind Hr Hex)|].
  split; [exact (commit_rollback_hook_swap E false jDb jHook w a r w0 Hfind Hr Hex)|].
  split; [exact (updatepre_hook_swap E false jDb jHook w a r w0 Hfind Hr Hex)|].
  exact (updatepre_hook_swap E true jDb jHook w a r w0 Hfind Hr Hex).
Qed.

Lemma hook_registration_outcomes_witness :
  exists w',
    Java_org_sqlite_jni_SQLite3Jni_sqlite3_1commit_1hook env_all_methods
      (JLocal 5) (JLocal 9) world_with_commit_hook = Ok (JLocal 7) w' /\
    live_refs w' = [2; 0] /\
    exists w'',
      Java_org_sqlite_jni_SQLite3Jni_sqlite3_1rollback_1hook env_plain
        (JLocal 5) (JLocal 9) world_with_commit_hook = Ok JNull w'' /\
      memDb w'' = memDb world_with_commit_hook.
Proof.
  destruct (hook_registration_outcomes env_all_methods (JLocal 5) (JLocal 9)
              world_with_commit_hook 0 _ _ eq_refl eq_refl eq_refl)
    as ((_ & Hc) & _).
  specialize (Hc 9 eq_refl eq_refl). cbn in Hc.
  destruct Hc as (w' & Hrun & _ & _ & Hrefs).
  exists w'. split; [exact Hrun|]. split; [exact Hrefs|].
  destruct (hook_registration_outcomes env_plain (JLocal 5) (JLocal 9)
              world_with_commit_hook 0 _ _ eq_refl eq_refl eq_refl)
    as (_ & (_ & Hr) & _).
  specialize (Hr 9 eq_refl eq_refl). cbn in Hr.
  destruct Hr as (w'' & Hrun' & Hm & _).
  exists w''. split; [exact Hrun'|exact Hm].
Defined.


(** X20. [sqlite3_trace_v2()]'s binding on a connection that has a
    record, with no exception pending.  With a zero mask or a null
    tracer the slot is cleared, the old tracer's global reference is
    released and tracing is switched off natively.  With a tracer that
    has no [xCallback] method the result is [SQLITE_ERROR], the
    exception is cleared and the connection's error set, and the slot
    keeps its object but has lost its method.  Otherwise the tracer is
    stored under a new global reference and registered natively with the
    mask converted to [unsigned], so that a negative mask [m] reaches the
    engine as [2^32 + m]; a global reference that the slot held before is
    not released. *)
Theorem trace_v2_outcomes E jDb traceMask jTracer w a r w0 :
  S3JniDb_for_db jDb 0%N w = Ok (Some a) w0 ->
  memDb w !! a = Some r ->
  JavaVM.exceptionPending (jvm w) = false ->
  let f := Java_org_sqlite_jni_SQLite3Jni_sqlite3_1trace_1v2
             E jDb traceMask jTracer in
  let old := S3JniHook.jObj (S3JniDb.hook SlotTrace r) in
  let next := JavaVM.nextGlobalRef (jvm w) in
  (traceMask = 0%Z \/ jTracer = JNull ->
   exists w',
     f w = Ok (native_rc E (length (events w))) w' /\
     memDb w' = <[a := S3JniDb.set_hook SlotTrace S3JniHook.zero r]> (memDb w) /\
     events w' = events w
       ++ [EvNative (Native.sqlite3_trace_v2 (S3JniDb.pDb r) 0 None)] /\
     live_refs w' = released old (live_refs w)) /\
  (forall o,
     traceMask <> 0%Z -> obj_of jTracer = Some o ->
     let mid := jmethod E o "xCallback" zTraceSig in
     if (mid =? 0)%N
     then
       exists w',
         f w = Ok SQLITE_ERROR w' /\
         memDb w' =
           <[a := S3JniDb.set_hook SlotTrace (S3JniHook.mk old 0%N) r]>
             (memDb w) /\
         live_refs w' = live_refs w /\
         events w' = events w ++
           (if (S3JniDb.pDb r =? 0)%N then []
            else [EvNative (Native.sqlite3Error (S3JniDb.pDb r) SQLITE_ERROR
                    (Some "Cannot not find matching xCallback() on Tracer object."))]) /\
         JavaVM.exceptionPending (jvm w') = false
     else
       exists w',
         f w = Ok (native_rc E (length (events w))) w' /\
         memDb w' =
           <[a := S3JniDb.set_hook SlotTrace (S3JniHook.mk (JGlobal next o) mid) r]>
             (memDb w) /\
         events w' = events w
           ++ [EvNative (Native.sqlite3_trace_v2 (S3JniDb.pDb r)
                           (unsigned_of_int traceMask) (Some a))] /\
         (0 <= traceMask < 2 ^ 31 -> unsigned_of_int traceMask = traceMask)%Z /\
         (- 2 ^ 31 <= traceMask < 0 ->
          unsigned_of_int traceMask = 2 ^ 32 + traceMask)%Z /\
         live_refs w' = next :: live_refs w).
Proof.
  intros Hfind Hr Hex f old next. subst f.
  destruct (for_db_found _ _ _ _ _ Hfind Hr) as (Hr0 & Hev0 & Hj0 & Hm0 & _).
  unfold Java_org_sqlite_jni_SQLite3Jni_sqlite3_1trace_1v2.
  rewrite (bind_Ok _ _ _ _ _ Hfind). cbv beta.
  split.
  - intros Hoff.
    replace ((traceMask =? 0)%Z || is_null jTracer) with true
      by (destruct Hoff as [->| ->]; [reflexivity|];
          rewrite orb_true_r; reflexivity).
    destruct (S3JniHook_unref_run E a SlotTrace false w0 r Hr0)
      as (w1 & Hrun & Hev1 & Hm1 & Hrefs1 & _).
    rewrite (bind_Ok _ _ _ _ _ Hrun). cbv beta. cbn [deref].
    assert (Hload : load_db a w1
                    = Ok (S3JniDb.set_hook SlotTrace S3JniHook.zero r) w1).
    { unfold load_db. rewrite Hm1, list_lookup_alter_eq, Hr0. reflexivity. }
    rewrite (bind_Ok _ _ _ _ _ Hload). msimpl.
    rewrite app_nil_r in Hev1. rewrite Hev1, Hev0.
    eexists. split; [reflexivity|].
    unfold live_refs. cbn.
    rewrite Hm1, Hrefs1, Hm0, Hj0.
    rewrite (alter_as_insert _ a _ r Hr). repeat split.
  - intros o Hmask Ho.
    replace ((traceMask =? 0)%Z || is_null jTracer) with false
      by (symmetry; apply orb_false_intro;
          [apply Z.eqb_neq; exact Hmask
          |destruct jTracer; [discriminate|reflexivity..]]).
    unfold GetMethodID. rewrite Ho.
    set (mid := jmethod E o "xCallback" zTraceSig).
    change (jmethod E o "xCallback" "(ILjava/lang/Object;Ljava/lang/Object;)I")
      with mid.
    destruct (mid =? 0)%N eqn:Hmid.
    + apply N.eqb_eq in Hmid. rewrite Hmid. mrun.
      destruct (S3JniDb.pDb r =? 0)%N eqn:Hp; mrun.
      all: eexists; split; [reflexivity|]; unfold live_refs; cbn.
      all: rewrite Hm0, Hev0, Hj0, ?app_nil_r, (alter_as_insert _ a _ r Hr).
      all: repeat split.
    + mrun. rewrite Hj0, Hex. mrun. rewrite Ho. mrun.
      rewrite Hev0.
      eexists; split; [reflexivity|]; unfold live_refs; cbn.
      rewrite Hm0, Hj0.
      rewrite (alter_twice_as_insert _ _ a _ r Hr), set_hook_jObj_midCallback.
      split; [reflexivity|]. split; [reflexivity|].
      split; [intros Hm; unfold unsigned_of_int; apply Z.mod_small; lia|].
      split; [|reflexivity].
      intros Hm. unfold unsigned_of_int.
      rewrite <- (Z.mod_add traceMask 1 (2 ^ 32)) by lia.
      rewrite Z.mul_1_l, Z.add_comm. apply Z.mod_small. lia.
Qed.

Lemma trace_v2_outcomes_witness :
  exists w',
    Java_org_sqlite_jni_SQLite3Jni_sqlite3_1trace_1v2 env_all_methods
      (JLocal 5) (-1) (JLocal 9) world_with_progress_and_trace
    = Ok 0%Z w' /\
    events w' =
      [EvNative (Native.sqlite3_trace_v2 100%N 4294967295 (Some 0))] /\
    live_refs w' =
      JavaVM.nextGlobalRef (jvm world_with_progress_and_trace)
      :: live_refs world_with_progress_and_trace.
Proof.
  destruct (trace_v2_outcomes env_all_methods (JLocal 5) (-1) (JLocal 9)
              world_with_progress_and_trace 0 _ _ eq_refl eq_refl eq_refl)
    as (_ & Hreg).
  specialize (Hreg 9 ltac:(discriminate) eq_refl). cbn in Hreg.
  destruct Hreg as (w' & Hrun & _ & Hev & _ & _ & Hrefs).
  exists w'. split; [exact Hrun|]. split; [exact Hev|exact Hrefs].
Defined.

(** X21. [sqlite3_progress_handler()]'s binding on a connection that has
    a record, with no exception pending.  With a period below 1 or a
    null handler the slot is cleared, the old handler's global reference
    is released and the native handler is removed.  With a handler that
    has no [xCallback] method nothing is changed but the connection's
    error, and the exception is cleared.  Otherwise the old handler's
    global reference is released, the new handler is stored under a new
    global reference with its method and registered natively with the
    period. *)
Theorem progress_handler_outcomes E jDb n jProgress w a r w0 :
  S3JniDb_for_db jDb 0%N w = Ok (Some a) w0 ->
  memDb w !! a = Some r ->
  JavaVM.exceptionPending (jvm w) = false ->
  let f := Java_org_sqlite_jni_SQLite3Jni_sqlite3_1progress_1handler
             E jDb n jProgress in
  let old := S3JniHook.jObj (S3JniDb.hook SlotProgress r) in
  let next := JavaVM.nextGlobalRef (jvm w) in
  ((n < 1)%Z \/ jProgress = JNull ->
   exists w',
     f w = Ok tt w' /\
     memDb w' = <[a := S3JniDb.set_hook SlotProgress S3JniHook.zero r]> (memDb w) /\
     events w' = events w
       ++ [EvNative (Native.sqlite3_progress_handler (S3JniDb.pDb r) 0 None)] /\
     live_refs w' = released old (live_refs w)) /\
  (forall o,
     (1 <= n)%Z -> obj_of jProgress = Some o ->
     let mid := jmethod E o "xCallback" "()I" in
     if (mid =? 0)%N
     then
       exists w',
         f w = Ok tt w' /\
         memDb w' = memDb w /\ live_refs w' = live_refs w /\
         events w' = events w ++
           (if (S3JniDb.pDb r =? 0)%N then []
            else [EvNative (Native.sqlite3Error (S3JniDb.pDb r) SQLITE_ERROR
                    (Some "Cannot not find matching xCallback() on ProgressHandler object."))]) /\
         JavaVM.exceptionPending (jvm w') = false
     else
       exists w',
         f w = Ok tt w' /\
         memDb w' =
           <[a := S3JniDb.set_hook SlotProgress
                    (S3JniHook.mk (JGlobal next o) mid) r]> (memDb w) /\
         events w' = events w
           ++ [EvNative (Native.sqlite3_progress_handler (S3JniDb.pDb r) n
                           (Some a))] /\
         live_refs w' = next :: released old (live_refs w)).
Proof.
  intros Hfind Hr Hex f old next. subst f.
  destruct (for_db_found _ _ _ _ _ Hfind Hr) as (Hr0 & Hev0 & Hj0 & Hm0 & _).
  unfold Java_org_sqlite_jni_SQLite3Jni_sqlite3_1progress_1handler.
  rewrite (bind_Ok _ _ _ _ _ Hfind). cbv beta.
  assert (Hload : load_db a w0 = Ok r w0)
    by (unfold load_db; rewrite Hr0; reflexivity).
  split.
  - intros Hoff.
    replace ((n <? 1)%Z || is_null jProgress) with true
      by (destruct Hoff as [Hn| ->];
          [apply Z.ltb_lt in Hn; rewrite Hn; reflexivity
          |rewrite orb_true_r; reflexivity]).
    cbn [deref]. subst old. unfold bind at 1.
    rewrite (bind_Ok _ _ _ _ _ Hload). cbv beta.
    destruct (S3JniHook.jObj (S3JniDb.hook SlotProgress r))
      as [|oo|ro oo] eqn:Hold; mrun.
    all: rewrite Hev0.
    all: eexists; split; [reflexivity|]; unfold live_refs; cbn.
    all: rewrite Hm0, Hj0, (alter_as_insert _ a _ r Hr).
    all: repeat split.
  - intros o Hn Ho.
    replace ((n <? 1)%Z || is_null jProgress) with false
      by (symmetry; apply orb_false_intro;
          [apply Z.ltb_ge; exact Hn
          |destruct jProgress; [discriminate|reflexivity..]]).
    cbn [deref]. unfold GetMethodID. rewrite Ho.
    set (mid := jmethod E o "xCallback" "()I").
    destruct (mid =? 0)%N eqn:Hmid.
    + rewrite (bind_Ok _ _ _ _ _ Hload). cbv beta.
      mrun. destruct (S3JniDb.pDb r =? 0)%N eqn:Hp; mrun.
      all: eexists; split; [reflexivity|]; unfold live_refs; cbn.
      all: rewrite ?Hm0, Hev0, Hj0, ?app_nil_r.
      all: repeat split.
    + subst old. rewrite (bind_Ok _ _ _ _ _ Hload). cbv beta.
      destruct (S3JniHook.jObj (S3JniDb.hook SlotProgress r))
        as [|oo|ro oo] eqn:Hold; mrun; rewrite Hj0, Hex; mrun; rewrite Ho; mrun.
      all: rewrite Hev0.
      all: eexists; split; [reflexivity|]; unfold live_refs; cbn.
      all: rewrite Hm0, Hj0.
      all: rewrite (alter_twice_as_insert _ _ a _ r Hr), set_hook_jObj_midCallback.
      all: repeat split.
Qed.

Lemma progress_handler_outcomes_witness :
  exists w',
    Java_org_sqlite_jni_SQLite3Jni_sqlite3_1progress_1handler env_all_methods
      (JLocal 5) 10 (JLocal 9) world_with_progress_and_trace
    = Ok tt w' /\
    live_refs w' = [3; 2; 0].
Proof.
  destruct (progress_handler_outcomes env_all_methods (JLocal 5) 10 (JLocal 9)
              world_with_progress_and_trace 0 _ _ eq_refl eq_refl eq_refl)
    as (_ & Hreg).
  specialize (Hreg 9 ltac:(lia) eq_refl). cbn in Hreg.
  destruct Hreg as (w' & Hrun & _ & _ & Hrefs).
  exists w'. split; [exact Hrun|exact Hrefs].
Defined.



Lemma s3jni_call_xDestroy_exception E j w w' :
  s3jni_call_xDestroy E j w = Ok tt w' ->
  JavaVM.exceptionPending (jvm w') =
    (if nonnull j then false else JavaVM.exceptionPending (jvm w)).
Proof.
  unfold s3jni_call_xDestroy.
  destruct w as [g me md jv ev na], g, jv.
  destruct j as [|o|r o]; msimpl.
  - intros [= <-]. reflexivity.
  - mcase (jmethod E o "xDestroy" "()V" =? 0)%N.
    + intros [= <-]. reflexivity.
    + mcase (jcall E (length ev)); destruct exceptionPending;
        intros [= <-]; reflexivity.
  - mcase (jmethod E o "xDestroy" "()V" =? 0)%N.
    + intros [= <-]. reflexivity.
    + mcase (jcall E (length ev)); destruct exceptionPending;
        intros [= <-]; reflexivity.
Qed.

Lemma S3JniHook_unref_exception E a k d w w' r :
  memDb w !! a = Some r ->
  S3JniHook_unref E a k d w = Ok tt w' ->
  JavaVM.exceptionPending (jvm w') =
    (if d && nonnull (S3JniHook.jObj (S3JniDb.hook k r)) then false
     else JavaVM.exceptionPending (jvm w)).
Proof.
  intros Hr. unfold S3JniHook_unref.
  unfold bind at 1. unfold load_db at 1. rewrite Hr.
  set (j := S3JniHook.jObj (S3JniDb.hook k r)).
  unfold bind at 1. unfold bind at 1.
  destruct (d && nonnull j) eqn:Hd; cbn [when].
  - destruct (s3jni_call_xDestroy E j w) as [[] w1|] eqn:Hx; [|discriminate].
    apply s3jni_call_xDestroy_exception in Hx.
    apply andb_prop in Hd. destruct Hd as [_ Hnn]. rewrite Hnn in Hx.
    destruct j; msimpl; destruct (memDb w1 !! a); try discriminate;
      intros [= <-]; cbn; exact Hx.
  - unfold ret.
    destruct j; msimpl; destruct (memDb w !! a); try discriminate;
      intros [= <-]; reflexivity.
Qed.

(** X22. [sqlite3_busy_handler()]'s binding on a connection that has a
    record, with no exception pending.  In every case but that of the
    handler already registered, the old handler's [xDestroy()] is called
    and its global reference released.  A null handler then removes the
    native handler.  A handler without an [xCallback] method gives
    [SQLITE_ERROR]: the reference just taken is released again, the slot
    is left empty, the native handler is not touched and the exception
    stays pending.  Any other handler is stored under a new global
    reference with its method and registered natively with the record. *)
Theorem busy_handler_outcomes E jDb jBusy w a r w0 :
  S3JniDb_for_db jDb 0%N w = Ok (Some a) w0 ->
  memDb w !! a = Some r ->
  JavaVM.exceptionPending (jvm w) = false ->
  let f := Java_org_sqlite_jni_SQLite3Jni_sqlite3_1busy_1handler E jDb jBusy in
  let old := S3JniHook.jObj (S3JniDb.hook SlotBusyHandler r) in
  let calls := xDestroy_calls E old (JavaVM.nativePointer (jvm w)) in
  let next := JavaVM.nextGlobalRef (jvm w) in
  (jBusy = JNull ->
   exists w',
     f w = Ok (native_rc E (length (events w ++ calls))) w' /\
     memDb w' =
       <[a := S3JniDb.set_hook SlotBusyHandler S3JniHook.zero r]> (memDb w) /\
     events w' = events w ++ calls
       ++ [EvNative (Native.sqlite3_busy_handler (S3JniDb.pDb r) None)] /\
     live_refs w' = released old (live_refs w)) /\
  (forall o,
     obj_of jBusy = Some o ->
     IsSameObject old jBusy = false ->
     let mid := jmethod E o "xCallback" "(I)I" in
     if (mid =? 0)%N
     then
       exists w',
         f w = Ok SQLITE_ERROR w' /\
         memDb w' =
           <[a := S3JniDb.set_hook SlotBusyHandler S3JniHook.zero r]> (memDb w) /\
         events w' = events w ++ calls /\
         live_refs w' = released (JGlobal next o) (released old (live_refs w)) /\
         JavaVM.exceptionPending (jvm w') = true
     else
       exists w',
         f w = Ok (native_rc E (length (events w ++ calls))) w' /\
         memDb w' =
           <[a := S3JniDb.set_hook SlotBusyHandler
                    (S3JniHook.mk (JGlobal next o) mid) r]> (memDb w) /\
         events w' = events w ++ calls
           ++ [EvNative (Native.sqlite3_busy_handler (S3JniDb.pDb r) (Some a))] /\
         live_refs w' = next :: released old (live_refs w)).
Proof.
  intros Hfind Hr Hex f old calls next. subst f.
  destruct (for_db_found _ _ _ _ _ Hfind Hr) as (Hr0 & Hev0 & Hj0 & Hm0 & _).
  unfold Java_org_sqlite_jni_SQLite3Jni_sqlite3_1busy_1handler.
  rewrite (bind_Ok _ _ _ _ _ Hfind). cbv beta iota.
  assert (Hload : load_db a w0 = Ok r w0)
    by (unfold load_db; rewrite Hr0; reflexivity).
  destruct (S3JniHook_unref_run E a SlotBusyHandler true w0 r Hr0)
    as (w1 & Hrun & Hev1 & Hm1 & Hrefs1 & (Hnext1 & _) & _).
  pose proof (S3JniHook_unref_exception E a SlotBusyHandler true w0 w1 r Hr0 Hrun)
    as Hex1.
  assert (Hex1' : JavaVM.exceptionPending (jvm w1) = false).
  { rewrite Hex1. destruct (true && _); [reflexivity|]. rewrite Hj0. exact Hex. }
  clear Hex1.
  rewrite Hj0 in Hev1, Hrefs1, Hnext1. rewrite Hev0 in Hev1. rewrite Hm0 in Hm1.
  fold old in Hev1, Hrefs1. fold calls in Hev1. fold next in Hnext1.
  rewrite (alter_as_insert _ a _ r Hr) in Hm1.
  assert (Hr1 : memDb w1 !! a
                = Some (S3JniDb.set_hook SlotBusyHandler S3JniHook.zero r)).
  { rewrite Hm1. apply list_lookup_insert_eq. eapply lookup_lt_Some; exact Hr. }
  split.
  - intros ->. cbn [nonnull is_null negb].
    rewrite (bind_Ok _ _ _ _ _ Hrun). cbv beta.
    assert (Hload1 : load_db a w1
                     = Ok (S3JniDb.set_hook SlotBusyHandler S3JniHook.zero r) w1)
      by (unfold load_db; rewrite Hr1; reflexivity).
    rewrite (bind_Ok _ _ _ _ _ Hload1). msimpl.
    rewrite Hev1. eexists. split; [reflexivity|]. unfold live_refs. cbn.
    rewrite Hm1, Hrefs1, <- app_assoc. repeat split.
  - intros o Ho Hsame.
    replace (nonnull jBusy) with true
      by (destruct jBusy; [discriminate|reflexivity..]).
    rewrite (bind_Ok _ _ _ _ _ Hload). cbv beta zeta. fold old.
    rewrite Hsame, andb_false_r.
    rewrite (bind_Ok _ _ _ _ _ Hrun). cbv beta.
    unfold REF_G, GetMethodID. rewrite Ho.
    set (mid := jmethod E o "xCallback" "(I)I").
    set (r0 := S3JniDb.set_hook SlotBusyHandler S3JniHook.zero r) in *.
    assert (Hstores : exists w2,
      (forall K : bool -> M Z,
         bind (fun w2 : World =>
                 Ok (JGlobal (JavaVM.nextGlobalRef (jvm w2)) o)
                    (set_jvm
                       (JavaVM.set_nextGlobalRef (S (JavaVM.nextGlobalRef (jvm w2)))
                          (JavaVM.set_globalRefs
                             (JavaVM.nextGlobalRef (jvm w2)
                              :: JavaVM.globalRefs (jvm w2)) (jvm w2))) w2))
           (fun g =>
              bind (store_db a (S3JniDb.set_hook_jObj SlotBusyHandler g))
                (fun _ =>
                   bind (bind (when (mid =? 0)%N
                                 (modify_jvm (JavaVM.set_exceptionPending true)))
                           (fun _ => ret mid))
                     (fun mid =>
                        bind (store_db a
                                (S3JniDb.set_hook_midCallback SlotBusyHandler mid))
                          (fun _ => bind ExceptionCheck K)))) w1
         = K (mid =? 0)%N w2) /\
      memDb w2 = <[a := S3JniDb.set_hook SlotBusyHandler
                          (S3JniHook.mk (JGlobal next o) mid) r]> (memDb w) /\
      events w2 = events w ++ calls /\
      live_refs w2 = next :: released old (live_refs w) /\
      JavaVM.exceptionPending (jvm w2) = (mid =? 0)%N).
    { destruct w1 as [g1 me1 md1 jv1 ev1 na1].
      destruct jv1 as [gr1 ng1 no1 np1 va1 ex1].
      cbn in Hev1, Hm1, Hrefs1, Hnext1, Hex1', Hr1.
      subst ex1 ev1 gr1 ng1.
      destruct (mid =? 0)%N eqn:Hmid.
      all: eexists; split; [intros K; mrun; reflexivity|].
      all: unfold live_refs; cbn.
      all: rewrite (alter_twice_as_insert _ _ a _ r0 Hr1), Hm1.
      all: rewrite list_insert_insert_eq.
      all: replace (S3JniDb.set_hook_midCallback SlotBusyHandler mid
                      (S3JniDb.set_hook_jObj SlotBusyHandler (JGlobal next o) r0))
             with (S3JniDb.set_hook SlotBusyHandler
                     (S3JniHook.mk (JGlobal next o) mid) r)
             by (subst r0; destruct r as [? ? ? h ? ?]; destruct h; reflexivity).
      all: repeat split. }
    destruct Hstores as (w2 & Hk & Hm2 & Hev2 & Hrefs2 & Hex2).
    rewrite Hk. clear Hk.
    destruct (mid =? 0)%N eqn:Hmid.
    + assert (Hr2 : memDb w2 !! a
                    = Some (S3JniDb.set_hook SlotBusyHandler
                              (S3JniHook.mk (JGlobal next o) mid) r)).
      { rewrite Hm2. apply list_lookup_insert_eq.
        eapply lookup_lt_Some; exact Hr. }
      destruct (S3JniHook_unref_run E a SlotBusyHandler false w2 _ Hr2)
        as (w3 & Hrun3 & Hev3 & Hm3 & Hrefs3 & _).
      pose proof (S3JniHook_unref_exception E a SlotBusyHandler false w2 w3 _
                    Hr2 Hrun3) as Hex3.
      rewrite (bind_Ok _ _ _ _ _ Hrun3). exists w3.
      split; [reflexivity|].
      cbn [andb] in Hex3. rewrite app_nil_r in Hev3.
      unfold live_refs in *.
      rewrite Hm3, Hev3, Hrefs3, Hex3, Hm2, Hev2, Hrefs2, Hex2.
      rewrite (alter_as_insert _ a _ _ (eq_trans (f_equal (fun l => l !! a) (eq_sym Hm2)) Hr2)).
      rewrite list_insert_insert_eq.
      replace (S3JniDb.set_hook SlotBusyHandler S3JniHook.zero
                 (S3JniDb.set_hook SlotBusyHandler
                    (S3JniHook.mk (JGlobal next o) mid) r))
        with (S3JniDb.set_hook SlotBusyHandler S3JniHook.zero r)
        by (destruct r as [? ? ? h ? ?]; destruct h; reflexivity).
      replace (S3JniHook.jObj
                 (S3JniDb.hook SlotBusyHandler
                    (S3JniDb.set_hook SlotBusyHandler
                       (S3JniHook.mk (JGlobal next o) mid) r)))
        with (JGlobal next o)
        by (destruct r as [? ? ? h ? ?]; destruct h; reflexivity).
      repeat split.
      cbn [released]. rewrite filter_cons.
      destruct (decide (next ≠ next)); [contradiction|reflexivity].
    + assert (Hload2 : load_db a w2
                       = Ok (S3JniDb.set_hook SlotBusyHandler
                               (S3JniHook.mk (JGlobal next o) mid) r) w2).
      { unfold load_db. rewrite Hm2, list_lookup_insert_eq; [reflexivity|].
        eapply lookup_lt_Some; exact Hr. }
      rewrite (bind_Ok _ _ _ _ _ Hload2). msimpl. rewrite Hev2.
      eexists. split; [reflexivity|]. unfold live_refs in *. cbn.
      rewrite Hm2, Hrefs2, <- app_assoc. repeat split.
Qed.

Lemma busy_handler_outcomes_witness :
  exists w',
    Java_org_sqlite_jni_SQLite3Jni_sqlite3_1busy_1handler env_plain
      (JLocal 5) (JLocal 9) world_with_busy_handler = Ok SQLITE_ERROR w' /\
    live_refs w' = [0] /\
    JavaVM.exceptionPending (jvm w') = true.
Proof.
  destruct (busy_handler_outcomes env_plain (JLocal 5) (JLocal 9)
              world_with_busy_handler 0 _ _ eq_refl eq_refl eq_refl)
    as (_ & Hreg).
  specialize (Hreg 9 eq_refl eq_refl). cbn in Hreg.
  destruct Hreg as (w' & Hrun & _ & _ & Hrefs & Hex).
  exists w'. split; [exact Hrun|]. split; [exact Hrefs|exact Hex].
Defined.


Lemma set_hook_twice k h h' r :
  S3JniDb.set_hook k h (S3JniDb.set_hook k h' r) = S3JniDb.set_hook k h r.
Proof. destruct r as [? ? ? hs ? ?]; destruct hs; destruct k; reflexivity. Qed.

Lemma hook_set_hook k h r : S3JniDb.hook k (S3JniDb.set_hook k h r) = h.
Proof. destruct r as [? ? ? hs ? ?]; destruct hs; destruct k; reflexivity. Qed.

Lemma pDb_set_hook k h r : S3JniDb.pDb (S3JniDb.set_hook k h r) = S3JniDb.pDb r.
Proof. reflexivity. Qed.

(** Taking a reference to a new hook object and storing it with its
    callback method, up to the test for a pending exception. *)
Lemma hook_store_new E a k o jHook name sig w1 r1 :
  obj_of jHook = Some o ->
  memDb w1 !! a = Some r1 ->
  let mid := jmethod E o name sig in
  let next := JavaVM.nextGlobalRef (jvm w1) in
  exists w2,
    (forall K : bool -> M Z,
       bind (REF_G jHook)
         (fun g =>
            bind (store_db a (S3JniDb.set_hook_jObj k g))
              (fun _ =>
                 bind (GetMethodID E jHook name sig)
                   (fun mid =>
                      bind (store_db a (S3JniDb.set_hook_midCallback k mid))
                        (fun _ => bind ExceptionCheck K)))) w1
       = K (JavaVM.exceptionPending (jvm w1) || (mid =? 0)%N) w2) /\
    memDb w2 = <[a := S3JniDb.set_hook k (S3JniHook.mk (JGlobal next o) mid) r1]>
                 (memDb w1) /\
    events w2 = events w1 /\
    live_refs w2 = next :: live_refs w1 /\
    JavaVM.exceptionPending (jvm w2)
      = JavaVM.exceptionPending (jvm w1) || (mid =? 0)%N.
Proof.
  intros Ho Hr1 mid next.
  unfold REF_G, GetMethodID. rewrite Ho. fold mid.
  destruct w1 as [g1 me1 md1 jv1 ev1 na1].
  destruct jv1 as [gr1 ng1 no1 np1 va1 ex1].
  cbn in Hr1, next. subst next.
  destruct (mid =? 0)%N eqn:Hmid.
  all: eexists; split;
    [intros K; mrun; rewrite ?Hmid; mrun; rewrite ?orb_true_r, ?orb_false_r;
     reflexivity|].
  all: unfold live_refs; cbn.
  all: rewrite (alter_twice_as_insert _ _ a _ r1 Hr1).
  all: replace (S3JniDb.set_hook_midCallback k mid
                  (S3JniDb.set_hook_jObj k (JGlobal ng1 o) r1))
         with (S3JniDb.set_hook k (S3JniHook.mk (JGlobal ng1 o) mid) r1)
         by (destruct r1 as [? ? ? hs ? ?]; destruct hs; destruct k; reflexivity).
  all: repeat split; rewrite ?orb_true_r, ?orb_false_r; reflexivity.
Qed.

(** Letting go of a hook object that has just been stored. *)
Lemma hook_drop_new E a k w2 r mid mem next o L :
  memDb w2 = <[a := S3JniDb.set_hook k (S3JniHook.mk (JGlobal next o) mid) r]> mem ->
  a < length mem ->
  live_refs w2 = next :: L ->
  exists w3,
    S3JniHook_unref E a k false w2 = Ok tt w3 /\
    memDb w3 = <[a := S3JniDb.set_hook k S3JniHook.zero r]> mem /\
    events w3 = events w2 /\
    live_refs w3 = released (JGlobal next o) L /\
    JavaVM.exceptionPending (jvm w3) = JavaVM.exceptionPending (jvm w2).
Proof.
  intros Hm2 Hlt Hrefs2.
  assert (Hr2 : memDb w2 !! a
                = Some (S3JniDb.set_hook k (S3JniHook.mk (JGlobal next o) mid) r))
    by (rewrite Hm2; apply list_lookup_insert_eq; exact Hlt).
  destruct (S3JniHook_unref_run E a k false w2 _ Hr2)
    as (w3 & Hrun3 & Hev3 & Hm3 & Hrefs3 & _).
  pose proof (S3JniHook_unref_exception E a k false w2 w3 _ Hr2 Hrun3) as Hex3.
  exists w3. split; [exact Hrun3|].
  cbn [andb] in Hex3. rewrite app_nil_r in Hev3.
  unfold live_refs in *.
  rewrite Hm3, Hrefs3, Hrefs2, (alter_as_insert _ a _ _ Hr2), Hm2.
  rewrite list_insert_insert_eq, set_hook_twice, hook_set_hook.
  repeat split; try assumption.
  cbn [released S3JniHook.jObj]. rewrite filter_cons.
  destruct (decide (next ≠ next)); [contradiction|reflexivity].
Qed.

(** X23. [sqlite3_set_authorizer()]'s binding on a connection that has a
    record, with no exception pending.  A null authorizer clears the
    slot, releases the old authorizer's global reference and removes the
    native authorizer.  For any other object than the one registered the
    old reference is released and a new one taken; if the object has no
    [xAuth] method the new reference is released again, the slot is left
    empty, the connection's error is set and [SQLITE_ERROR] returned
    with the exception still pending; otherwise the native authorizer is
    registered with the record and its result returned, and when that
    result is not 0 the new reference is released and the slot left
    empty. *)
Theorem set_authorizer_outcomes E jDb jHook w a r w0 :
  S3JniDb_for_db jDb 0%N w = Ok (Some a) w0 ->
  memDb w !! a = Some r ->
  JavaVM.exceptionPending (jvm w) = false ->
  let f := Java_org_sqlite_jni_SQLite3Jni_sqlite3_1set_1authorizer E jDb jHook in
  let old := S3JniHook.jObj (S3JniDb.hook SlotAuth r) in
  let next := JavaVM.nextGlobalRef (jvm w) in
  let cleared := <[a := S3JniDb.set_hook SlotAuth S3JniHook.zero r]> (memDb w) in
  (jHook = JNull ->
   exists w',
     f w = Ok (native_rc E (length (events w))) w' /\
     memDb w' = cleared /\
     events w' = events w
       ++ [EvNative (Native.sqlite3_set_authorizer (S3JniDb.pDb r) None)] /\
     live_refs w' = released old (live_refs w)) /\
  (forall o,
     obj_of jHook = Some o ->
     IsSameObject old jHook = false ->
     let mid := jmethod E o "xAuth" zAuthSig in
     let dropped := released (JGlobal next o) (released old (live_refs w)) in
     if (mid =? 0)%N
     then
       exists w',
         f w = Ok SQLITE_ERROR w' /\
         memDb w' = cleared /\
         events w' = events w ++
           (if (S3JniDb.pDb r =? 0)%N then []
            else [EvNative (Native.sqlite3Error (S3JniDb.pDb r) SQLITE_ERROR
                    (Some "Error setting up Java parts of authorizer hook."))]) /\
         live_refs w' = dropped /\
         JavaVM.exceptionPending (jvm w') = true
     else
       let rc := native_rc E (length (events w)) in
       exists w',
         f w = Ok rc w' /\
         events w' = events w
           ++ [EvNative (Native.sqlite3_set_authorizer (S3JniDb.pDb r) (Some a))] /\
         if (rc =? 0)%Z
         then (memDb w' =
                 <[a := S3JniDb.set_hook SlotAuth
                          (S3JniHook.mk (JGlobal next o) mid) r]> (memDb w) /\
               live_refs w' = next :: released old (live_refs w))
         else (memDb w' = cleared /\ live_refs w' = dropped)).
Proof.
  intros Hfind Hr Hex f old next cleared. subst f.
  destruct (for_db_found _ _ _ _ _ Hfind Hr) as (Hr0 & Hev0 & Hj0 & Hm0 & _).
  unfold Java_org_sqlite_jni_SQLite3Jni_sqlite3_1set_1authorizer.
  rewrite (bind_Ok _ _ _ _ _ Hfind). cbv beta iota.
  assert (Hload : load_db a w0 = Ok r w0)
    by (unfold load_db; rewrite Hr0; reflexivity).
  assert (Hlt : a < length (memDb w)) by (eapply lookup_lt_Some; exact Hr).
  (* the old authorizer is let go *)
  assert (Hun : exists w1,
    S3JniHook_unref E a SlotAuth false w0 = Ok tt w1 /\
    events w1 = events w /\ memDb w1 = cleared /\
    live_refs w1 = released old (live_refs w) /\
    JavaVM.nextGlobalRef (jvm w1) = next /\
    JavaVM.exceptionPending (jvm w1) = false).
  { destruct (S3JniHook_unref_run E a SlotAuth false w0 r Hr0)
      as (w1 & Hrun & Hev1 & Hm1 & Hrefs1 & (Hnext1 & _) & _).
    pose proof (S3JniHook_unref_exception E a SlotAuth false w0 w1 r Hr0 Hrun)
      as Hex1.
    exists w1. split; [exact Hrun|]. unfold live_refs.
    rewrite Hev1, app_nil_r, Hev0, Hm1, Hm0, Hrefs1, Hnext1, Hex1, Hj0.
    rewrite (alter_as_insert _ a _ r Hr). repeat split. exact Hex. }
  destruct Hun as (w1 & Hrun1 & Hev1 & Hm1 & Hrefs1 & Hnext1 & Hex1).
  split.
  - intros ->. cbn [is_null].
    rewrite (bind_Ok _ _ _ _ _ Hrun1). cbv beta.
    assert (Hload1 : load_db a w1
                     = Ok (S3JniDb.set_hook SlotAuth S3JniHook.zero r) w1).
    { unfold load_db. rewrite Hm1. subst cleared.
      rewrite list_lookup_insert_eq by exact Hlt. reflexivity. }
    rewrite (bind_Ok _ _ _ _ _ Hload1). msimpl. rewrite Hev1.
    eexists. split; [reflexivity|]. unfold live_refs in *. cbn.
    repeat split; assumption.
  - intros o Ho Hsame.
    replace (is_null jHook) with false
      by (destruct jHook; [discriminate|reflexivity..]).
    rewrite (bind_Ok _ _ _ _ _ Hload). cbv beta zeta. fold old.
    rewrite Hsame, andb_false_r.
    assert (Hgo : exists w1' r1,
      when (nonnull old) (S3JniHook_unref E a SlotAuth false) w0 = Ok tt w1' /\
      memDb w1' !! a = Some r1 /\
      (forall h, <[a := S3JniDb.set_hook SlotAuth h r1]> (memDb w1')
                 = <[a := S3JniDb.set_hook SlotAuth h r]> (memDb w)) /\
      events w1' = events w /\
      live_refs w1' = released old (live_refs w) /\
      JavaVM.nextGlobalRef (jvm w1') = next /\
      JavaVM.exceptionPending (jvm w1') = false).
    { destruct (nonnull old) eqn:Hnn; cbn [when].
      - exists w1, (S3JniDb.set_hook SlotAuth S3JniHook.zero r).
        split; [exact Hrun1|]. rewrite Hm1. subst cleared.
        split; [apply list_lookup_insert_eq; exact Hlt|].
        split; [intros h; rewrite list_insert_insert_eq, set_hook_twice;
                reflexivity|].
        repeat split; assumption.
      - exists w0, r. split; [reflexivity|]. split; [exact Hr0|].
        unfold live_refs. rewrite Hm0, Hev0, Hj0.
        destruct old; [|discriminate..]. repeat split. exact Hex. }
    destruct Hgo as (w1' & r1 & Hrun' & Hr1 & Hm1' & Hev1' & Hrefs1' & Hnext1' & Hex1').
    rewrite (bind_Ok _ _ _ _ _ Hrun'). cbv beta.
    destruct (hook_store_new E a SlotAuth o jHook "xAuth" zAuthSig w1' r1 Ho Hr1)
      as (w2 & Hk & Hm2 & Hev2 & Hrefs2 & Hex2).
    change "(ILjava/lang/String;Ljava/lang/String;Ljava/lang/String;Ljava/lang/String;)I"
      with zAuthSig.
    rewrite Hk. clear Hk.
    rewrite Hm1', Hnext1' in Hm2. rewrite Hev1' in Hev2.
    rewrite Hrefs1', Hnext1' in Hrefs2. rewrite Hex1' in Hex2 |- *.
    cbn [orb] in Hex2 |- *.
    set (mid := jmethod E o "xAuth" zAuthSig) in *.
    destruct (mid =? 0)%N eqn:Hmid.
    + destruct (hook_drop_new E a SlotAuth w2 r mid (memDb w) next o _ Hm2 Hlt Hrefs2)
        as (w3 & Hrun3 & Hm3 & Hev3 & Hrefs3 & Hex3).
      rewrite (bind_Ok _ _ _ _ _ Hrun3).
      destruct (s3jni_db_error_run E (S3JniDb.pDb r) SQLITE_ERROR
                  (Some "Error setting up Java parts of authorizer hook.") w3)
        as (w4 & Hrun4 & Hev4 & Hj4 & _ & _ & Hm4 & _).
      exists w4. split; [exact Hrun4|]. unfold live_refs in *.
      rewrite Hm4, Hev4, Hj4, Hm3, Hev3, Hrefs3, Hex3, Hev2, Hex2.
      repeat split.
    + msimpl. rewrite Hev2.
      set (rc := native_rc E (length (events w))).
      destruct (rc =? 0)%Z eqn:Hrc; cbn [negb when].
      * msimpl. eexists. split; [reflexivity|]. unfold live_refs in *. cbn.
        rewrite ?Hev2. repeat split; assumption.
      * match goal with |- context [S3JniHook_unref _ _ _ _ ?wx] =>
          destruct (hook_drop_new E a SlotAuth wx r mid (memDb w) next o _
                      Hm2 Hlt Hrefs2)
            as (w3 & Hrun3 & Hm3 & Hev3 & Hrefs3 & Hex3)
        end.
        unfold bind. rewrite Hrun3. msimpl.
        eexists. split; [reflexivity|].
        rewrite Hev3. cbn. rewrite ?Hev2. repeat split; assumption.
Qed.

Lemma set_authorizer_outcomes_witness :
  exists w',
    Java_org_sqlite_jni_SQLite3Jni_sqlite3_1set_1authorizer env_all_methods
      (JLocal 5) (JLocal 9) world_with_commit_hook = Ok 0%Z w' /\
    live_refs w' = [2; 1; 0].
Proof.
  destruct (set_authorizer_outcomes env_all_methods (JLocal 5) (JLocal 9)
              world_with_commit_hook 0 _ _ eq_refl eq_refl eq_refl)
    as (_ & Hreg).
  specialize (Hreg 9 eq_refl eq_refl). cbn in Hreg.
  destruct Hreg as (w' & Hrun & _ & _ & Hrefs).
  exists w'. split; [exact Hrun|exact Hrefs].
Defined.


(** X24. [sqlite3_collation_needed()]'s binding on a connection that has
    a record, with no exception pending.  A null hook clears the slot,
    releases the old hook's global reference, removes the native
    callback and returns 0 whatever the native call returns.  An object
    without an [xCollationNeeded] method leaves record and references
    unchanged and gives [SQLITE_MISUSE], with the exception cleared and
    its text, or a default text, as the connection's error message.  Any
    other new object is stored under a new global reference with its
    method, the old reference is released, and the result is that of the
    native registration with the record. *)
Theorem collation_needed_outcomes E jDb jHook w a r w0 :
  S3JniDb_for_db jDb 0%N w = Ok (Some a) w0 ->
  memDb w !! a = Some r ->
  JavaVM.exceptionPending (jvm w) = false ->
  let f := Java_org_sqlite_jni_SQLite3Jni_sqlite3_1collation_1needed
             E jDb jHook in
  let old := S3JniHook.jObj (S3JniDb.hook SlotCollationNeeded r) in
  let next := JavaVM.nextGlobalRef (jvm w) in
  (jHook = JNull ->
   exists w',
     f w = Ok 0%Z w' /\
     memDb w' =
       <[a := S3JniDb.set_hook SlotCollationNeeded S3JniHook.zero r]> (memDb w) /\
     events w' = events w
       ++ [EvNative (Native.sqlite3_collation_needed (S3JniDb.pDb r))] /\
     live_refs w' = released old (live_refs w)) /\
  (forall o,
     obj_of jHook = Some o ->
     IsSameObject old jHook = false ->
     let mid := jmethod E o "xCollationNeeded" zCollationNeededSig in
     if (mid =? 0)%N
     then
       exists w',
         f w = Ok SQLITE_MISUSE w' /\
         memDb w' = memDb w /\ live_refs w' = live_refs w /\
         events w' = events w ++
           (if (S3JniDb.pDb r =? 0)%N then []
            else [EvNative (Native.sqlite3Error (S3JniDb.pDb r) SQLITE_MISUSE
                    (Some (default
                       "Cannot not find matching callback on collation-needed hook object."
                       (jthrowable_toString E (length (events w))))))]) /\
         JavaVM.exceptionPending (jvm w') = false
     else
       exists w',
         f w = Ok (native_rc E (length (events w))) w' /\
         memDb w' =
           <[a := S3JniDb.set_hook SlotCollationNeeded
                    (S3JniHook.mk (JGlobal next o) mid) r]> (memDb w) /\
         events w' = events w
           ++ [EvNative (Native.sqlite3_collation_needed16 (S3JniDb.pDb r) a)] /\
         live_refs w' = released old (next :: live_refs w)).
Proof.
  intros Hfind Hr Hex f old next. subst f.
  destruct (for_db_found _ _ _ _ _ Hfind Hr) as (Hr0 & Hev0 & Hj0 & Hm0 & _).
  unfold Java_org_sqlite_jni_SQLite3Jni_sqlite3_1collation_1needed.
  rewrite (bind_Ok _ _ _ _ _ Hfind). cbv beta iota.
  assert (Hload : load_db a w0 = Ok r w0)
    by (unfold load_db; rewrite Hr0; reflexivity).
  rewrite (bind_Ok _ _ _ _ _ Hload). cbv beta zeta. fold old.
  split.
  - intros ->. rewrite andb_false_r. cbn [andb is_null].
    destruct old as [|oo|ro oo] eqn:Hold; mrun.
    all: rewrite Hev0.
    all: eexists; split; [reflexivity|]; unfold live_refs; cbn.
    all: rewrite Hm0, Hj0, (alter_as_insert _ a _ r Hr).
    all: repeat split.
  - intros o Ho Hsame. rewrite Hsame, andb_false_r.
    replace (is_null jHook) with false
      by (destruct jHook; [discriminate|reflexivity..]).
    unfold GetMethodID. rewrite Ho.
    change "(Lorg/sqlite/jni/sqlite3;ILjava/lang/String;)I"
      with zCollationNeededSig.
    set (mid := jmethod E o "xCollationNeeded" zCollationNeededSig).
    destruct (mid =? 0)%N eqn:Hmid.
    + unfold s3jni_db_exception. mrun.
      destruct (S3JniDb.pDb r =? 0)%N eqn:Hp; mrun.
      all: rewrite ?Hev0.
      all: eexists; split; [reflexivity|]; unfold live_refs; cbn.
      all: rewrite Hm0, Hj0, ?app_nil_r.
      all: repeat split; try assumption.
    + mrun. rewrite Hj0, Hex. mrun. rewrite Ho. mrun.
      destruct old as [|oo|ro oo] eqn:Hold; mrun.
      all: rewrite Hev0.
      all: eexists; split; [reflexivity|]; unfold live_refs; cbn.
      all: rewrite Hm0, Hj0.
      all: rewrite (alter_twice_as_insert _ _ a _ r Hr).
      all: replace (S3JniDb.set_hook_jObj SlotCollationNeeded
                      (JGlobal (JavaVM.nextGlobalRef (jvm w)) o)
                      (S3JniDb.set_hook_midCallback SlotCollationNeeded mid r))
             with (S3JniDb.set_hook SlotCollationNeeded
                     (S3JniHook.mk (JGlobal (JavaVM.nextGlobalRef (jvm w)) o) mid) r)
             by (symmetry; apply set_hook_jObj_midCallback).
      all: repeat split.
Qed.

Lemma collation_needed_outcomes_witness :
  exists w',
    Java_org_sqlite_jni_SQLite3Jni_sqlite3_1collation_1needed env_plain
      (JLocal 5) (JLocal 9) world_with_commit_hook = Ok SQLITE_MISUSE w' /\
    memDb w' = memDb world_with_commit_hook /\
    JavaVM.exceptionPending (jvm w') = false.
Proof.
  destruct (collation_needed_outcomes env_plain (JLocal 5) (JLocal 9)
              world_with_commit_hook 0 _ _ eq_refl eq_refl eq_refl)
    as (_ & Hreg).
  specialize (Hreg 9 eq_refl eq_refl). cbn in Hreg.
  destruct Hreg as (w' & Hrun & Hm & _ & _ & Hex).
  exists w'. split; [exact Hrun|]. split; [exact Hm|exact Hex].
Defined.












